(* ===== verification/_CoqProject ===== *)
-Q . S2P
Prelude.v
Json.v
Store.v
UpdateModule.v
Certify.v
RequestAudit.v
History.v
CreateApplication.v
UploadDocument.v
ExtractFields.v
QueryApplication.v
ShowArtifact.v
Registry.v
Tools.v
Lifecycle.v
Client.v
Connection.v
SystemPrompt.v
Titles.v
Sessions.v
Chat.v
Streaming.v
Memory.v
Health.v
Main.v
