(* ===== verification/Prelude.v ===== *)
(** * A verification development for the AgFin AI service

    This library models, in Gallina, the Python backend under
    [src/ai-service/] that lets an LLM agent drive a certification
    workflow, and proves what its parts guarantee and where the code
    departs from its specification ([spec.md]).

    ** The program and how its parts interact

    A user talks to the service through HTTP endpoints ([main.py]
    registers the routers of [src/routers/]): [POST /chat] and
    [POST /stream] load a chat session and its history from PostgreSQL
    ([database/connection.py]), build a system prompt
    ([prompts/system_prompt.py]) and ask the model through the Claude
    client ([claude/client.py]); the session endpoints
    ([routers/sessions.py]) list, create, edit and delete sessions and name
    them ([utils/title_generator.py]).  With tools, the client's loop
    [execute_with_tools] asks the model repeatedly; the tools the model may
    call are the eight handlers of [tools/*.py], reached through the
    registry ([tools/registry.py]), which read and write the certification
    tables.  [conversation/history.py] shapes a history for the API.

    ** Files, and how they follow the code

    - [Prelude.v] (this file): Python's exceptions [exn], the
      state-and-exception monad [SE] (a Python exception is a value that
      keeps the state as it was when raised; [try/except] is [se_catch]),
      list slicing, and the frame logic [keeps R m] / [keeps_from s m]
      with the tactics [keeps_tac] and [keeps_from_tac] that prove a
      handler preserves a preorder by following its code; Python's
      [a or b] and [os.getenv] on the environment as a function [env].
    - [Json.v]: Python values that cross the boundaries (tool inputs,
      results, API responses) as [json], truthiness, dict lookup, and the
      jsonb operators the SQL uses.
    - [Store.v]: the certification tables as a record [db] (applications in
      a [gmap] keyed by id, the other tables as lists in insertion order)
      and the prologue the handlers share.
    - One file per tool handler: [UpdateModule.v], [Certify.v],
      [RequestAudit.v], [CreateApplication.v], [UploadDocument.v],
      [ExtractFields.v], [QueryApplication.v], [ShowArtifact.v]; each is the
      handler's function in [SE db] with every guard and write.
    - [Registry.v]: [ToolRegistry] as an association list, registration
      with its checks, keyword binding of [tool_handler( **tool_input,
      session_context=...)] and [execute_tool]'s classification of
      outcomes; a class [ToolContract] states what a handler promises, and
      the registry is refined by a [gmap] ([abs_tools]).  [Tools.v]
      registers the eight handlers and discharges the class.
    - [Lifecycle.v]: one routed tool call is a step on the store
      ([Lifecycle.step]); reachability is its [rtc].
    - [History.v]: [ConversationHistory] (token estimate, truncation,
      alternation check, [prepare_for_api]).
    - [Client.v]: the client's construction, the request body, the tool
      loop [tool_rounds] with the API as an oracle [post : dict -> SE Srv
      json], servers that log or replay requests, and the SSE line filter.
    - [Connection.v]: the lifecycle of [DatabaseClient]: its constructor,
      [connect] and [close] with the pool as an option, the reconnect
      guard [if not self.pool: await self.connect()] that opens every
      query method ([ensure_pool]), the attribute access [db.pool], and
      the module-level singleton [get_db_client] /
      [close_db_client] over the one shared client object, against a
      model of asyncpg's [create_pool] and [Pool.close] (a server that is
      up or down, and the open pools).  [db_route] is a route that uses
      [db.pool] directly (the tools, four session endpoints),
      [db_method_route] one that goes through a [DatabaseClient] method;
      [app_step], [pool_step] and [lifecycle_step] are runs of the service
      on the connection state.
    - [SystemPrompt.v]: [build_system_prompt] part by part,
      [build_tool_description] and the workflow-mode helpers.
    - [Titles.v]: [create_fallback_title] and [generate_session_title] on
      ASCII text, with Python's [split], [rfind], [strip] and negative
      slices.
    - [Sessions.v]: the chat tables ([chat_db]: sessions in a [gmap],
      messages in a list, [now()] as a clock that advances per write),
      every [DatabaseClient] query method, and every endpoint of
      sessions.py, with FastAPI's 422, the 404s and the 500 mapping
      ([http_errors]).
    - [Chat.v]: [POST /chat] in its three phases ([chat_prepare],
      [chat_reply], [save_exchange]) on the pair of the database and the
      model's server, and chat.py's messages route, which is the one
      served.
    - [Streaming.v]: [generate_stream] with the yielded events as a trace
      in the state, [stream_message], and [service_step], one request of
      any endpoint that uses the chat tables.
    - [Memory.v]: [memory/mem0_client.py]: [Mem0Client]'s constructor
      with Python's [int] on the port, its stub methods, and the
      singleton [get_client] / [reset_client].
    - [Health.v]: the four dependency checks of [routers/health.py] with
      the environment as a function, and their aggregation into
      [/api/health], readiness and liveness.
    - [Main.v]: [main.py]: the CORS origins, the root and configuration
      endpoints, and the application's route table with Starlette's
      first-match dispatch.

    ** What the theorems show (claim ids C<n> are in PROJECT.json)

    - Handlers: behaviour on every branch, errors included; the order of
      the guards; the store unchanged on every early return; the upsert of
      [update_module], which keeps field keys unique; the certification
      gate, stated in the terms of the specification (modules 1-5, no
      flagged field, some document, none pending, processing or in
      error), which reports every failing check and writes nothing unless
      all pass; the two UPDATEs of [request_audit], which PostgreSQL
      rejects, so that nothing is ever flagged.
    - Lifecycle: a locked application stays locked under any sequence of
      tool calls, and none approves an application without documents and
      module data (rule induction on [rtc step]).
    - Registry: [execute_tool] never raises; the association list refines
      a finite map; conforming input is accepted; a duplicate
      [session_context] keyword is an [invalid_input].
    - Client: the tool loop makes at most [max_iterations] requests,
      returns the answer of a server that stops asking for tools in time,
      and sends only tool results after the first turn; the SSE filter
      returns exactly the [data:] payloads up to [[DONE]].
    - History: truncation keeps a suffix within budget that equals the
      longest such suffix; alternation checking matches its inductive
      specification.
    - Chat and sessions: referential integrity of messages in every
      reachable state of the whole service; a chat request appends exactly
      its question and answer or nothing; the history window keeps the
      oldest messages; without tools only the new message is sent; the
      served messages route skips the declared bounds; deleting a session
      cascades; title generation always stores the title it answers.
    - Streaming: the generator ends with exactly one terminal event, and
      on [complete] the stored reply is exactly the text the client was
      shown.
    - Titles and prompt: length bounds of the fallback and cleaned titles;
      the prompt begins with the persona and, for the chat endpoint's
      arguments, is always built.
    - Health: [/api/health] is 503 exactly when a check reports an error
      and healthy exactly when all are ok; a port that [int] rejects
      fails it although the environment check calls the port optional.
    - Database connection: in every run the open pools are exactly the
      global client's pool (none leaks); once connected, a route is its
      query on the tables, which is what the table models assume; but a
      database that is down at the first query leaves a client without a
      pool, which [get_db_client] never replaces: every route that uses
      [db.pool] directly fails until a route through a [DatabaseClient]
      method reconnects it.
    - Memory client: a caller that names no user gets the last named
      user's client.
    - Entry point: sessions.py's messages route is never dispatched, and
      the CORS origins are the variable cut at commas, spaces kept.

    ** Bounds and fuel

    The one loop that is not over a finite list is [execute_with_tools]'s
    [for iteration in range(max_iterations)]: [tool_rounds] takes
    [Z.to_nat max_iterations] as fuel, which is exactly Python's range
    (empty for a negative bound), so running out of fuel is the code's own
    [RuntimeError], not an artefact.  Every other loop iterates over a list
    (rows, fields, messages, chunks, blocks) and is a structural
    [Fixpoint].  Integers are Python [int]s ([Z]); JSON numbers are
    integers (no handler branches on a fraction); the token estimate
    [int(chars * 0.25)] is [chars / 4], exact in binary64 below 2^53.
    Strings are treated as ASCII: Python's [len] and slicing are list
    operations on their characters.

    ** Not modelled, and why

    - [load_dotenv()] and the [uvicorn.run] launch of [main.py]: process
      bootstrap; the environment they leave is the [env] argument.  The
      CORS middleware's handling of a request, and Starlette's redirect
      of a path that differs only by a trailing slash.  Timestamps in the
      health responses.
    - The HTTP transport and asyncpg's pool beyond opening and closing:
      the model of the server says only whether a query reaches it.  The
      model's server and the stream's response lines are oracles, and
      [json.loads], [json.dumps] and exception texts are parameters, as
      library code the sources only call.  [uuid4()] in the memory
      client's [add] is an argument.
    - Concurrency: requests are run one after another; the interleaving of
      a stream's generator with other requests is not modelled.
    - Human-readable message strings of tool results; logging.
    - The tests ([claude/test_client.py], [memory/test_mem0.py]). *)

From stdpp Require Export base list gmap strings pretty.
From Stdlib Require Export ZArith.

Declare Scope agfin_scope.
Delimit Scope agfin_scope with agfin.

Create HintDb agfin discriminated.
Create Rewrite HintDb se_simpl.
Create Rewrite HintDb agfin_rw.

(** ** Python exceptions that the modelled code can raise *)

(** [TypeError] matters to the registry (it becomes [invalid_input]);
    [PostgresError] matters to the handlers (it becomes [database_error]);
    [DataError] is asyncpg's client-side encoding error, which is not a
    [PostgresError]; [AttributeError], [ValueError] and [RuntimeError]
    are the other classes raised by the modelled code; [OSError] is what
    asyncpg's [create_pool] raises when the server refuses the connection;
    [HTTPStatusError]
    is what httpx's [raise_for_status] raises on a failed API call, and
    [HTTPException] FastAPI's error response with its status code. *)
Inductive exn :=
| TypeError
| AttributeError
| ValueError
| DataError
| PostgresError
| RuntimeError
| OSError
| HTTPStatusError
| HTTPException (status_code : Z).

#[export] Instance exn_eq_dec : EqDecision exn.
Proof. solve_decision. Defined.

(** ** The state-and-exception monad *)

Inductive outcome (A : Type) :=
| Ret (a : A)
| Exc (e : exn).
Arguments Ret {_} _.
Arguments Exc {_} _.

(** A computation over a state [S]: the state survives an exception. *)
Definition SE (S A : Type) : Type := S -> outcome A * S.

#[export] Instance se_ret {S} : MRet (SE S) := fun A a s => (Ret a, s).
#[export] Instance se_bind {S} : MBind (SE S) := fun A B k m s =>
  match m s with
  | (Ret a, s') => k a s'
  | (Exc e, s') => (Exc e, s')
  end.

Definition se_raise {S A} (e : exn) : SE S A := fun s => (Exc e, s).
Definition se_get {S} : SE S S := fun s => (Ret s, s).
Definition se_put {S} (s : S) : SE S unit := fun _ => (Ret tt, s).
Definition se_modify {S} (f : S -> S) : SE S unit := fun s => (Ret tt, f s).

(** [try: m  except: h] *)
Definition se_catch {S A} (m : SE S A) (h : exn -> SE S A) : SE S A := fun s =>
  match m s with
  | (Exc e, s') => h e s'
  | r => r
  end.

(** Iterate [f] over a list, stopping at the first exception
    (a Python [for] loop whose body may raise). *)
Fixpoint se_iter {S A} (f : A -> SE S unit) (l : list A) : SE S unit :=
  match l with
  | [] => mret tt
  | x :: l' => f x ;; se_iter f l'
  end.

Section SE_laws.
Context {S A B : Type}.

Lemma se_bind_ret (a : A) (k : A -> SE S B) s :
  (mret a ≫= k) s = k a s.
Proof. reflexivity. Qed.

Lemma se_bind_run (m : SE S A) (k : A -> SE S B) s :
  (m ≫= k) s = match m s with
               | (Ret a, s') => k a s'
               | (Exc e, s') => (Exc e, s')
               end.
Proof. reflexivity. Qed.

Lemma se_catch_ret (m : SE S A) h s a s' :
  m s = (Ret a, s') -> se_catch m h s = (Ret a, s').
Proof. intros Hm. unfold se_catch. by rewrite Hm. Qed.

Lemma se_catch_exc (m : SE S A) h s e s' :
  m s = (Exc e, s') -> se_catch m h s = h e s'.
Proof. intros Hm. unfold se_catch. by rewrite Hm. Qed.
End SE_laws.

#[export] Hint Rewrite @se_bind_ret : se_simpl.

(** ** A frame logic: what every run of a computation preserves

    [keeps R m]: every run of [m], normal or exceptional, relates its
    initial and final states by [R].  For a preorder [R] the property
    follows the structure of the code, so a handler's frame is proved by
    [keeps_tac] once each state update it performs is shown to be an [R]
    step. *)

Section keeps.
Context {S : Type} (R : relation S) `{!PreOrder R}.

Definition keeps {A} (m : SE S A) : Prop := forall s r s', m s = (r, s') -> R s s'.

Lemma keeps_ret {A} (a : A) : keeps (mret a).
Proof. intros s r s' [= _ <-]. reflexivity. Qed.

Lemma keeps_raise {A} (e : exn) : keeps (se_raise (A:=A) e).
Proof. intros s r s' [= _ <-]. reflexivity. Qed.

Lemma keeps_get : keeps se_get.
Proof. intros s r s' [= _ <-]. reflexivity. Qed.

Lemma keeps_modify (f : S -> S) : (forall s, R s (f s)) -> keeps (se_modify f).
Proof. intros Hf s r s' [= _ <-]. apply Hf. Qed.

Lemma keeps_bind {A B} (m : SE S A) (k : A -> SE S B) :
  keeps m -> (forall a, keeps (k a)) -> keeps (m ≫= k).
Proof.
  intros Hm Hk s r s'. rewrite se_bind_run. destruct (m s) as [[a|e] s1] eqn:E.
  - intros Hrun. etrans; [exact (Hm _ _ _ E) | exact (Hk _ _ _ _ Hrun)].
  - intros [= _ <-]. exact (Hm _ _ _ E).
Qed.

Lemma keeps_catch {A} (m : SE S A) (h : exn -> SE S A) :
  keeps m -> (forall e, keeps (h e)) -> keeps (se_catch m h).
Proof.
  intros Hm Hh s r s'. unfold se_catch. destruct (m s) as [[a|e] s1] eqn:E.
  - intros [= _ <-]. exact (Hm _ _ _ E).
  - intros Hrun. etrans; [exact (Hm _ _ _ E) | exact (Hh _ _ _ _ Hrun)].
Qed.

Lemma keeps_iter {A} (f : A -> SE S unit) (l : list A) :
  (forall x, keeps (f x)) -> keeps (se_iter f l).
Proof. intros Hf. induction l as [|x l IH]; simpl; [apply keeps_ret | by apply keeps_bind]. Qed.

(** A computation that never changes the state keeps every preorder. *)
Lemma keeps_read_only {A} (m : SE S A) : (forall s, (m s).2 = s) -> keeps m.
Proof. intros Hm s r s' Hrun. pose proof (Hm s) as H. rewrite Hrun in H. simpl in H. by subst. Qed.
End keeps.

(** The same property from a given state: symbolic execution, for code
    whose later writes depend on what it read. *)
Section keeps_from.
Context {S : Type} (R : relation S) `{!PreOrder R}.

Definition keeps_from {A} (s : S) (m : SE S A) : Prop := forall r s', m s = (r, s') -> R s s'.

Lemma keeps_from_all {A} (m : SE S A) : (forall s, keeps_from s m) -> keeps R m.
Proof. intros H s. exact (H s). Qed.

Lemma keeps_all_from {A} (m : SE S A) s : keeps R m -> keeps_from s m.
Proof. intros H. exact (H s). Qed.

Lemma keeps_from_ret {A} s (a : A) : keeps_from s (mret a).
Proof. intros r s' [= _ <-]. reflexivity. Qed.

Lemma keeps_from_raise {A} s (e : exn) : keeps_from s (se_raise (A:=A) e).
Proof. intros r s' [= _ <-]. reflexivity. Qed.

Lemma keeps_from_put s x : R s x -> keeps_from s (se_put x).
Proof. intros Hx r s' [= _ <-]. exact Hx. Qed.

Lemma keeps_from_modify s f : R s (f s) -> keeps_from s (se_modify f).
Proof. intros Hx r s' [= _ <-]. exact Hx. Qed.

Lemma keeps_from_get_bind {A} s (k : S -> SE S A) : keeps_from s (k s) -> keeps_from s (se_get ≫= k).
Proof. done. Qed.

Lemma keeps_from_bind {A B} s (m : SE S A) (k : A -> SE S B) :
  keeps_from s m -> (forall a s1, m s = (Ret a, s1) -> keeps_from s1 (k a)) -> keeps_from s (m ≫= k).
Proof.
  intros Hm Hk r s'. rewrite se_bind_run. destruct (m s) as [[a|e] s1] eqn:E.
  - intros Hrun. etrans; [exact (Hm _ _ E) | exact (Hk _ _ eq_refl _ _ Hrun)].
  - intros [= _ <-]. exact (Hm _ _ E).
Qed.

Lemma keeps_from_catch {A} s (m : SE S A) (h : exn -> SE S A) :
  keeps_from s m -> (forall e s1, m s = (Exc e, s1) -> keeps_from s1 (h e)) ->
  keeps_from s (se_catch m h).
Proof.
  intros Hm Hh r s'. unfold se_catch. destruct (m s) as [[a|e] s1] eqn:E.
  - intros [= _ <-]. exact (Hm _ _ E).
  - intros Hrun. etrans; [exact (Hm _ _ E) | exact (Hh _ _ eq_refl _ _ Hrun)].
Qed.
End keeps_from.

Lemma keeps_mono {S A} (R1 R2 : relation S) (m : SE S A) :
  (forall s s', R1 s s' -> R2 s s') -> keeps R1 m -> keeps R2 m.
Proof. intros HR Hm s r s' Hrun. by eapply HR, Hm. Qed.

(** Follow the code: binds, handlers, returns, raises, state reads and
    updates (whose side conditions are left to [side]), and case
    analysis on every [match] and [if]. *)
Create HintDb keeps discriminated.
#[export] Hint Extern 1 (PreOrder _) => typeclasses eauto : keeps.

Ltac keeps_tac side :=
  repeat first
    [ match goal with |- PreOrder _ => typeclasses eauto end
    | progress cbv zeta
    | solve [eauto with keeps]
    | apply keeps_bind; [..|intros ?]
    | apply keeps_catch; [..|intros ?]
    | apply keeps_ret
    | apply keeps_raise
    | apply keeps_get
    | apply keeps_modify; [..|intros ?; side]
    | case_match ].

(** The same, from a state: reads are executed, writes leave [side]
    goals about the state they are made from. *)
Ltac keeps_from_tac side :=
  repeat first
    [ match goal with |- PreOrder _ => typeclasses eauto end
    | progress cbv zeta
    | lazymatch goal with
      | |- keeps_from _ _ (mbind _ se_get) => apply keeps_from_get_bind
      | |- keeps_from _ _ (mbind _ _) => apply keeps_from_bind; [..|intros ???]
      | |- keeps_from _ _ (se_catch _ _) => apply keeps_from_catch; [..|intros ???]
      | |- keeps_from _ _ (mret _) => apply keeps_from_ret
      | |- keeps_from _ _ (se_raise _) => apply keeps_from_raise
      | |- keeps_from _ _ (se_put _) => apply keeps_from_put; [..|side]
      | |- keeps_from _ _ (se_modify _) => apply keeps_from_modify; [..|side]
      end
    | apply keeps_all_from; solve [eauto with keeps]
    | case_match ].

(** ** Python list slicing *)

(** [l[-k:]]: the last [k] elements; Python's [l[-0:]] is the whole list. *)
Definition py_last (k : nat) {A} (l : list A) : list A :=
  if decide (k = 0) then l else drop (length l - k) l.

(** [l[:-k]]: all but the last [k] elements; [l[:-0]] is empty. *)
Definition py_but_last (k : nat) {A} (l : list A) : list A :=
  if decide (k = 0) then [] else take (length l - k) l.

Lemma py_but_last_app_last {A} (k : nat) (l : list A) :
  k <> 0 -> py_but_last k l ++ py_last k l = l.
Proof.
  intros Hk. unfold py_but_last, py_last.
  rewrite !decide_False by done. apply take_drop.
Qed.

Lemma length_py_last {A} (k : nat) (l : list A) :
  k <> 0 -> length (py_last k l) = Nat.min k (length l).
Proof.
  intros Hk. unfold py_last. rewrite decide_False by done.
  rewrite length_drop. lia.
Qed.

(** ** Counting *)

Definition count_if {A} (p : A -> bool) (l : list A) : nat :=
  length (List.filter p l).

Lemma count_if_app {A} (p : A -> bool) (l1 l2 : list A) :
  count_if p (l1 ++ l2) = count_if p l1 + count_if p l2.
Proof. unfold count_if. by rewrite List.filter_app, length_app. Qed.

#[export] Hint Rewrite @count_if_app : agfin_rw.

Lemma filter_nil_iff {A} (p : A -> bool) (l : list A) :
  List.filter p l = [] <-> forall x, x ∈ l -> p x = false.
Proof.
  induction l as [|y l IH]; simpl; [split; [intros _ x Hx; by apply not_elem_of_nil in Hx|done]|].
  destruct (p y) eqn:E; split; try done.
  - intros H. specialize (H y). rewrite E in H. exfalso. assert (Hy : y ∈ y :: l) by (by left); discriminate (H Hy).
  - intros Hl x [->|Hx]%elem_of_cons; [done|]. by apply IH.
  - intros H. apply IH. intros x Hx. apply H. by right.
Qed.

Lemma count_if_zero {A} (p : A -> bool) (l : list A) :
  count_if p l = 0 <-> forall x, x ∈ l -> p x = false.
Proof. unfold count_if. rewrite length_zero_iff_nil. apply filter_nil_iff. Qed.

Lemma elem_of_list_filter_bool {A} (p : A -> bool) (l : list A) x :
  x ∈ List.filter p l <-> x ∈ l /\ p x = true.
Proof. rewrite !list_elem_of_In. apply filter_In. Qed.

(** ** Searching lists ([fetchrow] returns the first matching row) *)

Lemma find_app_none_hit {A} (p : A -> bool) (l : list A) (x : A) :
  List.find p l = None -> p x = true -> List.find p (l ++ [x])%list = Some x.
Proof.
  intros Hl Hx. induction l as [|y l IH]; simpl in *; [by rewrite Hx|].
  destruct (p y); [discriminate | auto].
Qed.

Lemma find_none_filter_nil {A} (p : A -> bool) (l : list A) :
  List.find p l = None -> List.filter p l = [].
Proof.
  induction l as [|y l IH]; simpl; [done|].
  destruct (p y); [discriminate | exact IH].
Qed.

Lemma NoDup_snoc {A} (l : list A) (x : A) : x ∉ l -> NoDup l -> NoDup (l ++ [x])%list.
Proof.
  intros Hx Hl. apply NoDup_app. split; [done|]. split; [|apply NoDup_singleton].
  intros y Hy ->%list_elem_of_singleton. contradiction.
Qed.

(** ** Maps *)

(** [UPDATE ... WHERE id = $1] on an existing row is an insert of the
    updated row. *)
Lemma alter_lookup_insert `{Countable K} {A} (f : A -> A) (m : gmap K A) i x :
  m !! i = Some x -> alter f i m = <[i := f x]> m.
Proof.
  intros Hi. apply map_eq. intros j. destruct (decide (i = j)) as [->|Hne].
  - by rewrite lookup_alter_eq, lookup_insert_eq, Hi.
  - by rewrite lookup_alter_ne, lookup_insert_ne.
Qed.

(** ** Step relations *)

(** A property every step preserves holds along every run. *)
Lemma rtc_invariant {A} (R : relation A) (P : A -> Prop) x y :
  (forall a b, P a -> R a b -> P b) -> rtc R x y -> P x -> P y.
Proof. intros HR H. induction H as [|a b c Hab _ IH]; [done|]. intros Ha. by apply IH, (HR a b). Qed.

(** ** Strings *)

(** stdpp makes [String.append] [simpl never]; its defining equation. *)
Lemma string_append_cons x (a b : string) : String x a +:+ b = String x (a +:+ b).
Proof. reflexivity. Qed.

Lemma string_append_assoc (a b c : string) : a +:+ (b +:+ c) = (a +:+ b) +:+ c.
Proof. induction a as [|x a IH]; [done|]. by rewrite !string_append_cons, IH. Qed.

Lemma string_append_empty_r (a : string) : a +:+ "" = a.
Proof. induction a as [|x a IH]; [done|]. by rewrite string_append_cons, IH. Qed.

(** ** The process environment *)

(** Python's [a or b] on two optional strings: [None] and [""] are false. *)
Definition py_or (a b : option string) : option string :=
  match a with Some s => if String.eqb s "" then b else a | None => b end.

(** [bool(x)] of an optional string. *)
Definition truthy_opt (a : option string) : bool :=
  match a with Some s => negb (String.eqb s "") | None => false end.

(** [os.getenv(var, dflt)], with [env] the environment. *)
Definition getenv_or (env : string -> option string) (var dflt : string) : string := default dflt (env var).

(** [bool(os.getenv(var))] *)
Definition env_set (env : string -> option string) (var : string) : bool := truthy_opt (env var).

(** ** Tactics *)

(** Invert a hypothesis and clean up. *)
Ltac invc H := inversion H; clear H; subst.

(** Expose the monad's plumbing: stdpp declares [mbind] and [mret]
    [simpl never], so the instances are unfolded by name. *)
Ltac se_unfold :=
  unfold mbind, mret, se_bind, se_ret, se_get, se_put, se_modify, se_raise, se_catch in *.

(** Case on every boolean test and [decide] of the goal, left to right. *)
Ltac case_guards :=
  repeat (first [ case_decide | case_match ]); simplify_eq/=.
