(* ===== verification/Json.v ===== *)
(** * JSON values and the Python and jsonb operations the code applies to them

    Everything that crosses the tool boundary in the sources is an untyped
    Python value parsed from JSON: the model's tool input (passed as
    [**tool_input]), the session context, every handler's result
    dictionary, and the [value] column of [module_data] (jsonb).  This file
    defines [json], Python's truthiness ([if x:]), dictionary lookup
    ([d.get(k)]), iteration ([for x in v]), [str.join], membership in a
    dictionary with [int] keys, and the jsonb operators used by the SQL of
    [request_audit.py] and [certify_application.py]. *)

From S2P Require Import Prelude.

Open Scope string_scope.

#[warnings="-register-all"]
Inductive json :=
| JNull
| JBool (b : bool)
| JNum (n : Z)
| JStr (s : string)
| JArr (l : list json)
| JObj (kvs : list (string * json)).

(** A Python [dict] with string keys (a JSON object's fields). *)
Abbreviation dict := (list (string * json)).

(** ** Dictionaries *)

(** [d.get(k)]: the binding of [k], [None] when absent. *)
Fixpoint dict_get (k : string) (d : dict) : option json :=
  match d with
  | [] => None
  | (k', v) :: d' => if decide (k = k') then Some v else dict_get k d'
  end.

(** [d.get(k, dflt)] *)
Definition get_or (k : string) (dflt : json) (d : dict) : json :=
  default dflt (dict_get k d).

(** [k in d] *)
Definition has_key (k : string) (d : dict) : bool :=
  match dict_get k d with Some _ => true | None => false end.

(** Insert or replace a key in place (jsonb_set with [create_missing]
    on an object, and [d[k] = v] on a dict). *)
Fixpoint dict_set (k : string) (v : json) (d : dict) : dict :=
  match d with
  | [] => [(k, v)]
  | (k', v') :: d' => if decide (k = k') then (k, v) :: d' else (k', v') :: dict_set k v d'
  end.

(** [v->k] on a JSON value (an object's field). *)
Definition obj_get (k : string) (v : json) : option json :=
  match v with JObj kvs => dict_get k kvs | _ => None end.

(** ** Python semantics of values *)

(** [bool(v)]: [None], [False], [0], [""], [[]] and [{}] are false. *)
Definition truthy (v : json) : bool :=
  match v with
  | JNull => false
  | JBool b => b
  | JNum n => negb (Z.eqb n 0)
  | JStr s => negb (String.eqb s "")
  | JArr l => match l with [] => false | _ => true end
  | JObj kvs => match kvs with [] => false | _ => true end
  end.

(** [v == s] for a Python string [s]. *)
Definition is_str (s : string) (v : json) : bool :=
  match v with JStr t => String.eqb t s | _ => false end.

(** [v in {1: .., 2: .., ...}] for a dictionary with [int] keys: [None]
    when [v] is unhashable (a list or dict: Python raises [TypeError]);
    otherwise the integer [v] hashes and compares equal to ([True] is [1],
    [False] is [0]), if any. *)
Definition py_int_key (v : json) : option (option Z) :=
  match v with
  | JNum n => Some (Some n)
  | JBool b => Some (Some (if b then 1%Z else 0%Z))
  | JNull | JStr _ => Some None
  | JArr _ | JObj _ => None
  end.

(** One-character strings of a string, the items of [for c in s]. *)
Fixpoint chars_of (s : string) : list json :=
  match s with
  | EmptyString => []
  | String a s' => JStr (String a EmptyString) :: chars_of s'
  end.

(** The items of [for x in v] ([None]: [v] is not iterable, [TypeError]).
    Iterating a dict yields its keys. *)
Definition py_iter (v : json) : option (list json) :=
  match v with
  | JArr l => Some l
  | JStr s => Some (chars_of s)
  | JObj kvs => Some (map (fun kv => JStr kv.1) kvs)
  | _ => None
  end.

(** [sep.join(items)] ([None]: an item is not a string, [TypeError]). *)
Fixpoint py_join (sep : string) (items : list json) : option string :=
  match items with
  | [] => Some ""
  | [JStr s] => Some s
  | JStr s :: rest => s' ← py_join sep rest; Some (s +:+ sep +:+ s')
  | _ => None
  end.

(** A query parameter bound to a text or uuid column: [Some None] is SQL
    NULL, [Some (Some s)] a string; [None] when asyncpg cannot encode the
    value (a [DataError] raised on the client side). *)
Definition sql_text (v : json) : option (option string) :=
  match v with
  | JNull => Some None
  | JStr s => Some (Some s)
  | _ => None
  end.

(** ** Python string whitespace ([str.isspace] on ASCII: [\t] to [\r]
    and the separators 28-31 besides the space), as [str.strip()] and
    [int()] skip it *)

Definition is_py_space (c : Ascii.ascii) : bool :=
  let n := Ascii.nat_of_ascii c in (Nat.leb 9 n && Nat.leb n 13) || (Nat.leb 28 n && Nat.leb n 32).

Fixpoint strip_left (cs : list Ascii.ascii) : list Ascii.ascii :=
  match cs with
  | c :: cs' => if is_py_space c then strip_left cs' else cs
  | [] => []
  end.

Definition py_strip (cs : list Ascii.ascii) : list Ascii.ascii := rev (strip_left (rev (strip_left cs))).

(** ** jsonb operators *)

Definition jsonb_typeof (v : json) : string :=
  match v with
  | JNull => "null"
  | JBool _ => "boolean"
  | JNum _ => "number"
  | JStr _ => "string"
  | JArr _ => "array"
  | JObj _ => "object"
  end.

(** [v->>'k' = 'true']: the key's value is the boolean [true] or the
    string ["true"] (a number, array or object never prints as [true],
    and a JSON [null] gives SQL NULL). *)
Definition text_field_is_true (k : string) (kvs : dict) : bool :=
  match dict_get k kvs with
  | Some (JBool true) => true
  | Some (JStr s) => String.eqb s "true"
  | _ => false
  end.

(** [v @> '{"k": true}'::jsonb]: [v] is an object whose [k] is [true]. *)
Definition contains_true (k : string) (v : json) : bool :=
  match v with
  | JObj kvs => match dict_get k kvs with Some (JBool true) => true | _ => false end
  | _ => false
  end.

(** The audit-flag test shared by [certify_application.py] (lines 191-200)
    and [show_artifact.py] (lines 324-332):
    [(jsonb_typeof(value) = 'object' AND value->>'_audit_flagged' = 'true')
     OR value @> '{"_audit_flagged": true}'::jsonb].
    A NULL [value] makes both disjuncts NULL: not counted. *)
Definition audit_flagged (value : option json) : bool :=
  match value with
  | None => false
  | Some v =>
      (String.eqb (jsonb_typeof v) "object"
       && match v with JObj kvs => text_field_is_true "_audit_flagged" kvs | _ => false end)
      || contains_true "_audit_flagged" v
  end.

(** ** jsonb values as the Python code receives them

    No codec is registered on the connection pool
    ([src/database/connection.py]), so asyncpg returns a jsonb column as
    the [str] of its text form.  [jsonb_text] prints a value the way
    PostgreSQL does ([", "] and [": "] separators; keys in stored order,
    escaping only quotes and backslashes). *)

Definition quote_char : Ascii.ascii := Ascii.ascii_of_nat 34.
Definition backslash_char : Ascii.ascii := Ascii.ascii_of_nat 92.

Fixpoint escape_json (s : string) : string :=
  match s with
  | EmptyString => EmptyString
  | String c s' =>
      if Ascii.eqb c quote_char || Ascii.eqb c backslash_char
      then String backslash_char (String c (escape_json s'))
      else String c (escape_json s')
  end.

Definition quoted (s : string) : string :=
  String quote_char (escape_json s +:+ String quote_char EmptyString).

Fixpoint jsonb_text (v : json) : string :=
  match v with
  | JNull => "null"
  | JBool true => "true"
  | JBool false => "false"
  | JNum n => pretty n
  | JStr s => quoted s
  | JArr l => "[" +:+ String.concat ", " (map jsonb_text l) +:+ "]"
  | JObj kvs =>
      "{" +:+ String.concat ", " (map (fun kv => match kv with
                                               | (k, x) => quoted k +:+ ": " +:+ jsonb_text x
                                               end) kvs) +:+ "}"
  end.

(** A nullable jsonb column read into Python: [None] or a [str]. *)
Definition py_jsonb (o : option json) : json :=
  match o with None => JNull | Some v => JStr (jsonb_text v) end.

(** [v.get(k, dflt)] on a Python value: only a dict has the method. *)
Definition py_get {S} (v : json) (k : string) (dflt : json) : SE S json :=
  match v with
  | JObj kvs => mret (get_or k dflt kvs)
  | _ => se_raise AttributeError
  end.

(** [v in [s1, ..., sn]] for a list of strings. *)
Definition py_in_strs (v : json) (l : list string) : bool := existsb (fun s => is_str s v) l.

(** ** Lemmas *)

Lemma dict_set_get_eq k v d : dict_get k (dict_set k v d) = Some v.
Proof.
  induction d as [|[k' v'] d IH]; simpl; [by rewrite decide_True|].
  case_decide; simpl; [by rewrite decide_True|].
  rewrite decide_False by done. exact IH.
Qed.

Lemma dict_set_get_ne k k' v d :
  k <> k' -> dict_get k' (dict_set k v d) = dict_get k' d.
Proof.
  intros Hne. induction d as [|[k0 v0] d IH]; simpl.
  - by rewrite decide_False.
  - case_decide; subst; simpl.
    + rewrite !decide_False by done. done.
    + case_decide; [done | exact IH].
Qed.

#[export] Hint Rewrite dict_set_get_eq : agfin_rw.

Lemma truthy_str s : truthy (JStr s) = true <-> s <> "".
Proof.
  simpl. destruct (String.eqb_spec s ""); simpl; split; congruence.
Qed.

Lemma is_str_spec s v : is_str s v = true <-> v = JStr s.
Proof.
  destruct v; simpl; split; try congruence.
  - intros H%String.eqb_eq. by subst.
  - intros [= ->]. apply String.eqb_refl.
Qed.

Lemma audit_flagged_obj kvs :
  dict_get "_audit_flagged" kvs = Some (JBool true) -> audit_flagged (Some (JObj kvs)) = true.
Proof. intros H. unfold audit_flagged, contains_true. rewrite H. apply orb_true_r. Qed.

Lemma pretty_N_go_nonempty x s : s <> "" -> pretty_N_go x s <> "".
Proof.
  revert s. induction (N.lt_wf_0 x) as [x _ IH]; intros s Hs.
  assert (x = 0 \/ 0 < x)%N as [->|?] by lia.
  - by rewrite pretty_N_go_0.
  - rewrite pretty_N_go_step by done. apply IH; [by apply N.div_lt | discriminate].
Qed.

Lemma pretty_N_nonempty (x : N) : pretty x <> "".
Proof.
  unfold pretty, pretty_N. case_decide; [discriminate|].
  rewrite pretty_N_go_step by lia. apply pretty_N_go_nonempty. discriminate.
Qed.

Lemma jsonb_text_nonempty v : jsonb_text v <> "".
Proof.
  destruct v as [| [] | [|p|p] | | |]; simpl; try discriminate.
  apply pretty_N_nonempty.
Qed.

(** A non-NULL jsonb column is a non-empty, hence truthy, [str]. *)
Lemma truthy_py_jsonb v : truthy (py_jsonb (Some v)) = true.
Proof. apply truthy_str, jsonb_text_nonempty. Qed.
