(* ===== verification/Store.v ===== *)
(** * The Store: tables, rows, and the steps shared by the tool handlers

    The handlers of [src/ai-service/src/tools/] read and write PostgreSQL
    through [db_client.pool.fetchrow/fetch/execute].  This file models the
    tables they touch as the record [db] and gives one definition to each
    query or statement that several handlers issue.  It also holds the
    prologue every application-scoped handler repeats: resolving the
    target application id from the argument or the session context,
    loading the row, the owner check and the lock check, and the two
    [except] clauses that turn an exception into an error dictionary.

    Rows carry every column any handler names (see the header of
    [Prelude.v]): [module_data] has both [module_name/field_name/
    field_value/data_source/confidence_score], written by
    [update_module.py], and [module_number/field_id/value/
    source_document_id], read by [certify_application.py],
    [request_audit.py] and [show_artifact.py]. *)

From S2P Require Import Prelude Json.

Open Scope string_scope.

(** ** Rows *)

(** [applications.status] (spec §3: the application state machine). *)
Inductive application_status := Draft | InProgress | UnderReview | Approved | Rejected.

#[export] Instance app_status_eq_dec : EqDecision application_status.
Proof. solve_decision. Defined.

Definition status_text (s : application_status) : string :=
  match s with
  | Draft => "draft"
  | InProgress => "in_progress"
  | UnderReview => "under_review"
  | Approved => "approved"
  | Rejected => "rejected"
  end.

(** [app_row["status"] in ["approved", "rejected"]] *)
Definition is_locked (s : application_status) : bool :=
  match s with Approved | Rejected => true | _ => false end.

Record application := mkApplication {
  app_user_id : string;
  app_status : application_status;
  app_certification_type : string;
  app_notes : option string;
  app_updated_at : nat;
  app_created_at : nat
}.

Record document := mkDocument {
  doc_id : string;
  doc_application_id : string;
  doc_document_type : string;
  doc_file_name : string;
  doc_ocr_status : option string;          (* query_application, extract_fields *)
  doc_extraction_status : option string;   (* request_audit, certify, show_artifact *)
  doc_extraction_metadata : option json;   (* query_application, extract_fields *)
  doc_metadata : option json;              (* request_audit, show_artifact *)
  doc_storage_path : option string;
  doc_file_size : option Z;
  doc_mime_type : option string;
  doc_created_at : nat
}.

(** Confidence scores are kept in thousandths: [1.0] is [1000]. *)
Record module_row := mkModuleRow {
  row_id : nat;
  row_application_id : string;
  row_module_name : option string;
  row_field_name : option string;
  row_field_value : option string;
  row_data_source : option string;
  row_confidence_milli : option Z;
  row_module_number : option Z;
  row_field_id : option string;
  row_value : option json;
  row_source_document_id : option string;
  row_updated_at : nat;
  row_created_at : nat
}.

Record audit_entry := mkAuditEntry {
  at_application_id : string;
  at_user_id : string;
  at_action : string;
  at_field_id : option string;
  at_new_value : option string;
  at_created_at : nat
}.

(** ** The store *)

Record db := mkDb {
  db_applications : gmap string application;
  db_documents : list document;
  db_module_data : list module_row;
  db_audit_trail : list audit_entry;
  db_users : list (string * string);   (* auth.users: (email, id) *)
  db_next_id : nat;                    (* next id handed out by an INSERT *)
  db_clock : nat                       (* the value of NOW() *)
}.

Definition with_applications (f : gmap string application -> gmap string application) (st : db) : db :=
  mkDb (f (db_applications st)) (db_documents st) (db_module_data st) (db_audit_trail st)
       (db_users st) (db_next_id st) (db_clock st).

Definition with_documents (f : list document -> list document) (st : db) : db :=
  mkDb (db_applications st) (f (db_documents st)) (db_module_data st) (db_audit_trail st)
       (db_users st) (db_next_id st) (db_clock st).

Definition with_module_data (f : list module_row -> list module_row) (st : db) : db :=
  mkDb (db_applications st) (db_documents st) (f (db_module_data st)) (db_audit_trail st)
       (db_users st) (db_next_id st) (db_clock st).

Definition with_audit_trail (f : list audit_entry -> list audit_entry) (st : db) : db :=
  mkDb (db_applications st) (db_documents st) (db_module_data st) (f (db_audit_trail st))
       (db_users st) (db_next_id st) (db_clock st).

Definition bump_next_id (st : db) : db :=
  mkDb (db_applications st) (db_documents st) (db_module_data st) (db_audit_trail st)
       (db_users st) (S (db_next_id st)) (db_clock st).

(** A handler: a computation over the store returning a result dict. *)
Abbreviation handler := (SE db dict).

(** ** Result dictionaries *)

(** [{"error": code, "message": ...}]; free-text messages are not kept. *)
Definition err (code : string) : dict := [("error", JStr code)].

Definition error_code (r : dict) : option json := dict_get "error" r.

(** A nullable text column read back into Python: [None] or a [str]. *)
Definition opt_str (o : option string) : json :=
  match o with Some s => JStr s | None => JNull end.

(** [datetime.utcnow().isoformat()], rendered from the clock value. *)
Definition iso_timestamp (t : nat) : string := pretty (N.of_nat t).

(** ** The common prologue *)

(** [session_context.get(k)]: [AttributeError] unless a dict. *)
Definition ctx_get (ctx : json) (k : string) : SE db json :=
  match ctx with
  | JObj kvs => mret (get_or k JNull kvs)
  | _ => se_raise AttributeError
  end.

(** [target = application_id
     if not target and session_context: target = session_context.get("application_id")] *)
Definition target_application_id (application_id session_context : json) : SE db json :=
  if truthy application_id then mret application_id
  else if truthy session_context then ctx_get session_context "application_id"
  else mret application_id.

(** [session_context.get("user_id") if session_context else None] *)
Definition ctx_user_id (session_context : json) : SE db json :=
  if truthy session_context then ctx_get session_context "user_id" else mret JNull.

(** Encode a value as a text query parameter ([DataError] otherwise). *)
Definition sql_param (v : json) : SE db (option string) :=
  match sql_text v with
  | Some p => mret p
  | None => se_raise DataError
  end.

(** [SELECT ... FROM applications WHERE id = $1]: the row and its id. *)
Definition fetch_application (target : json) : SE db (option (string * application)) :=
  p ← sql_param target;
  st ← se_get;
  mret (match p with
        | Some id => (fun a => (id, a)) <$> db_applications st !! id
        | None => None
        end).

(** [SELECT d.*, a.user_id FROM documents d JOIN applications a
     ON a.id = d.application_id WHERE d.id = $1] ([extract_fields.py]
     lines 98-113, [show_artifact.py] lines 126-139 and 164-177): the
     document and its application's owner. *)
Definition fetch_document_with_owner (did : option string) (st : db)
    : option (document * string) :=
  match did with
  | None => None
  | Some d =>
      head (omap (fun doc =>
                    if String.eqb (doc_id doc) d
                    then (fun a => (doc, app_user_id a)) <$> db_applications st !! doc_application_id doc
                    else None) (db_documents st))
  end.

(** [if user_id and str(app_row["user_id"]) != user_id] *)
Definition unauthorized_for (user_id : json) (owner : string) : bool :=
  truthy user_id && negb (is_str owner user_id).

(** [UPDATE applications SET updated_at = NOW() WHERE id = $1] *)
Definition touch (id : string) (st : db) : db :=
  with_applications
    (alter (fun a => mkApplication (app_user_id a) (app_status a)
                       (app_certification_type a) (app_notes a) (db_clock st) (app_created_at a)) id) st.

Definition touch_application (id : string) : SE db unit := se_modify (touch id).

(** [INSERT INTO audit_trail ...]: appended, never updated. *)
Definition append_audit (e : audit_entry) : SE db unit :=
  se_modify (with_audit_trail (fun l => (l ++ [e])%list)).

(** [except asyncpg.PostgresError: database_error; except Exception: internal_error] *)
Definition pg_or_internal (e : exn) : handler :=
  match e with
  | PostgresError => mret (err "database_error")
  | _ => mret (err "internal_error")
  end.

(** Reduce projections of updated stores, and nothing else. *)
(** The reads of the shared prologue keep every preorder on the store. *)
Section prologue_keeps.
Context (R : relation db) `{!PreOrder R}.

Lemma ctx_get_keeps ctx k : keeps R (ctx_get ctx k).
Proof. apply keeps_read_only; [exact _|]. intros s. unfold ctx_get. by repeat case_match. Qed.

Lemma target_application_id_keeps a ctx : keeps R (target_application_id a ctx).
Proof.
  apply keeps_read_only; [exact _|]. intros s. unfold target_application_id, ctx_get.
  by repeat case_match.
Qed.

Lemma ctx_user_id_keeps ctx : keeps R (ctx_user_id ctx).
Proof. apply keeps_read_only; [exact _|]. intros s. unfold ctx_user_id, ctx_get. by repeat case_match. Qed.

Lemma sql_param_keeps v : keeps R (sql_param v).
Proof. apply keeps_read_only; [exact _|]. intros s. unfold sql_param. by repeat case_match. Qed.

Lemma fetch_application_keeps t : keeps R (fetch_application t).
Proof.
  apply keeps_read_only; [exact _|]. intros s. unfold fetch_application, sql_param. se_unfold.
  by destruct (sql_text t).
Qed.

Lemma pg_or_internal_keeps e : keeps R (pg_or_internal e).
Proof. apply keeps_read_only; [exact _|]. intros s. unfold pg_or_internal. by case_match. Qed.
End prologue_keeps.

#[export] Hint Resolve ctx_get_keeps target_application_id_keeps ctx_user_id_keeps sql_param_keeps
  fetch_application_keeps pg_or_internal_keeps : keeps.

Ltac store_simpl :=
  cbn [db_applications db_documents db_module_data db_audit_trail db_users db_next_id
       db_clock touch with_applications with_documents with_module_data with_audit_trail
       bump_next_id] in *.

(** ** Lemmas on the prologue *)

(** The [except] clauses only build a dictionary. *)
Lemma pg_or_internal_state e s r s' : pg_or_internal e s = (r, s') -> s' = s.
Proof. by destruct e; se_unfold; simpl; intros [= _ ->]. Qed.

Lemma pg_or_internal_snd e s : (pg_or_internal e s).2 = s.
Proof. by destruct e. Qed.

Lemma target_application_id_explicit (application_id ctx : json) st :
  truthy application_id = true ->
  target_application_id application_id ctx st = (Ret application_id, st).
Proof. intros H. unfold target_application_id. by rewrite H. Qed.

Lemma target_application_id_explicit_fun (application_id ctx : json) :
  truthy application_id = true ->
  target_application_id application_id ctx = mret application_id.
Proof. intros H. unfold target_application_id. by rewrite H. Qed.

Lemma target_application_id_ctx (kvs : dict) (application_id : json) st :
  truthy application_id = false -> kvs <> [] ->
  target_application_id application_id (JObj kvs) st =
    (Ret (get_or "application_id" JNull kvs), st).
Proof.
  intros H Hk. unfold target_application_id. rewrite H. simpl.
  by destruct kvs.
Qed.

(** An empty context is falsy and [get] on it gives [None] too. *)
Lemma ctx_user_id_obj (kvs : dict) st :
  ctx_user_id (JObj kvs) st = (Ret (get_or "user_id" JNull kvs), st).
Proof. unfold ctx_user_id. simpl. by destruct kvs. Qed.

Lemma ctx_user_id_obj_fun (kvs : dict) :
  ctx_user_id (JObj kvs) = fun s => (Ret (get_or "user_id" JNull kvs), s).
Proof. unfold ctx_user_id. simpl. by destruct kvs. Qed.

(** Unfold the prologue of a handler down to the store lookups. *)
Ltac prologue_unfold :=
  unfold target_application_id, ctx_get, fetch_application, sql_param in *;
  rewrite ?ctx_user_id_obj_fun; se_unfold.

Lemma fetch_application_str (id : string) st :
  fetch_application (JStr id) st =
    (Ret ((fun a => (id, a)) <$> db_applications st !! id), st).
Proof. reflexivity. Qed.

Lemma unauthorized_for_owner owner : unauthorized_for (JStr owner) owner = false.
Proof. unfold unauthorized_for. simpl. by rewrite String.eqb_refl, andb_false_r. Qed.

Lemma unauthorized_for_null owner : unauthorized_for JNull owner = false.
Proof. reflexivity. Qed.

Lemma touch_lookup id st :
  db_applications (touch id st) !! id =
    (fun a => mkApplication (app_user_id a) (app_status a) (app_certification_type a)
                (app_notes a) (db_clock st) (app_created_at a)) <$> db_applications st !! id.
Proof. unfold touch, with_applications. simpl. apply lookup_alter_eq. Qed.

Lemma touch_lookup_ne id id' st :
  id <> id' -> db_applications (touch id st) !! id' = db_applications st !! id'.
Proof. intros Hne. unfold touch, with_applications. simpl. by apply lookup_alter_ne. Qed.

Lemma fetch_document_id d st doc o :
  fetch_document_with_owner (Some d) st = Some (doc, o) -> doc_id doc = d.
Proof.
  unfold fetch_document_with_owner. induction (db_documents st) as [|x xs IH]; simpl; [done|].
  destruct (String.eqb_spec (doc_id x) d) as [<-|]; [|exact IH].
  destruct (db_applications st !! doc_application_id x); simpl; [by intros [= <- _] | exact IH].
Qed.

Lemma get_or_user_id u : get_or "user_id" JNull [("user_id", JStr u)] = JStr u.
Proof. reflexivity. Qed.

(** A session context naming the owner of [a] as the caller. *)
Definition owner_ctx (a : application) : json := JObj [("user_id", JStr (app_user_id a))].

#[export] Hint Rewrite target_application_id_explicit fetch_application_str
  unauthorized_for_owner unauthorized_for_null using done : agfin_rw.

(** ** Sample stores, for the witnesses of the theorems *)

Definition sample_app (owner : string) (s : application_status) : application :=
  mkApplication owner s "standard" None 0 0.

Definition sample_db (apps : list (string * application)) (docs : list document)
    (rows : list module_row) : db :=
  mkDb (list_to_map apps) docs rows [] [] (length rows) 7.

(** ** Fresh identifiers *)

(** [gen_random_uuid()] for a new application: an id no application has. *)
Definition fresh_app_id (st : db) : string := fresh (dom (db_applications st) : gset string).

Lemma fresh_app_id_new st : db_applications st !! fresh_app_id st = None.
Proof. apply not_elem_of_dom. unfold fresh_app_id. apply is_fresh. Qed.
