(* ===== verification/UpdateModule.v ===== *)
(** * [update_module]: the upsert of one module field

    Models [src/ai-service/src/tools/update_module.py].  The handler
    validates the module number against [MODULE_NAMES], resolves the
    target application, checks ownership and the lock, then looks the
    field up by (application, module name, field name): an existing row
    is overwritten and reclassified [proxy_edited], a missing one is
    inserted as [proxy_entered]; both pin the confidence to 1.0 and the
    application's [updated_at] is bumped.

    Theorems: every early return leaves the store unchanged (with the
    guards in the code's order), the one-step behaviour of both upsert
    branches, the two-call scenario of spec §8 ("idempotent lookup"), and
    the uniqueness of (application, module, field) rows as an invariant. *)

From S2P Require Import Prelude Json Store.

Open Scope string_scope.

Module UpdateModule.

(** [MODULE_NAMES = {1: "financial", ..., 5: "risk"}] *)
Definition MODULE_NAMES (n : Z) : option string :=
  match n with
  | 1%Z => Some "financial"
  | 2%Z => Some "compliance"
  | 3%Z => Some "operations"
  | 4%Z => Some "sustainability"
  | 5%Z => Some "risk"
  | _ => None
  end.

(** [WHERE application_id = $1 AND module_name = $2 AND field_name = $3]
    (a NULL [field_name] parameter matches no row). *)
Definition field_key_matches (app mn : string) (fid : option string) (r : module_row) : bool :=
  bool_decide (row_application_id r = app) && bool_decide (row_module_name r = Some mn)
  && match fid with
     | Some f => bool_decide (row_field_name r = Some f)
     | None => false
     end.

(** [UPDATE module_data SET field_value = $1, data_source = $2,
     confidence_score = 1.0, updated_at = NOW() WHERE id = $3] *)
Definition edit_row (rid : nat) (v : option string) (ds : string) (now : nat)
    (r : module_row) : module_row :=
  if decide (row_id r = rid) then
    mkModuleRow (row_id r) (row_application_id r) (row_module_name r) (row_field_name r)
      v (Some ds) (Some 1000%Z) (row_module_number r) (row_field_id r) (row_value r)
      (row_source_document_id r) now (row_created_at r)
  else r.

Definition update_field_row (rid : nat) (v : option string) (ds : string) : SE db unit :=
  se_modify (fun st => with_module_data (map (edit_row rid v ds (db_clock st))) st).

(** [INSERT INTO module_data (application_id, module_name, field_name,
     field_value, data_source, confidence_score, created_at, updated_at)
     VALUES ($1, $2, $3, $4, $5, 1.0, NOW(), NOW())] *)
Definition new_field_row (st : db) (app mn : string) (fid v : option string) (ds : string)
    : module_row :=
  mkModuleRow (db_next_id st) app (Some mn) fid v (Some ds) (Some 1000%Z)
    None None None None (db_clock st) (db_clock st).

Definition insert_field_row (app mn : string) (fid v : option string) (ds : string)
    : SE db unit :=
  se_modify (fun st =>
    bump_next_id (with_module_data (fun l => (l ++ [new_field_row st app mn fid v ds])%list) st)).

(** The success dictionary (lines 237-246). *)
Definition um_result (field_id : json) (module_name : string) (module_number old_value value : json)
    (data_source : string) : dict :=
  [("success", JBool true); ("field_id", field_id); ("module_name", JStr module_name);
   ("module_number", module_number); ("old_value", old_value); ("new_value", value);
   ("data_source", JStr data_source)].

(** The body of [update_module] after the guards (lines 168-246). *)
Definition upsert_field (id module_name : string) (module_number field_id value : json)
    : handler :=
  fid ← sql_param field_id;
  st ← se_get;
  '(old_value, data_source) ←
    (match List.find (field_key_matches id module_name fid) (db_module_data st) with
     | Some existing_row =>
         v ← sql_param value;
         update_field_row (row_id existing_row) v "proxy_edited" ;;
         mret (opt_str (row_field_value existing_row), "proxy_edited")
     | None =>
         v ← sql_param value;
         insert_field_row id module_name fid v "proxy_entered" ;;
         mret (JNull, "proxy_entered")
     end : SE db (json * string));
  touch_application id ;;
  mret (um_result field_id module_name module_number old_value value data_source).

(** [async def update_module(module_number, field_id, value,
     application_id=None, session_context=None)].  An unhashable
    [module_number] makes the membership test raise [TypeError] before
    the [try]: the exception leaves the handler. *)
Definition update_module (module_number field_id value application_id session_context : json)
    : handler :=
  match py_int_key module_number with
  | None => se_raise TypeError
  | Some k =>
    match k ≫= MODULE_NAMES with
    | None => mret (err "invalid_module")
    | Some module_name =>
      target ← target_application_id application_id session_context;
      if negb (truthy target) then mret (err "application_id_required") else
      se_catch
        (user_id ← ctx_user_id session_context;
         app_row ← fetch_application target;
         match app_row with
         | None => mret (err "application_not_found")
         | Some (id, app) =>
             if unauthorized_for user_id (app_user_id app) then mret (err "unauthorized")
             else if is_locked (app_status app) then mret (err "application_locked")
             else upsert_field id module_name module_number field_id value
         end)
        pg_or_internal
    end
  end.

(** ** Helper lemmas *)

(** The rows' keys, for the rows whose module and field names are set. *)
Definition field_key (r : module_row) : option (string * string * string) :=
  match row_module_name r, row_field_name r with
  | Some mn, Some f => Some (row_application_id r, mn, f)
  | _, _ => None
  end.

Definition unique_field_keys (rows : list module_row) : Prop :=
  NoDup (omap field_key rows).

Lemma field_key_edit_row rid v ds now r :
  field_key (edit_row rid v ds now r) = field_key r.
Proof. unfold edit_row. by case_decide. Qed.

Lemma omap_field_key_edit rid v ds now rows :
  omap field_key (map (edit_row rid v ds now) rows) = omap field_key rows.
Proof.
  induction rows as [|r rows IH]; [done|]. csimpl.
  rewrite field_key_edit_row. destruct (field_key r); csimpl; by rewrite IH.
Qed.

Lemma find_none_key_absent app mn f rows :
  List.find (field_key_matches app mn (Some f)) rows = None ->
  (app, mn, f) ∉ omap field_key rows.
Proof.
  intros Hfind Hin. apply list_elem_of_omap in Hin as (r & Hr & Hk).
  apply list_elem_of_In in Hr.
  pose proof (List.find_none _ _ Hfind r Hr) as Hf.
  unfold field_key in Hk. unfold field_key_matches in Hf.
  destruct (row_module_name r), (row_field_name r); simplify_eq.
  rewrite !bool_decide_true in Hf by done. discriminate.
Qed.

(** [(application, module, field)] keys are preserved by an edit. *)
Lemma field_key_matches_edit_row app mn fid rid v ds now r :
  field_key_matches app mn fid (edit_row rid v ds now r) = field_key_matches app mn fid r.
Proof. unfold edit_row. by case_decide. Qed.

Lemma filter_key_edit app mn fid rid v ds now rows :
  List.filter (field_key_matches app mn fid) (map (edit_row rid v ds now) rows) =
  map (edit_row rid v ds now) (List.filter (field_key_matches app mn fid) rows).
Proof.
  induction rows as [|r rows IH]; [done|]. simpl.
  rewrite field_key_matches_edit_row. destruct (field_key_matches _ _ _ r); simpl; by rewrite IH.
Qed.

(** ** One step of each upsert branch *)

Lemma upsert_field_insert st id mn mnum f v :
  List.find (field_key_matches id mn (Some f)) (db_module_data st) = None ->
  upsert_field id mn mnum (JStr f) (JStr v) st =
    (Ret (um_result (JStr f) mn mnum JNull (JStr v) "proxy_entered"),
     touch id (bump_next_id (with_module_data
       (fun l => (l ++ [new_field_row st id mn (Some f) (Some v) "proxy_entered"])%list) st))).
Proof. intros H. unfold upsert_field. se_unfold. cbn -[List.find]. by rewrite H. Qed.

Lemma upsert_field_edit st id mn mnum f v r :
  List.find (field_key_matches id mn (Some f)) (db_module_data st) = Some r ->
  upsert_field id mn mnum (JStr f) (JStr v) st =
    (Ret (um_result (JStr f) mn mnum (opt_str (row_field_value r)) (JStr v) "proxy_edited"),
     touch id (with_module_data
       (map (edit_row (row_id r) (Some v) "proxy_edited" (db_clock st))) st)).
Proof. intros H. unfold upsert_field. se_unfold. cbn -[List.find]. by rewrite H. Qed.

(** The guards, for an explicit application id and a dict context, when
    the application exists, the caller may use it, and it is not locked. *)
Lemma update_module_reaches_upsert st mnum mn id a f v kvs :
  id <> "" ->
  MODULE_NAMES mnum = Some mn ->
  db_applications st !! id = Some a ->
  unauthorized_for (get_or "user_id" JNull kvs) (app_user_id a) = false ->
  is_locked (app_status a) = false ->
  update_module (JNum mnum) f v (JStr id) (JObj kvs) st =
    se_catch (upsert_field id mn (JNum mnum) f v) pg_or_internal st.
Proof.
  intros Hid Hmn Happ Hauth Hlock. pose proof (proj2 (truthy_str id) Hid) as Ht.
  unfold update_module. prologue_unfold.
  cbn -[upsert_field lookup truthy]. rewrite Hmn, Ht.
  cbn -[upsert_field lookup truthy]. rewrite Ht.
  cbn -[upsert_field lookup truthy]. rewrite Happ.
  cbn -[upsert_field lookup truthy]. by rewrite Hauth, Hlock.
Qed.

(** The guards of [update_module] in the code's order, for an explicit
    application id and a dict session context. *)
Lemma update_module_guards st mnum mn id f v kvs :
  id <> "" -> MODULE_NAMES mnum = Some mn ->
  update_module (JNum mnum) f v (JStr id) (JObj kvs) st =
    match db_applications st !! id with
    | None => (Ret (err "application_not_found"), st)
    | Some a =>
        if unauthorized_for (get_or "user_id" JNull kvs) (app_user_id a)
        then (Ret (err "unauthorized"), st)
        else if is_locked (app_status a) then (Ret (err "application_locked"), st)
        else se_catch (upsert_field id mn (JNum mnum) f v) pg_or_internal st
    end.
Proof.
  intros Hid Hmn. pose proof (proj2 (truthy_str id) Hid) as Ht.
  unfold update_module. prologue_unfold.
  cbn -[upsert_field lookup truthy]. rewrite Hmn, Ht.
  cbn -[upsert_field lookup truthy]. rewrite Ht.
  cbn -[upsert_field lookup truthy].
  destruct (db_applications st !! id) as [a|]; cbn -[upsert_field lookup truthy]; [|done].
  by destruct (unauthorized_for _ _), (is_locked (app_status a)).
Qed.

(** Every run of the upsert keeps one row per key. *)
Lemma upsert_field_unique id mn mnum f v st r st' :
  unique_field_keys (db_module_data st) ->
  upsert_field id mn mnum f v st = (r, st') -> unique_field_keys (db_module_data st').
Proof.
  intros Hu Hrun. unfold upsert_field, sql_param in Hrun. se_unfold.
  destruct (sql_text f) as [fid|] eqn:Hf; cbn -[List.find] in Hrun; [|by simplify_eq].
  destruct (sql_text v) as [v'|]; cbn -[List.find] in Hrun;
    destruct (List.find _ _) as [r0|] eqn:Hfind; simplify_eq; simpl; [| |done..].
  - unfold unique_field_keys. by rewrite omap_field_key_edit.
  - unfold unique_field_keys. rewrite omap_app. simpl.
    destruct fid as [f'|]; simpl; [|by rewrite app_nil_r].
    apply NoDup_snoc; [|done]. by apply find_none_key_absent.
Qed.

(** A run of [update_module] either leaves the store as it was or ends
    where a run of [upsert_field] ends (the [except] clauses return
    without writing). *)
Lemma update_module_state (mnum f v appid ctx : json) st r st' :
  update_module mnum f v appid ctx st = (r, st') ->
  st' = st \/ exists id mn mnum' r', upsert_field id mn mnum' f v st = (r', st').
Proof.
  intros Hrun. unfold update_module, ctx_user_id in Hrun. prologue_unfold.
  repeat (case_match; simplify_eq/=);
    repeat match goal with H : pg_or_internal _ _ = _ |- _ => apply pg_or_internal_state in H end;
    se_unfold; simplify_eq/=; try (by left); right; by eauto.
Qed.

(** ** Properties *)

(** [update_module] rejects a module number outside 1-5 with
    [invalid_module] before any lookup: whatever the other arguments,
    the store is unchanged. *)
Theorem update_module_invalid_module (mnum : Z) (field_id value application_id session_context : json) st :
  MODULE_NAMES mnum = None ->
  update_module (JNum mnum) field_id value application_id session_context st =
    (Ret (err "invalid_module"), st).
Proof. intros H. unfold update_module. simpl. by rewrite H. Qed.

Lemma update_module_invalid_module_witness :
  update_module (JNum 6) (JStr "f") (JStr "v") JNull JNull (sample_db [] [] [])
  = (Ret (err "invalid_module"), sample_db [] [] []).
Proof. apply update_module_invalid_module. reflexivity. Defined.

(** against an approved or rejected application, an otherwise
    valid [update_module] call by its owner returns [application_locked]
    and changes no row. *)
Theorem update_module_locked st (mnum : Z) mn id a (field_id value : json) :
  id <> "" -> MODULE_NAMES mnum = Some mn -> db_applications st !! id = Some a ->
  is_locked (app_status a) = true ->
  update_module (JNum mnum) field_id value (JStr id) (owner_ctx a) st =
    (Ret (err "application_locked"), st).
Proof.
  intros Hid Hmn Happ Hlock. unfold owner_ctx.
  rewrite (update_module_guards st mnum mn id) by done.
  by rewrite Happ, get_or_user_id, unauthorized_for_owner, Hlock.
Qed.

Lemma update_module_locked_witness :
  let st := sample_db [("app-1", sample_app "user-1" Approved)] [] [] in
  update_module (JNum 1) (JStr "total_revenue") (JStr "125000") (JStr "app-1")
    (owner_ctx (sample_app "user-1" Approved)) st = (Ret (err "application_locked"), st).
Proof. apply (update_module_locked _ 1 "financial"); reflexivity || discriminate. Defined.

(** a caller whose user id is not the owner's gets
    [unauthorized], checked before the lock, and nothing is written. *)
Theorem update_module_unauthorized st (mnum : Z) mn id a (field_id value : json) (u : string) :
  id <> "" -> MODULE_NAMES mnum = Some mn -> db_applications st !! id = Some a ->
  u <> "" -> u <> app_user_id a ->
  update_module (JNum mnum) field_id value (JStr id) (JObj [("user_id", JStr u)]) st =
    (Ret (err "unauthorized"), st).
Proof.
  intros Hid Hmn Happ Hu Hne.
  rewrite (update_module_guards st mnum mn id) by done. rewrite Happ, get_or_user_id.
  unfold unauthorized_for. simpl.
  destruct (String.eqb_spec u ""); [done|]. destruct (String.eqb_spec u (app_user_id a)); done.
Qed.

Lemma update_module_unauthorized_witness :
  let st := sample_db [("app-1", sample_app "user-1" Approved)] [] [] in
  update_module (JNum 2) (JStr "license") (JStr "L-9") (JStr "app-1")
    (JObj [("user_id", JStr "user-2")]) st = (Ret (err "unauthorized"), st).
Proof. apply (update_module_unauthorized _ 2 "compliance" _ (sample_app "user-1" Approved)); reflexivity || discriminate. Defined.

(** C38: two [update_module] calls by the owner on the same
    (application, module, field), with no such row before, both succeed:
    the first inserts and reports [proxy_entered] with no old value, the
    second overwrites and reports [proxy_edited] with the first value as
    [old_value]; afterwards exactly one row has that key, holding the
    second value with [data_source = proxy_edited] and confidence 1.0. *)
Theorem update_module_twice st id a (mnum : Z) mn f v1 v2 :
  id <> "" -> MODULE_NAMES mnum = Some mn -> db_applications st !! id = Some a ->
  is_locked (app_status a) = false ->
  List.find (field_key_matches id mn (Some f)) (db_module_data st) = None ->
  match update_module (JNum mnum) (JStr f) (JStr v1) (JStr id) (owner_ctx a) st with
  | (r1, st1) =>
    match update_module (JNum mnum) (JStr f) (JStr v2) (JStr id) (owner_ctx a) st1 with
    | (r2, st2) =>
        r1 = Ret (um_result (JStr f) mn (JNum mnum) JNull (JStr v1) "proxy_entered") /\
        r2 = Ret (um_result (JStr f) mn (JNum mnum) (JStr v1) (JStr v2) "proxy_edited") /\
        List.filter (field_key_matches id mn (Some f)) (db_module_data st2) =
          [mkModuleRow (db_next_id st) id (Some mn) (Some f) (Some v2) (Some "proxy_edited")
             (Some 1000%Z) None None None None (db_clock st) (db_clock st)]
    end
  end.
Proof.
  intros Hid Hmn Happ Hlock Hnone. unfold owner_ctx.
  rewrite (update_module_reaches_upsert st mnum mn id a) by
    (rewrite ?get_or_user_id, ?unauthorized_for_owner; done).
  rewrite (se_catch_ret _ _ _ _ _ (upsert_field_insert st id mn (JNum mnum) f v1 Hnone)).
  set (st1 := touch id _).
  assert (Happ1 : db_applications st1 !! id =
    Some (mkApplication (app_user_id a) (app_status a) (app_certification_type a)
            (app_notes a) (db_clock st) (app_created_at a))) by (unfold st1; rewrite touch_lookup; cbn -[lookup]; by rewrite Happ).
  rewrite (update_module_reaches_upsert st1 mnum mn id _ _ _ _ Hid Hmn Happ1) by
    (rewrite ?get_or_user_id, ?unauthorized_for_owner; done).
  assert (Hfind1 : List.find (field_key_matches id mn (Some f)) (db_module_data st1) =
     Some (new_field_row st id mn (Some f) (Some v1) "proxy_entered")).
  { apply find_app_none_hit; [done|]. unfold field_key_matches. simpl.
    by rewrite !bool_decide_true. }
  rewrite (se_catch_ret _ _ _ _ _ (upsert_field_edit st1 id mn (JNum mnum) f v2 _ Hfind1)).
  split_and!; [done|done|]. simpl.
  rewrite filter_key_edit, List.filter_app, find_none_filter_nil by done. simpl.
  unfold field_key_matches. simpl. rewrite !bool_decide_true by done. simpl.
  unfold edit_row. by rewrite decide_True.
Qed.

Lemma update_module_twice_witness :
  let st := sample_db [("app-1", sample_app "user-1" Draft)] [] [] in
  match update_module (JNum 1) (JStr "total_revenue") (JStr "100000") (JStr "app-1")
          (owner_ctx (sample_app "user-1" Draft)) st with
  | (r1, st1) =>
    match update_module (JNum 1) (JStr "total_revenue") (JStr "125000") (JStr "app-1")
            (owner_ctx (sample_app "user-1" Draft)) st1 with
    | (r2, st2) =>
        r1 = Ret (um_result (JStr "total_revenue") "financial" (JNum 1) JNull (JStr "100000") "proxy_entered") /\
        r2 = Ret (um_result (JStr "total_revenue") "financial" (JNum 1) (JStr "100000") (JStr "125000") "proxy_edited") /\
        List.filter (field_key_matches "app-1" "financial" (Some "total_revenue")) (db_module_data st2) =
          [mkModuleRow (db_next_id st) "app-1" (Some "financial") (Some "total_revenue") (Some "125000")
             (Some "proxy_edited") (Some 1000%Z) None None None None (db_clock st) (db_clock st)]
    end
  end.
Proof. apply update_module_twice; reflexivity || discriminate. Defined.

(** C36: [update_module] keeps (application, module name, field
    name) unique among [module_data] rows: whatever its arguments, if no
    two rows share a key before the call, none do after it. *)
Theorem update_module_unique_keys (mnum f v appid ctx : json) st r st' :
  unique_field_keys (db_module_data st) ->
  update_module mnum f v appid ctx st = (r, st') ->
  unique_field_keys (db_module_data st').
Proof.
  intros Hu Hrun. destruct (update_module_state _ _ _ _ _ _ _ _ Hrun)
    as [-> | (id & mn & mnum' & r' & Hup)]; [done|].
  by eapply upsert_field_unique.
Qed.

Lemma update_module_unique_keys_witness :
  let st := sample_db [("app-1", sample_app "user-1" Draft)] []
    [mkModuleRow 0 "app-1" (Some "financial") (Some "tax_year") (Some "2024")
       (Some "proxy_entered") (Some 1000%Z) None None None None 3 3] in
  unique_field_keys (db_module_data st) /\
  unique_field_keys (db_module_data
    (update_module (JNum 1) (JStr "tax_year") (JStr "2025") (JStr "app-1")
       (owner_ctx (sample_app "user-1" Draft)) st).2).
Proof.
  simpl. split.
  - unfold unique_field_keys. simpl. repeat constructor; set_solver.
  - destruct (update_module _ _ _ _ _ _) as [r st'] eqn:E. simpl.
    eapply update_module_unique_keys; [|exact E].
    unfold unique_field_keys. simpl. repeat constructor; set_solver.
Defined.

End UpdateModule.
