(* ===== verification/Certify.v ===== *)
(** * [certify_application]: the validation gate before the irreversible approval

    Models [src/ai-service/src/tools/certify_application.py].  After the
    confirmation flag, the target resolution, the existence, owner and
    terminal-status checks, the handler runs four independent checks
    (documents still pending, processing or in error; a module 1-5 with no
    data; fields flagged for audit; no document at all), collects every
    failure in one list, and writes only when the list is empty: the
    status becomes [approved], a note is appended, and an audit-trail row
    is added when the caller's user id is known.

    The checks only read the store, so [certify_checks] is a function of
    the store; [validation_failure] keeps each message's data, and
    [render_failure] rebuilds the message text of the source. *)

From S2P Require Import Prelude Json Store.

Open Scope string_scope.

Module Certify.

(** ** The validation checks (lines 143-217) *)

Inductive validation_failure :=
| DocsPending (n : nat)
| DocsProcessing (n : nat)
| DocsError (n : nat)
| MissingModules (ms : list Z)
| FlaggedFields (n : nat)
| NoDocuments.

#[export] Instance validation_failure_eq_dec : EqDecision validation_failure.
Proof. solve_decision. Defined.

(** [module_names] of lines 180-186. *)
Definition module_display_name (m : Z) : string :=
  match m with
  | 1%Z => "Financial Information"
  | 2%Z => "Compliance Records"
  | 3%Z => "Operations Data"
  | 4%Z => "Sustainability Practices"
  | _ => "Risk Management"
  end.

Fixpoint join_strings (sep : string) (l : list string) : string :=
  match l with
  | [] => ""
  | [s] => s
  | s :: l' => s +:+ sep +:+ join_strings sep l'
  end.

Definition render_failure (f : validation_failure) : string :=
  match f with
  | DocsPending n => pretty (N.of_nat n) +:+ " document(s) still pending processing"
  | DocsProcessing n => pretty (N.of_nat n) +:+ " document(s) currently being processed"
  | DocsError n => pretty (N.of_nat n) +:+ " document(s) failed processing"
  | MissingModules ms =>
      "Missing required modules: " +:+
      join_strings ", " (map (fun m => "Module " +:+ pretty m +:+ " (" +:+
                                       module_display_name m +:+ ")") ms)
  | FlaggedFields n =>
      pretty (N.of_nat n) +:+ " field(s) flagged for audit - must be reviewed before certification"
  | NoDocuments => "No documents uploaded - at least one document is required"
  end.

(** [SELECT ... FROM documents WHERE application_id = $1] *)
Definition docs_of (id : string) (docs : list document) : list document :=
  List.filter (fun d => bool_decide (doc_application_id d = id)) docs.

(** [doc_status_dict.get(s, 0)] after [GROUP BY extraction_status]. *)
Definition status_count (s : string) (docs : list document) : nat :=
  count_if (fun d => bool_decide (doc_extraction_status d = Some s)) docs.

(** [[m for m in [1, 2, 3, 4, 5] if m not in module_numbers]] where
    [module_numbers] are the distinct [module_number]s of the
    application's rows. *)
Definition missing_modules (id : string) (rows : list module_row) : list Z :=
  List.filter
    (fun m => negb (existsb (fun r => bool_decide (row_application_id r = id /\
                                                   row_module_number r = Some m)) rows))
    [1; 2; 3; 4; 5]%Z.

(** [SELECT COUNT( * ) FROM module_data WHERE application_id = $1 AND <flagged>] *)
Definition flagged_count (id : string) (rows : list module_row) : nat :=
  count_if (fun r => bool_decide (row_application_id r = id) && audit_flagged (row_value r)) rows.

Definition certify_checks (id : string) (st : db) : list validation_failure :=
  let docs := docs_of id (db_documents st) in
  let pending := status_count "pending" docs in
  let processing := status_count "processing" docs in
  let error := status_count "error" docs in
  let missing := missing_modules id (db_module_data st) in
  let flagged := flagged_count id (db_module_data st) in
  ((if decide (0 < pending) then [DocsPending pending] else []) ++
   (if decide (0 < processing) then [DocsProcessing processing] else []) ++
   (if decide (0 < error) then [DocsError error] else []) ++
   (match missing with [] => [] | _ => [MissingModules missing] end) ++
   (if decide (0 < flagged) then [FlaggedFields flagged] else []) ++
   (if decide (length docs = 0) then [NoDocuments] else []))%list.

(** ** The certification write (lines 229-282) *)

(** [UPDATE applications SET status = 'approved', updated_at = $1,
     notes = COALESCE(notes, '') || E'\n\nCertified at: ' || $2] *)
Definition approve (now : nat) (a : application) : application :=
  mkApplication (app_user_id a) Approved (app_certification_type a)
    (Some (default "" (app_notes a) +:+ "

Certified at: " +:+ iso_timestamp now)) now (app_created_at a).

Definition certify_write (id : string) (app : application) (user_id : json) : handler :=
  st ← se_get;
  let certified_at := db_clock st in
  se_put (with_applications (alter (approve certified_at) id) st) ;;
  (if truthy user_id then
     uid ← sql_param user_id;
     append_audit (mkAuditEntry id (default "" uid) "application_certified" None
                     (Some ("Application certified for " +:+ app_certification_type app))
                     certified_at)
   else mret tt) ;;
  mret [("success", JBool true); ("application_id", JStr id); ("status", JStr "approved");
        ("certification_type", JStr (app_certification_type app));
        ("certified_at", JStr (iso_timestamp certified_at));
        ("pdf_url", JStr ("/api/applications/" +:+ id +:+ "/certificate.pdf"))].

Definition validation_failed_result (id : string) (app : application)
    (fs : list validation_failure) : dict :=
  [("error", JStr "validation_failed");
   ("validation_failures", JArr (map (fun f => JStr (render_failure f)) fs));
   ("application_id", JStr id); ("current_status", JStr (status_text (app_status app)))].

(** [async def certify_application(certification_confirmed,
     application_id=None, session_context=None)] *)
Definition certify_application (certification_confirmed application_id session_context : json)
    : handler :=
  if negb (truthy certification_confirmed) then mret (err "confirmation_required") else
  target ← target_application_id application_id session_context;
  if negb (truthy target) then mret (err "application_id_required") else
  se_catch
    (user_id ← ctx_user_id session_context;
     app_row ← fetch_application target;
     match app_row with
     | None => mret (err "application_not_found")
     | Some (id, app) =>
         if unauthorized_for user_id (app_user_id app) then mret (err "unauthorized")
         else if is_locked (app_status app) then mret (err "already_certified")
         else
           st ← se_get;
           match certify_checks id st with
           | [] => certify_write id app user_id
           | fs => mret (validation_failed_result id app fs)
           end
     end)
    pg_or_internal.

(** ** Helper lemmas *)

(** The guards of [certify_application] in the code's order, for a truthy
    confirmation, an explicit application id and a dict context. *)
Lemma certify_guards st (c : json) id kvs :
  truthy c = true -> id <> "" ->
  certify_application c (JStr id) (JObj kvs) st =
    match db_applications st !! id with
    | None => (Ret (err "application_not_found"), st)
    | Some a =>
        if unauthorized_for (get_or "user_id" JNull kvs) (app_user_id a)
        then (Ret (err "unauthorized"), st)
        else if is_locked (app_status a) then (Ret (err "already_certified"), st)
        else match certify_checks id st with
             | [] => se_catch (certify_write id a (get_or "user_id" JNull kvs)) pg_or_internal st
             | fs => (Ret (validation_failed_result id a fs), st)
             end
    end.
Proof.
  intros Hc Hid. pose proof (proj2 (truthy_str id) Hid) as Ht.
  unfold certify_application. rewrite Hc. prologue_unfold.
  cbn -[certify_write certify_checks lookup truthy]. rewrite Ht.
  cbn -[certify_write certify_checks lookup truthy]. rewrite Ht.
  cbn -[certify_write certify_checks lookup truthy].
  destruct (db_applications st !! id) as [a|]; cbn -[certify_write certify_checks lookup truthy];
    [|done].
  destruct (unauthorized_for _ _), (is_locked (app_status a)); try done.
  by destruct (certify_checks id st).
Qed.

(** What the write does, for the owner's user id or a context without one. *)
Definition approved_store (id : string) (a : application) (uid : json) (st : db) : db :=
  let st1 := with_applications (alter (approve (db_clock st)) id) st in
  match uid with
  | JStr u =>
      if String.eqb u "" then st1
      else with_audit_trail (fun l => (l ++ [mkAuditEntry id u "application_certified" None
               (Some ("Application certified for " +:+ app_certification_type a))
               (db_clock st)])%list) st1
  | _ => st1
  end.

Definition certified_result (id : string) (a : application) (now : nat) : dict :=
  [("success", JBool true); ("application_id", JStr id); ("status", JStr "approved");
   ("certification_type", JStr (app_certification_type a));
   ("certified_at", JStr (iso_timestamp now));
   ("pdf_url", JStr ("/api/applications/" +:+ id +:+ "/certificate.pdf"))].

Lemma certify_write_run id a (uid : json) st :
  (uid = JNull \/ exists u, uid = JStr u) ->
  certify_write id a uid st = (Ret (certified_result id a (db_clock st)), approved_store id a uid st).
Proof.
  intros [-> | [u ->]]; unfold certify_write, approved_store, append_audit, sql_param; se_unfold;
    cbn -[alter]; [done|].
  by destruct (String.eqb u "").
Qed.

(** Every failing check is in the list, and every entry of the list is a
    failing check: the specification of [certify_checks], one clause per
    check of lines 146-217. *)
Definition failure_holds (id : string) (st : db) (f : validation_failure) : Prop :=
  let docs := docs_of id (db_documents st) in
  match f with
  | DocsPending n => n = status_count "pending" docs /\ 0 < n
  | DocsProcessing n => n = status_count "processing" docs /\ 0 < n
  | DocsError n => n = status_count "error" docs /\ 0 < n
  | MissingModules ms => ms = missing_modules id (db_module_data st) /\ ms <> []
  | FlaggedFields n => n = flagged_count id (db_module_data st) /\ 0 < n
  | NoDocuments => length docs = 0
  end.

Lemma elem_of_guarded {A} (P : Prop) `{Decision P} (f x : A) :
  f ∈ (if decide P then [x] else []) <-> P /\ f = x.
Proof.
  case_decide; rewrite ?list_elem_of_singleton; [naive_solver|].
  split; [intros Hx; by apply not_elem_of_nil in Hx | naive_solver].
Qed.

Lemma elem_of_missing (f : validation_failure) (ms : list Z) :
  f ∈ (match ms with [] => [] | _ => [MissingModules ms] end) <-> ms <> [] /\ f = MissingModules ms.
Proof.
  destruct ms; rewrite ?list_elem_of_singleton; [|naive_solver].
  split; [intros Hx; by apply not_elem_of_nil in Hx | naive_solver].
Qed.

Lemma certify_checks_elem id st f :
  f ∈ certify_checks id st <-> failure_holds id st f.
Proof.
  unfold certify_checks, failure_holds.
  rewrite !elem_of_app, !elem_of_guarded, elem_of_missing.
  destruct f; naive_solver.
Qed.

Lemma certify_checks_nil_iff id st :
  certify_checks id st = [] <->
  forall f, ~ failure_holds id st f.
Proof.
  split.
  - intros Hnil f Hf. assert (Hin : f ∈ certify_checks id st) by (by apply certify_checks_elem).
    rewrite Hnil in Hin. set_solver.
  - intros Hno. destruct (certify_checks id st) as [|f fs] eqn:E; [done|].
    exfalso. apply (Hno f), certify_checks_elem. rewrite E. set_solver.
Qed.

(** ** The gate in the terms of the specification *)

Lemma certify_checks_nil_counts id st :
  certify_checks id st = [] <->
  status_count "pending" (docs_of id (db_documents st)) = 0 /\
  status_count "processing" (docs_of id (db_documents st)) = 0 /\
  status_count "error" (docs_of id (db_documents st)) = 0 /\
  missing_modules id (db_module_data st) = [] /\
  flagged_count id (db_module_data st) = 0 /\
  docs_of id (db_documents st) <> [].
Proof.
  rewrite certify_checks_nil_iff. split.
  - intros H.
    assert (count : forall C n, (forall k, failure_holds id st (C k) <-> k = n /\ 0 < k) -> n = 0).
    { intros C n HC. destruct (decide (n = 0)) as [|Hn]; [done|]. exfalso. apply (H (C n)), HC. lia. }
    split_and!; [apply (count DocsPending) | apply (count DocsProcessing) | apply (count DocsError) | |
                 apply (count FlaggedFields) |]; try (intros k; simpl; naive_solver).
    + destruct (missing_modules _ _) as [|z l] eqn:E; [done|]. exfalso.
      apply (H (MissingModules (z :: l))). simpl. by rewrite E.
    + intros Hnil. apply (H NoDocuments). simpl. by rewrite Hnil.
  - intros (H1 & H2 & H3 & H4 & H5 & H6) f. destruct f; simpl; try lia.
    + intros [-> ?]. by rewrite H4 in *.
    + by rewrite length_zero_iff_nil.
Qed.

Lemma status_count_docs_zero id docs s :
  status_count s (docs_of id docs) = 0 <->
  forall d, d ∈ docs -> doc_application_id d = id -> doc_extraction_status d <> Some s.
Proof.
  unfold status_count, docs_of. rewrite count_if_zero. split.
  - intros H d Hd Hid Hs.
    assert (Hin : d ∈ List.filter (fun d => bool_decide (doc_application_id d = id)) docs)
      by (apply elem_of_list_filter_bool; split; [done|by apply bool_decide_eq_true]).
    specialize (H d Hin). by rewrite bool_decide_true in H.
  - intros H d [Hd Hid]%elem_of_list_filter_bool. apply bool_decide_eq_true in Hid.
    apply bool_decide_eq_false. by apply H.
Qed.

Lemma flagged_count_zero id rows :
  flagged_count id rows = 0 <->
  forall r, r ∈ rows -> row_application_id r = id -> audit_flagged (row_value r) = false.
Proof.
  unfold flagged_count. rewrite count_if_zero. split.
  - intros H r Hr Hid. specialize (H r Hr). by rewrite bool_decide_true in H.
  - intros H r Hr. destruct (decide (row_application_id r = id)) as [Hid|Hid].
    + rewrite bool_decide_true by done. by apply H.
    + by rewrite bool_decide_false.
Qed.

Lemma missing_modules_nil id rows :
  missing_modules id rows = [] <->
  forall m, (1 <= m <= 5)%Z -> exists r, r ∈ rows /\ row_application_id r = id /\ row_module_number r = Some m.
Proof.
  unfold missing_modules. rewrite filter_nil_iff. split.
  - intros H m Hm.
    assert (Hin : m ∈ [1; 2; 3; 4; 5]%Z)
      by (assert (m = 1 \/ m = 2 \/ m = 3 \/ m = 4 \/ m = 5)%Z as Hc by lia;
          destruct Hc as [->|[->|[->|[->| ->]]]]; set_solver).
    specialize (H m Hin). apply negb_false_iff, existsb_exists in H as (r & Hr & Hb).
    apply bool_decide_eq_true in Hb as [? ?]. exists r. split_and!; [by apply list_elem_of_In|done|done].
  - intros H m Hm. apply negb_false_iff, existsb_exists.
    assert (Hb : (1 <= m <= 5)%Z)
      by (repeat (apply elem_of_cons in Hm as [->|Hm]; [lia|]); by apply not_elem_of_nil in Hm).
    destruct (H m Hb) as (r & Hr & ? & ?). exists r. split; [by apply list_elem_of_In|].
    by apply bool_decide_eq_true.
Qed.

Lemma docs_of_nonempty id docs :
  docs_of id docs <> [] <-> exists d, d ∈ docs /\ doc_application_id d = id.
Proof.
  unfold docs_of. split.
  - intros H. destruct (List.filter _ docs) as [|d ds] eqn:E; [done|].
    assert (Hd : d ∈ List.filter (fun d => bool_decide (doc_application_id d = id)) docs)
      by (rewrite E; by left).
    apply elem_of_list_filter_bool in Hd as [Hd Hb]. apply bool_decide_eq_true in Hb. eauto.
  - intros (d & Hd & Hid) Hnil. rewrite filter_nil_iff in Hnil.
    specialize (Hnil d Hd). by rewrite bool_decide_true in Hnil.
Qed.

(** The write changes the application row only by [approve]. *)
Lemma certify_write_apps id a uid st r st' :
  certify_write id a uid st = (r, st') ->
  db_applications st' = alter (approve (db_clock st)) id (db_applications st).
Proof.
  unfold certify_write, append_audit, sql_param. se_unfold. cbn -[alter].
  destruct (truthy uid); [|by intros [= _ <-]].
  destruct (sql_text uid); cbn -[alter]; by intros [= _ <-].
Qed.

Lemma certify_application_state (c appid ctx : json) st r st' :
  certify_application c appid ctx st = (r, st') ->
  st' = st \/
  exists id a uid r', db_applications st !! id = Some a /\ is_locked (app_status a) = false /\
    certify_checks id st = [] /\ certify_write id a uid st = (r', st').
Proof.
  intros Hrun. unfold certify_application, ctx_user_id in Hrun. prologue_unfold.
  repeat (case_match; simplify_eq/=);
    repeat match goal with H : pg_or_internal _ _ = _ |- _ => apply pg_or_internal_state in H end;
    se_unfold; simplify_eq/=; try (by left); right.
  all: match goal with H : (λ a, (?s, a)) <$> _ = Some (_, _) |- _ =>
         apply fmap_Some in H as (? & ? & ?); simplify_eq end; eauto 10.
Qed.

(** ** Properties *)

(** C1: the validation gate in the terms of the specification: no
    check fails for an application exactly when each of modules 1 to 5
    has a [module_data] row, none of its rows is flagged for audit, it has
    at least one document, and none of its documents is pending,
    processing or in error. *)
Theorem certify_gate_spec id st :
  certify_checks id st = [] <->
  (forall m, (1 <= m <= 5)%Z ->
     exists r, r ∈ db_module_data st /\ row_application_id r = id /\ row_module_number r = Some m) /\
  (forall r, r ∈ db_module_data st -> row_application_id r = id -> audit_flagged (row_value r) = false) /\
  (exists d, d ∈ db_documents st /\ doc_application_id d = id) /\
  (forall d, d ∈ db_documents st -> doc_application_id d = id ->
     doc_extraction_status d <> Some "pending" /\ doc_extraction_status d <> Some "processing" /\
     doc_extraction_status d <> Some "error").
Proof.
  rewrite certify_checks_nil_counts, !status_count_docs_zero, missing_modules_nil, flagged_count_zero,
    docs_of_nonempty.
  split.
  - intros (Hp & Hpr & He & Hm & Hf & Hd). split_and!; [done..|]. intros d Hd' Hid. split_and!; eauto.
  - intros (Hm & Hf & Hd & Hs). split_and!; try done; intros d Hd' Hid; apply (Hs d Hd' Hid).
Qed.


(** The scenario of spec §8: modules 4 and 5 missing, one pending document,
    one flagged field; the three classes are reported together. *)
Definition gate_scenario : db :=
  sample_db [("app-1", sample_app "user-1" InProgress)]
    [mkDocument "doc-1" "app-1" "tax_return" "t.pdf" None (Some "pending") None None None None None 0]
    [mkModuleRow 0 "app-1" None None None None None (Some 1%Z) (Some "total_revenue")
       (Some (JObj [("_value", JStr "125000"); ("_audit_flagged", JBool true)])) None 1 1;
     mkModuleRow 1 "app-1" None None None None None (Some 2%Z) (Some "license") None None 1 1;
     mkModuleRow 2 "app-1" None None None None None (Some 3%Z) (Some "acres") None None 1 1].

Example gate_scenario_checks :
  certify_checks "app-1" gate_scenario =
    [DocsPending 1; MissingModules [4; 5]%Z; FlaggedFields 1].
Proof. reflexivity. Qed.


(** C3: when every check passes, the owner's certification returns
    the success payload, sets the status to [approved] with the
    certification note appended, and appends exactly one audit-trail row
    [application_certified]. *)
Theorem certify_success st id a :
  id <> "" -> app_user_id a <> "" ->
  db_applications st !! id = Some a -> is_locked (app_status a) = false ->
  certify_checks id st = [] ->
  exists st',
    certify_application (JBool true) (JStr id) (owner_ctx a) st =
      (Ret (certified_result id a (db_clock st)), st') /\
    db_applications st' !! id = Some (approve (db_clock st) a) /\
    app_status (approve (db_clock st) a) = Approved /\
    db_audit_trail st' = (db_audit_trail st ++
      [mkAuditEntry id (app_user_id a) "application_certified" None
         (Some ("Application certified for " +:+ app_certification_type a)) (db_clock st)])%list.
Proof.
  intros Hid Hu Happ Hlock Hok. unfold owner_ctx.
  rewrite certify_guards by done. rewrite Happ, get_or_user_id, unauthorized_for_owner, Hlock, Hok.
  rewrite (se_catch_ret _ _ _ _ _ (certify_write_run id a (JStr (app_user_id a)) st
             ltac:(by right; eexists))).
  eexists. split; [done|]. unfold approved_store.
  destruct (String.eqb_spec (app_user_id a) ""); [done|]. simpl.
  split; [|done]. by rewrite lookup_alter_eq, Happ.
Qed.

Definition ready_store : db :=
  sample_db [("app-1", sample_app "user-1" UnderReview)]
    [mkDocument "doc-1" "app-1" "tax_return" "t.pdf" (Some "completed") (Some "processed") None None None None None 0]
    (map (fun m => mkModuleRow (Z.to_nat m) "app-1" None None None None None (Some m)
                     (Some "f") (Some (JStr "x")) None 1 1) [1; 2; 3; 4; 5]%Z).

Lemma certify_success_witness :
  exists st',
    certify_application (JBool true) (JStr "app-1") (owner_ctx (sample_app "user-1" UnderReview))
      ready_store = (Ret (certified_result "app-1" (sample_app "user-1" UnderReview) 7), st') /\
    db_applications st' !! "app-1" = Some (approve 7 (sample_app "user-1" UnderReview)) /\
    app_status (approve 7 (sample_app "user-1" UnderReview)) = Approved /\
    db_audit_trail st' = ([] ++
      [mkAuditEntry "app-1" "user-1" "application_certified" None
         (Some ("Application certified for " +:+ "standard")) 7])%list.
Proof. apply (certify_success ready_store); reflexivity || discriminate. Defined.

(** C2: no partial certification.  Whatever the arguments, a
    call of [certify_application] that changes the store found an
    existing, non-terminal application whose checks all pass, and its
    only change to the applications table is approving that one. *)
Theorem certify_no_partial_write (c appid ctx : json) st r st' :
  certify_application c appid ctx st = (r, st') -> st' <> st ->
  exists id a, db_applications st !! id = Some a /\ is_locked (app_status a) = false /\
    certify_checks id st = [] /\
    db_applications st' = <[id := approve (db_clock st) a]> (db_applications st).
Proof.
  intros Hrun Hne. destruct (certify_application_state _ _ _ _ _ _ Hrun)
    as [-> | (id & a & uid & r' & Happ & Hlock & Hok & Hw)]; [done|].
  exists id, a. split_and!; [done..|].
  rewrite (certify_write_apps _ _ _ _ _ _ Hw). by apply alter_lookup_insert.
Qed.

Definition certify_ready_run : (outcome dict * db)%type :=
  certify_application (JBool true) (JStr "app-1") JNull ready_store.

Lemma certify_no_partial_write_witness :
  snd certify_ready_run <> ready_store /\
  exists id a, db_applications ready_store !! id = Some a /\ is_locked (app_status a) = false /\
    certify_checks id ready_store = [] /\
    db_applications (snd certify_ready_run) = <[id := approve (db_clock ready_store) a]> (db_applications ready_store).
Proof.
  split.
  - intros H. apply (f_equal (fun s => app_status <$> db_applications s !! "app-1")) in H.
    vm_compute in H. discriminate.
  - apply (certify_no_partial_write (JBool true) (JStr "app-1") JNull ready_store
             (fst certify_ready_run)); [apply surjective_pairing|].
    intros H. apply (f_equal (fun s => app_status <$> db_applications s !! "app-1")) in H.
    vm_compute in H. discriminate.
Defined.

(** C34: a falsy [certification_confirmed] ([False], [None],
    [0], [""], [[]] or [{}]) returns [confirmation_required] before
    anything is read, and the store is unchanged. *)
Theorem certify_requires_confirmation (c appid ctx : json) st :
  truthy c = false ->
  certify_application c appid ctx st = (Ret (err "confirmation_required"), st).
Proof. intros Hc. unfold certify_application. by rewrite Hc. Qed.

Lemma certify_requires_confirmation_witness :
  certify_application (JBool false) (JStr "app-1") JNull ready_store =
    (Ret (err "confirmation_required"), ready_store).
Proof. apply certify_requires_confirmation. reflexivity. Defined.

End Certify.
