(* ===== verification/RequestAudit.v ===== *)
(** * [request_audit]: flagging fields and documents for human review

    Models [src/ai-service/src/tools/request_audit.py].  After resolving the
    target and checking that a document or some field ids are given, the
    handler loads the application and checks ownership (there is no lock
    check), flags the document if one is named, flags every field id that
    matches a row (by [module_data.field_id]), appends one audit-trail row
    when the caller's user id is known, and bumps [updated_at].

    The UPDATE meant to flag a field (lines 213-240) passes [$1] and [$2]
    only as arguments of [jsonb_build_object(VARIADIC "any")], with no
    cast: PostgreSQL cannot determine their types when the statement is
    prepared ("could not determine data type of parameter $1") and
    rejects it before looking at any row, so the model raises
    [PostgresError] there.  asyncpg prepares every statement it sends, so
    this happens on every call, whatever the row's value.

    The document branch issues an UPDATE whose SET list assigns the column
    [metadata] three times (lines 164-188); PostgreSQL rejects such a
    statement ("multiple assignments to same column"), so the model
    raises [PostgresError] there, which the handler reports as
    [database_error]. *)

From S2P Require Import Prelude Json Store.

Open Scope string_scope.

Module RequestAudit.

(** ** The update of a flagged field (lines 213-240) *)

(** [UPDATE module_data SET value = CASE ... jsonb_build_object(...,
    '_audit_reason', $1, '_audit_requested_at', $2) END ... WHERE id = $3]:
    rejected when prepared, since [$1] and [$2] have no type. *)
Definition flag_row (rid : nat) (reason : option string) : SE db unit :=
  se_raise PostgresError.

(** [SELECT ... FROM module_data WHERE application_id = $1 AND field_id = $2] *)
Definition field_id_matches (app : string) (fid : option string) (r : module_row) : bool :=
  bool_decide (row_application_id r = app) &&
  match fid with Some f => bool_decide (row_field_id r = Some f) | None => false end.

(** [for field_id in field_ids:] flag the first matching row of each id,
    counting the rows flagged (lines 200-243). *)
Fixpoint flag_fields (id : string) (reason : json) (items : list json) (count : nat)
    : SE db nat :=
  match items with
  | [] => mret count
  | field_id :: rest =>
      fid ← sql_param field_id;
      st ← se_get;
      match List.find (field_id_matches id fid) (db_module_data st) with
      | Some field_row =>
          rsn ← sql_param reason;
          flag_row (row_id field_row) rsn ;;
          flag_fields id reason rest (S count)
      | None => flag_fields id reason rest count
      end
  end.

(** [if field_ids and len(field_ids) > 0:] ([len] raises on a non-sized
    value). *)
Definition flag_field_ids (id : string) (reason field_ids : json) : SE db nat :=
  if truthy field_ids then
    match py_iter field_ids with
    | None => se_raise TypeError
    | Some items => if decide (0 < length items) then flag_fields id reason items 0 else mret 0
    end
  else mret 0.

(** [SELECT id, document_type, extraction_status FROM documents
     WHERE id = $1 AND application_id = $2] *)
Definition doc_in_app (did : option string) (app : string) (d : document) : bool :=
  match did with
  | Some x => bool_decide (doc_id d = x) && bool_decide (doc_application_id d = app)
  | None => false
  end.

(** The UPDATE of lines 164-194 assigns [metadata] three times in one SET
    list: PostgreSQL rejects it before changing any row. *)
Definition update_doc_audit (did : string) (reason : json) : SE db unit :=
  se_raise PostgresError.

(** The audit-trail row and the result (lines 245-281). *)
Definition finish_audit (id : string) (user_id reason field_ids : json) (flagged_document : bool)
    (count : nat) : handler :=
  (if truthy user_id then
     uid ← sql_param user_id;
     field_list ← (if truthy field_ids then
                     match py_iter field_ids ≫= py_join ", " with
                     | Some s => mret (Some s)
                     | None => se_raise TypeError
                     end
                   else mret None);
     rsn ← sql_param reason;
     st ← se_get;
     append_audit (mkAuditEntry id (default "" uid) "audit_requested" field_list rsn (db_clock st))
   else mret tt) ;;
  touch_application id ;;
  mret [("success", JBool true); ("flagged_fields_count", JNum (Z.of_nat count));
        ("flagged_document", JBool flagged_document); ("reason", reason)].

(** The work after the owner check (lines 143-281). *)
Definition audit_targets (id : string) (user_id reason document_id field_ids : json) : handler :=
  if truthy document_id then
    did ← sql_param document_id;
    st ← se_get;
    match List.find (doc_in_app did id) (db_documents st) with
    | None => mret (err "document_not_found")
    | Some _ =>
        update_doc_audit (default "" did) reason ;;
        count ← flag_field_ids id reason field_ids;
        finish_audit id user_id reason field_ids true count
    end
  else
    count ← flag_field_ids id reason field_ids;
    finish_audit id user_id reason field_ids false count.

(** [async def request_audit(reason, application_id=None, document_id=None,
     field_ids=None, session_context=None)] *)
Definition request_audit (reason application_id document_id field_ids session_context : json)
    : handler :=
  target ← target_application_id application_id session_context;
  if negb (truthy target) then mret (err "application_id_required") else
  if negb (truthy document_id) && negb (truthy field_ids) then mret (err "no_targets_specified")
  else
  se_catch
    (user_id ← ctx_user_id session_context;
     app_row ← fetch_application target;
     match app_row with
     | None => mret (err "application_not_found")
     | Some (id, app) =>
         if unauthorized_for user_id (app_user_id app) then mret (err "unauthorized")
         else audit_targets id user_id reason document_id field_ids
     end)
    pg_or_internal.

(** ** Helper lemmas *)

Lemma request_audit_guards st id (reason document_id field_ids : json) kvs :
  id <> "" -> truthy document_id || truthy field_ids = true ->
  request_audit reason (JStr id) document_id field_ids (JObj kvs) st =
    match db_applications st !! id with
    | None => (Ret (err "application_not_found"), st)
    | Some a =>
        if unauthorized_for (get_or "user_id" JNull kvs) (app_user_id a)
        then (Ret (err "unauthorized"), st)
        else se_catch (audit_targets id (get_or "user_id" JNull kvs) reason document_id field_ids)
               pg_or_internal st
    end.
Proof.
  intros Hid Htgt. pose proof (proj2 (truthy_str id) Hid) as Ht.
  unfold request_audit. prologue_unfold.
  cbn -[audit_targets lookup truthy]. rewrite Ht.
  destruct (truthy document_id), (truthy field_ids); try discriminate;
    cbn -[audit_targets lookup truthy]; rewrite Ht; cbn -[audit_targets lookup truthy];
    destruct (db_applications st !! id) as [a|]; cbn -[audit_targets lookup truthy]; try done;
    by destruct (unauthorized_for (get_or "user_id" JNull kvs) (app_user_id a)).
Qed.

(** The first field id that matches a row stops the loop with the
    rejected UPDATE, before anything is written. *)
Lemma flag_fields_hit id (reason : string) (fs : list string) f r count st :
  f ∈ fs -> List.find (field_id_matches id (Some f)) (db_module_data st) = Some r ->
  flag_fields id (JStr reason) (map JStr fs) count st = (Exc PostgresError, st).
Proof.
  intros Hf Hr. revert count. induction fs as [|g gs IH]; intros count; [by apply not_elem_of_nil in Hf|].
  simpl. unfold sql_param, flag_row. se_unfold. simpl.
  destruct (List.find (field_id_matches id (Some g)) (db_module_data st)) eqn:E; [done|].
  apply elem_of_cons in Hf as [->|Hf]; [congruence|]. by apply IH.
Qed.

(** ** Properties *)

(** C29: flagging a field never succeeds.  When the owner names field
    ids (and no document) and one of them matches a [module_data] row of
    the application, the UPDATE that would flag it is rejected by
    PostgreSQL, [request_audit] returns [database_error], and the store is
    unchanged: no field is flagged and no audit-trail row is written. *)
Theorem request_audit_field_fails st id a (reason : string) (fs : list string) f r :
  id <> "" -> db_applications st !! id = Some a -> f ∈ fs ->
  List.find (field_id_matches id (Some f)) (db_module_data st) = Some r ->
  request_audit (JStr reason) (JStr id) JNull (JArr (map JStr fs)) (owner_ctx a) st =
    (Ret (err "database_error"), st).
Proof.
  intros Hid Happ Hf Hr. unfold owner_ctx.
  assert (Ht : truthy (JArr (map JStr fs)) = true) by (destruct fs; [by apply not_elem_of_nil in Hf|done]).
  assert (Hn : 0 < length (map JStr fs)) by (destruct fs; [by apply not_elem_of_nil in Hf|simpl; lia]).
  rewrite request_audit_guards by (done || by rewrite Ht, orb_true_r).
  rewrite Happ, get_or_user_id, unauthorized_for_owner.
  rewrite (se_catch_exc _ _ _ PostgresError st); [reflexivity|].
  unfold audit_targets, flag_field_ids. cbn -[truthy flag_fields]. rewrite Ht.
  cbn -[flag_fields]. rewrite decide_True by done. rewrite se_bind_run.
  by rewrite (flag_fields_hit id reason fs f r 0 st Hf Hr).
Qed.

Lemma request_audit_field_fails_witness :
  let a := sample_app "user-1" Draft in
  let r := mkModuleRow 0 "app-1" None None None None None (Some 1%Z) (Some "total_revenue")
             (Some (JStr "125000")) None 1 1 in
  let st := sample_db [("app-1", a)] [] [r] in
  request_audit (JStr "low OCR confidence") (JStr "app-1") JNull (JArr (map JStr ["total_revenue"]))
    (owner_ctx a) st = (Ret (err "database_error"), st).
Proof.
  eapply (request_audit_field_fails _ _ _ _ _ "total_revenue"); [discriminate|reflexivity|by left|reflexivity].
Defined.

(** C32: the document branch never succeeds.  When the named
    document belongs to the application, the UPDATE that flags it is
    rejected by PostgreSQL (three assignments to [metadata]), the handler
    returns [database_error], and neither the document nor any field is
    flagged. *)
Theorem request_audit_document_fails st id a did d (reason field_ids : json) :
  id <> "" -> did <> "" -> db_applications st !! id = Some a ->
  List.find (doc_in_app (Some did) id) (db_documents st) = Some d ->
  request_audit reason (JStr id) (JStr did) field_ids (owner_ctx a) st =
    (Ret (err "database_error"), st).
Proof.
  intros Hid Hdid Happ Hdoc. unfold owner_ctx.
  pose proof (proj2 (truthy_str _) Hdid) as Htd.
  rewrite request_audit_guards by (done || by rewrite Htd).
  rewrite Happ, get_or_user_id, unauthorized_for_owner.
  unfold audit_targets, update_doc_audit, sql_param. se_unfold.
  rewrite Htd. cbn -[List.find truthy]. by rewrite Hdoc.
Qed.

Lemma request_audit_document_fails_witness :
  let a := sample_app "user-1" Draft in
  let st := sample_db [("app-1", a)]
    [mkDocument "doc-1" "app-1" "tax_return" "t.pdf" None (Some "processed") None None None None None 0] [] in
  request_audit (JStr "blurry scan") (JStr "app-1") (JStr "doc-1") JNull (owner_ctx a) st =
    (Ret (err "database_error"), st).
Proof. eapply request_audit_document_fails; reflexivity || discriminate. Defined.

(** with neither a document id nor field ids,
    [request_audit] returns [no_targets_specified] before reading the
    store. *)
Theorem request_audit_no_targets (reason document_id field_ids ctx : json) id st :
  id <> "" -> truthy document_id = false -> truthy field_ids = false ->
  request_audit reason (JStr id) document_id field_ids ctx st =
    (Ret (err "no_targets_specified"), st).
Proof.
  intros Hid Hd Hf. pose proof (proj2 (truthy_str _) Hid) as Ht.
  unfold request_audit. rewrite target_application_id_explicit_fun by done. se_unfold.
  cbn -[truthy]. by rewrite Ht, Hd, Hf.
Qed.

Lemma request_audit_no_targets_witness :
  request_audit (JStr "check") (JStr "app-1") JNull (JArr []) JNull (sample_db [] [] []) =
    (Ret (err "no_targets_specified"), sample_db [] [] []).
Proof. apply request_audit_no_targets; reflexivity || discriminate. Defined.

End RequestAudit.
