(* ===== verification/History.v ===== *)
(** * The conversation history manager ([src/conversation/history.py])

    [ConversationHistory] turns the messages of a chat session, as loaded
    from [agfin_ai_bot_messages], into the list sent to the Claude API: it
    keeps the [user] and [assistant] messages ([format_for_claude]),
    estimates tokens at four characters a token ([estimate_tokens]), drops
    the oldest messages when the estimate exceeds [max_tokens]
    ([truncate_to_fit]), checks that the roles alternate starting with
    [user] ([validate_alternation]) and chains the three in
    [prepare_for_api].  It also keeps a per-session cache and can summarise
    old messages.  The module-level singleton of [get_history_manager] is
    modelled as an optional manager threaded explicitly.

    A message is its role and its content (the [id] and [created_at]
    columns are only logged).  Contents are [string]s of the Standard
    Library, whose length counts characters of an 8-bit alphabet where
    Python's [len] counts code points; the estimates agree on ASCII text.
    [tokens_per_char] is fixed at the default [1/4], so
    [int(total_chars * tokens_per_char)] is [total_chars / 4]. *)

From S2P Require Import Prelude.

Open Scope string_scope.

Module History.

(** ** Data *)

Record message := mkMessage { msg_role : string; msg_content : string }.

#[export] Instance message_eq_dec : EqDecision message.
Proof. solve_decision. Defined.

#[warnings="-abstract-large-number"]
Definition DEFAULT_MAX_TOKENS : nat := 150000.
Definition TOKENS_PER_MESSAGE_ESTIMATE : nat := 4.

(** The fields of a [ConversationHistory] object. *)
Record conversation_history := mkHistory {
  max_tokens : nat;
  cache : gmap string (list message)
}.

(** [ConversationHistory()] with its default arguments. *)
Definition new_history : conversation_history := mkHistory DEFAULT_MAX_TOKENS ∅.

(** ** Formatting and estimation *)

(** [role in ["user", "assistant"]] *)
Definition valid_role (r : string) : bool :=
  String.eqb r "user" || String.eqb r "assistant".

(** [format_for_claude(messages)] without metadata: the messages with a
    valid role, in order. *)
Definition format_for_claude (messages : list message) : list message :=
  List.filter (fun m => valid_role (msg_role m)) messages.

(** [sum(len(msg.get("content", "")) for msg in messages)] *)
Definition total_chars (messages : list message) : nat :=
  sum_list_with (fun m => String.length (msg_content m)) messages.

(** [int(total_chars * self.tokens_per_char)] with [tokens_per_char = 1/4]. *)
Definition estimate_tokens (messages : list message) : nat :=
  total_chars messages / TOKENS_PER_MESSAGE_ESTIMATE.

(** ** Truncation *)

(** The loop [for msg in reversed(remaining_messages)]: [older] is
    [reversed(remaining_messages)] and [truncated] the list built so far;
    a message is prepended while the estimate stays within [max], and the
    loop breaks at the first message that does not fit. *)
Fixpoint prepend_older (max : nat) (older truncated : list message) : list message :=
  match older with
  | [] => truncated
  | msg :: older' =>
      if decide (estimate_tokens (msg :: truncated) <= max)
      then prepend_older max older' (msg :: truncated)
      else truncated
  end.

(** [truncate_to_fit(messages, keep_most_recent)] *)
Definition truncate_to_fit (h : conversation_history) (messages : list message)
    (keep_most_recent : nat) : list message :=
  match messages with
  | [] => []
  | _ =>
      if decide (estimate_tokens messages <= max_tokens h) then messages
      else
        let long := decide (keep_most_recent < length messages) in
        let kept_messages :=
          if long then py_last keep_most_recent messages else messages in
        let remaining_messages :=
          if long then py_but_last keep_most_recent messages else [] in
        prepend_older (max_tokens h) (rev remaining_messages) kept_messages
  end.

(** ** Alternation *)

(** The error strings of [validate_alternation], as data. *)
Inductive alternation_error :=
| InvalidRole (idx : nat) (role : string)
| NonAlternating (idx : nat) (prev_role role : string)
| MustStartWithUser.

(** The loop [for idx, msg in enumerate(messages)] with [prev_role]. *)
Fixpoint check_roles (prev_role : option string) (idx : nat) (messages : list message)
    : option alternation_error :=
  match messages with
  | [] => None
  | msg :: messages' =>
      let role := msg_role msg in
      if negb (valid_role role) then Some (InvalidRole idx role)
      else match prev_role with
           | Some p => if String.eqb role p then Some (NonAlternating idx p role)
                       else check_roles (Some role) (S idx) messages'
           | None => check_roles (Some role) (S idx) messages'
           end
  end.

(** [validate_alternation(messages)] *)
Definition validate_alternation (messages : list message)
    : bool * option alternation_error :=
  match messages with
  | [] => (true, None)
  | msg0 :: _ =>
      match check_roles None 0 messages with
      | Some e => (false, Some e)
      | None =>
          if String.eqb (msg_role msg0) "user" then (true, None)
          else (false, Some MustStartWithUser)
      end
  end.

(** Lines 219-231 of [prepare_for_api]: truncate, format, append. *)
Definition prepared_messages (h : conversation_history) (messages : list message)
    (new_user_message : option string) (auto_truncate : bool) : list message :=
  let messages := if auto_truncate then truncate_to_fit h messages 10 else messages in
  let formatted := format_for_claude messages in
  match new_user_message with
  | Some s => if String.eqb s "" then formatted
              else (formatted ++ [mkMessage "user" s])%list
  | None => formatted
  end.

(** [prepare_for_api(messages, new_user_message, auto_truncate)]; the
    [ValueError] it raises is an [Exc]. *)
Definition prepare_for_api (h : conversation_history) (messages : list message)
    (new_user_message : option string) (auto_truncate : bool) : outcome (list message) :=
  let formatted := prepared_messages h messages new_user_message auto_truncate in
  match validate_alternation formatted with
  | (true, _) => Ret formatted
  | (false, _) => Exc ValueError
  end.

(** ** The cache *)

(** [self._cache[session_id] = messages] *)
Definition cache_history (session_id : string) (messages : list message)
    (h : conversation_history) : conversation_history :=
  mkHistory (max_tokens h) (<[session_id := messages]> (cache h)).

(** [self._cache.get(session_id)] *)
Definition get_cached_history (session_id : string) (h : conversation_history)
    : option (list message) :=
  cache h !! session_id.

(** [clear_cache(session_id)]: [if session_id:] pops one entry, otherwise
    the whole cache is cleared. *)
Definition clear_cache (session_id : option string) (h : conversation_history)
    : conversation_history :=
  match session_id with
  | Some s => if String.eqb s "" then mkHistory (max_tokens h) ∅
              else mkHistory (max_tokens h) (delete s (cache h))
  | None => mkHistory (max_tokens h) ∅
  end.

(** ** Summaries *)

Fixpoint join_with (sep : string) (l : list string) : string :=
  match l with
  | [] => ""
  | [s] => s
  | s :: l' => s +:+ sep +:+ join_with sep l'
  end.

(** [summarize_old_messages(messages, summary_threshold)] *)
Definition summarize_old_messages (messages : list message) (summary_threshold : nat)
    : option string * list message :=
  if decide (length messages <= summary_threshold) then (None, messages)
  else
    let old_messages := py_but_last summary_threshold messages in
    let recent_messages := py_last summary_threshold messages in
    let user_message_count :=
      count_if (fun m => String.eqb (msg_role m) "user") old_messages in
    let assistant_message_count := length old_messages - user_message_count in
    let all_text := join_with " " (map msg_content old_messages) in
    (Some ("Previous conversation summary (" +:+ pretty (length old_messages)
           +:+ " messages):" +:+ String (Ascii.ascii_of_nat 10) EmptyString
           +:+ "- User questions: " +:+ pretty user_message_count
           +:+ String (Ascii.ascii_of_nat 10) EmptyString
           +:+ "- Assistant responses: " +:+ pretty assistant_message_count
           +:+ String (Ascii.ascii_of_nat 10) EmptyString
           +:+ "- Topics discussed: " +:+ String.substring 0 200 all_text +:+ "..."),
     recent_messages).

(** ** The module-level instance *)

(** [get_history_manager()]: the global [_history_manager], created on
    first use. *)
Definition get_history_manager (global : option conversation_history)
    : conversation_history * option conversation_history :=
  match global with
  | Some h => (h, Some h)
  | None => (new_history, Some new_history)
  end.

(** [reset_history_manager()] *)
Definition reset_history_manager (global : option conversation_history)
    : option conversation_history := None.

(** ** The reference specification of a well-formed conversation *)

Definition other_role (r : string) : string :=
  if String.eqb r "user" then "assistant" else "user".

(** [alternating r ms]: the roles of [ms] are [r], [other_role r], [r], ...
    (the conversation shape the Claude API accepts, with [r = "user"]). *)
Inductive alternating : string -> list message -> Prop :=
| alt_nil r : alternating r []
| alt_cons r m ms :
    msg_role m = r -> alternating (other_role r) ms -> alternating r (m :: ms).

(** ** Lemmas on estimation and truncation *)

Lemma total_chars_app l k : total_chars (l ++ k) = total_chars l + total_chars k.
Proof. apply sum_list_with_app. Qed.

(** A longer suffix never has a smaller estimate. *)
Lemma estimate_tokens_suffix l1 l2 :
  suffix l1 l2 -> estimate_tokens l1 <= estimate_tokens l2.
Proof.
  intros [k ->]. unfold estimate_tokens. apply Nat.Div0.div_le_mono.
  rewrite total_chars_app. lia.
Qed.

(** The loop returns [drop i (pre ++ suf)] for some [i] within [pre]:
    every suffix longer than the result is over the limit, and the result
    is within it as soon as [suf] is. *)
Lemma prepend_older_spec max pre suf :
  exists i, prepend_older max (rev pre) suf = drop i (pre ++ suf) /\
    i <= length pre /\
    (estimate_tokens suf <= max -> estimate_tokens (drop i (pre ++ suf)) <= max) /\
    (forall j, j < i -> max < estimate_tokens (drop j (pre ++ suf))).
Proof.
  revert suf. induction pre as [|x pre IH] using rev_ind; intros suf.
  { exists 0. simpl. split_and!; [done | lia | done | lia]. }
  rewrite rev_app_distr, <-app_assoc. cbn [rev app prepend_older].
  case_decide as Hfit.
  - destruct (IH (x :: suf)) as (i & -> & Hi & Hf & Hmax).
    exists i. rewrite length_app. split_and!; [done | simpl; lia | | done].
    intros _. by apply Hf.
  - exists (length pre + 1). split_and!.
    + by rewrite drop_app_add.
    + rewrite length_app. simpl. lia.
    + by rewrite drop_app_add.
    + intros j Hj. apply Nat.lt_le_trans with (estimate_tokens (x :: suf)); [lia|].
      apply estimate_tokens_suffix. rewrite drop_app_le by lia.
      by eexists.
Qed.

Lemma prepend_older_over max older suf :
  max < estimate_tokens suf -> prepend_older max older suf = suf.
Proof.
  intros Hover. destruct older as [|m older]; simpl; [done|].
  rewrite decide_False; [done|].
  pose proof (estimate_tokens_suffix suf (m :: suf) ltac:(by exists [m])).
  lia.
Qed.

Lemma py_slices_app {A} k (l : list A) : l = (py_but_last k l ++ py_last k l)%list.
Proof.
  unfold py_but_last, py_last. case_decide; [done|]. by rewrite take_drop.
Qed.

Lemma py_last_all {A} k (l : list A) : length l <= k -> py_last k l = l.
Proof.
  intros Hk. unfold py_last. case_decide; [done|].
  by replace (length l - k) with 0 by lia.
Qed.

(** [truncate_to_fit] either returns the history unchanged, because it
    fits, or runs the backward loop from the window [messages[-k:]] over
    the older messages [pre]. *)
Lemma truncate_to_fit_cases h ms k :
  (estimate_tokens ms <= max_tokens h /\ truncate_to_fit h ms k = ms) \/
  (max_tokens h < estimate_tokens ms /\
   exists pre, ms = (pre ++ py_last k ms)%list /\
     truncate_to_fit h ms k = prepend_older (max_tokens h) (rev pre) (py_last k ms)).
Proof.
  unfold truncate_to_fit. destruct ms as [|m ms']; [left; split; [cbn; lia | done]|].
  set (ms := m :: ms'). case_decide as Hfit; [by left|]. right. split; [lia|].
  case_decide as Hlong.
  - exists (py_but_last k ms). split; [apply py_slices_app | done].
  - exists []. rewrite py_last_all by lia. done.
Qed.

(** ** Lemmas on alternation *)

Lemma valid_role_cases r : valid_role r = true -> r = "user" \/ r = "assistant".
Proof.
  unfold valid_role. intros [->%String.eqb_eq | ->%String.eqb_eq]%orb_true_iff; auto.
Qed.

Lemma valid_other_role r : valid_role (other_role r) = true.
Proof. unfold other_role. by destruct (String.eqb r "user"). Qed.

Lemma alternating_cons_iff r m ms :
  alternating r (m :: ms) <-> msg_role m = r /\ alternating (other_role r) ms.
Proof. split; [by inversion 1 | intros [??]; by constructor]. Qed.

(** After a valid role [p], the loop succeeds exactly on a sequence
    alternating from the other role. *)
Lemma check_roles_some p i ms :
  valid_role p = true ->
  check_roles (Some p) i ms = None <-> alternating (other_role p) ms.
Proof.
  revert p i. induction ms as [|m ms IH]; intros p i Hp; cbn [check_roles].
  { split; [constructor | done]. }
  rewrite alternating_cons_iff.
  destruct (valid_role (msg_role m)) eqn:Hm; cbn [negb].
  - apply valid_role_cases in Hm, Hp.
    destruct Hm as [Hm|Hm], Hp as [-> | ->]; rewrite Hm; cbn;
      first [ rewrite IH by reflexivity; naive_solver
            | split; [discriminate | intros [? _]; discriminate] ].
  - split; [discriminate|]. intros [Hr _]. by rewrite Hr, valid_other_role in Hm.
Qed.

(** The validator accepts exactly the sequences that alternate from [user]. *)
Lemma validate_alternation_iff ms :
  (validate_alternation ms).1 = true <-> alternating "user" ms.
Proof.
  destruct ms as [|m ms]; [split; [constructor | done]|].
  unfold validate_alternation. cbn [check_roles].
  rewrite alternating_cons_iff.
  destruct (valid_role (msg_role m)) eqn:Hm; cbn [negb].
  - destruct (check_roles (Some (msg_role m)) 1 ms) eqn:Hc.
    + split; [discriminate|]. intros [Hr Halt]. rewrite Hr in Hc.
      by apply (check_roles_some "user" 1 ms eq_refl) in Halt; rewrite Halt in Hc.
    + apply check_roles_some in Hc; [|done].
      destruct (String.eqb_spec (msg_role m) "user") as [Hr|Hr]; simpl.
      * rewrite Hr in Hc. naive_solver.
      * split; [discriminate | naive_solver].
  - split; [discriminate|]. intros [Hr _]. by rewrite Hr in Hm.
Qed.

Lemma other_role_neq r : other_role r <> r.
Proof. unfold other_role. destruct (String.eqb_spec r "user") as [->|]; congruence. Qed.

(** No two adjacent messages of an alternating sequence share a role. *)
Lemma alternating_adjacent r l1 m1 m2 l2 :
  alternating r (l1 ++ m1 :: m2 :: l2)%list -> msg_role m1 <> msg_role m2.
Proof.
  revert r. induction l1 as [|m l1 IH]; intros r Halt; simpl in Halt.
  - apply alternating_cons_iff in Halt as [-> [Hm2 _]%alternating_cons_iff].
    rewrite Hm2. apply not_eq_sym, other_role_neq.
  - apply alternating_cons_iff in Halt as [_ Halt]. by eapply IH.
Qed.

Lemma prepare_for_api_run h ms nu auto out :
  prepare_for_api h ms nu auto = Ret out <->
  out = prepared_messages h ms nu auto /\ alternating "user" out.
Proof.
  unfold prepare_for_api. rewrite <-validate_alternation_iff.
  destruct (validate_alternation (prepared_messages h ms nu auto)) as [[|] e] eqn:E;
    (split; [intros [= <-] | intros [-> Hv]]); rewrite ?E in *; done.
Qed.

(** ** Sample conversations *)

Definition user_msg (s : string) : message := mkMessage "user" s.
Definition assistant_msg (s : string) : message := mkMessage "assistant" s.

(** Twelve alternating messages: twenty characters in the last ten,
    three in the assistant reply before them, five in the first question
    (28 characters, 7 estimated tokens). *)
Definition sample_history : list message :=
  ([user_msg "hello"; assistant_msg "yes"] ++
   concat (replicate 5 [user_msg "ok"; assistant_msg "ok"]))%list.

(** A manager whose budget is five tokens. *)
Definition small_history : conversation_history := mkHistory 5 ∅.

(** ** Theorems *)

(** C39: [validate_alternation] accepts a message list exactly when
    its roles are [user], [assistant], [user], ... (the alternation
    invariant of the spec, as an inductive reference predicate). *)
Theorem validate_alternation_spec ms :
  (validate_alternation ms).1 = true <-> alternating "user" ms.
Proof. apply validate_alternation_iff. Qed.

(** C4: whatever history it is given, [prepare_for_api] returns
    only strictly alternating sequences starting with [user]; when two
    adjacent messages of the sequence it would send share a role (two
    consecutive user messages), it raises [ValueError]. *)
Theorem prepare_for_api_alternates h ms nu auto out :
  prepare_for_api h ms nu auto = Ret out -> alternating "user" out.
Proof. intros Hrun%prepare_for_api_run. apply Hrun. Qed.

(** two adjacent messages with the same role in the sequence
    [prepare_for_api] builds make it raise [ValueError] before anything
    reaches the API. *)
Theorem prepare_for_api_rejects_consecutive h ms nu auto l1 m1 m2 l2 :
  prepared_messages h ms nu auto = (l1 ++ m1 :: m2 :: l2)%list ->
  msg_role m1 = msg_role m2 ->
  prepare_for_api h ms nu auto = Exc ValueError.
Proof.
  intros Hprep Hrole. destruct (prepare_for_api h ms nu auto) as [out|e] eqn:Hrun.
  - apply prepare_for_api_run in Hrun as [-> Halt]. rewrite Hprep in Halt.
    by apply alternating_adjacent in Halt.
  - unfold prepare_for_api in Hrun. by destruct (validate_alternation _) as [[|] ?]; simplify_eq.
Qed.

(** C5: [truncate_to_fit] returns a contiguous suffix of the
    history that contains the last [keep_most_recent] messages verbatim
    (all of them when [keep_most_recent = 0], as [messages[-0:]]). *)
Theorem truncate_to_fit_suffix h ms k :
  suffix (py_last k ms) (truncate_to_fit h ms k) /\ suffix (truncate_to_fit h ms k) ms.
Proof.
  destruct (truncate_to_fit_cases h ms k) as [[_ ->] | (_ & pre & Hms & ->)].
  - split; [|done]. rewrite (py_slices_app k ms) at 2. by eexists.
  - destruct (prepend_older_spec (max_tokens h) pre (py_last k ms)) as (i & -> & Hi & _).
    split; [rewrite drop_app_le by done; by eexists |].
    rewrite <-Hms. apply suffix_drop.
Qed.

(** C6: when the history is over budget and its window of the
    last [keep_most_recent] messages is not, [truncate_to_fit] returns the
    longest suffix of the history within the budget: it fits, and every
    longer suffix exceeds the budget. *)
Theorem truncate_to_fit_longest h ms k :
  max_tokens h < estimate_tokens ms ->
  estimate_tokens (py_last k ms) <= max_tokens h ->
  exists i, truncate_to_fit h ms k = drop i ms /\
    estimate_tokens (drop i ms) <= max_tokens h /\
    (forall j, j < i -> max_tokens h < estimate_tokens (drop j ms)).
Proof.
  intros Hover Hwin.
  destruct (truncate_to_fit_cases h ms k) as [[? _] | (_ & pre & Hms & ->)]; [lia|].
  destruct (prepend_older_spec (max_tokens h) pre (py_last k ms)) as (i & -> & _ & Hfit & Hmax).
  rewrite <-Hms in *. exists i. auto.
Qed.

(** C33: when the window of the last [keep_most_recent] messages is
    itself over budget, [truncate_to_fit] returns that window, over the
    budget (the spec promises the output never exceeds it). *)
Theorem truncate_to_fit_window_over h ms k :
  max_tokens h < estimate_tokens (py_last k ms) ->
  truncate_to_fit h ms k = py_last k ms /\
  max_tokens h < estimate_tokens (truncate_to_fit h ms k).
Proof.
  intros Hwin.
  destruct (truncate_to_fit_cases h ms k) as [[Hfit _] | (_ & pre & Hms & ->)].
  - pose proof (estimate_tokens_suffix (py_last k ms) ms ltac:(rewrite (py_slices_app k ms) at 2; by eexists)).
    lia.
  - rewrite prepend_older_over by done. auto.
Qed.

(** truncation can cut a well-formed history just after a
    [user] message, so that [prepare_for_api] raises [ValueError] on a
    history that alternates correctly: with a budget of five tokens the
    loop keeps the assistant reply before the last ten messages and drops
    the question it answers. *)
Example prepare_for_api_truncation_breaks :
  alternating "user" sample_history /\
  truncate_to_fit small_history sample_history 10 = assistant_msg "yes" :: drop 2 sample_history /\
  prepare_for_api small_history sample_history (Some "next") true = Exc ValueError.
Proof.
  split; [apply validate_alternation_iff; reflexivity | split; reflexivity].
Qed.

(** the cache returns what was stored for a session, keeps the
    other sessions, and [clear_cache] with a non-empty id forgets that
    session only, while an empty id (falsy) clears every session. *)
Theorem cache_history_roundtrip h sid sid' ms :
  get_cached_history sid (cache_history sid ms h) = Some ms /\
  (sid' <> sid -> get_cached_history sid' (cache_history sid ms h) = get_cached_history sid' h) /\
  (sid <> "" -> get_cached_history sid (clear_cache (Some sid) h) = None /\
     (sid' <> sid -> get_cached_history sid' (clear_cache (Some sid) h) = get_cached_history sid' h)) /\
  get_cached_history sid' (clear_cache (Some "") h) = None.
Proof.
  unfold get_cached_history, cache_history, clear_cache; simpl.
  split_and!; [by rewrite lookup_insert_eq | intros; by rewrite lookup_insert_ne | |].
  - intros Hne. rewrite (proj2 (String.eqb_neq _ _) Hne). simpl.
    split; [apply lookup_delete_eq | intros; by apply lookup_delete_ne].
  - apply lookup_empty.
Qed.

(** ** Witnesses *)

Lemma prepare_for_api_alternates_witness :
  prepare_for_api small_history [user_msg "hi"; assistant_msg "hello"] (Some "next") true =
    Ret [user_msg "hi"; assistant_msg "hello"; user_msg "next"] /\
  alternating "user" [user_msg "hi"; assistant_msg "hello"; user_msg "next"].
Proof.
  split; [reflexivity|].
  apply (prepare_for_api_alternates small_history [user_msg "hi"; assistant_msg "hello"]
           (Some "next") true). reflexivity.
Defined.

Lemma prepare_for_api_rejects_consecutive_witness :
  prepared_messages small_history [user_msg "hi"] (Some "again") true =
    ([] ++ user_msg "hi" :: user_msg "again" :: [])%list /\
  prepare_for_api small_history [user_msg "hi"] (Some "again") true = Exc ValueError.
Proof.
  split; [reflexivity|].
  apply (prepare_for_api_rejects_consecutive small_history [user_msg "hi"] (Some "again") true
           [] (user_msg "hi") (user_msg "again") []); reflexivity.
Defined.

Lemma truncate_to_fit_longest_witness :
  max_tokens small_history < estimate_tokens sample_history /\
  estimate_tokens (py_last 10 sample_history) <= max_tokens small_history /\
  exists i, truncate_to_fit small_history sample_history 10 = drop i sample_history /\
    estimate_tokens (drop i sample_history) <= max_tokens small_history /\
    (forall j, j < i -> max_tokens small_history < estimate_tokens (drop j sample_history)).
Proof.
  split; [vm_compute; lia | split; [vm_compute; lia|]].
  apply truncate_to_fit_longest; vm_compute; lia.
Defined.

Definition long_window : list message :=
  [user_msg "aaaaaaaaaaaa"; assistant_msg "bbbbbbbbbbbb"].

Lemma truncate_to_fit_window_over_witness :
  max_tokens small_history < estimate_tokens (py_last 10 long_window) /\
  truncate_to_fit small_history long_window 10 = py_last 10 long_window /\
  max_tokens small_history < estimate_tokens (truncate_to_fit small_history long_window 10).
Proof.
  split; [vm_compute; lia|].
  apply truncate_to_fit_window_over. vm_compute. lia.
Defined.

Lemma cache_history_roundtrip_witness :
  ("s2" <> "s1" /\ "s1" <> "") /\
  get_cached_history "s1" (cache_history "s1" [user_msg "hi"] new_history) = Some [user_msg "hi"] /\
  ("s2" <> "s1" -> get_cached_history "s2" (cache_history "s1" [user_msg "hi"] new_history) =
                   get_cached_history "s2" new_history) /\
  ("s1" <> "" -> get_cached_history "s1" (clear_cache (Some "s1") new_history) = None /\
     ("s2" <> "s1" -> get_cached_history "s2" (clear_cache (Some "s1") new_history) =
                      get_cached_history "s2" new_history)) /\
  get_cached_history "s2" (clear_cache (Some "") new_history) = None.
Proof.
  split; [split; discriminate|]. apply cache_history_roundtrip.
Defined.

End History.
