(* ===== verification/CreateApplication.v ===== *)
(** * [create_application] ([src/tools/create_application.py])

    Creates a [draft] application for a resolved user: the session's
    [user_id], or else the account whose e-mail is [farmer_email] (which
    must then come with a [farmer_name] and pass [validate_email]).  The
    certification type must be one of four values; every check happens
    before the [try] block and before any write.

    [validate_email] is the regular expression
    [^[a-zA-Z0-9._%+-]+@[a-zA-Z0-9.-]+\.[a-zA-Z]{2,}$] under [re.match],
    written as a decision procedure on the characters: the local part is
    everything before the first ['@'] (the character classes exclude
    ['@']), the top-level domain everything after the last ['.'] (it
    consists of letters), and Python's [$] also matches before one final
    newline.

    The application id of the INSERT is [fresh_app_id], an id no
    application has ([gen_random_uuid()]).  The [UniqueViolationError]
    branch needs a unique constraint on [applications], which nothing
    under [src/] declares; the insert never fails in the model. *)

From S2P Require Import Prelude Json Store.

Open Scope string_scope.

Module CreateApplication.

(** ** The e-mail check (lines 70-81) *)

Definition is_alpha (c : Ascii.ascii) : bool :=
  let n := Ascii.nat_of_ascii c in (Nat.leb 65 n && Nat.leb n 90) || (Nat.leb 97 n && Nat.leb n 122).

Definition is_digit (c : Ascii.ascii) : bool :=
  let n := Ascii.nat_of_ascii c in Nat.leb 48 n && Nat.leb n 57.

Definition in_chars (c : Ascii.ascii) (cs : string) : bool :=
  existsb (Ascii.eqb c) (String.list_ascii_of_string cs).

(** [[a-zA-Z0-9._%+-]] *)
Definition is_local_char (c : Ascii.ascii) : bool :=
  is_alpha c || is_digit c || in_chars c "._%+-".

(** [[a-zA-Z0-9.-]] *)
Definition is_domain_char (c : Ascii.ascii) : bool :=
  is_alpha c || is_digit c || in_chars c ".-".

(** Split at the first occurrence of [sep]. *)
Fixpoint split_first (sep : Ascii.ascii) (cs : list Ascii.ascii)
    : option (list Ascii.ascii * list Ascii.ascii) :=
  match cs with
  | [] => None
  | c :: cs' =>
      if Ascii.eqb c sep then Some ([], cs')
      else (fun ab => (c :: ab.1, ab.2)) <$> split_first sep cs'
  end.

(** Split at the last occurrence of [sep]. *)
Definition split_last (sep : Ascii.ascii) (cs : list Ascii.ascii)
    : option (list Ascii.ascii * list Ascii.ascii) :=
  (fun ab => (rev ab.2, rev ab.1)) <$> split_first sep (rev cs).

Definition at_char : Ascii.ascii := Ascii.ascii_of_nat 64.
Definition dot_char : Ascii.ascii := Ascii.ascii_of_nat 46.
Definition newline_char : Ascii.ascii := Ascii.ascii_of_nat 10.

(** The pattern without its anchors, on the whole character list. *)
Definition email_shape (cs : list Ascii.ascii) : bool :=
  match split_first at_char cs with
  | Some (local, domain) =>
      negb (bool_decide (local = [])) && forallb is_local_char local &&
      match split_last dot_char domain with
      | Some (d, tld) =>
          negb (bool_decide (d = [])) && forallb is_domain_char d &&
          Nat.leb 2 (length tld) && forallb is_alpha tld
      | None => false
      end
  | None => false
  end.


(** [bool(re.match(pattern, email))]: [$] matches at the end or before a
    final newline. *)
Definition validate_email (email : string) : bool :=
  let cs := String.list_ascii_of_string email in
  email_shape cs ||
  match rev cs with
  | c :: rest => Ascii.eqb c newline_char && email_shape (rev rest)
  | [] => false
  end.

(** [validate_email(v)] on any Python value: [re.match] raises
    [TypeError] on a non-string. *)
Definition py_validate_email (v : json) : SE db bool :=
  match v with JStr s => mret (validate_email s) | _ => se_raise TypeError end.

(** ** The handler (lines 84-218) *)

Definition valid_cert_types : list string := ["standard"; "organic"; "sustainable"; "gmp"].

(** [SELECT id FROM auth.users WHERE email = $1] *)
Definition find_user_by_email (email : option string) (users : list (string * string))
    : option string :=
  match email with
  | Some e => snd <$> List.find (fun u => String.eqb u.1 e) users
  | None => None
  end.

(** The checks of lines 125-144, when the session has no user. *)
Definition anonymous_checks (farmer_name farmer_email : json) : SE db (option string) :=
  if negb (truthy farmer_email) then mret (Some "missing_required_fields") else
  ok ← py_validate_email farmer_email;
  if negb ok then mret (Some "invalid_email") else
  if negb (truthy farmer_name) then mret (Some "missing_required_fields") else
  mret None.

(** [INSERT INTO applications (user_id, status, certification_type, notes)
     VALUES ($1, 'draft', $3, $4) RETURNING ...] *)
Definition insert_application (user_id certification_type notes : json) : handler :=
  u ← sql_param user_id;
  ct ← sql_param certification_type;
  n ← sql_param notes;
  st ← se_get;
  let id := fresh_app_id st in
  let now := db_clock st in
  se_modify (with_applications (<[id := mkApplication (default "" u) Draft (default "" ct) n now now]>)) ;;
  mret [("application_id", JStr id); ("status", JStr "draft");
        ("certification_type", opt_str ct);
        ("created_at", JStr (iso_timestamp now)); ("updated_at", JStr (iso_timestamp now))].

(** The [try] block (lines 153-202). *)
Definition create_body (user_id farmer_email certification_type notes : json) : handler :=
  uid ← (if negb (truthy user_id) then
           em ← sql_param farmer_email;
           st ← se_get;
           mret (JStr <$> find_user_by_email em (db_users st))
         else mret (Some user_id));
  match uid with
  | None => mret (err "user_not_found")
  | Some uid => insert_application uid certification_type notes
  end.

(** [async def create_application(farmer_name=None, farmer_email=None,
     farmer_phone=None, certification_type="standard", notes=None,
     session_context=None)]; [farmer_phone] is never read. *)
Definition create_application (farmer_name farmer_email farmer_phone certification_type notes
    session_context : json) : handler :=
  if negb (py_in_strs certification_type valid_cert_types)
  then mret (err "invalid_certification_type") else
  user_id ← ctx_user_id session_context;
  first ← (if negb (truthy user_id) then anonymous_checks farmer_name farmer_email
           else mret None);
  match first with
  | Some code => mret (err code)
  | None =>
      ok ← (if truthy farmer_email then py_validate_email farmer_email else mret true);
      if negb ok then mret (err "invalid_email") else
      se_catch (create_body user_id farmer_email certification_type notes) pg_or_internal
  end.

(** The application [insert_application] adds. *)
Definition new_draft (st : db) (user ct : string) (notes : option string) : application :=
  mkApplication user Draft ct notes (db_clock st) (db_clock st).

Definition created_result (st : db) (ct : string) : dict :=
  [("application_id", JStr (fresh_app_id st)); ("status", JStr "draft");
   ("certification_type", JStr ct);
   ("created_at", JStr (iso_timestamp (db_clock st)));
   ("updated_at", JStr (iso_timestamp (db_clock st)))].

(** ** Lemmas *)

Lemma sql_param_opt_str (o : option string) : sql_param (opt_str o) = mret o.
Proof. by destruct o. Qed.

Lemma insert_application_run (u t : string) (n : option string) st :
  insert_application (JStr u) (JStr t) (opt_str n) st =
    (Ret (created_result st t), with_applications (<[fresh_app_id st := new_draft st u t n]>) st).
Proof. unfold insert_application. rewrite sql_param_opt_str. by se_unfold. Qed.

(** The checks before the [try] when the session names a user and no
    e-mail is given. *)
Lemma create_application_session name phone (t u : string) notes st :
  t ∈ valid_cert_types -> u <> "" ->
  create_application name JNull phone (JStr t) notes (JObj [("user_id", JStr u)]) st =
    se_catch (create_body (JStr u) JNull (JStr t) notes) pg_or_internal st.
Proof.
  intros Ht Hu. unfold create_application.
  assert (Hin : py_in_strs (JStr t) valid_cert_types = true).
  { unfold py_in_strs. apply existsb_exists. exists t.
    split; [by apply list_elem_of_In | apply String.eqb_refl]. }
  rewrite Hin, ctx_user_id_obj_fun. se_unfold. simpl.
  by rewrite (proj2 (String.eqb_neq u "") Hu).
Qed.

(** Every run of [create_application] leaves the store as it was or adds
    one [draft] application under a fresh id. *)
Definition adds_one_application (st st' : db) : Prop :=
  st' = st \/ exists a, app_status a = Draft /\ st' = with_applications (<[fresh_app_id st := a]>) st.

Lemma insert_application_state u t n st r st' :
  insert_application u t n st = (r, st') -> adds_one_application st st'.
Proof.
  unfold insert_application, sql_param, adds_one_application. se_unfold.
  repeat case_match; intros; simplify_eq/=; try (by left); right; eexists; split; [|reflexivity]; reflexivity.
Qed.

Lemma create_body_state u e t n st r st' :
  create_body u e t n st = (r, st') -> adds_one_application st st'.
Proof.
  unfold create_body, sql_param, adds_one_application. se_unfold.
  repeat case_match; intros; simplify_eq/=; try (by left); by eapply insert_application_state.
Qed.

Lemma anonymous_checks_state name e st r st' :
  anonymous_checks name e st = (r, st') -> st' = st.
Proof.
  unfold anonymous_checks, py_validate_email. se_unfold.
  by repeat case_match; intros; simplify_eq/=.
Qed.

Lemma create_application_state name email phone ct notes ctx st r st' :
  create_application name email phone ct notes ctx st = (r, st') -> adds_one_application st st'.
Proof.
  unfold create_application, ctx_user_id, ctx_get, py_validate_email, se_catch. se_unfold.
  destruct (negb _); [intros [= _ <-]; by left|].
  repeat case_match; intros; simplify_eq/=;
    repeat match goal with
    | H : anonymous_checks _ _ _ = _ |- _ => apply anonymous_checks_state in H; subst
    | H : create_body _ _ _ _ _ = _ |- _ => apply create_body_state in H
    | H : pg_or_internal _ _ = _ |- _ => apply pg_or_internal_state in H; subst
    end; try done; by left.
Qed.

(** ** Theorems *)

(** a logged-in user (the session's [user_id]) with a valid
    certification type and no e-mail gets a new [draft] application under
    a fresh id, owned by that user with the given notes; nothing else in
    the store changes. *)
Theorem create_application_new_draft name phone (t u : string) (notes : option string) st :
  t ∈ valid_cert_types -> u <> "" ->
  db_applications st !! fresh_app_id st = None /\
  create_application name JNull phone (JStr t) (opt_str notes) (JObj [("user_id", JStr u)]) st =
    (Ret (created_result st t),
     with_applications (<[fresh_app_id st := new_draft st u t notes]>) st).
Proof.
  intros Ht Hu. split; [apply fresh_app_id_new|].
  rewrite create_application_session by done.
  unfold create_body. se_unfold. simpl. rewrite (proj2 (String.eqb_neq u "") Hu). simpl.
  apply se_catch_ret, insert_application_run.
Qed.

(** without a session user, a farmer name and a valid
    e-mail that no account has give [user_not_found] and no write
    (spec §8: account creation is out of scope). *)
Theorem create_application_user_not_found (name : string) (e : string) phone (t : string) notes st :
  name <> "" -> t ∈ valid_cert_types -> validate_email e = true ->
  find_user_by_email (Some e) (db_users st) = None ->
  create_application (JStr name) (JStr e) phone (JStr t) notes JNull st =
    (Ret (err "user_not_found"), st).
Proof.
  intros Hn Ht He Hf. unfold create_application.
  assert (Hin : py_in_strs (JStr t) valid_cert_types = true).
  { unfold py_in_strs. apply existsb_exists. exists t.
    split; [by apply list_elem_of_In | apply String.eqb_refl]. }
  assert (Hne : e <> "") by (intros ->; discriminate).
  rewrite Hin. unfold anonymous_checks, py_validate_email, create_body. se_unfold. simpl.
  rewrite (proj2 (String.eqb_neq e "") Hne), He, (proj2 (String.eqb_neq name "") Hn). simpl.
  unfold find_user_by_email in Hf. by rewrite Hf.
Qed.

(** without a session user, a farmer name and a valid e-mail
    of an existing account create the [draft] application for that
    account (spec §4.3: the account is reused). *)
Theorem create_application_reuses_account (name e uid : string) phone (t : string)
    (notes : option string) st :
  name <> "" -> t ∈ valid_cert_types -> validate_email e = true ->
  find_user_by_email (Some e) (db_users st) = Some uid ->
  create_application (JStr name) (JStr e) phone (JStr t) (opt_str notes) JNull st =
    (Ret (created_result st t),
     with_applications (<[fresh_app_id st := new_draft st uid t notes]>) st).
Proof.
  intros Hn Ht He Hf. unfold create_application.
  assert (Hin : py_in_strs (JStr t) valid_cert_types = true).
  { unfold py_in_strs. apply existsb_exists. exists t.
    split; [by apply list_elem_of_In | apply String.eqb_refl]. }
  assert (Hne : e <> "") by (intros ->; discriminate).
  rewrite Hin. unfold anonymous_checks, py_validate_email, create_body. se_unfold. simpl.
  rewrite (proj2 (String.eqb_neq e "") Hne), He, (proj2 (String.eqb_neq name "") Hn). simpl.
  unfold find_user_by_email in Hf. rewrite Hf. simpl.
  apply se_catch_ret, insert_application_run.
Qed.

(** a certification type outside [standard], [organic],
    [sustainable], [gmp] is rejected before the session context is read
    and before any write. *)
Theorem create_application_invalid_type name email phone ct notes ctx st :
  py_in_strs ct valid_cert_types = false ->
  create_application name email phone ct notes ctx st =
    (Ret (err "invalid_certification_type"), st).
Proof. intros H. unfold create_application. by rewrite H. Qed.

(** whatever its arguments, [create_application] never
    changes an existing application, document, module field or audit
    row: it can only add one application under a fresh id. *)
Theorem create_application_preserves_existing name email phone ct notes ctx st r st' :
  create_application name email phone ct notes ctx st = (r, st') ->
  (forall id a, db_applications st !! id = Some a -> db_applications st' !! id = Some a) /\
  db_documents st' = db_documents st /\ db_module_data st' = db_module_data st /\
  db_audit_trail st' = db_audit_trail st.
Proof.
  intros Hrun. destruct (create_application_state _ _ _ _ _ _ _ _ _ Hrun) as [-> | (a & _ & ->)];
    [done|]. store_simpl. split_and!; [|done..]. intros id b Hb.
  rewrite lookup_insert_ne; [done|]. intros Heq. pose proof (fresh_app_id_new st) as Hf.
  rewrite Heq in Hf. congruence.
Qed.

(** [validate_email] follows the pattern of line 80 under
    [re.match]: one ['@'], a top-level domain of two or more letters, and
    (Python's [$]) an address followed by one newline also passes. *)
Example validate_email_cases :
  validate_email "jane.roe@example.com" = true /\
  validate_email "jane+farm@mail.example.org" = true /\
  validate_email "jane.roe@example.c" = false /\
  validate_email "jane@roe@example.com" = false /\
  validate_email "@example.com" = false /\
  validate_email "jane roe@example.com" = false /\
  validate_email ("jane.roe@example.com" +:+ String newline_char EmptyString) = true.
Proof. split_and!; reflexivity. Qed.

(** ** Witnesses *)

Lemma create_application_new_draft_witness :
  db_applications (sample_db [] [] []) !! fresh_app_id (sample_db [] [] []) = None /\
  create_application JNull JNull JNull (JStr "organic") (opt_str None)
    (JObj [("user_id", JStr "user-1")]) (sample_db [] [] []) =
    (Ret (created_result (sample_db [] [] []) "organic"),
     with_applications (<[fresh_app_id (sample_db [] [] []) :=
                            new_draft (sample_db [] [] []) "user-1" "organic" None]>)
       (sample_db [] [] [])).
Proof.
  apply create_application_new_draft; [by apply list_elem_of_In; simpl; auto | discriminate].
Defined.

Lemma create_application_user_not_found_witness :
  create_application (JStr "Jane Roe") (JStr "jane.roe@example.com") JNull (JStr "standard")
    JNull JNull (sample_db [] [] []) = (Ret (err "user_not_found"), sample_db [] [] []).
Proof.
  apply create_application_user_not_found;
    [discriminate | by apply list_elem_of_In; simpl; auto | reflexivity | reflexivity].
Defined.

Definition store_with_jane : db :=
  mkDb ∅ [] [] [] [("jane.roe@example.com", "user-7")] 0 7.

Lemma create_application_reuses_account_witness :
  create_application (JStr "Jane Roe") (JStr "jane.roe@example.com") JNull (JStr "gmp")
    (opt_str (Some "two fields")) JNull store_with_jane =
    (Ret (created_result store_with_jane "gmp"),
     with_applications (<[fresh_app_id store_with_jane :=
                            new_draft store_with_jane "user-7" "gmp" (Some "two fields")]>)
       store_with_jane).
Proof.
  apply create_application_reuses_account;
    [discriminate | by apply list_elem_of_In; simpl; auto 10 | reflexivity | reflexivity].
Defined.

Definition approved_app_store : db := sample_db [("app-1", sample_app "user-1" Approved)] [] [].

Definition session_run : outcome dict * db :=
  create_application JNull JNull JNull (JStr "standard") JNull (JObj [("user_id", JStr "user-1")])
    approved_app_store.

Lemma create_application_preserves_existing_witness :
  db_applications (snd session_run) !! "app-1" = Some (sample_app "user-1" Approved) /\
  db_documents (snd session_run) = db_documents approved_app_store /\
  db_module_data (snd session_run) = db_module_data approved_app_store /\
  db_audit_trail (snd session_run) = db_audit_trail approved_app_store.
Proof.
  destruct (create_application_preserves_existing JNull JNull JNull (JStr "standard") JNull
    (JObj [("user_id", JStr "user-1")]) approved_app_store _ _ (surjective_pairing _))
    as (Happs & Hdocs & Hrows & Haudit).
  split_and!; [apply Happs; reflexivity | exact Hdocs | exact Hrows | exact Haudit].
Defined.

End CreateApplication.
