(* ===== verification/UploadDocument.v ===== *)
(** * [upload_document] ([src/tools/upload_document.py])

    The tool does not store anything: it checks the document type, the
    application and its owner, and returns the instructions and the UI
    action that opens the upload zone.  Every exception of its [try]
    block, a database error included, becomes [internal_error].  The
    user-facing [message] (which title-cases the type) is not kept. *)

From S2P Require Import Prelude Json Store.

Open Scope string_scope.

Module UploadDocument.

(** [DOCUMENT_TYPES] (lines 17-27) *)
Definition DOCUMENT_TYPES : list string :=
  ["financial_statement"; "tax_return"; "bank_statement"; "land_deed";
   "insurance_certificate"; "business_license"; "environmental_permit";
   "compliance_certificate"; "other"].

(** [default_instructions] (lines 162-172) *)
Definition default_instructions : dict :=
  [("financial_statement",
    JStr "Please upload your most recent annual or quarterly financial statement. Include all pages showing assets, liabilities, income, and expenses.");
   ("tax_return",
    JStr "Please upload your complete federal tax return from the most recent year. Include all schedules and supporting documents.");
   ("bank_statement",
    JStr "Please upload bank statements from the last 3-6 months. Include all pages showing transactions and account balances.");
   ("land_deed",
    JStr "Please upload property deeds or ownership documents for all land included in this application.");
   ("insurance_certificate",
    JStr "Please upload current insurance certificates showing adequate coverage for your operations.");
   ("business_license",
    JStr "Please upload your current business registration, license, or incorporation documents.");
   ("environmental_permit",
    JStr "Please upload any required environmental permits, compliance certificates, or inspection reports.");
   ("compliance_certificate",
    JStr "Please upload relevant compliance certificates, audit reports, or certification documents.");
   ("other",
    JStr "Please upload the requested document. Ensure all pages are clear and readable.")].

Definition accepted_file_types : string := ".pdf,.jpg,.jpeg,.png,.doc,.docx".

(** The result of lines 174-191 for the application [id]. *)
Definition upload_result (document_type instructions : json) (id : string) : dict :=
  let upload_instructions :=
    if truthy instructions then instructions
    else match document_type with
         | JStr t => get_or t (JStr "Please upload the requested document.") default_instructions
         | _ => JStr "Please upload the requested document."
         end in
  [("upload_requested", JBool true); ("document_type", document_type);
   ("application_id", JStr id); ("instructions", upload_instructions);
   ("ui_action", JStr "trigger_upload_zone");
   ("ui_params", JObj [("document_type", document_type); ("application_id", JStr id);
                       ("accept", JStr accepted_file_types)])].

(** [async def upload_document(document_type, application_id=None,
     instructions=None, session_context=None)] *)
Definition upload_document (document_type application_id instructions session_context : json)
    : handler :=
  if negb (py_in_strs document_type DOCUMENT_TYPES) then mret (err "invalid_document_type") else
  target ← target_application_id application_id session_context;
  if negb (truthy target) then mret (err "application_id_required") else
  user_id ← ctx_user_id session_context;
  se_catch
    (app_row ← fetch_application target;
     match app_row with
     | None => mret (err "application_not_found")
     | Some (id, app) =>
         if unauthorized_for user_id (app_user_id app) then mret (err "unauthorized")
         else mret (upload_result document_type instructions id)
     end)
    (fun _ => mret (err "internal_error")).

(** ** Theorems *)

(** [upload_document] never writes: whatever its
    arguments, the store after the call is the store before it. *)
Theorem upload_document_read_only document_type application_id instructions ctx st :
  (upload_document document_type application_id instructions ctx st).2 = st.
Proof.
  unfold upload_document, target_application_id, ctx_user_id, ctx_get, fetch_application,
    sql_param, se_catch. se_unfold.
  by repeat (case_match; simplify_eq/=).
Qed.

(** an upload request against an approved or rejected
    application of the caller succeeds and opens the upload zone: the
    tool checks no lock (spec §3: document mutations on a locked
    application must fail). *)
Theorem upload_document_locked (t id : string) a instructions st :
  t ∈ DOCUMENT_TYPES -> id <> "" -> db_applications st !! id = Some a ->
  is_locked (app_status a) = true ->
  upload_document (JStr t) (JStr id) instructions (owner_ctx a) st =
    (Ret (upload_result (JStr t) instructions id), st).
Proof.
  intros Ht Hid Happ _.
  assert (Hin : py_in_strs (JStr t) DOCUMENT_TYPES = true).
  { unfold py_in_strs. apply existsb_exists. exists t.
    split; [by apply list_elem_of_In | apply String.eqb_refl]. }
  unfold upload_document, owner_ctx. rewrite Hin.
  rewrite target_application_id_explicit_fun by (by apply truthy_str).
  rewrite ctx_user_id_obj_fun. se_unfold. simpl.
  rewrite (proj2 (String.eqb_neq id "") Hid). simpl.
  rewrite Happ. simpl. by rewrite get_or_user_id, unauthorized_for_owner.
Qed.

(** every accepted document type has its own default
    instructions, which the result carries when no instructions are
    given; explicit (truthy) instructions are passed through. *)
Theorem upload_result_instructions (t id : string) instructions :
  t ∈ DOCUMENT_TYPES ->
  exists text, dict_get t default_instructions = Some (JStr text) /\
    dict_get "instructions" (upload_result (JStr t) instructions id) =
      Some (if truthy instructions then instructions else JStr text).
Proof.
  intros Ht. unfold DOCUMENT_TYPES in Ht.
  repeat (apply elem_of_cons in Ht as [->|Ht]; [eexists; split; [reflexivity|];
    unfold upload_result; simpl; by destruct (truthy instructions)|]).
  by apply not_elem_of_nil in Ht.
Qed.

(** ** Witnesses *)

Lemma upload_document_locked_witness :
  let a := sample_app "user-1" Approved in
  let st := sample_db [("app-1", a)] [] [] in
  upload_document (JStr "tax_return") (JStr "app-1") JNull (owner_ctx a) st =
    (Ret (upload_result (JStr "tax_return") JNull "app-1"), st).
Proof.
  apply upload_document_locked; [by apply list_elem_of_In; simpl; auto | discriminate
                                 | reflexivity | reflexivity].
Defined.

Lemma upload_result_instructions_witness :
  exists text, dict_get "land_deed" default_instructions = Some (JStr text) /\
    dict_get "instructions" (upload_result (JStr "land_deed") JNull "app-1") =
      Some (if truthy JNull then JNull else JStr text).
Proof. apply upload_result_instructions. apply list_elem_of_In; simpl; auto 10. Defined.

End UploadDocument.
