(* ===== verification/ExtractFields.v ===== *)
(** * [extract_fields] ([src/tools/extract_fields.py])

    A stub of the OCR step: it finds the document (joined with its
    application for the owner check) and answers from its [ocr_status]:
    cached results when [completed], a wait when [processing], an error
    when [failed], and for [pending] or NULL it marks the document
    [processing] and asks the caller to poll.

    [extraction_metadata] is a jsonb column, which asyncpg hands to Python
    as a [str] ([py_jsonb], see [Json.v]); the handler calls [.get] on it,
    an [AttributeError] on a string ([py_get]).  The [message] strings are
    not kept in results; the other constant fields are. *)

From S2P Require Import Prelude Json Store.

Open Scope string_scope.

Module ExtractFields.

Definition set_ocr_status (did : string) (s : string) (doc : document) : document :=
  if String.eqb (doc_id doc) did
  then mkDocument (doc_id doc) (doc_application_id doc) (doc_document_type doc) (doc_file_name doc)
         (Some s) (doc_extraction_status doc) (doc_extraction_metadata doc) (doc_metadata doc)
         (doc_storage_path doc) (doc_file_size doc) (doc_mime_type doc) (doc_created_at doc)
  else doc.

(** [UPDATE documents SET ocr_status = 'processing' WHERE id = $1] *)
Definition mark_processing (did : string) : SE db unit :=
  se_modify (with_documents (map (set_ocr_status did "processing"))).

Definition doc_header (doc : document) : dict :=
  [("document_id", JStr (doc_id doc)); ("file_name", JStr (doc_file_name doc))].

(** Lines 134-147: the cached results, read from the metadata with [.get]. *)
Definition completed_result (doc : document) (extraction_metadata : json) : SE db dict :=
  fields ← py_get extraction_metadata "fields" (JArr []);
  processing_time ← py_get extraction_metadata "processing_time" (JNum 0);
  page_count ← py_get extraction_metadata "page_count" (JNum 1);
  extraction_date ← py_get extraction_metadata "extraction_date" JNull;
  confidence_avg ← py_get extraction_metadata "confidence_avg" (JNum 0);
  mret (doc_header doc ++
        [("ocr_status", JStr "completed"); ("extracted_fields", fields);
         ("processing_time", processing_time);
         ("metadata", JObj [("page_count", page_count); ("extraction_date", extraction_date);
                            ("confidence_avg", confidence_avg)])])%list.

Definition processing_result (doc : document) : dict :=
  (doc_header doc ++ [("ocr_status", JStr "processing");
                      ("estimated_time", JStr "30-60 seconds")])%list.

Definition started_result (doc : document) (field_hints : json) : dict :=
  (doc_header doc ++
   [("ocr_status", JStr "processing"); ("action_required", JStr "poll_for_completion");
    ("estimated_time", JStr "30-60 seconds");
    ("field_hints", if truthy field_hints then field_hints else JArr []);
    ("note", JStr "In production, this would integrate with Docling OCR service. For now, this is a stub implementation.")])%list.

(** The status dispatch of lines 130-193. *)
Definition dispatch_status (did : string) (doc : document) (field_hints : json) : handler :=
  let ocr_status := opt_str (doc_ocr_status doc) in
  let extraction_metadata := py_jsonb (doc_extraction_metadata doc) in
  if is_str "completed" ocr_status && truthy extraction_metadata then
    completed_result doc extraction_metadata
  else if is_str "processing" ocr_status then mret (processing_result doc)
  else if is_str "failed" ocr_status then
    _ ← (if truthy extraction_metadata then py_get extraction_metadata "error" JNull
         else mret (JStr "Unknown error"));
    mret ([("error", JStr "ocr_failed")] ++ doc_header doc)%list
  else if is_str "pending" ocr_status || match ocr_status with JNull => true | _ => false end then
    mark_processing did ;;
    mret (started_result doc field_hints)
  else mret (err "unknown_status").

(** [async def extract_fields(document_id, field_hints=None,
     session_context=None)] *)
Definition extract_fields (document_id field_hints session_context : json) : handler :=
  se_catch
    (did ← sql_param document_id;
     st ← se_get;
     match fetch_document_with_owner did st with
     | None => mret (err "document_not_found")
     | Some (doc, owner) =>
         user_id ← ctx_user_id session_context;
         if unauthorized_for user_id owner then mret (err "unauthorized")
         else dispatch_status (default "" did) doc field_hints
     end)
    pg_or_internal.

(** ** Lemmas *)

Lemma set_ocr_status_id did s doc : doc_id (set_ocr_status did s doc) = doc_id doc.
Proof. unfold set_ocr_status. by case_match. Qed.

Lemma set_ocr_status_app did s doc :
  doc_application_id (set_ocr_status did s doc) = doc_application_id doc.
Proof. unfold set_ocr_status. by case_match. Qed.

Lemma set_ocr_status_status did s doc :
  doc_id doc = did -> doc_ocr_status (set_ocr_status did s doc) = Some s.
Proof. intros <-. unfold set_ocr_status. by rewrite String.eqb_refl. Qed.

(** Marking documents does not change which document the JOIN finds. *)
Lemma fetch_document_mark d did s st :
  fetch_document_with_owner (Some d) (with_documents (map (set_ocr_status did s)) st) =
    (fun p => (set_ocr_status did s p.1, p.2)) <$> fetch_document_with_owner (Some d) st.
Proof.
  unfold fetch_document_with_owner, with_documents. simpl.
  induction (db_documents st) as [|doc docs IH]; simpl; [done|].
  rewrite set_ocr_status_id, set_ocr_status_app.
  destruct (String.eqb (doc_id doc) d); [|exact IH].
  by destruct (db_applications st !! doc_application_id doc).
Qed.

(** The handler up to the status dispatch, for the document's owner. *)
Lemma extract_fields_owner (did : string) doc owner hints st :
  did <> "" -> owner <> "" ->
  fetch_document_with_owner (Some did) st = Some (doc, owner) ->
  extract_fields (JStr did) hints (JObj [("user_id", JStr owner)]) st =
    se_catch (dispatch_status did doc hints) pg_or_internal st.
Proof.
  intros Hd Ho Hf. unfold extract_fields, se_catch, sql_param. rewrite ctx_user_id_obj_fun.
  se_unfold. cbn -[fetch_document_with_owner unauthorized_for get_or dispatch_status].
  by rewrite Hf, get_or_user_id, unauthorized_for_owner.
Qed.

(** ** Theorems *)

(** C23: for a [completed] or [failed] document with extraction
    metadata, [extract_fields] always answers [internal_error]: the
    metadata reaches Python as a [str] and [.get] raises
    [AttributeError].  Nothing is written. *)
Theorem extract_fields_metadata_internal_error (did : string) doc owner hints v st :
  did <> "" -> owner <> "" ->
  fetch_document_with_owner (Some did) st = Some (doc, owner) ->
  doc_ocr_status doc = Some "completed" \/ doc_ocr_status doc = Some "failed" ->
  doc_extraction_metadata doc = Some v ->
  extract_fields (JStr did) hints (JObj [("user_id", JStr owner)]) st =
    (Ret (err "internal_error"), st).
Proof.
  intros Hd Ho Hf Hs Hm. rewrite (extract_fields_owner _ doc owner) by done.
  unfold dispatch_status, completed_result, se_catch. rewrite Hm, truthy_py_jsonb.
  by destruct Hs as [-> | ->].
Qed.

(** for a [pending] (or NULL) document, [extract_fields] by
    the owner marks every document with that id [processing] and returns
    the poll instructions; no lock is checked, so this also happens on
    approved and rejected applications. *)
Theorem extract_fields_marks_processing (did : string) doc owner hints st :
  did <> "" -> owner <> "" ->
  fetch_document_with_owner (Some did) st = Some (doc, owner) ->
  doc_ocr_status doc = None \/ doc_ocr_status doc = Some "pending" ->
  extract_fields (JStr did) hints (JObj [("user_id", JStr owner)]) st =
    (Ret (started_result doc hints),
     with_documents (map (set_ocr_status did "processing")) st).
Proof.
  intros Hd Ho Hf Hs. rewrite (extract_fields_owner _ doc owner) by done.
  unfold dispatch_status, mark_processing, se_catch. se_unfold.
  by destruct Hs as [-> | ->]; destruct (doc_extraction_metadata doc).
Qed.

(** a second [extract_fields] call on a document the first
    one started finds it [processing] and answers without writing. *)
Theorem extract_fields_twice (did : string) doc owner hints st :
  did <> "" -> owner <> "" ->
  fetch_document_with_owner (Some did) st = Some (doc, owner) ->
  doc_ocr_status doc = None \/ doc_ocr_status doc = Some "pending" ->
  let st1 := with_documents (map (set_ocr_status did "processing")) st in
  extract_fields (JStr did) hints (JObj [("user_id", JStr owner)]) st1 =
    (Ret (processing_result (set_ocr_status did "processing" doc)), st1).
Proof.
  intros Hd Ho Hf Hs st1.
  pose proof (fetch_document_id _ _ _ _ Hf) as Hid.
  rewrite extract_fields_owner with (doc := set_ocr_status did "processing" doc) (owner := owner)
    by (try done; unfold st1; by rewrite fetch_document_mark, Hf).
  unfold dispatch_status, se_catch. se_unfold.
  rewrite set_ocr_status_status by done. simpl.
  unfold set_ocr_status. rewrite Hid, String.eqb_refl. simpl.
  by destruct (doc_extraction_metadata doc).
Qed.

(** ** Witnesses *)

Definition ocr_doc (status : option string) (meta : option json) : document :=
  mkDocument "doc-1" "app-1" "tax_return" "return.pdf" status None meta None
    (Some "app-1/return.pdf") (Some 20480%Z) (Some "application/pdf") 3.

Definition ocr_store (status : option string) (meta : option json) : db :=
  sample_db [("app-1", sample_app "user-1" Approved)] [ocr_doc status meta] [].

Lemma extract_fields_metadata_internal_error_witness :
  extract_fields (JStr "doc-1") JNull (JObj [("user_id", JStr "user-1")])
    (ocr_store (Some "completed") (Some (JObj [("fields", JArr [])]))) =
    (Ret (err "internal_error"), ocr_store (Some "completed") (Some (JObj [("fields", JArr [])]))).
Proof.
  eapply extract_fields_metadata_internal_error;
    [discriminate | discriminate | reflexivity | left; reflexivity | reflexivity].
Defined.

Lemma extract_fields_marks_processing_witness :
  extract_fields (JStr "doc-1") JNull (JObj [("user_id", JStr "user-1")]) (ocr_store None None) =
    (Ret (started_result (ocr_doc None None) JNull),
     with_documents (map (set_ocr_status "doc-1" "processing")) (ocr_store None None)).
Proof.
  apply extract_fields_marks_processing with (owner := "user-1");
    [discriminate | discriminate | reflexivity | left; reflexivity].
Defined.

Lemma extract_fields_twice_witness :
  let st1 := with_documents (map (set_ocr_status "doc-1" "processing")) (ocr_store None None) in
  extract_fields (JStr "doc-1") JNull (JObj [("user_id", JStr "user-1")]) st1 =
    (Ret (processing_result (set_ocr_status "doc-1" "processing" (ocr_doc None None))), st1).
Proof.
  apply extract_fields_twice; [discriminate | discriminate | reflexivity | left; reflexivity].
Defined.

End ExtractFields.
