(* ===== verification/QueryApplication.v ===== *)
(** * [query_application] ([src/tools/query_application.py])

    Reads an application, its documents (newest first) and its
    [module_data] rows grouped by [module_name], and reports how many of
    the five module names have at least one row.  It writes nothing.

    The [ORDER BY] clauses are stable sorts ([merge_sort]): documents by
    [created_at] descending, rows by [(module_name, field_name)] with the
    byte order of strings ([String.leb], PostgreSQL's C collation) and
    NULLs last; rows that tie keep their table order.  A row's
    [confidence_score] is a float in the result, which [json] does not
    carry, so the field items leave it out; [completion.percentage] is
    [int(len(completed) / 5 * 100)], which in floating point is exactly
    [20 * len(completed)] for the six possible lengths. *)

From S2P Require Import Prelude Json Store.
From stdpp Require Import sorting.

Open Scope string_scope.

Module QueryApplication.

(** ** Sort orders *)

(** [ORDER BY created_at DESC] *)
Definition doc_newer (d1 d2 : document) : Prop := doc_created_at d2 <= doc_created_at d1.

(** [x <= y] on a nullable text column, NULLs last. *)
Definition opt_le (x y : option string) : bool :=
  match x, y with
  | Some a, Some b => String.leb a b
  | Some _, None => true
  | None, Some _ => false
  | None, None => true
  end.

(** [ORDER BY module_name, field_name] *)
Definition row_le (r1 r2 : module_row) : Prop :=
  (opt_le (row_module_name r1) (row_module_name r2) &&
   negb (opt_le (row_module_name r2) (row_module_name r1))) ||
  (bool_decide (row_module_name r1 = row_module_name r2) &&
   opt_le (row_field_name r1) (row_field_name r2)) = true.

#[export] Instance doc_newer_dec : RelDecision doc_newer.
Proof. intros d1 d2. unfold doc_newer. apply _. Defined.

#[export] Instance row_le_dec : RelDecision row_le.
Proof. intros r1 r2. unfold row_le. apply _. Defined.

(** ** The result *)

Definition opt_num (o : option Z) : json := match o with Some n => JNum n | None => JNull end.

(** One entry of [documents] (lines 136-147). *)
Definition document_item (d : document) : dict :=
  [("id", JStr (doc_id d)); ("file_name", JStr (doc_file_name d));
   ("file_size", opt_num (doc_file_size d)); ("mime_type", opt_str (doc_mime_type d));
   ("ocr_status", opt_str (doc_ocr_status d));
   ("has_extracted_data", JBool (truthy (py_jsonb (doc_extraction_metadata d))));
   ("uploaded_at", JStr (iso_timestamp (doc_created_at d)))].

(** One field of a module (lines 172-179), without [confidence_score]. *)
Definition field_item (r : module_row) : dict :=
  [("id", JStr (pretty (row_id r))); ("field_name", opt_str (row_field_name r));
   ("field_value", opt_str (row_field_value r)); ("data_source", opt_str (row_data_source r));
   ("created_at", JStr (iso_timestamp (row_created_at r)))].

(** [modules_dict[module_name].append(item)], creating the key at the end
    of the dict the first time it is seen. *)
Fixpoint group_add (k : option string) (item : dict) (groups : list (option string * list dict))
    : list (option string * list dict) :=
  match groups with
  | [] => [(k, [item])]
  | (k', items) :: groups' =>
      if bool_decide (k = k') then (k', (items ++ [item])%list) :: groups'
      else (k', items) :: group_add k item groups'
  end.

(** The loop of lines 166-179. *)
Definition group_rows (rows : list module_row) : list (option string * list dict) :=
  fold_left (fun groups r => group_add (row_module_name r) (field_item r) groups) rows [].

Definition required_modules : list string :=
  ["financial"; "compliance"; "operations"; "sustainability"; "risk"].

Definition completed_modules (groups : list (option string * list dict)) : list string :=
  List.filter (fun m => bool_decide (Some m ∈ map fst groups)) required_modules.

Definition missing_modules (groups : list (option string * list dict)) : list string :=
  List.filter (fun m => negb (bool_decide (Some m ∈ map fst groups))) required_modules.

(** [int((len(completed_modules) / len(required_modules)) * 100)] *)
Definition completion_pct (groups : list (option string * list dict)) : nat :=
  (length (completed_modules groups) * 100) / length required_modules.

Definition module_entry (g : option string * list dict) : json :=
  JObj [("module_name", opt_str g.1); ("field_count", JNum (Z.of_nat (length g.2)));
        ("fields", JArr (map JObj g.2))].

Definition completion_of (groups : list (option string * list dict)) : json :=
  JObj [("percentage", JNum (Z.of_nat (completion_pct groups)));
        ("required_modules", JArr (map JStr required_modules));
        ("completed_modules", JArr (map JStr (completed_modules groups)));
        ("missing_modules", JArr (map JStr (missing_modules groups)))].

(** The result of lines 196-216 for application [id] in store [st]. *)
Definition query_result (id : string) (a : application) (st : db) : dict :=
  let docs := merge_sort doc_newer
                (List.filter (fun d => String.eqb (doc_application_id d) id) (db_documents st)) in
  let rows := merge_sort row_le
                (List.filter (fun r => String.eqb (row_application_id r) id) (db_module_data st)) in
  let groups := group_rows rows in
  [("application", JObj [("id", JStr id); ("status", JStr (status_text (app_status a)));
                         ("certification_type", JStr (app_certification_type a));
                         ("notes", opt_str (app_notes a));
                         ("created_at", JStr (iso_timestamp (app_created_at a)));
                         ("updated_at", JStr (iso_timestamp (app_updated_at a)))]);
   ("applicant", JObj [("user_id", JStr (app_user_id a))]);
   ("documents", JArr (map (fun d => JObj (document_item d)) docs));
   ("modules", JArr (map module_entry groups));
   ("completion", completion_of groups)].

(** [async def query_application(application_id=None, session_context=None)] *)
Definition query_application (application_id session_context : json) : handler :=
  target ← target_application_id application_id session_context;
  if negb (truthy target) then mret (err "application_id_required") else
  user_id ← ctx_user_id session_context;
  se_catch
    (app_row ← fetch_application target;
     match app_row with
     | None => mret (err "application_not_found")
     | Some (id, app) =>
         if unauthorized_for user_id (app_user_id app) then mret (err "unauthorized")
         else st ← se_get; mret (query_result id app st)
     end)
    pg_or_internal.

(** Whether the application [id] has a [module_data] row named [m]. *)
Definition has_module_rows (id m : string) (st : db) : bool :=
  existsb (fun r => String.eqb (row_application_id r) id && bool_decide (row_module_name r = Some m))
    (db_module_data st).

(** ** Lemmas *)

Lemma group_add_keys k item groups :
  k ∈ map fst (group_add k item groups) /\
  forall k', k' ∈ map fst groups -> k' ∈ map fst (group_add k item groups).
Proof.
  induction groups as [|[k0 items] groups IH]; simpl.
  - split; [by left | intros ? []%not_elem_of_nil].
  - case_bool_decide as Hk; simpl.
    + subst. split; [by left | done].
    + destruct IH as [IH1 IH2]. split; [by right|].
      intros k' [->|Hk']%elem_of_cons; [by left | right; by apply IH2].
Qed.

Lemma group_add_keys_inv k item groups k' :
  k' ∈ map fst (group_add k item groups) -> k' = k \/ k' ∈ map fst groups.
Proof.
  induction groups as [|[k0 items] groups IH]; simpl.
  - intros [->|[]%not_elem_of_nil]%elem_of_cons. by left.
  - case_bool_decide; simpl.
    + intros [->|?]%elem_of_cons; right; [by left | by right].
    + intros [->|Hk]%elem_of_cons; [right; by left|].
      destruct (IH Hk); [by left | right; by right].
Qed.

(** The keys of the grouping are exactly the module names of the rows. *)
Lemma group_rows_keys_aux rows acc k :
  k ∈ map fst (fold_left (fun groups r => group_add (row_module_name r) (field_item r) groups)
                 rows acc) <->
  k ∈ map fst acc \/ exists r, r ∈ rows /\ row_module_name r = k.
Proof.
  revert acc. induction rows as [|r rows IH]; intros acc; simpl.
  - split; [by left | intros [?|(? & []%not_elem_of_nil & _)]; done].
  - rewrite IH. split.
    + intros [Hk|(r' & Hr' & <-)].
      * destruct (group_add_keys_inv _ _ _ _ Hk) as [->|?]; [right; exists r; split; [by left | done] | by left].
      * right. exists r'. split; [by right | done].
    + intros [Hk|(r' & [->|Hr']%elem_of_cons & <-)].
      * left. by apply (proj2 (group_add_keys _ _ _)).
      * left. apply (proj1 (group_add_keys _ _ _)).
      * right. by exists r'.
Qed.

Lemma group_rows_keys rows k :
  k ∈ map fst (group_rows rows) <-> exists r, r ∈ rows /\ row_module_name r = k.
Proof.
  unfold group_rows. rewrite group_rows_keys_aux. split; [intros [[]%not_elem_of_nil|?]; done | by right].
Qed.

Lemma module_present_iff id st m :
  Some m ∈ map fst (group_rows (merge_sort row_le
     (List.filter (fun r => String.eqb (row_application_id r) id) (db_module_data st)))) <->
  has_module_rows id m st = true.
Proof.
  rewrite group_rows_keys. unfold has_module_rows. rewrite existsb_exists. split.
  - intros (r & Hr & Hm). rewrite merge_sort_Permutation, list_elem_of_In, filter_In in Hr.
    destruct Hr as [Hin Hid]. exists r. split; [done|]. rewrite Hid. simpl. by apply bool_decide_eq_true.
  - intros (r & Hin & [Hid Hm]%andb_true_iff). exists r. split.
    + rewrite merge_sort_Permutation, list_elem_of_In, filter_In. done.
    + by apply bool_decide_eq_true in Hm.
Qed.

(** ** Theorems *)

(** [query_application] never writes. *)
Theorem query_application_read_only application_id ctx st :
  (query_application application_id ctx st).2 = st.
Proof.
  unfold query_application, target_application_id, ctx_user_id, ctx_get, fetch_application,
    sql_param, se_catch, pg_or_internal. se_unfold.
  by repeat (case_match; simplify_eq/=).
Qed.

(** for the owner, [query_application] reports as
    completed exactly the module names among financial, compliance,
    operations, sustainability and risk for which the application has a
    [module_data] row ([module_name] column), the others as missing, and
    a percentage of 20 per completed module. *)
Theorem query_application_completion (id : string) a st :
  id <> "" -> db_applications st !! id = Some a ->
  let done_ := List.filter (fun m => has_module_rows id m st) required_modules in
  query_application (JStr id) (owner_ctx a) st = (Ret (query_result id a st), st) /\
  dict_get "completion" (query_result id a st) =
    Some (JObj [("percentage", JNum (20 * Z.of_nat (length done_)));
                ("required_modules", JArr (map JStr required_modules));
                ("completed_modules", JArr (map JStr done_));
                ("missing_modules", JArr (map JStr (List.filter (fun m => negb (has_module_rows id m st))
                                                      required_modules)))]).
Proof.
  intros Hid Happ done_. split.
  - unfold query_application, owner_ctx.
    rewrite target_application_id_explicit_fun by (by apply truthy_str).
    rewrite ctx_user_id_obj_fun. se_unfold. simpl.
    rewrite (proj2 (String.eqb_neq id "") Hid). simpl. rewrite Happ. simpl.
    by rewrite get_or_user_id, unauthorized_for_owner.
  - set (groups := group_rows (merge_sort row_le
      (List.filter (fun r => String.eqb (row_application_id r) id) (db_module_data st)))).
    assert (Hm : forall m, bool_decide (Some m ∈ map fst groups) = has_module_rows id m st).
    { intros m. unfold groups. destruct (has_module_rows id m st) eqn:E.
      - apply bool_decide_eq_true. by apply module_present_iff.
      - apply bool_decide_eq_false. rewrite module_present_iff. congruence. }
    assert (Hc : completed_modules groups = done_) by (apply filter_ext; intros m; apply Hm).
    assert (Hmiss : missing_modules groups =
                    List.filter (fun m => negb (has_module_rows id m st)) required_modules)
      by (apply filter_ext; intros m; by rewrite Hm).
    unfold query_result, completion_of, completion_pct. fold groups.
    assert (Hp : length done_ * 100 / length required_modules = length done_ * 20).
    { change (length required_modules) with 5.
      replace (length done_ * 100) with (length done_ * 20 * 5) by lia. by apply Nat.div_mul. }
    rewrite Hc, Hmiss, Hp. simpl. by rewrite Nat2Z.inj_mul, Z.mul_comm.
Qed.

(** ** Witnesses *)

Definition entered_row (rid : nat) (mn f v : string) : module_row :=
  mkModuleRow rid "app-1" (Some mn) (Some f) (Some v) (Some "proxy_entered") (Some 1000%Z)
    None None None None 5 5.

Definition two_module_store : db :=
  sample_db [("app-1", sample_app "user-1" Draft)] []
    [entered_row 0 "risk" "insurer" "Acme"; entered_row 1 "financial" "tax_year" "2024"].

Lemma query_application_completion_witness :
  let a := sample_app "user-1" Draft in
  let done_ := List.filter (fun m => has_module_rows "app-1" m two_module_store) required_modules in
  query_application (JStr "app-1") (owner_ctx a) two_module_store =
    (Ret (query_result "app-1" a two_module_store), two_module_store) /\
  dict_get "completion" (query_result "app-1" a two_module_store) =
    Some (JObj [("percentage", JNum (20 * Z.of_nat (length done_)));
                ("required_modules", JArr (map JStr required_modules));
                ("completed_modules", JArr (map JStr done_));
                ("missing_modules", JArr (map JStr (List.filter
                   (fun m => negb (has_module_rows "app-1" m two_module_store)) required_modules)))]).
Proof. apply query_application_completion; [discriminate | reflexivity]. Defined.

End QueryApplication.
