(* ===== verification/ShowArtifact.v ===== *)
(** * [show_artifact] ([src/tools/show_artifact.py])

    Opens a panel of the UI on a document, the extraction preview of a
    document, one module's form, the application summary or the audit
    review.  Each kind reads what it shows and checks the caller owns it;
    nothing is written.  Each branch either returns an error dictionary
    early ([inl]) or produces the panel's [metadata] ([inr]).

    The [module_form] branch parses [artifact_id] with Python's [int]
    ([py_int]: surrounding whitespace, a sign, decimal digits with single
    underscores between them; [ValueError] otherwise, [TypeError] on
    [None], a list or a dict — the latter escapes the inner [except
    ValueError] and ends as [internal_error]).  The audit review counts
    flagged fields with the same predicate as [certify_application]
    ([Certify.flagged_count]).  Titles and messages are not kept. *)

From S2P Require Import Prelude Json Store Certify.

Open Scope string_scope.

Module ShowArtifact.

Import Certify.

(** ** Python's [int()] on a tool argument *)

Definition digit_value (c : Ascii.ascii) : option Z :=
  let n := Ascii.nat_of_ascii c in
  if Nat.leb 48 n && Nat.leb n 57 then Some (Z.of_nat (n - 48)) else None.

Definition underscore_char : Ascii.ascii := Ascii.ascii_of_nat 95.
Definition plus_char : Ascii.ascii := Ascii.ascii_of_nat 43.
Definition minus_char : Ascii.ascii := Ascii.ascii_of_nat 45.

(** Digits after the first, an underscore allowed between two digits. *)
Fixpoint parse_digits (acc : Z) (cs : list Ascii.ascii) : option Z :=
  match cs with
  | [] => Some acc
  | c :: cs' =>
      match digit_value c with
      | Some d => parse_digits (acc * 10 + d) cs'
      | None =>
          if Ascii.eqb c underscore_char then
            match cs' with
            | c' :: cs'' => match digit_value c' with
                            | Some d => parse_digits (acc * 10 + d) cs''
                            | None => None
                            end
            | [] => None
            end
          else None
      end
  end.

(** [int(s)] for a [str] in base 10 ([None]: [ValueError]). *)
Definition parse_py_int (s : string) : option Z :=
  match py_strip (String.list_ascii_of_string s) with
  | [] => None
  | c :: cs =>
      let '(sign, body) :=
        if Ascii.eqb c plus_char then (1%Z, cs)
        else if Ascii.eqb c minus_char then ((-1)%Z, cs)
        else (1%Z, c :: cs) in
      match body with
      | d :: rest => match digit_value d with
                     | Some v => (fun n => sign * n)%Z <$> parse_digits v rest
                     | None => None
                     end
      | [] => None
      end
  end.

(** [int(v)]: [None] is [TypeError], [Some None] is [ValueError]. *)
Definition py_int (v : json) : option (option Z) :=
  match v with
  | JNum n => Some (Some n)
  | JBool b => Some (Some (if b then 1%Z else 0%Z))
  | JStr s => Some (parse_py_int s)
  | _ => None
  end.

(** ** The five panels *)

Definition valid_types : list string :=
  ["document"; "module_form"; "extraction_preview"; "application_summary"; "audit_review"].

(** The document lookup shared by two panels (lines 126-151, 164-189). *)
Definition owned_document (artifact_id user_id : json) : SE db (dict + document) :=
  did ← sql_param artifact_id;
  st ← se_get;
  match fetch_document_with_owner did st with
  | None => mret (inl (err "document_not_found"))
  | Some (doc, owner) =>
      if unauthorized_for user_id owner then mret (inl (err "unauthorized"))
      else mret (inr doc)
  end.

(** The application lookup shared by three panels. *)
Definition owned_application (app_id user_id : json) : SE db (dict + (string * application)) :=
  app_row ← fetch_application app_id;
  match app_row with
  | None => mret (inl (err "application_not_found"))
  | Some (id, app) =>
      if unauthorized_for user_id (app_user_id app) then mret (inl (err "unauthorized"))
      else mret (inr (id, app))
  end.

(** [artifact_type == "document"] (lines 124-160) *)
Definition document_panel (artifact_id user_id : json) : SE db (dict + dict) :=
  r ← owned_document artifact_id user_id;
  match r with
  | inl e => mret (inl e)
  | inr doc =>
      mret (inr [("document_id", JStr (doc_id doc)); ("application_id", JStr (doc_application_id doc));
                 ("document_type", JStr (doc_document_type doc));
                 ("extraction_status", opt_str (doc_extraction_status doc));
                 ("storage_path", opt_str (doc_storage_path doc))])
  end.

(** [artifact_type == "extraction_preview"] (lines 162-207): the rows
    whose [source_document_id] is the document, of any application. *)
Definition extraction_preview_panel (artifact_id user_id : json) : SE db (dict + dict) :=
  r ← owned_document artifact_id user_id;
  match r with
  | inl e => mret (inl e)
  | inr doc =>
      did ← sql_param artifact_id;
      st ← se_get;
      let fields := List.filter (fun row => bool_decide (row_source_document_id row = did))
                      (db_module_data st) in
      mret (inr [("document_id", JStr (doc_id doc)); ("application_id", JStr (doc_application_id doc));
                 ("document_type", JStr (doc_document_type doc));
                 ("storage_path", opt_str (doc_storage_path doc));
                 ("extracted_fields_count", JNum (Z.of_nat (length fields)))])
  end.

(** [artifact_type == "module_form"] (lines 209-255) *)
Definition module_form_panel (artifact_id target user_id : json) : SE db (dict + dict) :=
  match py_int artifact_id with
  | None => se_raise TypeError
  | Some None => mret (inl (err "invalid_module_number"))
  | Some (Some n) =>
      if bool_decide (n < 1 \/ 5 < n)%Z then mret (inl (err "invalid_module_number")) else
      r ← owned_application target user_id;
      match r with
      | inl e => mret (inl e)
      | inr (id, app) =>
          mret (inr [("module_number", JNum n); ("module_name", JStr (module_display_name n));
                     ("application_id", JStr id);
                     ("application_status", JStr (status_text (app_status app)))])
      end
  end.

(** [app_id = artifact_id if artifact_id != "current" else target] *)
Definition panel_app_id (artifact_id target : json) : json :=
  if is_str "current" artifact_id then target else artifact_id.

(** [artifact_type == "application_summary"] (lines 257-292) *)
Definition summary_panel (artifact_id target user_id : json) : SE db (dict + dict) :=
  let app_id := panel_app_id artifact_id target in
  if negb (truthy app_id) then mret (inl (err "application_id_required")) else
  r ← owned_application app_id user_id;
  match r with
  | inl e => mret (inl e)
  | inr (id, app) =>
      mret (inr [("application_id", JStr id); ("status", JStr (status_text (app_status app)));
                 ("certification_type", JStr (app_certification_type app));
                 ("created_at", JStr (iso_timestamp (app_created_at app)))])
  end.

(** [artifact_type == "audit_review"] (lines 294-340) *)
Definition audit_panel (artifact_id target user_id : json) : SE db (dict + dict) :=
  let app_id := panel_app_id artifact_id target in
  if negb (truthy app_id) then mret (inl (err "application_id_required")) else
  r ← owned_application app_id user_id;
  match r with
  | inl e => mret (inl e)
  | inr (id, app) =>
      st ← se_get;
      mret (inr [("application_id", JStr id);
                 ("flagged_fields_count", JNum (Z.of_nat (flagged_count id (db_module_data st))))])
  end.

Definition panel (artifact_type artifact_id target user_id : json) : SE db (dict + dict) :=
  if is_str "document" artifact_type then document_panel artifact_id user_id
  else if is_str "extraction_preview" artifact_type then extraction_preview_panel artifact_id user_id
  else if is_str "module_form" artifact_type then module_form_panel artifact_id target user_id
  else if is_str "application_summary" artifact_type then summary_panel artifact_id target user_id
  else if is_str "audit_review" artifact_type then audit_panel artifact_id target user_id
  else mret (inr []).

Definition artifact_result (artifact_type artifact_id : json) (metadata : dict) (now : nat) : dict :=
  [("success", JBool true); ("artifact_type", artifact_type); ("artifact_id", artifact_id);
   ("ui_action", JStr "open_artifact_panel"); ("metadata", JObj metadata);
   ("timestamp", JStr (iso_timestamp now))].

(** [async def show_artifact(artifact_type, artifact_id, application_id=None,
     session_context=None)] *)
Definition show_artifact (artifact_type artifact_id application_id session_context : json)
    : handler :=
  if negb (py_in_strs artifact_type valid_types) then mret (err "invalid_artifact_type") else
  target ← target_application_id application_id session_context;
  if is_str "module_form" artifact_type && negb (truthy target)
  then mret (err "application_id_required") else
  se_catch
    (user_id ← ctx_user_id session_context;
     r ← panel artifact_type artifact_id target user_id;
     match r with
     | inl e => mret e
     | inr metadata => st ← se_get; mret (artifact_result artifact_type artifact_id metadata (db_clock st))
     end)
    pg_or_internal.

(** ** Lemmas *)

Lemma owned_document_state a u st r st' : owned_document a u st = (r, st') -> st' = st.
Proof. unfold owned_document, sql_param. se_unfold. repeat case_match; intros; by simplify_eq/=. Qed.

Lemma owned_application_state a u st r st' : owned_application a u st = (r, st') -> st' = st.
Proof.
  unfold owned_application, fetch_application, sql_param. se_unfold.
  repeat case_match; intros; by simplify_eq/=.
Qed.

Lemma panel_state t a target u st r st' : panel t a target u st = (r, st') -> st' = st.
Proof.
  unfold panel, document_panel, extraction_preview_panel, module_form_panel, summary_panel,
    audit_panel, sql_param. se_unfold.
  repeat case_match; intros; simplify_eq/=;
    repeat match goal with
    | H : owned_document _ _ _ = _ |- _ => apply owned_document_state in H; subst
    | H : owned_application _ _ _ = _ |- _ => apply owned_application_state in H; subst
    end; done.
Qed.

Lemma owned_application_owner (id : string) a st :
  id <> "" -> db_applications st !! id = Some a ->
  owned_application (JStr id) (JStr (app_user_id a)) st = (Ret (inr (id, a)), st).
Proof.
  intros Hid Happ. unfold owned_application. se_unfold. simpl.
  rewrite Happ. simpl. by rewrite unauthorized_for_owner.
Qed.

(** ** Theorems *)

(** [show_artifact] never writes. *)
Theorem show_artifact_read_only artifact_type artifact_id application_id ctx st :
  (show_artifact artifact_type artifact_id application_id ctx st).2 = st.
Proof.
  unfold show_artifact, target_application_id, ctx_user_id, ctx_get, se_catch. se_unfold.
  repeat case_match; simplify_eq/=; try done;
    repeat match goal with
    | H : panel _ _ _ _ _ = _ |- _ => apply panel_state in H; subst
    end; by rewrite ?pg_or_internal_snd.
Qed.

(** the audit review panel of an application shows the number
    of its flagged fields, and it is the number that blocks
    [certify_application]: positive exactly when the certification gate
    reports [FlaggedFields] with that count. *)
Theorem show_artifact_audit_review (id : string) a st :
  id <> "" -> id <> "current" -> db_applications st !! id = Some a ->
  let n := flagged_count id (db_module_data st) in
  show_artifact (JStr "audit_review") (JStr id) JNull (owner_ctx a) st =
    (Ret (artifact_result (JStr "audit_review") (JStr id)
            [("application_id", JStr id); ("flagged_fields_count", JNum (Z.of_nat n))]
            (db_clock st)), st) /\
  (0 < n <-> FlaggedFields n ∈ certify_checks id st).
Proof.
  intros Hid Hcur Happ n. split.
  - unfold show_artifact, owner_ctx. rewrite ctx_user_id_obj_fun. se_unfold. simpl.
    unfold panel, audit_panel, panel_app_id. simpl.
    rewrite (proj2 (String.eqb_neq id "current") Hcur). simpl.
    rewrite (proj2 (String.eqb_neq id "") Hid). simpl. se_unfold.
    rewrite get_or_user_id, (owned_application_owner id a st Hid Happ). done.
  - rewrite certify_checks_elem. unfold failure_holds. naive_solver.
Qed.

(** the module form panel accepts any [artifact_id] that
    Python's [int] reads as a number from 1 to 5 (e.g. [" 3 "], ["+3"],
    ["0_3"]) and shows that module of the caller's application; anything
    else that [int] rejects is [invalid_module_number], before the
    application is read. *)
Theorem show_artifact_module_form (s id : string) a st :
  id <> "" -> db_applications st !! id = Some a ->
  match parse_py_int s with
  | Some n =>
      (1 <= n <= 5)%Z ->
      show_artifact (JStr "module_form") (JStr s) (JStr id) (owner_ctx a) st =
        (Ret (artifact_result (JStr "module_form") (JStr s)
                [("module_number", JNum n); ("module_name", JStr (module_display_name n));
                 ("application_id", JStr id);
                 ("application_status", JStr (status_text (app_status a)))] (db_clock st)), st)
  | None =>
      show_artifact (JStr "module_form") (JStr s) (JStr id) (owner_ctx a) st =
        (Ret (err "invalid_module_number"), st)
  end.
Proof.
  intros Hid Happ.
  unfold show_artifact, owner_ctx.
  rewrite target_application_id_explicit_fun by (by apply truthy_str).
  rewrite ctx_user_id_obj_fun. se_unfold. simpl.
  rewrite (proj2 (String.eqb_neq id "") Hid). simpl. rewrite get_or_user_id.
  unfold panel, module_form_panel, py_int. simpl.
  destruct (parse_py_int s) as [n|]; [|done].
  intros Hn. rewrite bool_decide_false by lia. se_unfold.
  by rewrite (owned_application_owner id a st Hid Happ).
Qed.

(** ** Witnesses *)

Definition flagged_store : db :=
  sample_db [("app-1", sample_app "user-1" UnderReview)] []
    [mkModuleRow 0 "app-1" None None None None None (Some 1%Z) (Some "total_revenue")
       (Some (JObj [("_value", JStr "125000"); ("_audit_flagged", JBool true)])) None 1 1].

Lemma show_artifact_audit_review_witness :
  show_artifact (JStr "audit_review") (JStr "app-1") JNull
    (owner_ctx (sample_app "user-1" UnderReview)) flagged_store =
    (Ret (artifact_result (JStr "audit_review") (JStr "app-1")
            [("application_id", JStr "app-1");
             ("flagged_fields_count", JNum (Z.of_nat (flagged_count "app-1" (db_module_data flagged_store))))]
            (db_clock flagged_store)), flagged_store) /\
  (0 < flagged_count "app-1" (db_module_data flagged_store) <->
   FlaggedFields (flagged_count "app-1" (db_module_data flagged_store)) ∈ certify_checks "app-1" flagged_store).
Proof. apply show_artifact_audit_review; [discriminate | discriminate | reflexivity]. Defined.

Lemma show_artifact_module_form_witness :
  show_artifact (JStr "module_form") (JStr " +0_3 ") (JStr "app-1")
    (owner_ctx (sample_app "user-1" UnderReview)) flagged_store =
    (Ret (artifact_result (JStr "module_form") (JStr " +0_3 ")
            [("module_number", JNum 3); ("module_name", JStr (module_display_name 3));
             ("application_id", JStr "app-1");
             ("application_status", JStr (status_text UnderReview))] (db_clock flagged_store)),
     flagged_store).
Proof.
  pose proof (show_artifact_module_form " +0_3 " "app-1" (sample_app "user-1" UnderReview)
                flagged_store ltac:(discriminate) eq_refl) as H.
  change (parse_py_int " +0_3 ") with (Some 3%Z) in H. cbv beta iota in H.
  apply H. lia.
Defined.

End ShowArtifact.
