(* ===== verification/Registry.v ===== *)
(** * The tool registry ([src/tools/registry.py])

    [ToolRegistry] maps a tool name to the handler that implements it and
    to the definition (name, description, JSON input schema) sent to the
    model.  [execute_tool] looks the name up, calls the handler with the
    model's input as keyword arguments ([**tool_input]) and the session
    context, and wraps the handler's dictionary into a result record;
    a [TypeError] (an argument the handler does not accept, or a missing
    one) becomes [invalid_input], any other exception [execution_error].

    A handler is modelled by its signature (parameter names and defaults)
    and its body on the bound argument list; Python's keyword binding is
    [bind_args].  The registry's table is an association list because
    Python dictionaries keep insertion order ([list_tools],
    [get_tool_definitions]).  Timings, timestamps and log records are not
    kept in the results.

    The class [ToolContract] is what a tool promises the registry: its
    definition carries its name and an input schema whose properties are
    parameters of the handler, every parameter without a default is
    required by the schema, and [session_context] is a defaulted
    parameter the schema does not expose.  The registry's theorems are
    proved against it; [Tools.v] discharges it for the eight tools. *)

From S2P Require Import Prelude Json Store.

Open Scope string_scope.

Module Registry.

(** ** Handlers and keyword binding *)

(** A parameter of an [async def]: its name and its default, if any. *)
Record param := mkParam { param_name : string; param_default : option json }.

(** A tool handler: its signature and its body on the arguments bound to
    that signature, in order. *)
Record tool_handler := mkHandler {
  handler_params : list param;
  handler_body : list json -> handler
}.

(** [f( **kwargs)]: every keyword must name a parameter, and every
    parameter takes its keyword's value or its default; [None] is the
    [TypeError] Python raises otherwise. *)
Definition bind_args (params : list param) (kwargs : dict) : option (list json) :=
  if forallb (fun kv => existsb (fun p => String.eqb (param_name p) kv.1) params) kwargs
  then mapM (fun p => match dict_get (param_name p) kwargs with
                      | Some v => Some v
                      | None => param_default p
                      end) params
  else None.

(** The keywords of lines 179-182: [tool_handler( **tool_input,
    session_context=session_context)] when the context is truthy (a
    [session_context] key in the input is then a duplicate keyword, a
    [TypeError]), and [tool_handler( **tool_input)] otherwise. *)
Definition kwargs_of (tool_input : dict) (session_context : json) : option dict :=
  if truthy session_context then
    if has_key "session_context" tool_input then None
    else Some (tool_input ++ [("session_context", session_context)])%list
  else Some tool_input.

Definition call_handler (h : tool_handler) (kwargs : option dict) : handler :=
  match kwargs ≫= bind_args (handler_params h) with
  | Some args => handler_body h args
  | None => se_raise TypeError
  end.

(** ** The registry *)

Record tool_entry := mkEntry { entry_handler : tool_handler; entry_definition : dict }.

(** [self._tools], in insertion order. *)
Record tool_registry := mkRegistry { reg_tools : list (string * tool_entry) }.

Fixpoint alist_get {A} (k : string) (l : list (string * A)) : option A :=
  match l with
  | [] => None
  | (k', v) :: l' => if String.eqb k k' then Some v else alist_get k l'
  end.

(** [d[k] = v] on a Python dict: replaced in place, or appended. *)
Fixpoint alist_set {A} (k : string) (v : A) (l : list (string * A)) : list (string * A) :=
  match l with
  | [] => [(k, v)]
  | (k', v') :: l' => if String.eqb k k' then (k, v) :: l' else (k', v') :: alist_set k v l'
  end.

(** [register_tool(name, handler, definition)]; [Exc ValueError] when the
    definition lacks [name] or [input_schema] or names another tool. *)
Definition register_tool (name : string) (h : tool_handler) (definition : dict)
    (reg : tool_registry) : outcome tool_registry :=
  if negb (has_key "name" definition) || negb (has_key "input_schema" definition)
  then Exc ValueError
  else if negb (is_str name (get_or "name" JNull definition)) then Exc ValueError
  else Ret (mkRegistry (alist_set name (mkEntry h definition) (reg_tools reg))).

(** The loop of [_register_all_tools] (lines 68-69). *)
Fixpoint register_all (tools_to_register : list (string * tool_handler * dict))
    (reg : tool_registry) : outcome tool_registry :=
  match tools_to_register with
  | [] => Ret reg
  | (name, h, definition) :: rest =>
      match register_tool name h definition reg with
      | Ret reg' => register_all rest reg'
      | Exc e => Exc e
      end
  end.

(** [ToolRegistry()] over a list of tools to register. *)
Definition new_registry (tools_to_register : list (string * tool_handler * dict))
    : outcome tool_registry :=
  register_all tools_to_register (mkRegistry []).

(** [get_tool_definitions()] *)
Definition get_tool_definitions (reg : tool_registry) : list dict :=
  map (fun kv => entry_definition kv.2) (reg_tools reg).

(** [get_tool_definition(tool_name)] *)
Definition get_tool_definition (tool_name : string) (reg : tool_registry) : option dict :=
  entry_definition <$> alist_get tool_name (reg_tools reg).

(** [list_tools()] and [get_tool_count()] *)
Definition list_tools (reg : tool_registry) : list string := map fst (reg_tools reg).
Definition get_tool_count (reg : tool_registry) : nat := length (reg_tools reg).

(** ** Execution *)

Definition tool_not_found_result (reg : tool_registry) (tool_name : string) : dict :=
  [("success", JBool false);
   ("error", JObj [("type", JStr "tool_not_found");
                   ("available_tools", JArr (map JStr (list_tools reg)))]);
   ("tool_name", JStr tool_name)].

(** Lines 187-193: [success] is ["error" not in result]. *)
Definition success_result (tool_name : string) (result : dict) : dict :=
  [("success", JBool (negb (has_key "error" result))); ("result", JObj result);
   ("tool_name", JStr tool_name)].

(** The two [except] clauses of lines 212-252. *)
Definition exception_result (tool_name : string) (e : exn) : dict :=
  [("success", JBool false);
   ("error", JObj [("type", JStr (match e with TypeError => "invalid_input"
                                         | _ => "execution_error" end))]);
   ("tool_name", JStr tool_name)].

(** [execute_tool(tool_name, tool_input, session_context)] *)
Definition execute_tool (reg : tool_registry) (tool_name : string) (tool_input : dict)
    (session_context : json) : handler :=
  match alist_get tool_name (reg_tools reg) with
  | None => mret (tool_not_found_result reg tool_name)
  | Some entry =>
      se_catch
        (result ← call_handler (entry_handler entry) (kwargs_of tool_input session_context);
         mret (success_result tool_name result))
        (fun e => mret (exception_result tool_name e))
  end.

(** ** The module-level singleton (lines 273-330) *)

(** [get_tool_registry()]: the global registry, created on first use. *)
Definition get_tool_registry (tools_to_register : list (string * tool_handler * dict))
    (global : option tool_registry) : outcome (tool_registry * option tool_registry) :=
  match global with
  | Some reg => Ret (reg, Some reg)
  | None => match new_registry tools_to_register with
            | Ret reg => Ret (reg, Some reg)
            | Exc e => Exc e
            end
  end.

(** [get_all_tool_definitions()] (lines 291-299) *)
Definition get_all_tool_definitions (tools_to_register : list (string * tool_handler * dict))
    (global : option tool_registry) : outcome (list dict * option tool_registry) :=
  match get_tool_registry tools_to_register global with
  | Ret (reg, g) => Ret (get_tool_definitions reg, g)
  | Exc e => Exc e
  end.

(** [list_available_tools()] (lines 322-330) *)
Definition list_available_tools (tools_to_register : list (string * tool_handler * dict))
    (global : option tool_registry) : outcome (list string * option tool_registry) :=
  match get_tool_registry tools_to_register global with
  | Ret (reg, g) => Ret (list_tools reg, g)
  | Exc e => Exc e
  end.

(** ** The contract of a tool *)

Definition schema_of (definition : dict) : dict :=
  match get_or "input_schema" JNull definition with JObj s => s | _ => [] end.

Definition schema_properties (definition : dict) : list string :=
  match get_or "properties" JNull (schema_of definition) with
  | JObj ps => map fst ps
  | _ => []
  end.

Definition schema_required (definition : dict) : list string :=
  match get_or "required" JNull (schema_of definition) with
  | JArr l => omap (fun v => match v with JStr s => Some s | _ => None end) l
  | _ => []
  end.

(** A tool input that follows the schema: only declared properties, and
    every required one present. *)
Definition input_conforms (definition : dict) (tool_input : dict) : bool :=
  forallb (fun kv => bool_decide (kv.1 ∈ schema_properties definition)) tool_input &&
  forallb (fun r => has_key r tool_input) (schema_required definition).

Class ToolContract (name : string) (h : tool_handler) (definition : dict) : Prop := {
  contract_name : dict_get "name" definition = Some (JStr name);
  contract_schema : has_key "input_schema" definition = true;
  contract_properties :
    Forall (fun k => k ∈ map param_name (handler_params h)) (schema_properties definition);
  contract_required :
    Forall (fun p => param_default p = None -> param_name p ∈ schema_required definition)
      (handler_params h);
  contract_context : "session_context" ∈ map param_name (handler_params h);
  contract_context_hidden : "session_context" ∉ schema_properties definition
}.

(** The effect of the [try] of lines 177-252 on a handler's run: its
    dictionary wrapped, its exception turned into an error record, and
    whatever it wrote kept. *)
Definition registry_wrap (tool_name : string) (r : outcome dict * db) : outcome dict * db :=
  match r with
  | (Ret result, st') => (Ret (success_result tool_name result), st')
  | (Exc e, st') => (Ret (exception_result tool_name e), st')
  end.

(** ** Lemmas *)

Lemma alist_get_set_eq {A} k (v : A) l : alist_get k (alist_set k v l) = Some v.
Proof.
  induction l as [|[k' v'] l IH]; simpl; [by rewrite String.eqb_refl|].
  destruct (String.eqb_spec k k'); simpl; [by rewrite String.eqb_refl|].
  destruct (String.eqb_spec k k'); [done | exact IH].
Qed.

Lemma alist_get_set_ne {A} k k' (v : A) l :
  k <> k' -> alist_get k' (alist_set k v l) = alist_get k' l.
Proof.
  intros Hne. induction l as [|[k0 v0] l IH]; simpl.
  - by rewrite (proj2 (String.eqb_neq _ _) (not_eq_sym Hne)).
  - destruct (String.eqb_spec k k0) as [<-|]; simpl.
    + by rewrite (proj2 (String.eqb_neq _ _) (not_eq_sym Hne)).
    + destruct (String.eqb k' k0); [done | exact IH].
Qed.

(** The keys of a Python dict assignment: in place, or one more at the end. *)
Lemma alist_set_keys {A} k (v : A) l :
  map fst (alist_set k v l) = if bool_decide (k ∈ map fst l) then map fst l
                              else (map fst l ++ [k])%list.
Proof.
  induction l as [|[k' v'] l IH]; simpl; [done|].
  destruct (String.eqb_spec k k') as [<-|Hne]; simpl.
  - rewrite bool_decide_true; [done | by left].
  - rewrite IH. case_bool_decide; case_bool_decide; set_solver.
Qed.

Lemma existsb_param_name k (params : list param) :
  existsb (fun p => String.eqb (param_name p) k) params = true <-> k ∈ map param_name params.
Proof.
  rewrite existsb_exists, list_elem_of_fmap. split.
  - intros (p & Hp%list_elem_of_In & Hk%String.eqb_eq). exists p. split; [by rewrite Hk | done].
  - intros (p & -> & Hp). exists p. split; [by apply list_elem_of_In | apply String.eqb_refl].
Qed.

Lemma dict_get_app_l k (d1 d2 : dict) v :
  dict_get k d1 = Some v -> dict_get k (d1 ++ d2)%list = Some v.
Proof.
  induction d1 as [|[k' v'] d1 IH]; simpl; [done|]. case_decide; auto.
Qed.

Lemma dict_get_not_key k (d : dict) :
  Forall (fun kv => kv.1 <> k) d -> dict_get k d = None.
Proof.
  induction 1 as [|[k' v'] d Hk _ IH]; simpl; [done|].
  rewrite decide_False; [exact IH | simpl in Hk; congruence].
Qed.

Lemma has_key_Some k (d : dict) : has_key k d = true -> exists v, dict_get k d = Some v.
Proof. unfold has_key. destruct (dict_get k d); [by eexists | done]. Qed.

Section contract.
Context (name : string) (h : tool_handler) (definition : dict).
Context (Hcontract : ToolContract name h definition).

(** A conforming input binds to the handler's signature, with or
    without a session context. *)
Lemma bind_conforming (tool_input : dict) (ctx : json) :
  input_conforms definition tool_input = true ->
  exists args, kwargs_of tool_input ctx ≫= bind_args (handler_params h) = Some args.
Proof.
  unfold input_conforms. intros [Hkeys Hreq]%andb_true_iff.
  rewrite forallb_forall in Hkeys, Hreq.
  assert (Hprops : Forall (fun kv => kv.1 ∈ schema_properties definition) tool_input).
  { apply Forall_forall. intros kv Hkv%list_elem_of_In. specialize (Hkeys kv Hkv).
    by apply bool_decide_eq_true in Hkeys. }
  destruct Hcontract as [_ _ Hpar Hr Hctx Hhid].
  assert (Hin : forall kv, kv ∈ tool_input -> kv.1 ∈ map param_name (handler_params h)).
  { intros kv Hkv. rewrite Forall_forall in Hprops. rewrite Forall_forall in Hpar. by apply Hpar, Hprops. }
  assert (Hget : forall p, p ∈ handler_params h -> param_default p = None ->
            exists v, dict_get (param_name p) tool_input = Some v).
  { intros p Hp Hd. rewrite Forall_forall in Hr. apply has_key_Some, Hreq, list_elem_of_In.
    by apply Hr. }
  set (kw := if truthy ctx then (tool_input ++ [("session_context", ctx)])%list else tool_input).
  assert (Hkw : kwargs_of tool_input ctx = Some kw).
  { unfold kwargs_of, kw, has_key. destruct (truthy ctx); [|done].
    rewrite (dict_get_not_key "session_context" tool_input); [done|].
    eapply Forall_impl; [exact Hprops|]. intros [k v] Hk Heq. simpl in *. by subst. }
  rewrite Hkw. simpl. unfold bind_args.
  rewrite (proj2 (forallb_forall _ _)).
  - apply mapM_is_Some, Forall_forall. intros p Hp. unfold compose.
    destruct (dict_get (param_name p) kw) eqn:E; [done|].
    destruct (param_default p) eqn:Ed; [done|].
    destruct (Hget p Hp Ed) as [v Hv]. unfold kw in E.
    destruct (truthy ctx); [rewrite (dict_get_app_l _ _ _ v Hv) in E|]; congruence.
  - intros kv Hkv%list_elem_of_In. apply existsb_param_name. unfold kw in Hkv.
    destruct (truthy ctx); [|by apply Hin].
    apply elem_of_app in Hkv as [Hkv | ->%list_elem_of_singleton]; [by apply Hin | done].
Qed.
End contract.

Lemma execute_tool_found reg name entry input ctx st :
  alist_get name (reg_tools reg) = Some entry ->
  execute_tool reg name input ctx st =
    registry_wrap name (call_handler (entry_handler entry) (kwargs_of input ctx) st).
Proof.
  intros He. unfold execute_tool. rewrite He. se_unfold. unfold se_catch.
  by destruct (call_handler _ _ st) as [[|] ?].
Qed.

Lemma register_tool_run name h definition reg reg' :
  register_tool name h definition reg = Ret reg' ->
  reg_tools reg' = alist_set name (mkEntry h definition) (reg_tools reg).
Proof. unfold register_tool. by repeat case_match; intros [= <-]. Qed.

Lemma register_tool_name name h definition reg reg' :
  register_tool name h definition reg = Ret reg' -> dict_get "name" definition = Some (JStr name).
Proof.
  unfold register_tool, get_or, has_key.
  destruct (dict_get "name" definition) as [v|]; simpl; [|done].
  destruct (dict_get "input_schema" definition); simpl; [|done].
  destruct (is_str name v) eqn:Hs; simpl; [|done].
  intros _. apply is_str_spec in Hs. by subst.
Qed.

(** The guard of [register_tool], as a predicate on a tool to register. *)
Definition registrable (t : string * tool_handler * dict) : bool :=
  has_key "name" t.2 && has_key "input_schema" t.2 && is_str t.1.1 (get_or "name" JNull t.2).

Lemma alist_set_fresh {A} k (v : A) l :
  k ∉ map fst l -> alist_set k v l = (l ++ [(k, v)])%list.
Proof.
  induction l as [|[k' v'] l IH]; simpl; [done|]. rewrite not_elem_of_cons.
  intros [Hne Hl]. destruct (String.eqb_spec k k'); [done|]. by rewrite IH.
Qed.

Lemma register_tool_ok name h definition reg :
  registrable (name, h, definition) = true ->
  register_tool name h definition reg =
    Ret (mkRegistry (alist_set name (mkEntry h definition) (reg_tools reg))).
Proof.
  unfold registrable, register_tool. simpl.
  by destruct (has_key "name" definition), (has_key "input_schema" definition),
    (is_str name (get_or "name" JNull definition)).
Qed.

Definition registry_entries (ts : list (string * tool_handler * dict)) : list (string * tool_entry) :=
  map (fun t => (t.1.1, mkEntry t.1.2 t.2)) ts.

(** Registering well-formed tools with distinct fresh names appends them
    in order. *)
Lemma register_all_fresh ts reg :
  forallb registrable ts = true ->
  NoDup (map (fun t => t.1.1) ts ++ map fst (reg_tools reg))%list ->
  register_all ts reg = Ret (mkRegistry (reg_tools reg ++ registry_entries ts)%list).
Proof.
  revert reg. induction ts as [|[[name h] definition] ts IH]; intros reg Hok Hnd; simpl.
  { rewrite app_nil_r. by destruct reg. }
  apply andb_true_iff in Hok as [Hok Hoks]. rewrite register_tool_ok by done.
  simpl in Hnd. apply NoDup_cons in Hnd as [Hn Hnd].
  rewrite alist_set_fresh by (intros ?; apply Hn; apply elem_of_app; by right).
  rewrite IH; [simpl; by rewrite <- app_assoc | done |]. simpl.
  rewrite map_app. simpl. apply NoDup_app. apply NoDup_app in Hnd as (H1 & H2 & H3).
  split_and!; [done | |].
  - intros x Hx [Hx' | ->%list_elem_of_singleton]%elem_of_app; [by eapply H2 |].
    apply Hn, elem_of_app. by left.
  - apply NoDup_app. split_and!; [done | | apply NoDup_singleton].
    intros x Hx ->%list_elem_of_singleton. apply Hn, elem_of_app. by right.
Qed.

(** ** The registry as a finite map

    [self._tools] is a Python dict: a finite map from names to entries
    whose keys are distinct and kept in insertion order.  [abs_tools]
    forgets the order; [abs_register] is registration on the abstract
    map, with the same validation. *)

Definition abs_tools (reg : tool_registry) : gmap string tool_entry := list_to_map (reg_tools reg).

Definition abs_register (name : string) (h : tool_handler) (definition : dict)
    (m : gmap string tool_entry) : outcome (gmap string tool_entry) :=
  if registrable (name, h, definition) then Ret (<[name := mkEntry h definition]> m)
  else Exc ValueError.

(** Two registries that hold the same tools. *)
Definition registry_equiv (reg1 reg2 : tool_registry) : Prop := abs_tools reg1 = abs_tools reg2.

#[export] Instance registry_equiv_equivalence : Equivalence registry_equiv.
Proof. unfold registry_equiv. split; [done | by intros ?? | by intros ??? -> ->]. Qed.

Lemma alist_get_list_to_map {A} k (l : list (string * A)) :
  alist_get k l = (list_to_map l : gmap string A) !! k.
Proof.
  induction l as [|[k' v] l IH]; simpl; [by rewrite lookup_empty|].
  rewrite lookup_insert. destruct (String.eqb_spec k k') as [->|Hne]; [by rewrite decide_True|].
  rewrite decide_False by congruence. exact IH.
Qed.

Lemma list_to_map_alist_set {A} k (v : A) (l : list (string * A)) :
  list_to_map (alist_set k v l) = <[k := v]> (list_to_map l : gmap string A).
Proof.
  apply map_eq. intros j. rewrite <- !alist_get_list_to_map, lookup_insert.
  case_decide as Hj; [subst; apply alist_get_set_eq | rewrite alist_get_set_ne; [|done]].
  by rewrite alist_get_list_to_map.
Qed.

#[export] Instance get_tool_definition_proper name : Proper (registry_equiv ==> eq) (get_tool_definition name).
Proof. intros reg1 reg2 Heq. unfold get_tool_definition. rewrite !alist_get_list_to_map. unfold registry_equiv, abs_tools in Heq. by rewrite Heq. Qed.

Lemma register_tool_fail name h definition reg :
  registrable (name, h, definition) = false -> register_tool name h definition reg = Exc ValueError.
Proof.
  unfold registrable, register_tool. simpl.
  by destruct (has_key "name" definition), (has_key "input_schema" definition),
    (is_str name (get_or "name" JNull definition)).
Qed.

Lemma list_tools_fmap reg : list_tools reg = (reg_tools reg).*1.
Proof. unfold list_tools. induction (reg_tools reg) as [|kv l IH]; [done | by simpl; f_equal]. Qed.

(** ** Theorems *)

(** for a registered tool that keeps its contract, an
    input that follows the tool's schema always binds to the handler's
    parameters (with or without a session context), and the registry is
    then transparent: the run of [execute_tool] is the run of the
    handler's body on those arguments, its result wrapped and its store
    effect unchanged; [invalid_input] can only come from the body. *)
Theorem execute_tool_conforming reg name h definition input ctx :
  ToolContract name h definition ->
  alist_get name (reg_tools reg) = Some (mkEntry h definition) ->
  input_conforms definition input = true ->
  exists args, kwargs_of input ctx ≫= bind_args (handler_params h) = Some args /\
    forall st, execute_tool reg name input ctx st = registry_wrap name (handler_body h args st).
Proof.
  intros Hc He Hin. destruct (bind_conforming name h definition Hc input ctx Hin) as [args Hargs].
  exists args. split; [done|]. intros st.
  rewrite (execute_tool_found _ _ _ _ _ _ He). unfold call_handler. simpl. by rewrite Hargs.
Qed.

(** C35: [execute_tool] never raises: every call returns a record
    whose [success] field is a boolean, whatever the name, input and
    context. *)
Theorem execute_tool_total reg name input ctx st :
  exists r st', execute_tool reg name input ctx st = (Ret r, st') /\
    exists b, dict_get "success" r = Some (JBool b).
Proof.
  destruct (alist_get name (reg_tools reg)) as [entry|] eqn:He.
  - rewrite (execute_tool_found _ _ _ _ _ _ He).
    destruct (call_handler _ _ st) as [[res|e] st']; simpl; eauto.
  - unfold execute_tool. rewrite He. simpl. eauto.
Qed.

(** an unknown tool name returns [tool_not_found] with
    the list of registered names, and nothing is run. *)
Theorem execute_tool_not_found reg name input ctx st :
  alist_get name (reg_tools reg) = None ->
  execute_tool reg name input ctx st = (Ret (tool_not_found_result reg name), st).
Proof. intros He. unfold execute_tool. by rewrite He. Qed.

(** C31: with a session context, an input carrying its own
    [session_context] key is a duplicate keyword argument: the call
    returns [invalid_input] without running the handler. *)
Theorem execute_tool_context_collision reg name entry input ctx st :
  alist_get name (reg_tools reg) = Some entry ->
  truthy ctx = true -> has_key "session_context" input = true ->
  execute_tool reg name input ctx st = (Ret (exception_result name TypeError), st).
Proof.
  intros He Hctx Hk. rewrite (execute_tool_found _ _ _ _ _ _ He).
  unfold call_handler, kwargs_of. by rewrite Hctx, Hk.
Qed.

(** [register_tool] validates the definition and then
    behaves as a dict assignment: the name now maps to the new
    definition, every other name keeps its definition, and the name list
    keeps its order, growing by the new name at the end only when it was
    not registered yet. *)
Theorem register_tool_lookup name h definition reg reg' :
  register_tool name h definition reg = Ret reg' ->
  dict_get "name" definition = Some (JStr name) /\
  get_tool_definition name reg' = Some definition /\
  (forall n, n <> name -> get_tool_definition n reg' = get_tool_definition n reg) /\
  list_tools reg' = if bool_decide (name ∈ list_tools reg) then list_tools reg
                    else (list_tools reg ++ [name])%list.
Proof.
  intros Hrun. pose proof (register_tool_run _ _ _ _ _ Hrun) as Htools.
  unfold get_tool_definition, list_tools. rewrite Htools, alist_get_set_eq, alist_set_keys.
  split_and!; [by eapply register_tool_name | done | intros n Hn; by rewrite alist_get_set_ne | done].
Qed.

(** a registry whose names are distinct (as the keys of the
    Python dict [self._tools] are) refines the finite map [abs_tools]:
    lookup by name is the map's lookup, [list_tools] enumerates the map's
    names once each, and [register_tool] fails exactly when the abstract
    registration does, and otherwise implements the map's insertion and
    keeps the names distinct. *)
Theorem registry_refines_map reg :
  NoDup (list_tools reg) ->
  (forall n, alist_get n (reg_tools reg) = abs_tools reg !! n) /\
  list_tools reg ≡ₚ (map_to_list (abs_tools reg)).*1 /\
  (forall name h definition,
     match register_tool name h definition reg, abs_register name h definition (abs_tools reg) with
     | Ret reg', Ret m' => abs_tools reg' = m' /\ NoDup (list_tools reg')
     | Exc e, Exc e' => e = e'
     | _, _ => False
     end).
Proof.
  intros Hnd. split_and!.
  - intros n. apply alist_get_list_to_map.
  - unfold abs_tools. rewrite map_to_list_to_map; rewrite <- list_tools_fmap; done.
  - intros name h definition. unfold abs_register.
    destruct (registrable (name, h, definition)) eqn:Hok;
      [rewrite register_tool_ok by done | by rewrite register_tool_fail].
    split; [apply list_to_map_alist_set|]. unfold list_tools. simpl. rewrite alist_set_keys.
    fold (list_tools reg). case_bool_decide; [done|]. by apply NoDup_snoc.
Qed.

End Registry.
