(* ===== verification/Tools.v ===== *)
(** * The eight tools as the registry registers them ([src/tools/registry.py] lines 57-69)

    Each tool is its handler's signature (the [async def] parameters and
    their defaults), its body (the handler of its own file applied to the
    bound arguments in order), and its [TOOL_DEFINITION]: the name and the
    input schema (property names, types, enums and the [required] list;
    the descriptions are prose for the model and are not kept).
    [ToolContract] holds for all eight, so the registry's theorems apply
    to the program's registry. *)

From S2P Require Import Prelude Json Store UpdateModule Certify RequestAudit.
From S2P Require Import CreateApplication UploadDocument ExtractFields QueryApplication ShowArtifact.
From S2P Require Import Registry.

Open Scope string_scope.

Module Tools.

Import Registry.

(** The [i]-th bound argument. *)
Definition arg (i : nat) (args : list json) : json := default JNull (args !! i).

Definition required_param (n : string) : param := mkParam n None.
Definition optional_param (n : string) : param := mkParam n (Some JNull).

(** A JSON-schema property of a given type. *)
Definition prop (n ty : string) : string * json := (n, JObj [("type", JStr ty)]).

Definition tool_definition (name : string) (props : list (string * json)) (required : list string)
    : dict :=
  [("name", JStr name);
   ("input_schema", JObj [("type", JStr "object"); ("properties", JObj props);
                          ("required", JArr (map JStr required))])].

(** ** Handlers *)

Definition query_application_handler : tool_handler :=
  mkHandler [optional_param "application_id"; optional_param "session_context"]
    (fun args => QueryApplication.query_application (arg 0 args) (arg 1 args)).

Definition create_application_handler : tool_handler :=
  mkHandler [optional_param "farmer_name"; optional_param "farmer_email";
             optional_param "farmer_phone"; mkParam "certification_type" (Some (JStr "standard"));
             optional_param "notes"; optional_param "session_context"]
    (fun args => CreateApplication.create_application (arg 0 args) (arg 1 args) (arg 2 args)
                   (arg 3 args) (arg 4 args) (arg 5 args)).

Definition upload_document_handler : tool_handler :=
  mkHandler [required_param "document_type"; optional_param "application_id";
             optional_param "instructions"; optional_param "session_context"]
    (fun args => UploadDocument.upload_document (arg 0 args) (arg 1 args) (arg 2 args) (arg 3 args)).

Definition extract_fields_handler : tool_handler :=
  mkHandler [required_param "document_id"; optional_param "field_hints";
             optional_param "session_context"]
    (fun args => ExtractFields.extract_fields (arg 0 args) (arg 1 args) (arg 2 args)).

Definition update_module_handler : tool_handler :=
  mkHandler [required_param "module_number"; required_param "field_id"; required_param "value";
             optional_param "application_id"; optional_param "session_context"]
    (fun args => UpdateModule.update_module (arg 0 args) (arg 1 args) (arg 2 args) (arg 3 args)
                   (arg 4 args)).

Definition request_audit_handler : tool_handler :=
  mkHandler [required_param "reason"; optional_param "application_id";
             optional_param "document_id"; optional_param "field_ids";
             optional_param "session_context"]
    (fun args => RequestAudit.request_audit (arg 0 args) (arg 1 args) (arg 2 args) (arg 3 args)
                   (arg 4 args)).

Definition certify_application_handler : tool_handler :=
  mkHandler [required_param "certification_confirmed"; optional_param "application_id";
             optional_param "session_context"]
    (fun args => Certify.certify_application (arg 0 args) (arg 1 args) (arg 2 args)).

Definition show_artifact_handler : tool_handler :=
  mkHandler [required_param "artifact_type"; required_param "artifact_id";
             optional_param "application_id"; optional_param "session_context"]
    (fun args => ShowArtifact.show_artifact (arg 0 args) (arg 1 args) (arg 2 args) (arg 3 args)).

(** ** Definitions ([TOOL_DEFINITION] of each file) *)

Definition query_application_definition : dict :=
  tool_definition "query_application" [prop "application_id" "string"] [].

Definition create_application_definition : dict :=
  tool_definition "create_application"
    [prop "farmer_name" "string"; prop "farmer_email" "string"; prop "farmer_phone" "string";
     prop "certification_type" "string"; prop "notes" "string"] [].

Definition upload_document_definition : dict :=
  tool_definition "upload_document"
    [("document_type", JObj [("type", JStr "string");
                             ("enum", JArr (map JStr UploadDocument.DOCUMENT_TYPES))]);
     prop "application_id" "string"; prop "instructions" "string"] ["document_type"].

Definition extract_fields_definition : dict :=
  tool_definition "extract_fields"
    [prop "document_id" "string";
     ("field_hints", JObj [("type", JStr "array"); ("items", JObj [("type", JStr "string")])])]
    ["document_id"].

Definition update_module_definition : dict :=
  tool_definition "update_module"
    [prop "application_id" "string"; prop "module_number" "integer"; prop "field_id" "string";
     prop "value" "string"] ["module_number"; "field_id"; "value"].

Definition request_audit_definition : dict :=
  tool_definition "request_audit"
    [prop "application_id" "string"; prop "document_id" "string";
     ("field_ids", JObj [("type", JStr "array"); ("items", JObj [("type", JStr "string")])]);
     prop "reason" "string"] ["reason"].

Definition certify_application_definition : dict :=
  tool_definition "certify_application"
    [prop "application_id" "string"; prop "certification_confirmed" "boolean"]
    ["certification_confirmed"].

Definition show_artifact_definition : dict :=
  tool_definition "show_artifact"
    [("artifact_type", JObj [("type", JStr "string");
                             ("enum", JArr (map JStr ShowArtifact.valid_types))]);
     prop "artifact_id" "string"; prop "application_id" "string"]
    ["artifact_type"; "artifact_id"].

(** [tools_to_register] (lines 57-66), in order. *)
Definition tools_to_register : list (string * tool_handler * dict) :=
  [("query_application", query_application_handler, query_application_definition);
   ("create_application", create_application_handler, create_application_definition);
   ("upload_document", upload_document_handler, upload_document_definition);
   ("extract_fields", extract_fields_handler, extract_fields_definition);
   ("update_module", update_module_handler, update_module_definition);
   ("request_audit", request_audit_handler, request_audit_definition);
   ("certify_application", certify_application_handler, certify_application_definition);
   ("show_artifact", show_artifact_handler, show_artifact_definition)].

(** The registry [ToolRegistry()] builds (it cannot fail, see
    [tool_registry_init]). *)
Definition the_registry : tool_registry :=
  match new_registry tools_to_register with Ret reg => reg | Exc _ => mkRegistry [] end.

(** ** The eight tools keep their contract *)

Ltac decide_tac := apply (bool_decide_unpack _); vm_compute; exact I.

Ltac contract_tac :=
  constructor;
  [ reflexivity | reflexivity | decide_tac
  | repeat (apply List.Forall_cons; [intros Hd; (discriminate Hd || decide_tac)|]);
    apply List.Forall_nil
  | decide_tac | decide_tac ].

#[export] Instance query_application_contract :
  ToolContract "query_application" query_application_handler query_application_definition.
Proof. contract_tac. Qed.

#[export] Instance create_application_contract :
  ToolContract "create_application" create_application_handler create_application_definition.
Proof. contract_tac. Qed.

#[export] Instance upload_document_contract :
  ToolContract "upload_document" upload_document_handler upload_document_definition.
Proof. contract_tac. Qed.

#[export] Instance extract_fields_contract :
  ToolContract "extract_fields" extract_fields_handler extract_fields_definition.
Proof. contract_tac. Qed.

#[export] Instance update_module_contract :
  ToolContract "update_module" update_module_handler update_module_definition.
Proof. contract_tac. Qed.

#[export] Instance request_audit_contract :
  ToolContract "request_audit" request_audit_handler request_audit_definition.
Proof. contract_tac. Qed.

#[export] Instance certify_application_contract :
  ToolContract "certify_application" certify_application_handler certify_application_definition.
Proof. contract_tac. Qed.

#[export] Instance show_artifact_contract :
  ToolContract "show_artifact" show_artifact_handler show_artifact_definition.
Proof. contract_tac. Qed.

Lemma tools_contract :
  Forall (fun t => ToolContract t.1.1 t.1.2 t.2) tools_to_register.
Proof.
  unfold tools_to_register.
  repeat (apply List.Forall_cons; [simpl; typeclasses eauto |]). apply List.Forall_nil.
Qed.

Lemma tools_registrable : forallb registrable tools_to_register = true.
Proof. vm_compute. reflexivity. Qed.

Lemma tools_names_nodup : NoDup (map (fun t => t.1.1) tools_to_register ++ map fst (@nil (string * tool_entry)))%list.
Proof. decide_tac. Qed.

Lemma new_registry_tools :
  new_registry tools_to_register = Ret (mkRegistry (registry_entries tools_to_register)).
Proof.
  unfold new_registry. rewrite register_all_fresh; [done | exact tools_registrable | exact tools_names_nodup].
Qed.

Lemma the_registry_tools :
  reg_tools the_registry = map (fun t => (t.1.1, mkEntry t.1.2 t.2)) tools_to_register.
Proof. unfold the_registry. by rewrite new_registry_tools. Qed.

Lemma alist_get_map_tools name entry :
  alist_get name (map (fun t => (t.1.1, mkEntry t.1.2 t.2)) tools_to_register) = Some entry ->
  exists t, t ∈ tools_to_register /\ t.1.1 = name /\ entry = mkEntry t.1.2 t.2.
Proof.
  induction tools_to_register as [|t ts IH]; simpl; [done|].
  destruct (String.eqb_spec name t.1.1) as [->|]; [intros [= <-]; exists t; split; [by left|done]|].
  intros H. destruct (IH H) as (t' & ? & ? & ?). exists t'. split; [by right | done].
Qed.

(** Every tool the registry holds keeps its contract. *)
Lemma the_registry_contract name entry :
  alist_get name (reg_tools the_registry) = Some entry ->
  ToolContract name (entry_handler entry) (entry_definition entry).
Proof.
  rewrite the_registry_tools. intros (t & Ht & <- & ->)%alist_get_map_tools. simpl.
  pose proof tools_contract as Hc. rewrite Forall_forall in Hc. by apply Hc.
Qed.

(** ** Theorems *)

(** [ToolRegistry()] registers the eight tools without a
    [ValueError], in the order of [tools_to_register]. *)
Theorem tool_registry_init :
  new_registry tools_to_register = Ret the_registry /\
  list_tools the_registry =
    ["query_application"; "create_application"; "upload_document"; "extract_fields";
     "update_module"; "request_audit"; "certify_application"; "show_artifact"] /\
  get_tool_count the_registry = 8 /\
  get_tool_definitions the_registry =
    [query_application_definition; create_application_definition; upload_document_definition;
     extract_fields_definition; update_module_definition; request_audit_definition;
     certify_application_definition; show_artifact_definition].
Proof.
  unfold list_tools, get_tool_count, get_tool_definitions. rewrite the_registry_tools.
  split_and!; [unfold the_registry; by rewrite new_registry_tools | done..].
Qed.

(** C30: for every tool of the program's registry, an input that
    follows the tool's published schema is bound to the handler's
    parameters, so [execute_tool] runs that handler's body exactly:
    [invalid_input] never comes from the registry's call for such an
    input, with or without a session context. *)
Theorem registered_tools_accept_conforming_input name entry input ctx :
  alist_get name (reg_tools the_registry) = Some entry ->
  input_conforms (entry_definition entry) input = true ->
  exists args, kwargs_of input ctx ≫= bind_args (handler_params (entry_handler entry)) = Some args /\
    forall st, execute_tool the_registry name input ctx st =
               registry_wrap name (handler_body (entry_handler entry) args st).
Proof.
  intros He Hin. pose proof (the_registry_contract _ _ He) as Hc.
  destruct (bind_conforming _ _ _ Hc input ctx Hin) as [args Hargs].
  exists args. split; [done|]. intros st.
  rewrite (execute_tool_found _ _ _ _ _ _ He). unfold call_handler. simpl. by rewrite Hargs.
Qed.

(** ** Witnesses *)

Definition certify_input : dict := [("certification_confirmed", JBool true)].

Lemma certify_registered :
  alist_get "certify_application" (reg_tools the_registry) =
    Some (mkEntry certify_application_handler certify_application_definition).
Proof. rewrite the_registry_tools. reflexivity. Qed.

Lemma certify_input_conforms : input_conforms certify_application_definition certify_input = true.
Proof. vm_compute. reflexivity. Qed.

Lemma execute_tool_conforming_witness :
  exists args, kwargs_of certify_input (JObj [("user_id", JStr "user-1")])
      ≫= bind_args (handler_params certify_application_handler) = Some args /\
    forall st, execute_tool the_registry "certify_application" certify_input
                 (JObj [("user_id", JStr "user-1")]) st =
               registry_wrap "certify_application" (handler_body certify_application_handler args st).
Proof.
  apply (execute_tool_conforming the_registry "certify_application" certify_application_handler
           certify_application_definition); [apply _ | exact certify_registered | exact certify_input_conforms].
Defined.

Lemma registered_tools_accept_conforming_input_witness :
  exists args, kwargs_of certify_input JNull
      ≫= bind_args (handler_params (entry_handler (mkEntry certify_application_handler
                                                     certify_application_definition))) = Some args /\
    forall st, execute_tool the_registry "certify_application" certify_input JNull st =
               registry_wrap "certify_application"
                 (handler_body (entry_handler (mkEntry certify_application_handler
                                                 certify_application_definition)) args st).
Proof.
  apply (registered_tools_accept_conforming_input "certify_application"); [exact certify_registered |].
  exact certify_input_conforms.
Defined.

Lemma execute_tool_not_found_witness :
  execute_tool the_registry "delete_application" [] JNull (sample_db [] [] []) =
    (Ret (tool_not_found_result the_registry "delete_application"), sample_db [] [] []).
Proof. apply execute_tool_not_found. rewrite the_registry_tools. reflexivity. Defined.

Lemma execute_tool_context_collision_witness :
  execute_tool the_registry "certify_application"
    (certify_input ++ [("session_context", JObj [("user_id", JStr "admin")])])%list
    (JObj [("user_id", JStr "user-1")]) (sample_db [] [] []) =
    (Ret (exception_result "certify_application" TypeError), sample_db [] [] []).
Proof.
  eapply execute_tool_context_collision; [exact certify_registered | reflexivity | reflexivity].
Defined.

Lemma register_tool_lookup_witness :
  dict_get "name" query_application_definition = Some (JStr "query_application") /\
  get_tool_definition "query_application" (mkRegistry [("query_application",
      mkEntry query_application_handler query_application_definition)]) =
    Some query_application_definition /\
  (forall n, n <> "query_application" ->
     get_tool_definition n (mkRegistry [("query_application",
       mkEntry query_application_handler query_application_definition)]) =
     get_tool_definition n (mkRegistry [])) /\
  list_tools (mkRegistry [("query_application",
      mkEntry query_application_handler query_application_definition)]) =
    if bool_decide ("query_application" ∈ list_tools (mkRegistry [])) then list_tools (mkRegistry [])
    else (list_tools (mkRegistry []) ++ ["query_application"])%list.
Proof. apply (register_tool_lookup _ query_application_handler). reflexivity. Defined.

Lemma registry_refines_map_witness :
  (forall n, alist_get n (reg_tools the_registry) = abs_tools the_registry !! n) /\
  list_tools the_registry ≡ₚ (map_to_list (abs_tools the_registry)).*1 /\
  (forall name h definition,
     match register_tool name h definition the_registry,
           abs_register name h definition (abs_tools the_registry) with
     | Ret reg', Ret m' => abs_tools reg' = m' /\ NoDup (list_tools reg')
     | Exc e, Exc e' => e = e'
     | _, _ => False
     end).
Proof. apply registry_refines_map. decide_tac. Defined.

End Tools.
