(* ===== verification/Lifecycle.v ===== *)
(** * The application lifecycle under tool calls

    The model's only way to change the store is a tool call routed by the
    registry: [step st st'] holds when one [execute_tool] call of the
    program's registry ([Tools.the_registry]), with any name, input and
    session context, takes [st] to [st'].  A store is reachable from
    another by a sequence of such calls ([rtc step]).

    What every call preserves is proved once per handler with the frame
    logic of the prelude ([keeps]): the handlers that only touch module
    data, documents' OCR status, audit rows or [updated_at] are [quiet];
    [create_application] adds a draft under a fresh id; only
    [certify_application] changes a status, and only for an unlocked
    application that passes the gate.  The theorems: a locked status never
    changes again, and an application is approved only if its documents
    and its module numbers were already in the store, since no tool
    creates a document or writes a [module_number]. *)

From S2P Require Import Prelude Json Store UpdateModule Certify RequestAudit.
From S2P Require Import CreateApplication UploadDocument ExtractFields QueryApplication ShowArtifact.
From S2P Require Import Registry Tools.

Open Scope string_scope.

Module Lifecycle.

Import UpdateModule Certify RequestAudit CreateApplication UploadDocument ExtractFields
  QueryApplication ShowArtifact Registry Tools.

(** ** What the store shows of an application's progress *)

(** The documents' ids and applications (the OCR status may change). *)
Definition doc_keys (st : db) : list (string * string) :=
  map (fun d => (doc_id d, doc_application_id d)) (db_documents st).

(** The module numbers each application has rows for. *)
Definition module_keys (st : db) : list (string * Z) :=
  omap (fun r => (fun m => (row_application_id r, m)) <$> row_module_number r) (db_module_data st).

Definition statuses (st : db) : gmap string application_status := app_status <$> db_applications st.

(** A step that changes none of them. *)
Definition quiet (st st' : db) : Prop :=
  doc_keys st' = doc_keys st /\ module_keys st' = module_keys st /\ statuses st' = statuses st.

#[export] Instance quiet_preorder : PreOrder quiet.
Proof.
  split; [done|]. intros s1 s2 s3 (H1 & H2 & H3) (H4 & H5 & H6). split_and!; congruence.
Qed.

Lemma quiet_touch id s : quiet s (touch id s).
Proof.
  split_and!; [done | done |]. unfold statuses, touch. simpl.
  apply map_eq. intros i. rewrite !lookup_fmap.
  destruct (decide (i = id)) as [->|Hne].
  - rewrite lookup_alter. destruct (db_applications s !! id); simpl; repeat case_decide; done.
  - by rewrite lookup_alter_ne.
Qed.

Lemma quiet_mark_processing did s :
  quiet s (with_documents (map (set_ocr_status did "processing")) s).
Proof.
  split_and!; [|done|done]. unfold doc_keys. simpl. rewrite map_map.
  apply map_ext. intros d. by rewrite set_ocr_status_id, set_ocr_status_app.
Qed.

Lemma quiet_edit_rows s f :
  (forall r, row_application_id (f r) = row_application_id r /\ row_module_number (f r) = row_module_number r) ->
  quiet s (with_module_data (map f) s).
Proof.
  intros Hf. split_and!; [done| |done]. unfold module_keys. simpl.
  induction (db_module_data s) as [|r rs IH]; simpl; [done|].
  destruct (Hf r) as [-> ->]. destruct (row_module_number r); simpl; [f_equal|]; exact IH.
Qed.

(** The state updates of the quiet handlers. *)
Ltac quiet_side :=
  first
    [ split_and!; reflexivity
    | apply quiet_touch
    | apply quiet_mark_processing
    | apply quiet_edit_rows; intros r; unfold edit_row; by case_decide
    | unfold quiet, module_keys; simpl; rewrite omap_app; simpl; rewrite app_nil_r; split_and!; reflexivity ].

Lemma update_module_quiet mnum f v appid ctx : keeps quiet (update_module mnum f v appid ctx).
Proof.
  unfold update_module, upsert_field, update_field_row, insert_field_row, touch_application.
  keeps_tac quiet_side.
Qed.

Lemma flag_fields_quiet id reason items count : keeps quiet (flag_fields id reason items count).
Proof.
  revert count. induction items as [|field_id items IH]; intros count; simpl;
    unfold flag_row; keeps_tac quiet_side.
Qed.

#[local] Hint Resolve flag_fields_quiet : keeps.

Lemma request_audit_quiet reason appid did fids ctx : keeps quiet (request_audit reason appid did fids ctx).
Proof.
  unfold request_audit, audit_targets, flag_field_ids, update_doc_audit, finish_audit,
    touch_application, append_audit.
  keeps_tac quiet_side.
Qed.

Lemma extract_fields_quiet did hints ctx : keeps quiet (extract_fields did hints ctx).
Proof.
  unfold extract_fields, dispatch_status, completed_result, mark_processing, py_get.
  keeps_tac quiet_side.
Qed.

Lemma query_application_quiet appid ctx : keeps quiet (query_application appid ctx).
Proof. apply keeps_read_only; [exact _ | apply query_application_read_only]. Qed.

Lemma show_artifact_quiet t aid appid ctx : keeps quiet (show_artifact t aid appid ctx).
Proof. apply keeps_read_only; [exact _ | apply show_artifact_read_only]. Qed.

Lemma upload_document_quiet t appid instr ctx : keeps quiet (upload_document t appid instr ctx).
Proof. apply keeps_read_only; [exact _ | apply upload_document_read_only]. Qed.

(** ** The frame of every tool call *)

(** What certification needs of the store besides the status: a
    document and a row for every module number. *)
Definition certifiable_base (id : string) (st : db) : Prop :=
  docs_of id (db_documents st) <> [] /\ Certify.missing_modules id (db_module_data st) = [].

Definition lifecycle_frame (st st' : db) : Prop :=
  doc_keys st' = doc_keys st /\ module_keys st' = module_keys st /\
  (forall id a, db_applications st !! id = Some a -> is_locked (app_status a) = true ->
     exists a', db_applications st' !! id = Some a' /\ app_status a' = app_status a) /\
  (forall id a', db_applications st' !! id = Some a' -> app_status a' = Approved ->
     (exists a, db_applications st !! id = Some a /\ app_status a = Approved) \/
     certifiable_base id st).

Lemma docs_of_nil_keys id (ds ds' : list document) :
  map (fun d => (doc_id d, doc_application_id d)) ds' = map (fun d => (doc_id d, doc_application_id d)) ds ->
  docs_of id ds' = [] -> docs_of id ds = [].
Proof.
  revert ds'. induction ds as [|d ds IH]; intros [|d' ds'] Hk; simpl in *; try done.
  injection Hk as _ Happ Hk. rewrite Happ. case_bool_decide; [done|]. by apply IH.
Qed.

Lemma existsb_module_keys id m rows :
  existsb (fun r => bool_decide (row_application_id r = id /\ row_module_number r = Some m)) rows =
  existsb (fun k => bool_decide (k = (id, m)))
    (omap (fun r => (fun n => (row_application_id r, n)) <$> row_module_number r) rows).
Proof.
  induction rows as [|r rows IH]; [done|]. simpl.
  destruct (row_module_number r) as [n|]; simpl; rewrite IH; [|by rewrite bool_decide_false by naive_solver].
  f_equal. apply bool_decide_ext. naive_solver.
Qed.

Lemma missing_modules_keys id st st' :
  module_keys st' = module_keys st ->
  Certify.missing_modules id (db_module_data st') = Certify.missing_modules id (db_module_data st).
Proof.
  intros Hk. unfold Certify.missing_modules. apply List.filter_ext. intros m.
  rewrite !existsb_module_keys. unfold module_keys in Hk. by rewrite Hk.
Qed.

Lemma certifiable_base_keys id st st' :
  doc_keys st' = doc_keys st -> module_keys st' = module_keys st ->
  certifiable_base id st' -> certifiable_base id st.
Proof.
  intros Hd Hm [Hdocs Hmiss]. split.
  - intros Hnil. apply Hdocs. eapply docs_of_nil_keys; [|exact Hnil]. by symmetry.
  - by rewrite <- (missing_modules_keys id st st').
Qed.

#[export] Instance lifecycle_frame_preorder : PreOrder lifecycle_frame.
Proof.
  split.
  - intros st. split_and!; [done | done | by eauto | left; by eauto].
  - intros s1 s2 s3 (Hd1 & Hm1 & Hl1 & Ha1) (Hd2 & Hm2 & Hl2 & Ha2). split_and!; [congruence | congruence | |].
    + intros id a Ha Hlock. destruct (Hl1 id a Ha Hlock) as (a2 & Ha2' & Hs2).
      destruct (Hl2 id a2 Ha2') as (a3 & Ha3 & Hs3); [by rewrite Hs2 |].
      exists a3. split; [done | congruence].
    + intros id a3 Ha3 Happ. destruct (Ha2 id a3 Ha3 Happ) as [(a2 & Ha2' & Hs2) | Hbase].
      * exact (Ha1 id a2 Ha2' Hs2).
      * right. by eapply certifiable_base_keys.
Qed.

Lemma quiet_frame st st' : quiet st st' -> lifecycle_frame st st'.
Proof.
  intros (Hd & Hm & Hs). split_and!; [done | done | |].
  - intros id a Ha _. assert (Hl : app_status <$> db_applications st' !! id = Some (app_status a)).
    { rewrite <- lookup_fmap. change (statuses st' !! id = Some (app_status a)).
      rewrite Hs. unfold statuses. by rewrite lookup_fmap, Ha. }
    destruct (db_applications st' !! id) as [a'|]; simplify_eq/=. by exists a'.
  - intros id a' Ha' Happ. left.
    assert (Hl : app_status <$> db_applications st !! id = Some (app_status a')).
    { rewrite <- lookup_fmap. change (statuses st !! id = Some (app_status a')).
      rewrite <- Hs. unfold statuses. by rewrite lookup_fmap, Ha'. }
    destruct (db_applications st !! id) as [a|]; simplify_eq/=. exists a. split; [done | congruence].
Qed.

Lemma quiet_keeps_frame {A} (m : SE db A) : keeps quiet m -> keeps lifecycle_frame m.
Proof. apply keeps_mono, quiet_frame. Qed.

Lemma create_application_frame name email phone ct notes ctx :
  keeps lifecycle_frame (create_application name email phone ct notes ctx).
Proof.
  intros st r st' Hrun. destruct (create_application_state _ _ _ _ _ _ _ _ _ Hrun) as [-> | (a & Hdraft & ->)];
    [reflexivity|].
  pose proof (fresh_app_id_new st) as Hfresh. split_and!; [done | done | |]; simpl.
  - intros id b Hb _. exists b. split; [|done].
    rewrite lookup_insert_ne; [done|]. intros <-. congruence.
  - intros id a' Ha' Happ. left.
    destruct (decide (fresh_app_id st = id)) as [<-|Hne].
    + exfalso. rewrite lookup_insert, decide_True in Ha' by done. injection Ha' as <-. congruence.
    + rewrite lookup_insert_ne in Ha' by done. by exists a'.
Qed.

Lemma certify_write_tables id a uid st r st' :
  certify_write id a uid st = (r, st') ->
  db_documents st' = db_documents st /\ db_module_data st' = db_module_data st.
Proof.
  unfold certify_write, append_audit, sql_param. se_unfold. cbn -[alter].
  destruct (truthy uid); [|by intros [= _ <-]].
  destruct (sql_text uid); cbn -[alter]; by intros [= _ <-].
Qed.

(** An application that passes the gate has a document and every module. *)
Lemma certify_checks_nil_base id st : certify_checks id st = [] -> certifiable_base id st.
Proof.
  rewrite certify_checks_nil_iff. intros Hno. split.
  - intros Hnil. apply (Hno NoDocuments). simpl. by rewrite Hnil.
  - destruct (Certify.missing_modules id (db_module_data st)) as [|m ms] eqn:E; [done|].
    exfalso. apply (Hno (MissingModules (m :: ms))). simpl. by rewrite E.
Qed.

Lemma certify_application_frame c appid ctx : keeps lifecycle_frame (certify_application c appid ctx).
Proof.
  intros st r st' Hrun.
  destruct (certify_application_state _ _ _ _ _ _ Hrun) as [-> | (id & a & uid & r' & Ha & Hunl & Hchk & Hw)];
    [reflexivity|].
  pose proof (certify_write_apps _ _ _ _ _ _ Hw) as Happs.
  destruct (certify_write_tables _ _ _ _ _ _ Hw) as [Hdocs Hrows].
  unfold lifecycle_frame, doc_keys, module_keys. rewrite Hdocs, Hrows, Happs. split_and!; [done | done | |].
  - intros j b Hb Hlock. destruct (decide (j = id)) as [->|Hne]; [congruence|].
    exists b. by rewrite lookup_alter_ne.
  - intros j a' Ha' Happ. destruct (decide (j = id)) as [->|Hne].
    + right. by apply certify_checks_nil_base.
    + left. rewrite lookup_alter_ne in Ha' by done. by exists a'.
Qed.

(** Every handler the registry holds keeps the lifecycle frame. *)
Lemma registry_handlers_frame name entry args :
  alist_get name (reg_tools the_registry) = Some entry ->
  keeps lifecycle_frame (handler_body (entry_handler entry) args).
Proof.
  rewrite the_registry_tools. intros (t & Ht & _ & ->)%alist_get_map_tools. unfold tools_to_register in Ht.
  repeat (apply elem_of_cons in Ht as [->|Ht]; [simpl |]); [..| by apply not_elem_of_nil in Ht].
  all: first [ apply create_application_frame | apply certify_application_frame
             | apply quiet_keeps_frame;
               first [ apply query_application_quiet | apply upload_document_quiet
                     | apply extract_fields_quiet | apply update_module_quiet
                     | apply request_audit_quiet | apply show_artifact_quiet ] ].
Qed.

Lemma execute_tool_frame name input ctx : keeps lifecycle_frame (execute_tool the_registry name input ctx).
Proof.
  unfold execute_tool. destruct (alist_get name (reg_tools the_registry)) as [entry|] eqn:He;
    [unfold call_handler | ]; keeps_tac idtac.
  by apply registry_handlers_frame with name.
Qed.

(** ** Tool calls as a step relation *)

Inductive step : db -> db -> Prop :=
| step_tool (name : string) (input : dict) (ctx : json) st r st' :
    execute_tool the_registry name input ctx st = (r, st') -> step st st'.

Lemma reachable_frame st st' : rtc step st st' -> lifecycle_frame st st'.
Proof.
  induction 1 as [st|st1 st2 st3 [name input ctx ? r ? Hrun] _ IH]; [reflexivity|].
  etrans; [exact (execute_tool_frame _ _ _ _ _ _ Hrun) | exact IH].
Qed.

(** ** Theorems *)

(** C7: once approved or rejected, an application keeps its
    status through any sequence of tool calls, whatever the model sends. *)
Theorem locked_status_stable st0 st id a :
  rtc step st0 st -> db_applications st0 !! id = Some a -> is_locked (app_status a) = true ->
  exists a', db_applications st !! id = Some a' /\ app_status a' = app_status a.
Proof. intros Hr. by apply (reachable_frame _ _ Hr). Qed.

(** C8: no sequence of tool calls approves an application that
    has no document or lacks a row for one of the module numbers 1-5:
    no tool creates a document or writes [module_number] ([update_module]
    writes [module_name]), so the certification gate stays closed. *)
Theorem approval_needs_existing_records st0 st id :
  rtc step st0 st ->
  (forall a, db_applications st0 !! id = Some a -> app_status a <> Approved) ->
  docs_of id (db_documents st0) = [] \/ Certify.missing_modules id (db_module_data st0) <> [] ->
  forall a', db_applications st !! id = Some a' -> app_status a' <> Approved.
Proof.
  intros Hr Hnot Hlack a' Ha' Happ. destruct (reachable_frame _ _ Hr) as (_ & _ & _ & Happr).
  destruct (Happr id a' Ha' Happ) as [(a & Ha & Hs) | [Hdocs Hmiss]];
    [exact (Hnot a Ha Hs) | destruct Hlack; contradiction].
Qed.

(** ** Witnesses *)

Definition lifecycle_store (status : application_status) : db :=
  sample_db [("app-1", sample_app "user-1" status)] [] [].

(** The owner fills a module field of an approved application. *)
Definition lock_run : outcome dict * db :=
  execute_tool the_registry "update_module"
    [("module_number", JNum 1); ("field_id", JStr "farm_size"); ("value", JStr "120");
     ("application_id", JStr "app-1")]
    (JObj [("user_id", JStr "user-1")]) (lifecycle_store Approved).

Lemma locked_status_stable_witness :
  exists a', db_applications (snd lock_run) !! "app-1" = Some a' /\
    app_status a' = app_status (sample_app "user-1" Approved).
Proof.
  apply (locked_status_stable (lifecycle_store Approved) (snd lock_run) "app-1" (sample_app "user-1" Approved)).
  - eapply rtc_once, step_tool. apply surjective_pairing.
  - reflexivity.
  - reflexivity.
Defined.

(** The owner asks to certify a draft that has no document. *)
Definition cert_run : outcome dict * db :=
  execute_tool the_registry "certify_application"
    [("certification_confirmed", JBool true); ("application_id", JStr "app-1")]
    (JObj [("user_id", JStr "user-1")]) (lifecycle_store Draft).

Lemma approval_needs_existing_records_witness :
  app_status <$> db_applications (snd cert_run) !! "app-1" <> Some Approved.
Proof.
  intros H. destruct (db_applications (snd cert_run) !! "app-1") as [a'|] eqn:E; [|discriminate].
  injection H as H. revert H.
  apply (approval_needs_existing_records (lifecycle_store Draft) (snd cert_run) "app-1").
  - eapply rtc_once, step_tool. apply surjective_pairing.
  - intros a Ha. vm_compute in Ha. injection Ha as <-. discriminate.
  - left. reflexivity.
  - exact E.
Defined.

End Lifecycle.
