(* ===== verification/Client.v ===== *)
(** * The Claude client and its tool loop ([src/claude/client.py])

    [ClaudeClient] builds the JSON body of a Messages API request from
    its defaults, the caller's keyword arguments, the system prompt and
    the tools ([send_message]); [execute_with_tools] runs the tool loop
    for at most [max_iterations] API calls; [stream_message] keeps the
    [data:] payloads of the server-sent events.

    The HTTP API is an oracle: [post] sends a request body and returns
    the parsed response or raises ([HTTPStatusError] from
    [raise_for_status]), over a server state [S] the model knows nothing
    about.  A server that logs its requests ([logged]) is a simulation of
    any server, which lets the theorems speak of the requests sent. *)

From S2P Require Import Prelude Json.

Open Scope string_scope.

Module Client.

(** ** A small exception monad for the code that does not touch the server *)

#[export] Instance outcome_ret : MRet outcome := fun A a => Ret a.
#[export] Instance outcome_bind : MBind outcome := fun A B k m =>
  match m with Ret a => k a | Exc e => Exc e end.

Definition se_lift {S A} (o : outcome A) : SE S A := fun s => (o, s).

(** [v.get(k, dflt)]: only a dict has the method. *)
Definition get_out (v : json) (k : string) (dflt : json) : outcome json :=
  match v with JObj kvs => Ret (get_or k dflt kvs) | _ => Exc AttributeError end.

(** ** Python's [str] of a value, as an f-string formats it *)

Definition squote_char : Ascii.ascii := Ascii.ascii_of_nat 39.
Definition hex_digit (n : nat) : Ascii.ascii :=
  Ascii.ascii_of_nat (if Nat.ltb n 10 then 48 + n else 87 + n).

(** One character of [repr(s)] quoted with [q]. *)
Definition escape_py_char (q c : Ascii.ascii) : string :=
  let n := Ascii.nat_of_ascii c in
  if Ascii.eqb c backslash_char || Ascii.eqb c q then String backslash_char (String c EmptyString)
  else if Nat.eqb n 10 then String backslash_char "n"
  else if Nat.eqb n 13 then String backslash_char "r"
  else if Nat.eqb n 9 then String backslash_char "t"
  else if Nat.ltb n 32 || Nat.eqb n 127
  then String backslash_char (String (Ascii.ascii_of_nat 120)
         (String (hex_digit (n / 16)) (String (hex_digit (n mod 16)) EmptyString)))
  else String c EmptyString.

Fixpoint escape_py (q : Ascii.ascii) (s : string) : string :=
  match s with
  | EmptyString => EmptyString
  | String c s' => escape_py_char q c +:+ escape_py q s'
  end.

Definition has_char (c : Ascii.ascii) (s : string) : bool :=
  existsb (Ascii.eqb c) (String.list_ascii_of_string s).

(** [repr(s)]: single quotes, unless the string has a single quote and
    no double quote. *)
Definition repr_str (s : string) : string :=
  let q := if has_char squote_char s && negb (has_char quote_char s) then quote_char
           else squote_char in
  String q (escape_py q s +:+ String q EmptyString).

Fixpoint py_repr (v : json) : string :=
  match v with
  | JNull => "None"
  | JBool true => "True"
  | JBool false => "False"
  | JNum n => pretty n
  | JStr s => repr_str s
  | JArr l => "[" +:+ String.concat ", " (map py_repr l) +:+ "]"
  | JObj kvs =>
      "{" +:+ String.concat ", " (map (fun kv => match kv with
                                               | (k, x) => repr_str k +:+ ": " +:+ py_repr x
                                               end) kvs) +:+ "}"
  end.

(** [f"{v}"]: a string as itself, anything else as its [repr]. *)
Definition py_str (v : json) : string :=
  match v with JStr s => s | _ => py_repr v end.

(** ** The client *)

Definition DEFAULT_MODEL : string := "claude-sonnet-4-5".
Definition DEFAULT_MAX_TOKENS : json := JNum 4096.
(** [1.0]: JSON numbers are integers in this model; the API reads 1 and
    1.0 alike. *)
Definition DEFAULT_TEMPERATURE : json := JNum 1.

Record claude_client := mkClient {
  client_api_key : string;
  client_model : json;
  client_max_tokens : json;
  client_temperature : json
}.

(** [ClaudeClient(api_key, model, max_tokens, temperature)]: the key, or
    [ANTHROPIC_API_KEY]; [ValueError] when neither is truthy.  httpx
    rejects a header value that is not a string ([TypeError]). *)
Definition new_client (api_key : json) (env_key : option string) (model max_tokens temperature : json)
    : outcome claude_client :=
  let key := if truthy api_key then api_key else default JNull (JStr <$> env_key) in
  if negb (truthy key) then Exc ValueError
  else match key with
       | JStr k => Ret (mkClient k model max_tokens temperature)
       | _ => Exc TypeError
       end.

(** [{"model": ..., "max_tokens": ..., "temperature": ..., **kwargs}] *)
Definition base_params (c : claude_client) : dict :=
  [("model", client_model c); ("max_tokens", client_max_tokens c);
   ("temperature", client_temperature c)].

Definition merge_kwargs (base kwargs : dict) : dict :=
  fold_left (fun d kv => dict_set kv.1 kv.2 d) kwargs base.

(** Lines 87-118 of [send_message]. *)
Definition request_body (c : claude_client) (message system tools : json) (kwargs : dict) : dict :=
  let params := merge_kwargs (base_params c) kwargs in
  let params := if truthy system then dict_set "system" system params else params in
  let params := if truthy tools then dict_set "tools" tools params else params in
  let body := [("model", get_or "model" JNull params);
               ("max_tokens", get_or "max_tokens" JNull params);
               ("messages", JArr [JObj [("role", JStr "user"); ("content", message)]])] in
  let body := match dict_get "system" params with Some v => dict_set "system" v body | None => body end in
  let body := match dict_get "tools" params with Some v => dict_set "tools" v body | None => body end in
  match dict_get "temperature" params with Some v => dict_set "temperature" v body | None => body end.

(** [_execute_tool(tool_name, tool_input)]: the placeholder the loop
    calls instead of the registry. *)
Definition execute_tool_placeholder (tool_name tool_input : json) : string :=
  "Tool " +:+ py_str tool_name +:+ " executed with input: " +:+ py_str tool_input.

(** [[block for block in content if block.get("type") == "tool_use"]] *)
Fixpoint select_tool_uses (blocks : list json) : outcome (list json) :=
  match blocks with
  | [] => Ret []
  | b :: bs =>
      ty ← get_out b "type" JNull;
      rest ← select_tool_uses bs;
      Ret (if is_str "tool_use" ty then b :: rest else rest)
  end.

(** The [for tool_use in tool_uses] loop of lines 172-184. *)
Fixpoint run_tools (tool_uses : list json) : outcome (list json) :=
  match tool_uses with
  | [] => Ret []
  | tu :: rest =>
      name ← get_out tu "name" JNull;
      input ← get_out tu "input" (JObj []);
      id ← get_out tu "id" JNull;
      results ← run_tools rest;
      Ret (JObj [("type", JStr "tool_result"); ("tool_use_id", id);
                 ("content", JStr (execute_tool_placeholder name input))] :: results)
  end.

(** One response (lines 164-197): [None] for a final response, or the
    assistant's content and the tool results to send back. *)
Definition process_response (response : json) : outcome (option (json * list json)) :=
  stop_reason ← get_out response "stop_reason" JNull;
  if is_str "tool_use" stop_reason then
    content ← get_out response "content" (JArr []);
    blocks ← (match py_iter content with Some l => Ret l | None => Exc TypeError end);
    tool_uses ← select_tool_uses blocks;
    tool_results ← run_tools tool_uses;
    assistant_content ← get_out response "content" JNull;
    Ret (Some (assistant_content, tool_results))
  else Ret None.

(** A message of the loop's [messages] list: its role and content. *)
Definition loop_message : Type := string * json.

(** [messages[-1]["content"]]; the list is never empty. *)
Definition last_content (messages : list loop_message) : json :=
  match last messages with Some m => m.2 | None => JNull end.

Section tool_loop.
Context {Srv : Type} (post : dict -> SE Srv json).

(** [send_message(message, system, tools, **kwargs)]: the POST, its
    [raise_for_status] and [response.json()] are the oracle [post]. *)
Definition send_message (c : claude_client) (message system tools : json) (kwargs : dict) : SE Srv json :=
  post (request_body c message system tools kwargs).

(** The [for iteration in range(max_iterations)] loop, with [n] rounds
    left. *)
Fixpoint tool_rounds (c : claude_client) (tools system : json) (n : nat) (messages : list loop_message)
    : SE Srv json :=
  match n with
  | 0 => se_raise RuntimeError
  | S n' =>
      response ← send_message c (last_content messages) system tools [];
      step ← se_lift (process_response response);
      match step with
      | None => mret response
      | Some (assistant_content, tool_results) =>
          tool_rounds c tools system n'
            (messages ++ [("assistant", assistant_content); ("user", JArr tool_results)])
      end
  end.

(** [execute_with_tools(message, tools, system=None, max_iterations=5)];
    [range] of a negative number is empty. *)
Definition execute_with_tools (c : claude_client) (message : json) (tools : json) (system : json)
    (max_iterations : Z) : SE Srv json :=
  tool_rounds c tools system (Z.to_nat max_iterations) [("user", message)].

End tool_loop.

(** A server that records the bodies it receives, in order. *)
Definition logged {S} (post : dict -> SE S json) : dict -> SE (list dict * S) json :=
  fun body ls => let '(r, s') := post body ls.2 in (r, ((ls.1 ++ [body])%list, s')).

(** ** Shapes of responses and results *)

Definition is_obj (v : json) : bool := match v with JObj _ => true | _ => false end.

(** A block [run_tools] produces. *)
Definition is_tool_result (v : json) : Prop :=
  exists id content, v = JObj [("type", JStr "tool_result"); ("tool_use_id", id); ("content", JStr content)].

(** A response asking for tools, with its content blocks. *)
Definition tool_use_response (blocks : list json) : json :=
  JObj [("stop_reason", JStr "tool_use"); ("content", JArr blocks)].

(** A final response: a dict whose [stop_reason] is not [tool_use]. *)
Definition final_response (v : json) : Prop :=
  exists kvs, v = JObj kvs /\ is_str "tool_use" (get_or "stop_reason" JNull kvs) = false.

(** The single user turn [send_message] puts in a request. *)
Definition user_turn (content : json) : json :=
  JArr [JObj [("role", JStr "user"); ("content", content)]].

(** A server that answers from a tape of responses; an empty tape is a
    failed request. *)
Definition scripted : dict -> SE (list (outcome json)) json :=
  fun _ tape => match tape with r :: rest => (r, rest) | [] => (Exc HTTPStatusError, []) end.

(** The requests of a run that starts from [first]: the first carries
    [first], every later one the tool results of the round before. *)
Definition round_requests (c : claude_client) (tools system first : json) (reqs : list dict) : Prop :=
  match reqs with
  | [] => True
  | b :: bs =>
      b = request_body c first system tools [] /\
      Forall (fun b => exists results, Forall is_tool_result results /\
                        b = request_body c (JArr results) system tools []) bs
  end.

(** ** Lemmas *)

Lemma tool_rounds_S {Srv} (post : dict -> SE Srv json) c tools system n msgs s :
  tool_rounds post c tools system (S n) msgs s =
    match post (request_body c (last_content msgs) system tools []) s with
    | (Ret response, s1) =>
        match process_response response with
        | Ret None => (Ret response, s1)
        | Ret (Some (a, results)) =>
            tool_rounds post c tools system n (msgs ++ [("assistant", a); ("user", JArr results)]) s1
        | Exc e => (Exc e, s1)
        end
    | (Exc e, s1) => (Exc e, s1)
    end.
Proof.
  simpl. unfold send_message, se_lift. se_unfold.
  destruct (post _ s) as [[response|e] s1]; [|done].
  by destruct (process_response response) as [[[a results]|]|].
Qed.

Lemma last_content_round (msgs : list loop_message) a results :
  last_content (msgs ++ [("assistant", a); ("user", JArr results)]) = JArr results.
Proof. unfold last_content. by rewrite last_app_cons. Qed.

Lemma select_tool_uses_objs blocks :
  Forall (fun b => is_obj b = true) blocks ->
  exists tus, select_tool_uses blocks = Ret tus /\ Forall (fun b => is_obj b = true) tus.
Proof.
  induction 1 as [|[] bs Hb Hbs IH]; simpl in *; try done; [by eexists|].
  destruct IH as (tus & -> & Htus). simpl. eexists. split; [done|].
  by case_match; [constructor|].
Qed.

Lemma run_tools_objs tus :
  Forall (fun b => is_obj b = true) tus -> exists results, run_tools tus = Ret results.
Proof.
  induction 1 as [|[] bs Hb Hbs IH]; simpl in *; try done; [by eexists|].
  destruct IH as (results & ->). by eexists.
Qed.

Lemma run_tools_results tus results :
  run_tools tus = Ret results -> Forall is_tool_result results.
Proof.
  revert results. induction tus as [|[] tus IH]; intros results; simpl; try done; [by intros [= <-]|].
  destruct (run_tools tus) as [rs|]; simpl; [|done]. intros [= <-].
  constructor; [by do 2 eexists | by apply IH].
Qed.

Lemma process_tool_use_response blocks :
  Forall (fun b => is_obj b = true) blocks ->
  exists results, process_response (tool_use_response blocks) = Ret (Some (JArr blocks, results)).
Proof.
  intros Hb. destruct (select_tool_uses_objs blocks Hb) as (tus & Hsel & Htus).
  destruct (run_tools_objs tus Htus) as (results & Hrun).
  exists results. unfold process_response. simpl. by rewrite Hsel; simpl; rewrite Hrun.
Qed.

Lemma process_final_response v : final_response v -> process_response v = Ret None.
Proof. intros (kvs & -> & Hs). unfold process_response. simpl. by rewrite Hs. Qed.

Lemma process_response_results response a results :
  process_response response = Ret (Some (a, results)) -> Forall is_tool_result results.
Proof.
  unfold process_response. destruct (get_out response "stop_reason" JNull); simpl; [|done].
  case_match; [|done]. destruct (get_out response "content" (JArr [])); simpl; [|done].
  destruct (py_iter _); simpl; [|done]. destruct (select_tool_uses _); simpl; [|done].
  destruct (run_tools _) eqn:Hrun; simpl; [|done].
  destruct (get_out response "content" JNull); simpl; [|done].
  intros [= _ <-]. by eapply run_tools_results.
Qed.

(** The logging server is a simulation of the server it wraps: same
    answers, same server state, and its log grows by the requests of
    the run, at most one per round. *)
Lemma tool_rounds_logged {Srv} (post : dict -> SE Srv json) c tools system n msgs log s :
  exists reqs,
    tool_rounds (logged post) c tools system n msgs (log, s) =
      (let '(r, s') := tool_rounds post c tools system n msgs s in (r, ((log ++ reqs)%list, s'))) /\
    length reqs <= n /\ round_requests c tools system (last_content msgs) reqs.
Proof.
  revert msgs log s. induction n as [|n IH]; intros msgs log s.
  { exists []. by rewrite app_nil_r. }
  rewrite !tool_rounds_S. unfold logged at 1. simpl.
  destruct (post _ s) as [[response|e] s1] eqn:Hpost;
    [|exists [request_body c (last_content msgs) system tools []]; simpl; split_and!; auto with lia].
  destruct (process_response response) as [[[a results]|]|e] eqn:Hproc;
    [|exists [request_body c (last_content msgs) system tools []]; simpl; split_and!; auto with lia..].
  destruct (IH (msgs ++ [("assistant", a); ("user", JArr results)])%list
              (log ++ [request_body c (last_content msgs) system tools []])%list s1)
    as (reqs & Hrun & Hlen & Hreqs).
  exists (request_body c (last_content msgs) system tools [] :: reqs).
  rewrite Hrun, <- app_assoc. split_and!; [done | simpl; lia |].
  rewrite last_content_round in Hreqs. split; [done|].
  destruct reqs as [|b bs]; [done|]. destruct Hreqs as [-> Hbs].
  constructor; [|done]. exists results. split; [by eapply process_response_results | done].
Qed.

Lemma request_body_messages c message system tools :
  dict_get "messages" (request_body c message system tools []) = Some (user_turn message).
Proof.
  unfold request_body, merge_kwargs. simpl.
  destruct (truthy system), (truthy tools); simpl; by repeat (case_match; simpl).
Qed.

Lemma tool_rounds_scripted c tools system rounds final rest n msgs :
  Forall (Forall (fun b => is_obj b = true)) rounds -> final_response final ->
  tool_rounds scripted c tools system n msgs
    ((map (fun bs => Ret (tool_use_response bs)) rounds ++ Ret final :: rest)%list) =
    if decide (length rounds < n) then (Ret final, rest)
    else (Exc RuntimeError,
          drop n (map (fun bs => Ret (tool_use_response bs)) rounds ++ Ret final :: rest)%list).
Proof.
  intros Hrounds Hfinal. revert n msgs.
  induction Hrounds as [|bs rounds Hbs Hrounds IH]; intros [|n] msgs; [done| | done |].
  - rewrite tool_rounds_S. simpl. rewrite process_final_response by done.
    done.
  - rewrite tool_rounds_S. simpl.
    destruct (process_tool_use_response bs Hbs) as [results ->]. rewrite IH. simpl.
    by repeat case_decide; try lia.
Qed.

(** ** Theorems *)

(** C9: whatever the server answers, [execute_with_tools] sends
    at most [max_iterations] requests (none when it is negative or zero),
    and a server that logs them answers and ends exactly as the server
    it wraps. *)
Theorem execute_with_tools_bounded {Srv} (post : dict -> SE Srv json) c message tools system m log s :
  exists reqs,
    execute_with_tools (logged post) c message tools system m (log, s) =
      (let '(r, s') := execute_with_tools post c message tools system m s in
       (r, ((log ++ reqs)%list, s'))) /\
    length reqs <= Z.to_nat m.
Proof.
  unfold execute_with_tools.
  destruct (tool_rounds_logged post c tools system (Z.to_nat m) [("user", message)] log s)
    as (reqs & Hrun & Hlen & _).
  by exists reqs.
Qed.

(** C22: the loop does not carry the conversation: its first
    request holds the user's message alone, and every later request holds
    a single user turn made of the tool results of the round before,
    without the assistant turn that asked for the tools or the original
    question ([messages[-1]["content"]] is all [send_message] receives). *)
Theorem execute_with_tools_sends_only_results {Srv} (post : dict -> SE Srv json) c message tools system
    m log s r log' s' :
  execute_with_tools (logged post) c message tools system m (log, s) = (r, (log', s')) ->
  exists reqs, log' = (log ++ reqs)%list /\
    forall i body, reqs !! i = Some body ->
      (i = 0 -> dict_get "messages" body = Some (user_turn message)) /\
      (0 < i -> exists results, Forall is_tool_result results /\
                  dict_get "messages" body = Some (user_turn (JArr results))).
Proof.
  unfold execute_with_tools. intros Hrun.
  destruct (tool_rounds_logged post c tools system (Z.to_nat m) [("user", message)] log s)
    as (reqs & Heq & _ & Hreqs).
  rewrite Hrun in Heq. destruct (tool_rounds post _ _ _ _ _ s). simplify_eq.
  exists reqs. split; [done|]. intros i body Hi.
  destruct reqs as [|b bs]; [done|]. destruct Hreqs as [-> Hbs].
  destruct i as [|i]; simpl in Hi; simplify_eq.
  - split; [intros _; apply request_body_messages | lia].
  - split; [lia|]. intros _. rewrite Forall_lookup in Hbs.
    destruct (Hbs i body Hi) as (results & Hres & ->). exists results.
    split; [done | apply request_body_messages].
Qed.

(** C21: against a server that asks for tools [k] times (with
    well-formed content blocks) and then answers, [execute_with_tools]
    returns that answer when [k < max_iterations], consuming exactly
    [k + 1] responses; otherwise it raises [RuntimeError] after
    [max_iterations] requests. *)
Theorem execute_with_tools_scripted c message tools system m rounds final rest :
  Forall (Forall (fun b => is_obj b = true)) rounds -> final_response final ->
  execute_with_tools scripted c message tools system m
    ((map (fun bs => Ret (tool_use_response bs)) rounds ++ Ret final :: rest)%list) =
    if decide (length rounds < Z.to_nat m) then (Ret final, rest)
    else (Exc RuntimeError,
          drop (Z.to_nat m) (map (fun bs => Ret (tool_use_response bs)) rounds ++ Ret final :: rest)%list).
Proof. intros Hr Hf. by apply tool_rounds_scripted. Qed.

(** ** Streaming ([stream_message], lines 272-282) *)

Definition colon_char : Ascii.ascii := Ascii.ascii_of_nat 58.

(** [not line.strip()] *)
Definition is_blank (line : string) : bool := forallb is_py_space (String.list_ascii_of_string line).

(** The [data:] payloads of the event-stream lines, up to [[DONE]]. *)
Fixpoint sse_data (lines : list string) : list string :=
  match lines with
  | [] => []
  | line :: rest =>
      if is_blank line then sse_data rest
      else if String.prefix ":" line then sse_data rest
      else if String.prefix "data: " line then
        let data := String.substring 6 (String.length line - 6) line in
        if String.eqb data "[DONE]" then [] else data :: sse_data rest
      else sse_data rest
  end.

(** ** Lemmas on event streams *)

Lemma substring_0_length (d : string) : String.substring 0 (String.length d) d = d.
Proof. induction d as [|a d IH]; simpl; [done | by rewrite IH]. Qed.

Lemma sse_data_line d rest :
  d <> "[DONE]" -> sse_data (("data: " +:+ d) :: rest) = d :: sse_data rest.
Proof.
  intros Hd. simpl. rewrite Nat.sub_0_r, substring_0_length.
  change (String.append EmptyString d) with d.
  replace (String.prefix "" d) with true by (by destruct d).
  by rewrite (proj2 (String.eqb_neq d "[DONE]") Hd).
Qed.

(** ** Theorem on event streams *)

(** C40: [stream_message] yields exactly the payloads of the
    [data:] lines, in order, up to [data: [DONE]] and nothing after it. *)
Theorem sse_data_roundtrip (ds : list string) (rest : list string) :
  Forall (fun d => d <> "[DONE]") ds ->
  sse_data ((map (fun d => "data: " +:+ d) ds ++ "data: [DONE]" :: rest)%list) = ds.
Proof.
  induction 1 as [|d ds Hd Hds IH]; [reflexivity|].
  simpl map. rewrite <- app_comm_cons, sse_data_line by done. by rewrite IH.
Qed.

(** ** The module-level client ([get_client], [reset_client]) *)

Definition get_client (env_key : option string) (global : option claude_client)
    : outcome (claude_client * option claude_client) :=
  match global with
  | Some c => Ret (c, Some c)
  | None =>
      match new_client JNull env_key (JStr DEFAULT_MODEL) DEFAULT_MAX_TOKENS DEFAULT_TEMPERATURE with
      | Ret c => Ret (c, Some c)
      | Exc e => Exc e
      end
  end.

Definition reset_client (global : option claude_client) : option claude_client := None.

(** ** Witnesses *)

Definition demo_client : claude_client :=
  mkClient "sk-test" (JStr DEFAULT_MODEL) DEFAULT_MAX_TOKENS DEFAULT_TEMPERATURE.

Definition demo_block : json :=
  JObj [("type", JStr "tool_use"); ("id", JStr "toolu_1"); ("name", JStr "query_application");
        ("input", JObj [("application_id", JStr "app-1")])].

Definition demo_final : json := JObj [("stop_reason", JStr "end_turn"); ("content", JArr [])].

Definition demo_tape : list (outcome json) := [Ret (tool_use_response [demo_block]); Ret demo_final].

Definition demo_run : outcome json * (list dict * list (outcome json)) :=
  execute_with_tools (logged scripted) demo_client (JStr "Where is my application?") (JArr []) JNull 5
    ([], demo_tape).

Lemma execute_with_tools_sends_only_results_witness :
  exists reqs, demo_run.2.1 = ([] ++ reqs)%list /\
    forall i body, reqs !! i = Some body ->
      (i = 0 -> dict_get "messages" body = Some (user_turn (JStr "Where is my application?"))) /\
      (0 < i -> exists results, Forall is_tool_result results /\
                  dict_get "messages" body = Some (user_turn (JArr results))).
Proof.
  apply (execute_with_tools_sends_only_results scripted demo_client _ (JArr []) JNull 5 [] demo_tape
           demo_run.1 demo_run.2.1 demo_run.2.2).
  reflexivity.
Defined.

Lemma execute_with_tools_scripted_witness :
  execute_with_tools scripted demo_client (JStr "Where is my application?") (JArr []) JNull 5
    ((map (fun bs => Ret (tool_use_response bs)) [[demo_block]] ++ Ret demo_final :: [])%list) =
    (Ret demo_final, []).
Proof.
  apply (execute_with_tools_scripted _ _ _ _ 5 [[demo_block]] demo_final []);
    [repeat constructor | eexists; split; reflexivity].
Defined.

Lemma sse_data_roundtrip_witness :
  sse_data ((map (fun d => "data: " +:+ d) ["{}"; "[1, 2]"] ++ "data: [DONE]" :: ["data: late"])%list) =
    ["{}"; "[1, 2]"].
Proof. apply sse_data_roundtrip. repeat constructor; discriminate. Defined.

(** The placeholder's text for a tool call, as Python prints it. *)
Example execute_tool_placeholder_text :
  execute_tool_placeholder (JStr "query_application") (JObj [("application_id", JStr "app-1")]) =
    "Tool query_application executed with input: {'application_id': 'app-1'}".
Proof. reflexivity. Qed.

End Client.
