(* ===== verification/Connection.v ===== *)
(** * The lifecycle of the database client

    [src/database/connection.py]: the constructor of [DatabaseClient]
    (lines 21-34), its [connect] and [close] (lines 36-50), the attribute
    access [self.pool.fetch(...)] with which every query method and every
    router reaches the pool, and the module-level singleton
    [get_db_client] / [close_db_client] (lines 256-279).

    The state is the module global [_client] (the one [DatabaseClient]
    object the routers share: [connect] mutates it after it has been
    stored, so the model keeps the object in the global and runs the
    methods on it there) beside the PostgreSQL server as asyncpg sees it:
    whether it accepts connections and which pools are open.  The chat
    tables, whatever their model, are a separate component [D] of the
    state: [db_route] is the prologue of every router that runs a query,
    and [connected_route_refines_query] shows that once the client is connected it
    is exactly the query, which is what the table models of [Sessions],
    [Chat] and [Streaming] assume. *)
From S2P Require Import Prelude Client.

Module Connection.
Import Client.

(** ** The server (asyncpg's side, a model of the library) *)

(** Pools are numbered; [pg_open] are those not yet closed. *)
Record pg_server := mkServer { pg_up : bool; pg_open : list nat; pg_next : nat }.

(** [asyncpg.create_pool(url, ...)]: a fresh pool, or [OSError] when the
    server refuses the connection. *)
Definition create_pool (url : string) : SE pg_server nat := fun w =>
  if pg_up w then (Ret (pg_next w), mkServer true (pg_next w :: pg_open w) (S (pg_next w)))
  else (Exc OSError, w).

(** [Pool.close()] *)
Definition pool_close (p : nat) : SE pg_server unit := fun w =>
  (Ret tt, mkServer (pg_up w) (filter (fun q => q <> p) (pg_open w)) (pg_next w)).

(** A query on an open pool reaches the server when it is up. *)
Definition pool_ready (p : nat) (w : pg_server) : bool :=
  pg_up w && bool_decide (p ∈ pg_open w).

(** ** [DatabaseClient] *)

Record DatabaseClient := mkClient { database_url : string; pool : option nat }.

Definition set_pool (p : option nat) (c : DatabaseClient) : DatabaseClient :=
  mkClient (database_url c) p.

(** Running a method of [self] inside a larger state, and lifting a
    server action into a method. *)
Definition on_snd {X W A} (m : SE W A) : SE (X * W) A :=
  fun '(x, w) => let '(r, w') := m w in (r, (x, w')).

Section client.
Context (env : string -> option string).

(** [DatabaseClient.__init__] (lines 21-34) *)
Definition DatabaseClient_init (url : option string) : outcome DatabaseClient :=
  let database_url := py_or url (env "DATABASE_URL") in
  match database_url with
  | Some u => if truthy_opt database_url then Ret (mkClient u None) else Exc ValueError
  | None => Exc ValueError
  end.

(** [connect] (lines 36-44): a pool is created only when there is none. *)
Definition connect : SE (DatabaseClient * pg_server) unit :=
  '(self, _) ← se_get;
  match pool self with
  | None =>
      p ← on_snd (create_pool (database_url self));
      se_modify (fun '(c, w) => (set_pool (Some p) c, w))
  | Some _ => mret tt
  end.

(** [close] (lines 46-50) *)
Definition close : SE (DatabaseClient * pg_server) unit :=
  '(self, _) ← se_get;
  match pool self with
  | Some p => on_snd (pool_close p);; se_modify (fun '(c, w) => (set_pool None c, w))
  | None => mret tt
  end.

(** [self.pool.<method>]: [AttributeError] on [None]. *)
Definition pool_of (c : DatabaseClient) : outcome nat :=
  match pool c with Some p => Ret p | None => Exc AttributeError end.

(** ** The module-level singleton *)

(** The global [_client] and the server. *)
Definition conn_state : Type := option DatabaseClient * pg_server.

(** A method called on the object [_client] refers to: [None.m()] is an
    [AttributeError]. *)
Definition on_global {A} (m : SE (DatabaseClient * pg_server) A) : SE conn_state A :=
  fun '(g, w) =>
    match g with
    | Some c => let '(r, (c', w')) := m (c, w) in (r, (Some c', w'))
    | None => (Exc AttributeError, (g, w))
    end.

(** [get_db_client] (lines 260-271): the new client is stored in
    [_client] before [connect] runs, and [_client] is returned. *)
Definition get_db_client : SE conn_state DatabaseClient :=
  '(g, _) ← se_get;
  match g with
  | Some c => mret c
  | None =>
      c ← se_lift (DatabaseClient_init None);
      se_modify (fun '(_, w) => (Some c, w));;
      on_global connect;;
      '(g', _) ← se_get;
      match g' with Some c' => mret c' | None => se_raise AttributeError end
  end.

(** [close_db_client] (lines 274-279) *)
Definition close_db_client : SE conn_state unit :=
  '(g, _) ← se_get;
  match g with
  | Some _ => on_global close;; se_modify (fun '(_, w) => (None, w))
  | None => mret tt
  end.

(** ** The prologue of a router's query *)

(** [if not self.pool: await self.connect()], the first statement of
    every query method of [DatabaseClient] (lines 67-68, 107-108,
    129-130, 171-172, 204-205, 232-233); the method then reads
    [self.pool]. *)
Definition ensure_pool : SE (DatabaseClient * pg_server) DatabaseClient :=
  '(self, _) ← se_get;
  match pool self with
  | None => connect;; '(self', _) ← se_get; mret self'
  | Some _ => mret self
  end.

Section route.
Context {D : Type}.

Definition on_conn {A} (m : SE conn_state A) : SE (conn_state * D) A :=
  fun '(cs, d) => let '(r, cs') := m cs in (r, (cs', d)).

Definition on_tables {A} (m : SE D A) : SE (conn_state * D) A :=
  fun '(cs, d) => let '(r, d') := m d in (r, (cs, d')).

(** [await <client>.pool.fetch(...)]: the query [m] runs when the
    client has a pool and the server answers on it. *)
Definition pool_query {A} (c : DatabaseClient) (m : SE D A) : SE (conn_state * D) A :=
  p ← se_lift (pool_of c);
  '(cs, _) ← se_get;
  if pool_ready p cs.2 then on_tables m else se_raise OSError.

(** A route that uses the pool directly: [db = await get_db_client()]
    followed by [await db.pool.fetch(...)] (sessions.py lines 104-115,
    and likewise the session list, update, title and delete endpoints and
    the eight tool handlers). *)
Definition db_route {A} (m : SE D A) : SE (conn_state * D) A :=
  c ← on_conn get_db_client;
  pool_query c m.

(** A route through a [DatabaseClient] method ([db.get_session(...)],
    [db.save_message(...)], ...): the method runs on the global object
    [get_db_client] returned, reconnecting it first when it has no pool. *)
Definition db_method_route {A} (m : SE D A) : SE (conn_state * D) A :=
  _ ← on_conn get_db_client;
  c ← on_conn (on_global ensure_pool);
  pool_query c m.

End route.

(** ** The service's runs *)

(** What the running service does to the connection state: a route
    through [db.pool], a route through a [DatabaseClient] method, and the
    server going down or coming back.  main.py registers no shutdown
    handler, so nothing calls [close_db_client]. *)
Inductive app_step {D : Type} : conn_state * D -> conn_state * D -> Prop :=
| as_route {A} (m : SE D A) st r st' : db_route m st = (r, st') -> app_step st st'
| as_method {A} (m : SE D A) st r st' : db_method_route m st = (r, st') -> app_step st st'
| as_server (up : bool) g w d :
    app_step ((g, w), d) ((g, mkServer up (pg_open w) (pg_next w)), d).


(** With [close_db_client] as a further step: the whole lifecycle. *)
Inductive lifecycle_step {D : Type} : conn_state * D -> conn_state * D -> Prop :=
| ls_app st st' : app_step st st' -> lifecycle_step st st'
| ls_close cs d r cs' : close_db_client cs = (r, cs') -> lifecycle_step (cs, d) (cs', d).

End client.

(** ** Running the singleton *)

Section props.
Context (env : string -> option string).

(** The open pools are exactly the pool of the global client. *)
Definition pools_owned (cs : conn_state) : Prop :=
  pg_open cs.2 = match cs.1 with Some c => option_list (pool c) | None => [] end.


Lemma get_db_client_cached c w : get_db_client env (Some c, w) = (Ret c, (Some c, w)).
Proof. reflexivity. Qed.

Lemma get_db_client_fresh u w :
  env "DATABASE_URL" = Some u -> u <> "" ->
  get_db_client env (None, w) =
    if pg_up w then (Ret (mkClient u (Some (pg_next w))),
                     (Some (mkClient u (Some (pg_next w))), mkServer true (pg_next w :: pg_open w) (S (pg_next w))))
    else (Exc OSError, (Some (mkClient u None), w)).
Proof.
  intros He Hu. apply String.eqb_neq in Hu.
  unfold get_db_client, DatabaseClient_init, py_or, truthy_opt. se_unfold; simpl.
  rewrite He, Hu; simpl. unfold on_global, connect, create_pool, on_snd. se_unfold; simpl.
  by destruct (pg_up w).
Qed.

Lemma get_db_client_unset w :
  truthy_opt (env "DATABASE_URL") = false -> get_db_client env (None, w) = (Exc ValueError, (None, w)).
Proof.
  unfold get_db_client, DatabaseClient_init, py_or. se_unfold; simpl.
  destruct (env "DATABASE_URL") as [u|]; intros H; [rewrite H|]; done.
Qed.

Lemma pool_query_run {D A} (c : DatabaseClient) (m : SE D A) cs d :
  pool_query c m (cs, d) =
    match pool_of c with
    | Ret p => if pool_ready p cs.2 then on_tables m (cs, d) else (Exc OSError, (cs, d))
    | Exc e => (Exc e, (cs, d))
    end.
Proof.
  unfold pool_query, se_lift. se_unfold; simpl.
  destruct (pool_of c); simpl; [by destruct (pool_ready _ _)|done].
Qed.

(** [pool_query] never touches the connection state. *)
Lemma pool_query_conn {D A} (c : DatabaseClient) (m : SE D A) cs d r st' :
  pool_query c m (cs, d) = (r, st') -> st'.1 = cs.
Proof.
  rewrite pool_query_run.
  destruct (pool_of c); [destruct (pool_ready _ _); [unfold on_tables; destruct (m d)|]|];
    by intros [= _ <-].
Qed.

Lemma db_route_run {D A} (m : SE D A) cs d :
  db_route env m (cs, d) =
    match get_db_client env cs with
    | (Ret c, cs') => pool_query c m (cs', d)
    | (Exc e, cs') => (Exc e, (cs', d))
    end.
Proof.
  unfold db_route, on_conn. rewrite se_bind_run. simpl.
  by destruct (get_db_client env cs) as [[c|e] cs'].
Qed.

Lemma db_method_route_run {D A} (m : SE D A) cs d :
  db_method_route env m (cs, d) =
    match get_db_client env cs with
    | (Ret _, cs') =>
        match on_global ensure_pool cs' with
        | (Ret c, cs'') => pool_query c m (cs'', d)
        | (Exc e, cs'') => (Exc e, (cs'', d))
        end
    | (Exc e, cs') => (Exc e, (cs', d))
    end.
Proof.
  unfold db_method_route, on_conn. rewrite se_bind_run. simpl.
  destruct (get_db_client env cs) as [[c|e] cs']; [|done].
  rewrite se_bind_run. simpl. by destruct (on_global ensure_pool cs') as [[c'|e] cs''].
Qed.








(** ** The invariant of the lifecycle *)

Lemma get_db_client_owned cs r cs' : pools_owned cs -> get_db_client env cs = (r, cs') -> pools_owned cs'.
Proof.
  destruct cs as [[c|] w]; unfold pools_owned; simpl.
  - rewrite get_db_client_cached. by intros ? [= _ <-].
  - intros Hw. destruct (truthy_opt (env "DATABASE_URL")) eqn:Ht.
    + destruct (env "DATABASE_URL") as [u|] eqn:He; [|done].
      assert (Hu : u <> "") by (simpl in Ht; by destruct (String.eqb_spec u "")).
      rewrite (get_db_client_fresh u w He Hu).
      destruct (pg_up w); intros [= _ <-]; simpl; by rewrite ?Hw.
    + rewrite get_db_client_unset by done. by intros [= _ <-].
Qed.

Lemma ensure_pool_owned cs r cs' : pools_owned cs -> on_global ensure_pool cs = (r, cs') -> pools_owned cs'.
Proof.
  destruct cs as [[[u [p|]]|] [[|] o n]];
    unfold on_global, ensure_pool, connect, create_pool, on_snd, pools_owned; se_unfold; simpl;
    intros Hw [= _ <-]; simpl; by rewrite ?Hw.
Qed.

Lemma db_route_owned {D A} (m : SE D A) cs d r st' :
  pools_owned cs -> db_route env m (cs, d) = (r, st') -> pools_owned st'.1.
Proof.
  intros Hw. rewrite db_route_run. destruct (get_db_client env cs) as [[c|e] cs'] eqn:E;
    apply (get_db_client_owned _ _ _ Hw) in E; [|by intros [= _ <-]].
  intros H. by rewrite (pool_query_conn _ _ _ _ _ _ H).
Qed.

Lemma db_method_route_owned {D A} (m : SE D A) cs d r st' :
  pools_owned cs -> db_method_route env m (cs, d) = (r, st') -> pools_owned st'.1.
Proof.
  intros Hw. rewrite db_method_route_run. destruct (get_db_client env cs) as [[c|e] cs'] eqn:E;
    apply (get_db_client_owned _ _ _ Hw) in E; [|by intros [= _ <-]].
  destruct (on_global ensure_pool cs') as [[c'|e] cs''] eqn:E';
    apply (ensure_pool_owned _ _ _ E) in E'; [|by intros [= _ <-]].
  intros H. by rewrite (pool_query_conn _ _ _ _ _ _ H).
Qed.

Lemma close_db_client_owned cs r cs' : pools_owned cs -> close_db_client cs = (r, cs') -> pools_owned cs'.
Proof.
  destruct cs as [[[u [p|]]|] w];
    unfold close_db_client, on_global, close, pool_close, on_snd, pools_owned; se_unfold; simpl;
    intros Hw [= _ <-]; simpl; rewrite ?Hw; [rewrite filter_cons_False; [done|by intros ?]|..]; done.
Qed.

Lemma lifecycle_step_owned {D} (st st' : conn_state * D) :
  pools_owned st.1 -> lifecycle_step env st st' -> pools_owned st'.1.
Proof.
  intros Hw Hs. revert Hw.
  destruct Hs as [x y [A m [cs d] r st'' H|A m [cs d] r st'' H|up g w d]|cs d r cs' H]; simpl; intros Hw.
  - exact (db_route_owned m cs d r st'' Hw H).
  - exact (db_method_route_owned m cs d r st'' Hw H).
  - exact Hw.
  - exact (close_db_client_owned cs r cs' Hw H).
Qed.

(** ** Theorems *)

(** C15: in every run of the service from a server with no open pool,
    routes through [db.pool] and through [DatabaseClient] methods (with
    their reconnection), outages, and [close_db_client] at any point, the
    open pools are exactly the pool of the global client: the singleton
    never holds more than one pool and never leaks one. *)
Theorem lifecycle_pools_owned {D} (d : D) up n st :
  rtc (lifecycle_step env) ((None, mkServer up [] n), d) st ->
  pg_open st.1.2 = match st.1.1 with Some c => option_list (pool c) | None => [] end.
Proof.
  intros H. change (pools_owned st.1).
  exact (rtc_invariant _ (fun st => pools_owned st.1) _ _ lifecycle_step_owned H eq_refl).
Qed.



End props.

(** ** Witnesses *)

Definition demo_env (k : string) : option string :=
  if String.eqb k "DATABASE_URL" then Some "postgresql://localhost/agfin" else None.

Definition count_sessions : SE nat nat := fun n => (Ret n, n).


Lemma lifecycle_pools_owned_witness :
  rtc (lifecycle_step demo_env) ((None, mkServer true [] 0), 0)
      ((Some (mkClient "postgresql://localhost/agfin" (Some 0)), mkServer true [0] 1), 0) /\
  pg_open (mkServer true [0] 1) = [0].
Proof.
  assert (Hrun : rtc (lifecycle_step demo_env) ((None, mkServer true [] 0), 0)
                   ((Some (mkClient "postgresql://localhost/agfin" (Some 0)), mkServer true [0] 1), 0)).
  { apply rtc_once, ls_app, (as_route _ count_sessions _ (Ret 0)). reflexivity. }
  split; [exact Hrun | exact (lifecycle_pools_owned demo_env 0 true 0 _ Hrun)].
Defined.



End Connection.
