(* ===== verification/SystemPrompt.v ===== *)
(** * The system prompt ([src/prompts/system_prompt.py])

    [build_system_prompt] collects the prompt's parts in a list and joins
    them with newlines: the persona, the workflow's guidance when the mode
    is one of the four known ones, the linked application, the user's
    memories (at most five), the tools, the user's preferences, the
    current time and the closing instructions.  The dictionaries it reads
    are JSON values: [.get] on anything but a dict is an
    [AttributeError], [for] over a value that is not iterable a
    [TypeError] ([Client.get_out], [Json.py_iter]).  The clock reading
    [datetime.utcnow()] formatted by [strftime] is the argument [now].
    Python's [\n] is [NL]; the triple-quoted constants are written with
    their line breaks. *)

From S2P Require Import Prelude Json Client.
From S2P Require Import Registry Tools.

Open Scope string_scope.

Module SystemPrompt.

Import Client Registry Tools.

Definition NL : string := String (Ascii.ascii_of_nat 10) EmptyString.

(** [BASE_PERSONA] (lines 17-42) *)
Definition BASE_PERSONA : string :=
"You are AgFin AI, an expert assistant for agricultural finance certification.

Your role is to help users navigate the complex world of agricultural finance compliance and certification, including:
- SOC 1/2/3 certifications (Service Organization Control)
- DFARS compliance (Defense Federal Acquisition Regulation Supplement)
- OSCERC standards (Open Source Cybersecurity Evaluation and Risk Control)

You provide intelligent assistance with:
- Understanding certification requirements and processes
- Completing application forms with accuracy and compliance
- Reviewing and organizing compliance documents
- Preparing for audits and assessments
- Answering questions about agricultural finance regulations

Your capabilities:
- Access to the user's certification application data
- Document search and analysis (OCR-extracted content)
- Long-term memory of user preferences and context
- Tool execution for data retrieval and analysis

Guidelines for interaction:
- Be professional, accurate, and helpful
- When uncertain, ask clarifying questions rather than guessing
- Cite specific regulations or requirements when possible
- Break down complex processes into manageable steps
- Maintain confidentiality and data security awareness".

(** [WORKFLOW_GUIDANCE] (lines 46-74), in its key order. *)
Definition WORKFLOW_GUIDANCE : list (string * string) := [
  ("general_help", "
Current mode: General Help
- Answer questions about the certification process
- Provide guidance on next steps
- Help navigate the application portal
");
  ("document_review", "
Current mode: Document Review
- Focus on analyzing uploaded compliance documents
- Identify missing or incomplete documentation
- Suggest document organization strategies
- Flag potential compliance issues
");
  ("field_completion", "
Current mode: Field Completion Assistant
- Help accurately complete application form fields
- Provide examples and guidance for complex fields
- Validate input against requirements
- Suggest corrections for common errors
");
  ("audit_preparation", "
Current mode: Audit Preparation
- Guide audit readiness activities
- Review documentation completeness
- Identify potential audit questions
- Suggest remediation for gaps
")].

Definition guidance (mode : string) : option string :=
  snd <$> List.find (fun kv => String.eqb kv.1 mode) WORKFLOW_GUIDANCE.

Definition INSTRUCTIONS : string := "
- Provide clear, actionable guidance
- Use tools when you need specific data
- Ask for clarification if the user's request is ambiguous
- Keep responses focused and relevant to agricultural finance certification
- Maintain a professional yet approachable tone
".

(** ** Python's [in] and [[]] on the preferences value *)

(** [if k in v: ... v[k]]: the value at [k] when [k in v] holds.  On a
    dict that is the binding; a list or string may contain [k], but then
    indexing it with a string is a [TypeError]; [in] on a number, a bool
    or [None] is a [TypeError]. *)
Definition pref_lookup (k : string) (v : json) : outcome (option json) :=
  match v with
  | JObj kvs => Ret (dict_get k kvs)
  | JArr l => if existsb (is_str k) l then Exc TypeError else Ret None
  | JStr s => match String.index 0 k s with Some _ => Exc TypeError | None => Ret None end
  | _ => Exc TypeError
  end.

(** ** The sections of the prompt *)

(** Lines 100-102 *)
Definition workflow_parts (workflow_mode : option string) : list string :=
  match workflow_mode with
  | Some m => if String.eqb m "" then [] else
                match guidance m with Some g => [NL +:+ "## Current Workflow"; g] | None => [] end
  | None => []
  end.

(** Lines 105-131 *)
Definition module_line (module : json) : outcome string :=
  module_name ← get_out module "name" (JStr "Unknown");
  module_status ← get_out module "status" (JStr "pending");
  Ret ("  - " +:+ py_str module_name +:+ ": " +:+ py_str module_status).

Definition application_parts (application_context : json) : outcome (list string) :=
  if negb (truthy application_context) then Ret [] else
  app_id ← get_out application_context "id" (JStr "unknown");
  app_status ← get_out application_context "status" (JStr "unknown");
  cert_type ← get_out application_context "certification_type" (JStr "unknown");
  let header := [NL +:+ "## Current Application Context";
                 "
The user is currently working on:
- Application ID: " +:+ py_str app_id +:+ "
- Certification Type: " +:+ py_str cert_type +:+ "
- Status: " +:+ py_str app_status +:+ NL] in
  let kvs := match application_context with JObj kvs => kvs | _ => [] end in
  let progress := match dict_get "completion_percentage" kvs with
                  | Some completion => ["- Progress: " +:+ py_str completion +:+ "% complete" +:+ NL]
                  | None => []
                  end in
  modules ← (match dict_get "modules" kvs with
             | Some modules =>
                 items ← (match py_iter modules with Some l => Ret l | None => Exc TypeError end);
                 lines ← mapM module_line items;
                 Ret ((NL +:+ "Module completion status:") :: lines)
             | None => Ret []
             end);
  Ret (header ++ progress ++ modules)%list.

(** Lines 134-139: [enumerate(user_memories[:5], 1)] *)
Definition memory_parts (user_memories : list json) : list string :=
  match user_memories with
  | [] => []
  | _ => [NL +:+ "## Relevant Context from Previous Conversations";
          NL +:+ "The following information from past interactions may be relevant:"] ++
         imap (fun i memory => pretty (Z.of_nat (S i)) +:+ ". " +:+ py_str memory) (take 5 user_memories) ++
         [NL +:+ "Use this context to provide more personalized assistance."]
  end%list.

(** Lines 142-150 *)
Definition tool_line (tool : json) : outcome string :=
  tool_name ← get_out tool "name" (JStr "unknown");
  tool_desc ← get_out tool "description" (JStr "No description");
  Ret (NL +:+ "- **" +:+ py_str tool_name +:+ "**: " +:+ py_str tool_desc).

Definition tool_parts (available_tools : list json) : outcome (list string) :=
  match available_tools with
  | [] => Ret []
  | _ =>
      lines ← mapM tool_line available_tools;
      Ret ([NL +:+ "## Available Tools"; NL +:+ "You have access to the following tools:"] ++ lines ++
           [NL +:+ "Use these tools when needed to provide accurate, data-driven assistance."])%list
  end.

(** Lines 153-165 *)
Definition preference_parts (user_info : json) : outcome (list string) :=
  if negb (truthy user_info) then Ret [] else
  preferences ← get_out user_info "preferences" (JObj []);
  if negb (truthy preferences) then Ret [] else
  style ← pref_lookup "communication_style" preferences;
  level ← pref_lookup "expertise_level" preferences;
  Ret ([NL +:+ "## User Preferences"] ++
       match style with Some s => ["- Preferred communication style: " +:+ py_str s] | None => [] end ++
       match level with Some l => ["- User expertise level: " +:+ py_str l] | None => [] end)%list.

(** [build_system_prompt] (lines 77-181).  A [None] list and an empty
    one are alike ([if xs and len(xs) > 0]). *)
Definition prompt_parts (workflow_mode : option string) (application_context : json)
    (user_memories available_tools : list json) (user_info : json) (now : string)
    : outcome (list string) :=
  app ← application_parts application_context;
  tools ← tool_parts available_tools;
  prefs ← preference_parts user_info;
  Ret ([BASE_PERSONA] ++ workflow_parts workflow_mode ++ app ++ memory_parts user_memories ++ tools ++
       prefs ++ [NL +:+ "## Session Context"; "Current date/time: " +:+ now;
                 NL +:+ "## Instructions"; INSTRUCTIONS])%list.

Definition build_system_prompt (workflow_mode : option string) (application_context : json)
    (user_memories available_tools : list json) (user_info : json) (now : string) : outcome string :=
  parts ← prompt_parts workflow_mode application_context user_memories available_tools user_info now;
  Ret (String.concat NL parts).

(** ** [build_tool_description] (lines 184-211) *)

(** [k in v]: a dict's keys, a list's elements, a string's substrings;
    anything else is a [TypeError]. *)
Definition py_contains (k : string) (v : json) : outcome bool :=
  match v with
  | JObj kvs => Ret (has_key k kvs)
  | JArr l => Ret (existsb (is_str k) l)
  | JStr s => Ret (match String.index 0 k s with Some _ => true | None => false end)
  | _ => Exc TypeError
  end.

(** One parameter line (lines 205-209). *)
Definition param_line (tool_definition : json) (param : string * json) : outcome string :=
  param_type ← get_out param.2 "type" (JStr "any");
  param_desc ← get_out param.2 "description" (JStr "");
  schema ← get_out tool_definition "input_schema" (JObj []);
  req ← get_out schema "required" (JArr []);
  is_required ← py_contains param.1 req;
  let req_marker := if (is_required : bool) then " (required)" else " (optional)" in
  Ret (NL +:+ "    - " +:+ param.1 +:+ " (" +:+ py_str param_type +:+ ")" +:+ req_marker +:+ ": " +:+
       py_str param_desc).

Definition build_tool_description (tool_definition : json) : outcome string :=
  name ← get_out tool_definition "name" (JStr "unknown");
  description ← get_out tool_definition "description" (JStr "No description");
  schema ← get_out tool_definition "input_schema" (JObj []);
  params ← get_out schema "properties" (JObj []);
  let tool_desc := "**" +:+ py_str name +:+ "**" +:+ NL +:+ py_str description in
  if negb (truthy params) then Ret tool_desc else
  items ← (match params with JObj kvs => Ret kvs | _ => Exc AttributeError end);
  lines ← mapM (param_line tool_definition) items;
  Ret (tool_desc +:+ NL +:+ "  Parameters:" +:+ String.concat "" lines).

(** [get_workflow_modes] (lines 214-221) *)
Definition get_workflow_modes : list string := map fst WORKFLOW_GUIDANCE.

(** [validate_workflow_mode] (lines 224-234) *)
Definition validate_workflow_mode (mode : string) : bool :=
  existsb (fun kv => String.eqb kv.1 mode) WORKFLOW_GUIDANCE.

(** ** Lemmas *)

Lemma prefix_append s t : String.prefix s (s +:+ t) = true.
Proof.
  induction s as [|a s IH]; simpl; [by destruct t|]. by destruct (Ascii.ascii_dec a a).
Qed.

Lemma concat_cons_prefix sep x l : String.prefix x (String.concat sep (x :: l)) = true.
Proof.
  destruct l as [|y l]; simpl.
  - induction x as [|a x IH]; simpl; [done|]. by destruct (Ascii.ascii_dec a a).
  - apply prefix_append.
Qed.

Lemma mapM_outcome_total {A B} (f : A -> outcome B) (l : list A) :
  Forall (fun x => exists y, f x = Ret y) l -> exists ys, mapM f l = Ret ys.
Proof.
  induction 1 as [|x l [y Hy] _ [ys Hys]]; [by exists []|].
  exists (y :: ys). change (mapM f (x :: l)) with (y' ← f x; k ← mapM f l; mret (y' :: k)).
  rewrite Hy, Hys. reflexivity.
Qed.

Lemma tool_line_obj kvs : exists y, tool_line (JObj kvs) = Ret y.
Proof. by eexists. Qed.

(** ** Theorems *)

(** whenever the prompt is built, it begins with the base
    persona. *)
Theorem system_prompt_persona_first wm ctx mems tools info now p :
  build_system_prompt wm ctx mems tools info now = Ret p -> String.prefix BASE_PERSONA p = true.
Proof.
  unfold build_system_prompt, prompt_parts, mbind, outcome_bind.
  destruct (application_parts ctx), (tool_parts tools), (preference_parts info); try discriminate.
  intros [= <-]. apply concat_cons_prefix.
Qed.

(** for the arguments the chat endpoint passes (no linked
    application or one given by its id, no memories, no user information,
    and tool definitions that are dicts) building the prompt never
    raises. *)
Theorem system_prompt_total_for_chat wm (app : option string) tools now :
  Forall (fun t => exists kvs, t = JObj kvs) tools ->
  exists p, build_system_prompt wm (match app with Some a => JObj [("id", JStr a)] | None => JNull end)
                                [] tools JNull now = Ret p.
Proof.
  intros Ht. destruct (mapM_outcome_total tool_line tools) as [ys Hys].
  { eapply Forall_impl; [exact Ht|]. intros t [kvs ->]. apply tool_line_obj. }
  unfold build_system_prompt, prompt_parts, tool_parts.
  destruct tools as [|t ts]; [|rewrite Hys]; destruct app; simpl; by eexists.
Qed.

(** An unknown workflow mode adds nothing to the prompt; the known ones
    are exactly the keys of [WORKFLOW_GUIDANCE]. *)
Example workflow_modes :
  workflow_parts (Some "loan_review") = [] /\ validate_workflow_mode "loan_review" = false /\
  validate_workflow_mode "audit_preparation" = true /\ length (workflow_parts (Some "general_help")) = 2.
Proof. vm_compute. auto. Qed.

(** ** Witnesses *)

Lemma system_prompt_persona_first_witness :
  String.prefix BASE_PERSONA
    (String.concat NL (BASE_PERSONA :: workflow_parts (Some "general_help") ++
       [NL +:+ "## Session Context"; "Current date/time: 2026-11-09 08:00 UTC";
        NL +:+ "## Instructions"; INSTRUCTIONS])) = true.
Proof. apply (system_prompt_persona_first (Some "general_help") JNull [] [] JNull "2026-11-09 08:00 UTC"). reflexivity. Defined.

Lemma system_prompt_total_for_chat_witness :
  exists p, build_system_prompt (Some "document_review") (JObj [("id", JStr "app-7")]) []
              [JObj [("name", JStr "certify_application")]] JNull "2026-11-09 08:00 UTC" = Ret p.
Proof.
  apply (system_prompt_total_for_chat (Some "document_review") (Some "app-7")). repeat constructor; by eexists.
Defined.

(** Every tool the service registers has a description the builder can
    render; [certify_application]'s lists its one parameter as required. *)
Example registered_tool_descriptions :
  forallb (fun d => if build_tool_description (JObj d) is Ret _ then true else false)
          (get_tool_definitions the_registry) = true /\
  length (get_tool_definitions the_registry) = 8.
Proof. split; vm_compute; reflexivity. Qed.

End SystemPrompt.
