(* ===== verification/Titles.v ===== *)
(** * Session titles ([src/utils/title_generator.py])

    [create_fallback_title] collapses the whitespace of the first user
    message and cuts it to [max_length] characters at a word boundary;
    [generate_session_title] asks the model (through [Client.send_message])
    for a title, cleans it and cuts it to [max_length].  Strings are byte
    strings: for ASCII text, Python's [len] and slicing are the list
    operations on the characters.  Slices take Python's negative indices
    ([py_take]), so the model also covers a [max_length] below 3. *)

From S2P Require Import Prelude Json Client.

Open Scope string_scope.

Module Titles.

Import Client.

(** ** Python string operations on character lists *)

Definition chars (s : string) : list Ascii.ascii := String.list_ascii_of_string s.
Definition of_chars (cs : list Ascii.ascii) : string := String.string_of_list_ascii cs.

(** [l[:k]] with Python's negative [k]. *)
Definition py_take {A} (k : Z) (l : list A) : list A :=
  if Z.leb 0 k then take (Z.to_nat k) l else take (length l - Z.to_nat (- k)) l.

(** [s.split()]: the maximal runs of non-whitespace characters. *)
Fixpoint split_ws_go (cur : list Ascii.ascii) (cs : list Ascii.ascii) : list (list Ascii.ascii) :=
  match cs with
  | [] => match cur with [] => [] | _ => [rev cur] end
  | c :: cs' =>
      if is_py_space c then match cur with [] => split_ws_go [] cs' | _ => rev cur :: split_ws_go [] cs' end
      else split_ws_go (c :: cur) cs'
  end.

Definition py_split (cs : list Ascii.ascii) : list (list Ascii.ascii) := split_ws_go [] cs.

(** [sep.join(parts)] *)
Fixpoint join_chars (sep : list Ascii.ascii) (parts : list (list Ascii.ascii)) : list Ascii.ascii :=
  match parts with
  | [] => []
  | [p] => p
  | p :: ps => (p ++ sep ++ join_chars sep ps)%list
  end.

Definition space_char : Ascii.ascii := Ascii.ascii_of_nat 32.

(** [s.rfind(c)]: the last index of [c], or [-1]. *)
Definition py_rfind (c : Ascii.ascii) (cs : list Ascii.ascii) : Z :=
  fold_left (fun acc ic => if Ascii.eqb ic.2 c then Z.of_nat ic.1 else acc)
    (imap pair cs) (-1)%Z.

(** [s.strip(chars)] for a set of characters. *)
Fixpoint lstrip_by (p : Ascii.ascii -> bool) (cs : list Ascii.ascii) : list Ascii.ascii :=
  match cs with
  | c :: cs' => if p c then lstrip_by p cs' else cs
  | [] => []
  end.

Definition strip_by (p : Ascii.ascii -> bool) (cs : list Ascii.ascii) : list Ascii.ascii :=
  rev (lstrip_by p (rev (lstrip_by p cs))).

Definition is_quote (c : Ascii.ascii) : bool := Ascii.eqb c quote_char || Ascii.eqb c squote_char.

Definition dots : list Ascii.ascii := chars "...".

(** ** [create_fallback_title] (lines 90-114) *)

Definition create_fallback_title (user_message : string) (max_length : Z) : string :=
  let clean_message := join_chars [space_char] (py_split (chars user_message)) in
  if Z.leb (Z.of_nat (length clean_message)) max_length then of_chars clean_message
  else
    let truncated := py_take (max_length - 3) clean_message in
    let last_space := py_rfind space_char truncated in
    let truncated := if Z.ltb (max_length / 2) last_space then py_take last_space truncated
                     else truncated in
    of_chars (truncated ++ dots)%list.

(** ** [generate_session_title] (lines 37-87) *)

Definition DEFAULT_TITLE : string := "New Conversation".

Definition TITLE_SYSTEM : string := "You are a title generator. Output only the title, nothing else.".

(** [TITLE_PROMPT.format(...)]: the instructions, then the two texts.  The
    quotes around the example titles are built from [quote_char]. *)
Definition q (s : string) : string := String quote_char (s +:+ String quote_char EmptyString).

Definition TITLE_PROMPT (user_message assistant_response : string) : string :=
  "Generate a brief, descriptive title (5-8 words max) for this conversation based on the first exchange.
The title should:
- Capture the main topic or intent
- Include relevant names, entities, or specifics if mentioned
- Be concise and scannable for a sidebar list
- NOT include quotes around the title
- NOT start with " +:+ q "Title:" +:+ " or similar prefixes

Examples of good titles:
- " +:+ q "John Smith Farm Loan Application" +:+ "
- " +:+ q "Corn Yield Documentation Review" +:+ "
- " +:+ q "Missing Tax Records Follow-up" +:+ "
- " +:+ q "2024 Operating Budget Questions" +:+ "

USER MESSAGE:
" +:+ user_message +:+ "

ASSISTANT RESPONSE:
" +:+ assistant_response +:+ "

Generate only the title, nothing else:".

(** [for block in response.get("content", []): if block.get("type") == "text":
     title += block.get("text", "")]; adding a non-string is a [TypeError]. *)
Fixpoint response_text (blocks : list json) : outcome string :=
  match blocks with
  | [] => Ret ""
  | b :: bs =>
      ty ← get_out b "type" JNull;
      t ← (if is_str "text" ty then
             txt ← get_out b "text" (JStr "");
             match txt with JStr s => Ret s | _ => Exc TypeError end
           else Ret "");
      rest ← response_text bs;
      Ret (t +:+ rest)
  end.

(** Lines 77-83: strip, strip quotes, cut, default. *)
Definition clean_title (title : string) (max_length : Z) : string :=
  let t := strip_by is_quote (strip_by is_py_space (chars title)) in
  let t := if Z.ltb max_length (Z.of_nat (length t)) then (py_take (max_length - 3) t ++ dots)%list else t in
  match t with [] => DEFAULT_TITLE | _ => of_chars t end.

Section generate.
Context {Srv : Type} (post : dict -> SE Srv json).

Definition generate_session_title (c : claude_client) (user_message assistant_response : string)
    (max_length : Z) : SE Srv string :=
  let prompt := TITLE_PROMPT (of_chars (py_take 500 (chars user_message)))
                             (of_chars (py_take 500 (chars assistant_response))) in
  response ← send_message post c (JStr prompt) (JStr TITLE_SYSTEM) JNull [("max_tokens", JNum 50)];
  title ← se_lift (content ← get_out response "content" (JArr []);
                   blocks ← (match py_iter content with Some l => Ret l | None => Exc TypeError end);
                   response_text blocks);
  mret (clean_title title max_length).

End generate.

(** ** Lemmas *)

Lemma length_of_chars cs : String.length (of_chars cs) = length cs.
Proof. induction cs as [|c cs IH]; simpl; [done | by rewrite IH]. Qed.

Lemma chars_of_chars cs : chars (of_chars cs) = cs.
Proof. apply String.list_ascii_of_string_of_list_ascii. Qed.

Lemma py_take_le {A} k (l : list A) : length (py_take k l) <= length l.
Proof. unfold py_take. case_match; rewrite length_take; lia. Qed.

Lemma py_take_nonneg {A} k (l : list A) : (0 <= k)%Z -> (Z.of_nat (length (py_take k l)) <= k)%Z.
Proof. intros Hk. unfold py_take. rewrite (proj2 (Z.leb_le 0 k) Hk), length_take. lia. Qed.

Lemma length_dots : length dots = 3.
Proof. reflexivity. Qed.

(** ** Theorems *)

(** for any [max_length] of at least 3, the fallback
    title has at most [max_length] characters. *)
Theorem fallback_title_bound (user_message : string) (max_length : Z) :
  (3 <= max_length)%Z ->
  (Z.of_nat (String.length (create_fallback_title user_message max_length)) <= max_length)%Z.
Proof.
  intros Hmax. unfold create_fallback_title.
  set (clean := join_chars [space_char] (py_split (chars user_message))).
  destruct (Z.leb_spec (Z.of_nat (length clean)) max_length) as [Hfit|Hlong].
  - by rewrite length_of_chars.
  - rewrite length_of_chars, length_app, length_dots.
    pose proof (py_take_nonneg (max_length - 3) clean ltac:(lia)) as Ht.
    set (truncated := py_take (max_length - 3) clean) in *.
    destruct (Z.ltb_spec (max_length / 2) (py_rfind space_char truncated)); [|lia].
    pose proof (py_take_le (py_rfind space_char truncated) truncated). lia.
Qed.

(** C28: the cleaned model title has at most [max_length]
    characters, except that an empty title becomes [New Conversation]
    (16 characters), which a [max_length] below 16 does not bound. *)
Theorem clean_title_bound (title : string) (max_length : Z) :
  (3 <= max_length)%Z ->
  (Z.of_nat (String.length (clean_title title max_length)) <= Z.max max_length 16)%Z.
Proof.
  intros Hmax. unfold clean_title.
  set (t := strip_by is_quote (strip_by is_py_space (chars title))).
  destruct (Z.ltb_spec max_length (Z.of_nat (length t))) as [Hlong|Hfit].
  - pose proof (py_take_nonneg (max_length - 3) t ltac:(lia)) as Ht.
    destruct (py_take (max_length - 3) t ++ dots)%list as [|c cs] eqn:E; [simpl; lia|].
    rewrite <- E, length_of_chars, length_app, length_dots. lia.
  - destruct t as [|c cs]; [simpl; lia|]. rewrite length_of_chars. lia.
Qed.

(** ** Witnesses *)

Definition long_message : string :=
  "  I need   help with my corn yield documentation for the spring audit  ".

Lemma fallback_title_bound_witness :
  (Z.of_nat (String.length (create_fallback_title long_message 50)) <= 50)%Z.
Proof. apply fallback_title_bound. lia. Defined.

Lemma clean_title_bound_witness :
  (Z.of_nat (String.length (clean_title "" 10)) <= Z.max 10 16)%Z.
Proof. apply clean_title_bound. lia. Defined.

(** The cut falls at the last word boundary of the first 47 characters;
    a message of whitespace gives an empty title. *)
Example fallback_title_cases :
  create_fallback_title long_message 50 = "I need help with my corn yield documentation..." /\
  create_fallback_title "   " 50 = "".
Proof. split; reflexivity. Qed.

End Titles.
