(* ===== verification/Sessions.v ===== *)
(** * Chat sessions: the database client and the sessions router

    [src/database/connection.py] ([DatabaseClient]) reads and writes two
    tables, [agfin_ai_bot_sessions] and [agfin_ai_bot_messages];
    [src/routers/sessions.py] exposes them as HTTP endpoints.  The tables
    are the record [chat_db]: sessions as a [gmap] keyed by id, messages
    as a list in insertion order.  [now()] is [chat_clock]; every write
    statement runs in its own transaction, so the clock advances after
    each one ([tick]).  Ids handed out by the database are fresh
    ([fresh_session_id], [fresh_message_id]).  A message's session is a
    foreign key: inserting a message for a missing session raises, and
    deleting a session deletes its messages (CASCADE).  The schema that
    declares them is not under [src/]: they are assumptions about the
    database, taken from the comment of sessions.py line 474, which relies
    on the cascade.

    The query methods are modelled on a connected pool: the reconnect
    guard [if not self.pool: await self.connect()] they start with, and
    the pool itself, are in [Connection], whose
    [connected_route_refines_query] shows that a route on a connected pool
    is exactly its query on the tables.

    Endpoints raise [HTTPException code] ([404], [500], and FastAPI's
    [422] for query parameters outside their declared bounds); every
    other exception of a handler becomes [HTTPException 500]. *)

From S2P Require Import Prelude Json Store Client Titles.
From stdpp Require Import sorting.

Open Scope string_scope.

Module Sessions.

Import Client Titles.

(** ** The tables *)

Record chat_session := mkSession {
  session_user_id : string;
  session_application_id : option string;
  session_title : string;
  session_workflow_mode : option string;
  session_created_at : nat;
  session_updated_at : nat
}.

Record chat_message := mkMessage {
  msg_id : string;
  msg_session_id : string;
  msg_role : string;
  msg_content : string;
  msg_created_at : nat
}.

#[export] Instance chat_message_eq_dec : EqDecision chat_message.
Proof. solve_decision. Defined.

Record chat_db := mkChatDb {
  chat_sessions : gmap string chat_session;
  chat_messages : list chat_message;
  chat_clock : nat
}.

Definition with_sessions (f : gmap string chat_session -> gmap string chat_session) (st : chat_db) : chat_db :=
  mkChatDb (f (chat_sessions st)) (chat_messages st) (chat_clock st).

Definition with_messages (f : list chat_message -> list chat_message) (st : chat_db) : chat_db :=
  mkChatDb (chat_sessions st) (f (chat_messages st)) (chat_clock st).

Definition tick (st : chat_db) : chat_db := mkChatDb (chat_sessions st) (chat_messages st) (S (chat_clock st)).

Definition fresh_session_id (st : chat_db) : string := fresh (dom (chat_sessions st) : gset string).

Definition fresh_message_id (st : chat_db) : string :=
  fresh (list_to_set (map msg_id (chat_messages st)) : gset string).

(** ** [DatabaseClient] (connection.py) *)

(** [get_session(session_id)] (lines 119-150) *)
Definition db_get_session (session_id : string) : SE chat_db (option chat_session) :=
  st ← se_get; mret (chat_sessions st !! session_id).

(** [ORDER BY created_at ASC] (a stable sort keeps insertion order on ties). *)
Definition created_le (m1 m2 : chat_message) : Prop := msg_created_at m1 <= msg_created_at m2.
#[export] Instance created_le_dec : RelDecision created_le.
Proof. intros m1 m2. unfold created_le. apply _. Defined.
#[export] Instance created_le_trans : Transitive created_le.
Proof. intros ???. unfold created_le. lia. Qed.
#[export] Instance created_le_total : Total created_le.
Proof. intros m1 m2. unfold created_le. lia. Qed.

(** [LIMIT $2] with a negative limit is an error of PostgreSQL. *)
Definition sql_limit {A} (limit : Z) (rows : list A) : SE chat_db (list A) :=
  if Z.ltb limit 0 then se_raise PostgresError else mret (take (Z.to_nat limit) rows).

(** [get_session_messages(session_id, limit)] (lines 52-88) *)
Definition session_rows (session_id : string) (st : chat_db) : list chat_message :=
  List.filter (fun m => String.eqb (msg_session_id m) session_id) (chat_messages st).

Definition db_get_session_messages (session_id : string) (limit : Z) : SE chat_db (list chat_message) :=
  st ← se_get;
  sql_limit limit (merge_sort created_le (session_rows session_id st)).

(** [save_message(session_id, role, content)] (lines 90-117) *)
Definition db_save_message (session_id role content : string) : SE chat_db string :=
  st ← se_get;
  match chat_sessions st !! session_id with
  | None => se_raise PostgresError
  | Some _ =>
      let id := fresh_message_id st in
      se_put (tick (with_messages (fun l => (l ++ [mkMessage id session_id role content (chat_clock st)])%list) st)) ;;
      mret id
  end.

(** [create_session(user_id, title, application_id, workflow_mode)] (lines 152-187) *)
Definition db_create_session (user_id title : string) (application_id workflow_mode : option string)
    : SE chat_db string :=
  st ← se_get;
  let id := fresh_session_id st in
  se_put (tick (with_sessions (<[id := mkSession user_id application_id title workflow_mode
                                                 (chat_clock st) (chat_clock st)]>) st)) ;;
  mret id.

(** [update_message(message_id, content)] (lines 189-215) *)
Definition db_update_message (message_id content : string) : SE chat_db bool :=
  st ← se_get;
  if existsb (fun m => String.eqb (msg_id m) message_id) (chat_messages st) then
    se_put (tick (with_messages (map (fun m => if String.eqb (msg_id m) message_id
                                             then mkMessage (msg_id m) (msg_session_id m) (msg_role m)
                                                    content (msg_created_at m)
                                             else m)) st)) ;;
    mret true
  else se_put (tick st) ;; mret false.

(** [delete_messages_after(session_id, message_id)] (lines 217-253): the
    messages of the session strictly later than the reference one. *)
Definition db_delete_messages_after (session_id message_id : string) : SE chat_db nat :=
  st ← se_get;
  match List.find (fun m => String.eqb (msg_id m) message_id && String.eqb (msg_session_id m) session_id)
                  (chat_messages st) with
  | None => mret 0
  | Some ref =>
      let later m := String.eqb (msg_session_id m) session_id && Nat.ltb (msg_created_at ref) (msg_created_at m) in
      se_put (tick (with_messages (List.filter (fun m => negb (later m))) st)) ;;
      mret (length (List.filter later (chat_messages st)))
  end.

(** ** The sessions router (sessions.py) *)

Definition opt_json (o : option string) : json := match o with Some s => JStr s | None => JNull end.

(** [SessionResponse( **session)] *)
Definition session_response (id : string) (s : chat_session) : json :=
  JObj [("id", JStr id); ("user_id", JStr (session_user_id s));
        ("title", JStr (session_title s));
        ("application_id", match session_application_id s with
                           | Some a => if String.eqb a "" then JNull else JStr a
                           | None => JNull end);
        ("workflow_mode", opt_json (session_workflow_mode s));
        ("created_at", JStr (iso_timestamp (session_created_at s)));
        ("updated_at", JStr (iso_timestamp (session_updated_at s)))].

Definition message_response (m : chat_message) : json :=
  JObj [("id", JStr (msg_id m)); ("role", JStr (msg_role m)); ("content", JStr (msg_content m));
        ("created_at", JStr (iso_timestamp (msg_created_at m)))].

(** [except HTTPException: raise; except Exception: raise HTTPException(500)] *)
Definition http_errors {S A} (m : SE S A) : SE S A :=
  se_catch m (fun e => match e with
                       | HTTPException code => se_raise (HTTPException code)
                       | _ => se_raise (HTTPException 500)
                       end).

(** FastAPI's [Query(ge=lo, le=hi)]: a value outside is answered 422. *)
Definition query_bounds (v lo hi : Z) : SE chat_db unit :=
  if Z.leb lo v && Z.leb v hi then mret tt else se_raise (HTTPException 422).

Definition found (session_id : string) : SE chat_db chat_session :=
  session ← db_get_session session_id;
  match session with None => se_raise (HTTPException 404) | Some s => mret s end.

(** [ORDER BY updated_at DESC] *)
Definition updated_ge (p1 p2 : string * chat_session) : Prop :=
  session_updated_at p2.2 <= session_updated_at p1.2.
#[export] Instance updated_ge_dec : RelDecision updated_ge.
Proof. intros p1 p2. unfold updated_ge. apply _. Defined.

(** [GET /sessions] (lines 83-144) *)
Definition list_sessions (user_id : string) (limit offset : Z) : SE chat_db json :=
  query_bounds limit 1 100 ;;
  (if Z.leb 0 offset then mret tt else se_raise (HTTPException 422)) ;;
  http_errors
    (st ← se_get;
     let mine := List.filter (fun p => String.eqb (session_user_id p.2) user_id)
                   (map_to_list (chat_sessions st)) in
     rows ← sql_limit limit (drop (Z.to_nat offset) (merge_sort updated_ge mine));
     mret (JObj [("sessions", JArr (map (fun p => session_response p.1 p.2) rows));
                 ("total", JNum (Z.of_nat (length mine)))])).

(** [POST /sessions] (lines 147-190) *)
Definition create_session (user_id title : string) (application_id workflow_mode : option string)
    : SE chat_db json :=
  http_errors
    (session_id ← db_create_session user_id title application_id workflow_mode;
     session ← db_get_session session_id;
     match session with
     | None => se_raise (HTTPException 500)
     | Some s => mret (session_response session_id s)
     end).

(** [GET /sessions/{session_id}] (lines 193-226) *)
Definition get_session (session_id : string) : SE chat_db json :=
  http_errors (s ← found session_id; mret (session_response session_id s)).

(** [GET /sessions/{session_id}/messages] of sessions.py (lines 229-284) *)
Definition get_session_messages (session_id : string) (limit : Z) : SE chat_db json :=
  query_bounds limit 1 200 ;;
  http_errors
    (_ ← found session_id;
     msgs ← db_get_session_messages session_id limit;
     mret (JObj [("session_id", JStr session_id); ("messages", JArr (map message_response msgs));
                 ("count", JNum (Z.of_nat (length msgs)))])).

(** [PATCH /sessions/{session_id}] (lines 287-370) *)
Definition update_session (session_id : string) (title workflow_mode : option string) : SE chat_db json :=
  http_errors
    (s ← found session_id;
     match title, workflow_mode with
     | None, None => mret (session_response session_id s)
     | _, _ =>
         st ← se_get;
         let s' := mkSession (session_user_id s) (session_application_id s)
                     (default (session_title s) title) (match workflow_mode with
                                                        | Some w => Some w
                                                        | None => session_workflow_mode s end)
                     (session_created_at s) (chat_clock st) in
         se_put (tick (with_sessions (<[session_id := s']>) st)) ;;
         mret (session_response session_id s')
     end).

(** [DELETE /sessions/{session_id}] (lines 452-487): the session and,
    by the foreign key's CASCADE, its messages. *)
Definition delete_session (session_id : string) : SE chat_db unit :=
  http_errors
    (_ ← found session_id;
     se_modify (fun st => tick (with_messages (List.filter (fun m => negb (String.eqb (msg_session_id m) session_id)))
                                 (with_sessions (delete session_id) st)))).

(** [POST /sessions/{session_id}/generate-title] (lines 373-449).  The
    model is reached through [generate_session_title]; its failure (the
    client's construction included) selects the fallback title. *)
Section titles.
Context {Srv : Type} (post : dict -> SE Srv json).

Definition on_db {A} (m : SE chat_db A) : SE (chat_db * Srv) A :=
  fun '(d, s) => let '(r, d') := m d in (r, (d', s)).

Definition on_srv {A} (m : SE Srv A) : SE (chat_db * Srv) A :=
  fun '(d, s) => let '(r, s') := m s in (r, (d, s')).

Definition set_title (session_id title : string) : SE chat_db unit :=
  se_modify (fun st => tick (with_sessions (alter (fun s => mkSession (session_user_id s)
                                                  (session_application_id s) title
                                                  (session_workflow_mode s) (session_created_at s)
                                                  (chat_clock st)) session_id) st)).

Definition generate_and_apply_title (client : outcome claude_client) (session_id user_message
    assistant_response : string) : SE (chat_db * Srv) json :=
  http_errors
    (s ← on_db (found session_id);
     if negb (String.eqb (session_title s) DEFAULT_TITLE) then
       mret (JObj [("session_id", JStr session_id); ("title", JStr (session_title s));
                   ("generated", JBool false)])
     else
       attempt ← se_catch
                   (t ← on_srv (match client with
                                | Exc e => se_raise e
                                | Ret c => generate_session_title post c user_message assistant_response 50
                                end);
                    mret (Ret t))
                   (fun e => mret (Exc e));
       let title := match attempt with Ret t => t | Exc _ => create_fallback_title user_message 50 end in
       let generated := match attempt with Ret _ => true | Exc _ => false end in
       on_db (set_title session_id title) ;;
       mret (JObj [("session_id", JStr session_id); ("title", JStr title);
                   ("generated", JBool generated)])).
End titles.

(** ** Referential integrity: every message belongs to a session *)

Definition refint (st : chat_db) : Prop :=
  Forall (fun m => is_Some (chat_sessions st !! msg_session_id m)) (chat_messages st).

(** A step that keeps it. *)
Definition keeps_refint (st st' : chat_db) : Prop := refint st -> refint st'.

#[export] Instance keeps_refint_preorder : PreOrder keeps_refint.
Proof. split; [by intros ??| intros ??? H1 H2 H; by apply H2, H1]. Qed.

Lemma refint_tick st : refint (tick st) <-> refint st.
Proof. done. Qed.

Lemma refint_insert st i x : refint st -> refint (with_sessions (<[i := x]>) st).
Proof.
  intros H. eapply Forall_impl; [exact H|]. intros m Hm. simpl. rewrite lookup_insert. case_decide; [done | exact Hm].
Qed.

Lemma refint_alter st i f : refint st -> refint (with_sessions (alter f i) st).
Proof.
  intros H. eapply Forall_impl; [exact H|]. intros m [x Hx]. simpl in *. rewrite lookup_alter, Hx.
  case_decide as Hi; [subst i; rewrite Hx|]; simpl; by eexists.
Qed.

Lemma refint_append st m :
  refint st -> is_Some (chat_sessions st !! msg_session_id m) ->
  refint (with_messages (fun l => (l ++ [m])%list) st).
Proof. intros H Hm. unfold refint. simpl. apply Forall_app. by split; [|constructor]. Qed.

Lemma refint_filter st p : refint st -> refint (with_messages (List.filter p) st).
Proof.
  unfold refint. simpl. rewrite !Forall_forall. intros H m Hm%list_elem_of_In%filter_In.
  apply H, list_elem_of_In, Hm.
Qed.

Lemma refint_map st f :
  (forall m, msg_session_id (f m) = msg_session_id m) -> refint st -> refint (with_messages (map f) st).
Proof.
  intros Hf H. unfold refint. simpl. rewrite Forall_map. eapply Forall_impl; [exact H|].
  intros m. by rewrite Hf.
Qed.

Lemma refint_cascade st sid :
  refint st ->
  refint (with_messages (List.filter (fun m => negb (String.eqb (msg_session_id m) sid)))
            (with_sessions (delete sid) st)).
Proof.
  unfold refint. simpl. rewrite !Forall_forall. intros H m Hm%list_elem_of_In%filter_In.
  destruct Hm as [Hm Hne]. apply negb_true_iff, String.eqb_neq in Hne.
  rewrite lookup_delete_ne by congruence. by apply H, list_elem_of_In.
Qed.

Ltac refint_side :=
  intros ?; rewrite ?refint_tick;
  first [ assumption
        | apply refint_insert; assumption
        | apply refint_alter; assumption
        | apply refint_filter; assumption
        | apply refint_cascade; assumption
        | apply refint_map; [intros; by case_match | assumption]
        | apply refint_append; [assumption | simpl; by eexists] ].

Lemma db_save_message_refint sid role content : keeps keeps_refint (db_save_message sid role content).
Proof. apply keeps_from_all. intros s. unfold db_save_message. keeps_from_tac refint_side. Qed.

Lemma db_create_session_refint u t a w : keeps keeps_refint (db_create_session u t a w).
Proof. apply keeps_from_all. intros s. unfold db_create_session. keeps_from_tac refint_side. Qed.

Lemma db_update_message_refint i c : keeps keeps_refint (db_update_message i c).
Proof. apply keeps_from_all. intros s. unfold db_update_message. keeps_from_tac refint_side. Qed.

Lemma db_delete_messages_after_refint sid i : keeps keeps_refint (db_delete_messages_after sid i).
Proof. apply keeps_from_all. intros s. unfold db_delete_messages_after. keeps_from_tac refint_side. Qed.

#[export] Hint Resolve db_save_message_refint db_create_session_refint db_update_message_refint
  db_delete_messages_after_refint : keeps.

Lemma db_get_session_read_only i : keeps keeps_refint (db_get_session i).
Proof. apply keeps_read_only; [exact _|done]. Qed.

Lemma db_get_session_messages_refint i l : keeps keeps_refint (db_get_session_messages i l).
Proof. apply keeps_read_only; [exact _|]. intros s. unfold db_get_session_messages, sql_limit. se_unfold. simpl. by case_match. Qed.

Lemma found_refint i : keeps keeps_refint (found i).
Proof. unfold found. keeps_tac refint_side. Qed.

Lemma query_bounds_refint v lo hi : keeps keeps_refint (query_bounds v lo hi).
Proof. unfold query_bounds. keeps_tac refint_side. Qed.

Lemma sql_limit_refint {A} l (rows : list A) : keeps keeps_refint (sql_limit l rows).
Proof. unfold sql_limit. keeps_tac refint_side. Qed.

Lemma http_errors_keeps {S A} (R : relation S) `{!PreOrder R} (m : SE S A) :
  keeps R m -> keeps R (http_errors m).
Proof. intros Hm. unfold http_errors. keeps_tac idtac. Qed.

#[export] Hint Resolve db_get_session_read_only db_get_session_messages_refint found_refint
  query_bounds_refint sql_limit_refint http_errors_keeps : keeps.

(** The title endpoint runs on the pair of the database and the model's
    server; the invariant is about the first component. *)
Definition on_first {Srv} (R : relation chat_db) : relation (chat_db * Srv) := fun p p' => R p.1 p'.1.

#[export] Instance on_first_preorder {Srv} (R : relation chat_db) `{!PreOrder R} : PreOrder (@on_first Srv R).
Proof. split; [intros ?; apply (reflexivity (R:=R)) | intros ??? H1 H2; exact (transitivity (R:=R) H1 H2)]. Qed.

Lemma on_db_keeps {Srv A} (R : relation chat_db) (m : SE chat_db A) :
  keeps R m -> keeps (@on_first Srv R) (on_db m).
Proof. intros Hm [d s] r [d' s']. unfold on_db. destruct (m d) eqn:E. intros [= -> -> ->]. by eapply Hm. Qed.

Lemma on_srv_keeps {Srv A} (R : relation chat_db) `{!PreOrder R} (m : SE Srv A) :
  keeps (@on_first Srv R) (on_srv m).
Proof. intros [d s] r [d' s']. unfold on_srv. destruct (m s) eqn:E. intros [= -> -> ->]. unfold on_first. simpl. reflexivity. Qed.

Lemma set_title_refint i t : keeps keeps_refint (set_title i t).
Proof. unfold set_title. keeps_tac refint_side. Qed.

#[export] Hint Resolve on_db_keeps on_srv_keeps set_title_refint : keeps.

Lemma generate_and_apply_title_refint {Srv} (post : dict -> SE Srv json) client sid um ar :
  keeps (on_first keeps_refint) (generate_and_apply_title post client sid um ar).
Proof. unfold generate_and_apply_title. keeps_tac idtac. Qed.

Lemma list_sessions_refint u l o : keeps keeps_refint (list_sessions u l o).
Proof. unfold list_sessions. keeps_tac refint_side. Qed.

Lemma create_session_refint u t a w : keeps keeps_refint (create_session u t a w).
Proof. unfold create_session. keeps_tac refint_side. Qed.

Lemma get_session_refint i : keeps keeps_refint (get_session i).
Proof. unfold get_session. keeps_tac refint_side. Qed.

Lemma get_session_messages_refint i l : keeps keeps_refint (get_session_messages i l).
Proof. unfold get_session_messages. keeps_tac refint_side. Qed.

Lemma update_session_refint i t w : keeps keeps_refint (update_session i t w).
Proof.
  unfold update_session. apply http_errors_keeps; [exact _|]. apply keeps_from_all. intros s.
  keeps_from_tac refint_side.
Qed.

Lemma delete_session_refint i : keeps keeps_refint (delete_session i).
Proof. unfold delete_session. keeps_tac refint_side. Qed.

(** ** The database under the calls the service makes

    A step is one endpoint of sessions.py or one [DatabaseClient] write
    that chat.py issues ([save_message], [update_message],
    [delete_messages_after]), run to completion or to its exception. *)
Inductive chat_step : chat_db -> chat_db -> Prop :=
| cs_list u l o st r st' : list_sessions u l o st = (r, st') -> chat_step st st'
| cs_create u t a w st r st' : create_session u t a w st = (r, st') -> chat_step st st'
| cs_get i st r st' : get_session i st = (r, st') -> chat_step st st'
| cs_messages i l st r st' : get_session_messages i l st = (r, st') -> chat_step st st'
| cs_update i t w st r st' : update_session i t w st = (r, st') -> chat_step st st'
| cs_delete i st r st' : delete_session i st = (r, st') -> chat_step st st'
| cs_title {Srv} (post : dict -> SE Srv json) client i um ar st srv r st' srv' :
    generate_and_apply_title post client i um ar (st, srv) = (r, (st', srv')) -> chat_step st st'
| cs_save i role c st r st' : db_save_message i role c st = (r, st') -> chat_step st st'
| cs_edit i c st r st' : db_update_message i c st = (r, st') -> chat_step st st'
| cs_truncate sid i st r st' : db_delete_messages_after sid i st = (r, st') -> chat_step st st'.

Definition empty_chat_db : chat_db := mkChatDb ∅ [] 0.

Lemma chat_step_refint st st' : chat_step st st' -> refint st -> refint st'.
Proof.
  destruct 1.
  all: match goal with H : _ = (_, _) |- _ => first [ exact (generate_and_apply_title_refint _ _ _ _ _ _ _ _ H)
             | exact (list_sessions_refint _ _ _ _ _ _ H) | exact (create_session_refint _ _ _ _ _ _ _ H)
             | exact (get_session_refint _ _ _ _ H) | exact (get_session_messages_refint _ _ _ _ _ H)
             | exact (update_session_refint _ _ _ _ _ _ H) | exact (delete_session_refint _ _ _ _ H)
             | exact (db_save_message_refint _ _ _ _ _ _ H) | exact (db_update_message_refint _ _ _ _ _ H)
             | exact (db_delete_messages_after_refint _ _ _ _ _ H) ] end.
Qed.

Lemma found_run i st s : chat_sessions st !! i = Some s -> found i st = (Ret s, st).
Proof. intros H. unfold found, db_get_session. se_unfold. simpl. by rewrite H. Qed.

Lemma found_missing i st : chat_sessions st !! i = None -> found i st = (Exc (HTTPException 404), st).
Proof. intros H. unfold found, db_get_session. se_unfold. simpl. by rewrite H. Qed.

(** ** Theorems *)

(** C19: [DELETE /sessions/{id}] answers 404 and changes nothing
    when the session does not exist; otherwise it removes the session and
    exactly the messages of that session, and keeps every other session. *)
Theorem delete_session_cascade i st :
  let '(r, st') := delete_session i st in
  match chat_sessions st !! i with
  | None => r = Exc (HTTPException 404) /\ st' = st
  | Some _ =>
      r = Ret tt /\ chat_sessions st' !! i = None /\
      (forall j, j <> i -> chat_sessions st' !! j = chat_sessions st !! j) /\
      (forall m, m ∈ chat_messages st' <-> m ∈ chat_messages st /\ msg_session_id m <> i)
  end.
Proof.
  unfold delete_session, http_errors. destruct (chat_sessions st !! i) as [s|] eqn:E.
  - erewrite se_catch_ret; [|unfold mbind, se_bind; rewrite (found_run _ _ _ E); reflexivity].
    simpl. split_and!; [done | apply lookup_delete_eq | intros j Hj; by apply lookup_delete_ne |].
    intros m. rewrite !list_elem_of_In, filter_In, negb_true_iff, String.eqb_neq. done.
  - erewrite se_catch_exc; [|unfold mbind, se_bind; rewrite (found_missing _ _ E); reflexivity]. done.
Qed.

(** generating a title for a session whose title is not
    the default answers the current title with [generated = false], and
    neither writes the database nor calls the model. *)
Theorem generate_title_keeps_custom {Srv} (post : dict -> SE Srv json) client i um ar st srv s :
  chat_sessions st !! i = Some s -> session_title s <> DEFAULT_TITLE ->
  generate_and_apply_title post client i um ar (st, srv) =
    (Ret (JObj [("session_id", JStr i); ("title", JStr (session_title s)); ("generated", JBool false)]),
     (st, srv)).
Proof.
  intros H Hne. unfold generate_and_apply_title, http_errors, on_db. se_unfold. simpl.
  rewrite (found_run _ _ _ H). simpl. by rewrite (proj2 (String.eqb_neq _ _) Hne).
Qed.

(** C20: on a session that still has the default title,
    the endpoint always answers (the model's failure included), stores the
    title it answers, and reports [generated = true] exactly when the
    model produced it; on failure the title is the fallback cut of the
    user's message.  No other session and no message changes. *)
Theorem generate_title_default {Srv} (post : dict -> SE Srv json) client i um ar st srv s :
  chat_sessions st !! i = Some s -> session_title s = DEFAULT_TITLE ->
  exists title generated st' srv',
    generate_and_apply_title post client i um ar (st, srv) =
      (Ret (JObj [("session_id", JStr i); ("title", JStr title); ("generated", JBool generated)]), (st', srv')) /\
    session_title <$> chat_sessions st' !! i = Some title /\
    (forall j, j <> i -> chat_sessions st' !! j = chat_sessions st !! j) /\
    chat_messages st' = chat_messages st /\
    match client with
    | Exc _ => generated = false /\ title = create_fallback_title um 50 /\ srv' = srv
    | Ret c =>
        match generate_session_title post c um ar 50 srv with
        | (Ret t, srv1) => generated = true /\ title = t /\ srv' = srv1
        | (Exc _, srv1) => generated = false /\ title = create_fallback_title um 50 /\ srv' = srv1
        end
    end.
Proof.
  intros H Hd. unfold generate_and_apply_title, http_errors, on_db, on_srv. se_unfold. simpl.
  rewrite (found_run _ _ _ H). simpl. rewrite Hd. simpl.
  destruct client as [c|e]; [destruct (generate_session_title post c um ar 50 srv) as [[t|e] srv1]|];
    simpl; do 4 eexists; (split; [reflexivity|]); split_and!;
    simpl; try done; first [ by rewrite lookup_alter_eq, H | intros j Hj; by rewrite lookup_alter_ne ].
Qed.

(** ** Witnesses *)

Definition chat_sid : string := fresh_session_id empty_chat_db.
Definition chat_run1 : outcome json * chat_db := create_session "farmer-1" DEFAULT_TITLE None None empty_chat_db.
Definition chat_run2 : outcome string * chat_db := db_save_message chat_sid "user" "hello" chat_run1.2.
Definition chat_demo : chat_db := chat_run2.2.
Definition chat_demo_session : chat_session := mkSession "farmer-1" None DEFAULT_TITLE None 0 0.

(** A model server that is down. *)
Definition server_down : dict -> SE unit json := fun _ => se_raise RuntimeError.

Example chat_demo_contents :
  chat_sessions chat_demo !! chat_sid = Some chat_demo_session /\
  map msg_content (chat_messages chat_demo) = ["hello"] /\ chat_clock chat_demo = 2.
Proof. vm_compute. auto. Qed.

Definition chat_custom : chat_db :=
  with_sessions (<[chat_sid := mkSession "farmer-1" None "Corn loan" None 0 0]>) chat_demo.

Lemma generate_title_keeps_custom_witness :
  generate_and_apply_title server_down (Exc RuntimeError) chat_sid "hi" "hello" (chat_custom, tt) =
    (Ret (JObj [("session_id", JStr chat_sid); ("title", JStr "Corn loan"); ("generated", JBool false)]),
     (chat_custom, tt)).
Proof.
  apply (generate_title_keeps_custom _ _ _ _ _ _ _ (mkSession "farmer-1" None "Corn loan" None 0 0)).
  - vm_compute. reflexivity.
  - simpl. discriminate.
Defined.

Lemma generate_title_default_witness :
  (generate_and_apply_title server_down (Exc RuntimeError) chat_sid long_message "ok" (chat_demo, tt)).1 =
    Ret (JObj [("session_id", JStr chat_sid); ("title", JStr (create_fallback_title long_message 50));
               ("generated", JBool false)]).
Proof.
  destruct (generate_title_default server_down (Exc RuntimeError) chat_sid long_message "ok" chat_demo tt
              chat_demo_session ltac:(vm_compute; reflexivity) ltac:(reflexivity))
    as (title & g & st' & srv' & E & _ & _ & _ & -> & -> & _).
  rewrite E. reflexivity.
Defined.

End Sessions.
