(* ===== verification/Chat.v ===== *)
(** * The chat endpoint ([src/routers/chat.py])

    [POST /chat] runs in three phases, as the code does: it reads the
    session and its history ([chat_prepare], lines 96-107), asks the model
    for a reply ([chat_reply], lines 110-194: the system prompt, the client,
    then [send_message] without tools or [execute_with_tools] with them),
    and stores the exchange ([save_exchange], lines 196-210).  Its state is
    the pair of the database ([Sessions.chat_db]) and the model's server;
    [on_db] and [on_srv] run a computation on one of them.

    [GET /sessions/{id}/messages] exists twice: chat.py's router is
    registered before sessions.py's ([main.py], lines 40-43), so FastAPI
    answers the path with chat.py's handler ([route_get_messages]). *)

From S2P Require Import Prelude Json Store Client SystemPrompt Titles Sessions.
From stdpp Require Import sorting.

Open Scope string_scope.

Module Chat.

Import Client SystemPrompt Titles Sessions.

(** ** Requests *)

(** [ChatRequest]: [tools] of [None] and of [[]] are alike for the
    handler (both are false in [if request.tools]). *)
Record chat_request := mkChatRequest {
  req_message : string;
  req_session_id : string;
  req_user_id : option string;
  req_tools : list dict
}.

(** [str.upper()] on ASCII text. *)
Definition ascii_upper (c : Ascii.ascii) : Ascii.ascii :=
  let n := Ascii.nat_of_ascii c in
  if Nat.leb 97 n && Nat.leb n 122 then Ascii.ascii_of_nat (n - 32) else c.

Definition py_upper (s : string) : string :=
  String.string_of_list_ascii (map ascii_upper (String.list_ascii_of_string s)).

Definition NO_TEXT_REPLY : string := "I'm sorry, I didn't generate a response. Please try again.".
Definition TOOLS_REPLY : string := "I processed your request with the available tools.".

(** Lines 161-169: the text of the reply and the tool calls it made; a
    text that is not a string cannot be added to one ([TypeError]). *)
Fixpoint collect_blocks (blocks : list json) : outcome (string * list json) :=
  match blocks with
  | [] => Ret ("", [])
  | b :: bs =>
      ty ← get_out b "type" JNull;
      '(t, calls) ←
        (if is_str "text" ty then
           txt ← get_out b "text" (JStr "");
           match txt with JStr s => Ret (s, []) | _ => Exc TypeError end
         else if is_str "tool_use" ty then
           name ← get_out b "name" JNull;
           input ← get_out b "input" JNull;
           id ← get_out b "id" JNull;
           Ret ("", [JObj [("name", name); ("input", input); ("id", id)]])
         else Ret ("", []));
      '(rest, calls') ← collect_blocks bs;
      Ret (t +:+ rest, calls ++ calls')%list
  end.

(** [response.get("content", [])] and the [for] over it. *)
Definition content_blocks (response : json) : outcome (list json) :=
  content ← get_out response "content" (JArr []);
  match py_iter content with Some l => Ret l | None => Exc TypeError end.

(** Lines 128-133: the stored turns, then the new message. *)
Definition history_messages (history : list chat_message) (message : string) : list (string * string) :=
  (map (fun m => (msg_role m, msg_content m)) history ++ [("user", message)])%list.

(** Lines 145-148: [ROLE: content], separated by blank lines. *)
Definition conversation_context (messages : list (string * string)) : string :=
  String.concat (NL +:+ NL) (map (fun rc => py_upper rc.1 +:+ ": " +:+ rc.2) messages).

(** Lines 112-117: [{"id": application_id}] when the session has one. *)
Definition application_context (session : chat_session) : json :=
  match session_application_id session with
  | Some a => if String.eqb a "" then JNull else JObj [("id", JStr a)]
  | None => JNull
  end.

Section chat.
Context {Srv : Type} (post : dict -> SE Srv json).

(** Lines 96-107 *)
Definition chat_prepare (session_id : string) : SE chat_db (chat_session * list chat_message) :=
  session ← found session_id;
  history ← db_get_session_messages session_id 50;
  mret (session, history).

(** Lines 110-194: the reply's text and [tool_calls_made]. *)
Definition chat_reply (client : outcome claude_client) (now : string) (request : chat_request)
    (session : chat_session) (history : list chat_message) : SE (chat_db * Srv) (string * json) :=
  system_prompt ← se_lift (build_system_prompt (session_workflow_mode session) (application_context session)
                             [] (map JObj (req_tools request)) JNull now);
  let messages := history_messages history (req_message request) in
  claude ← se_lift client;
  match req_tools request with
  | [] =>
      response ← on_srv (send_message post claude (JStr (req_message request)) (JStr system_prompt) JNull []);
      text ← se_lift (content_blocks response ≫= response_text);
      mret (if String.eqb text "" then NO_TEXT_REPLY else text, JNull)
  | tools =>
      response ← on_srv (execute_with_tools post claude (JStr (conversation_context messages))
                           (JArr (map JObj tools)) (JStr system_prompt) 5);
      '(text, calls) ← se_lift (content_blocks response ≫= collect_blocks);
      mret (if String.eqb text "" then TOOLS_REPLY else text, JArr calls)
  end.

(** Lines 196-210 *)
Definition save_exchange (session_id message reply : string) : SE chat_db (string * string) :=
  user_message_id ← db_save_message session_id "user" message;
  assistant_message_id ← db_save_message session_id "assistant" reply;
  mret (user_message_id, assistant_message_id).

Definition chat_response (session_id reply uid aid : string) (tool_calls : json) : json :=
  JObj [("message", JStr reply); ("session_id", JStr session_id); ("user_message_id", JStr uid);
        ("assistant_message_id", JStr aid); ("tool_calls", tool_calls)].

(** [POST /chat] (lines 77-229); an empty message is refused by the
    request model ([min_length=1]) with 422. *)
Definition chat (client : outcome claude_client) (now : string) (request : chat_request)
    : SE (chat_db * Srv) json :=
  if String.eqb (req_message request) "" then se_raise (HTTPException 422) else
  http_errors
    ('(session, history) ← on_db (chat_prepare (req_session_id request));
     '(reply, tool_calls) ← chat_reply client now request session history;
     '(uid, aid) ← on_db (save_exchange (req_session_id request) (req_message request) reply);
     mret (chat_response (req_session_id request) reply uid aid tool_calls)).

End chat.

(** [GET /sessions/{session_id}/messages] of chat.py (lines 232-274):
    no bounds on [limit]. *)
Definition route_get_messages (session_id : string) (limit : Z) : SE chat_db json :=
  http_errors
    (_ ← found session_id;
     msgs ← db_get_session_messages session_id limit;
     mret (JObj [("session_id", JStr session_id); ("messages", JArr (map message_response msgs));
                 ("count", JNum (Z.of_nat (length msgs)))])).

(** ** Lemmas *)

Lemma se_lift_keeps {S A} (R : relation S) `{!PreOrder R} (o : outcome A) : keeps R (se_lift o).
Proof. by apply keeps_read_only. Qed.

#[export] Hint Resolve se_lift_keeps : keeps.

Lemma on_db_run {Srv A} (m : SE chat_db A) d (s : Srv) r d' :
  m d = (r, d') -> on_db m (d, s) = (r, (d', s)).
Proof. intros Hm. unfold on_db. by rewrite Hm. Qed.

Lemma chat_prepare_found sid st s :
  chat_sessions st !! sid = Some s ->
  exists hist, chat_prepare sid st = (Ret (s, hist), st) /\
    db_get_session_messages sid 50 st = (Ret hist, st).
Proof.
  intros E. unfold chat_prepare. rewrite se_bind_run, (found_run _ _ _ E). simpl.
  eexists. split; reflexivity.
Qed.

Lemma chat_prepare_missing sid st :
  chat_sessions st !! sid = None -> chat_prepare sid st = (Exc (HTTPException 404), st).
Proof. intros E. unfold chat_prepare. by rewrite se_bind_run, (found_missing _ _ E). Qed.

(** Asking the model reads no table and writes none. *)
Lemma chat_reply_db {Srv} (post : dict -> SE Srv json) client now req s hist st srv r st' srv' :
  chat_reply post client now req s hist (st, srv) = (r, (st', srv')) -> st' = st.
Proof.
  intros H. symmetry. change (on_first eq (st, srv) (st', srv')). revert H.
  assert (K : keeps (@on_first Srv eq) (chat_reply post client now req s hist)).
  { unfold chat_reply. keeps_tac idtac. }
  apply K.
Qed.

Lemma save_exchange_found sid msg reply st s :
  chat_sessions st !! sid = Some s ->
  exists uid aid,
    save_exchange sid msg reply st =
      (Ret (uid, aid),
       mkChatDb (chat_sessions st)
         (chat_messages st ++ [mkMessage uid sid "user" msg (chat_clock st);
                               mkMessage aid sid "assistant" reply (S (chat_clock st))])
         (S (S (chat_clock st)))).
Proof.
  intros E. unfold save_exchange, db_save_message. se_unfold. simpl. rewrite E. simpl. rewrite E.
  do 2 eexists. unfold tick, with_messages. simpl. by rewrite <- app_assoc.
Qed.

Lemma http_errors_exc {S A} (m : SE S A) s e s' :
  m s = (Exc e, s') -> exists e', http_errors m s = (Exc e', s').
Proof. intros Hm. unfold http_errors. rewrite (se_catch_exc _ _ _ _ _ Hm). destruct e; by eexists. Qed.

Lemma http_errors_ret {S A} (m : SE S A) s a s' :
  m s = (Ret a, s') -> http_errors m s = (Ret a, s').
Proof. apply se_catch_ret. Qed.

(** The model's side of the state: requests appended to the log of a
    [logged] server, each satisfying [P]. *)
Definition on_second {D T} (R : relation T) : relation (D * T) := fun p p' => R p.2 p'.2.

#[export] Instance on_second_preorder {D T} (R : relation T) `{!PreOrder R} : PreOrder (@on_second D T R).
Proof. split; [intros ?; apply (reflexivity (R:=R)) | intros ??? H1 H2; exact (transitivity (R:=R) H1 H2)]. Qed.

Definition appends_only {Srv} (P : dict -> Prop) : relation (list dict * Srv) :=
  fun x y => exists bodies, y.1 = (x.1 ++ bodies)%list /\ Forall P bodies.

#[export] Instance appends_only_preorder {Srv} P : PreOrder (@appends_only Srv P).
Proof.
  split.
  - intros x. exists []. by rewrite app_nil_r.
  - intros [lx sx] [ly sy] [lz sz] (b1 & E1 & H1) (b2 & E2 & H2). simpl in *. subst.
    exists (b1 ++ b2)%list. rewrite app_assoc. split; [done|]. by apply Forall_app.
Qed.

Lemma on_db_second {Srv A} (R : relation Srv) `{!PreOrder R} (m : SE chat_db A) :
  keeps (on_second R) (on_db m).
Proof. intros [d s] r [d' s']. unfold on_db. destruct (m d). intros [= _ _ <-]. unfold on_second. simpl. reflexivity. Qed.

Lemma on_srv_second {Srv A} (R : relation Srv) (m : SE Srv A) :
  keeps R m -> keeps (@on_second chat_db _ R) (on_srv m).
Proof. intros Hm [d s] r [d' s']. unfold on_srv. destruct (m s) eqn:E. intros [= _ _ <-]. by eapply Hm. Qed.

Lemma send_message_logged {Srv} (post : dict -> SE Srv json) c m system tools :
  keeps (appends_only (fun b => dict_get "messages" b = Some (user_turn m)))
    (send_message (logged post) c m system tools []).
Proof.
  intros [l s] r [l' s']. unfold send_message, logged. simpl. destruct (post _ s).
  intros [= _ <- _]. exists [request_body c m system tools []]. split; [done|].
  constructor; [apply request_body_messages | constructor].
Qed.

#[export] Hint Resolve on_db_second on_srv_second send_message_logged : keeps.

Lemma chat_prepare_refint sid : keeps keeps_refint (chat_prepare sid).
Proof. unfold chat_prepare. keeps_tac refint_side. Qed.

Lemma save_exchange_refint sid m r : keeps keeps_refint (save_exchange sid m r).
Proof. unfold save_exchange. keeps_tac refint_side. Qed.

Lemma chat_reply_refint {Srv} (post : dict -> SE Srv json) client now req s hist :
  keeps (on_first keeps_refint) (chat_reply post client now req s hist).
Proof.
  intros [d sv] r [d' sv'] H. rewrite (chat_reply_db _ _ _ _ _ _ _ _ _ _ _ H). unfold on_first. simpl. reflexivity.
Qed.

#[export] Hint Resolve chat_prepare_refint save_exchange_refint chat_reply_refint : keeps.

Lemma chat_refint {Srv} (post : dict -> SE Srv json) client now req :
  keeps (on_first keeps_refint) (chat post client now req).
Proof. unfold chat. keeps_tac idtac. Qed.

Lemma route_get_messages_refint sid limit : keeps keeps_refint (route_get_messages sid limit).
Proof. unfold route_get_messages. keeps_tac refint_side. Qed.

(** ** Theorems *)

(** C10: a chat request either fails and leaves the tables as
    they were, or answers and appends exactly two messages to the
    session: the user's message, then the reply it answers with, one tick
    apart.  No session changes either way. *)
Theorem chat_saves_exchange {Srv} (post : dict -> SE Srv json) client now req st srv r st' srv' :
  chat post client now req (st, srv) = (r, (st', srv')) ->
  chat_sessions st' = chat_sessions st /\
  ((exists e, r = Exc e) /\ chat_messages st' = chat_messages st \/
   exists reply uid aid tool_calls,
     r = Ret (chat_response (req_session_id req) reply uid aid tool_calls) /\
     chat_messages st' =
       (chat_messages st ++ [mkMessage uid (req_session_id req) "user" (req_message req) (chat_clock st);
                             mkMessage aid (req_session_id req) "assistant" reply (S (chat_clock st))])%list).
Proof.
  unfold chat. destruct (String.eqb _ _); [intros [= <- <- <-]; eauto|].
  match goal with |- context [http_errors ?m] => set (body := m) end.
  destruct (body (st, srv)) as [[a|e] [st1 srv1]] eqn:B.
  - rewrite (http_errors_ret _ _ _ _ B). intros [= <- <- <-]. revert B. unfold body.
    rewrite se_bind_run. destruct (chat_sessions st !! req_session_id req) as [s|] eqn:E;
      [|by rewrite (on_db_run _ _ _ _ _ (chat_prepare_missing _ _ E))].
    destruct (chat_prepare_found _ _ _ E) as (hist & Hp & _). rewrite (on_db_run _ _ _ _ _ Hp).
    cbn beta iota. rewrite se_bind_run.
    destruct (chat_reply post client now req s hist (st, srv)) as [[[reply calls]|e] [st2 srv2]] eqn:R;
      [|done]. rewrite (chat_reply_db _ _ _ _ _ _ _ _ _ _ _ R). cbn beta iota. rewrite se_bind_run.
    destruct (save_exchange_found (req_session_id req) (req_message req) reply st s E) as (uid & aid & Hs).
    rewrite (on_db_run _ _ _ _ _ Hs). intros [= <- <- <-]. split; [done|]. right. by do 4 eexists.
  - destruct (http_errors_exc _ _ _ _ B) as [e' He]. rewrite He. intros [= <- <- <-].
    revert B. unfold body. rewrite se_bind_run.
    destruct (chat_sessions st !! req_session_id req) as [s|] eqn:E;
      [|rewrite (on_db_run _ _ _ _ _ (chat_prepare_missing _ _ E)); intros [= <- <- <-]; eauto].
    destruct (chat_prepare_found _ _ _ E) as (hist & Hp & _). rewrite (on_db_run _ _ _ _ _ Hp).
    cbn beta iota. rewrite se_bind_run.
    destruct (chat_reply post client now req s hist (st, srv)) as [[[reply calls]|e2] [st2 srv2]] eqn:R;
      rewrite (chat_reply_db _ _ _ _ _ _ _ _ _ _ _ R); cbn beta iota; [|intros [= <- <- <-]; eauto].
    rewrite se_bind_run.
    destruct (save_exchange_found (req_session_id req) (req_message req) reply st s E) as (uid & aid & Hs).
    by rewrite (on_db_run _ _ _ _ _ Hs).
Qed.

Lemma db_get_session_messages_run sid limit st :
  (0 <= limit)%Z ->
  db_get_session_messages sid limit st =
    (Ret (take (Z.to_nat limit) (merge_sort created_le (session_rows sid st))), st).
Proof.
  intros Hl. unfold db_get_session_messages, sql_limit. rewrite se_bind_run. simpl.
  by destruct (Z.ltb_spec limit 0); [lia|].
Qed.

(** A message of the sorted list that is not among its first [k] is no
    earlier than any of them. *)
Lemma take_sorted_earliest k (l : list chat_message) m :
  m ∈ l -> m ∉ take k (merge_sort created_le l) ->
  Forall (fun h => msg_created_at h <= msg_created_at m) (take k (merge_sort created_le l)).
Proof.
  intros Hm Hn. pose proof (StronglySorted_merge_sort created_le l) as Hs.
  rewrite <- (take_drop k (merge_sort created_le l)) in Hs.
  assert (Hd : m ∈ drop k (merge_sort created_le l)).
  { assert (Hm' : m ∈ merge_sort created_le l) by by rewrite (merge_sort_Permutation created_le l).
    rewrite <- (take_drop k (merge_sort created_le l)), elem_of_app in Hm'. naive_solver. }
  apply Forall_forall. intros h Hh. exact (StronglySorted_app_1_elem_of _ _ _ _ _ Hs Hh Hd).
Qed.

(** C11: the history a chat request loads is the session's 50
    earliest messages, not its latest: it has [min 50 n] of the session's
    [n] messages, and every message left out is no earlier than each one
    loaded.  Once a session holds more than 50 messages, the newest turns
    are the ones the model no longer sees. *)
Theorem chat_history_oldest sid st s hist st' :
  chat_prepare sid st = (Ret (s, hist), st') ->
  st' = st /\ length hist = min 50 (length (session_rows sid st)) /\
  forall m, m ∈ session_rows sid st -> m ∉ hist ->
    Forall (fun h => msg_created_at h <= msg_created_at m) hist.
Proof.
  unfold chat_prepare. rewrite se_bind_run.
  destruct (chat_sessions st !! sid) as [s0|] eqn:E; [|by rewrite (found_missing _ _ E)].
  rewrite (found_run _ _ _ E). simpl. rewrite se_bind_run, db_get_session_messages_run by lia.
  intros [= <- <- <-]. split_and!; [done| |intros m Hm Hn; by apply take_sorted_earliest].
  rewrite length_take, (Permutation_length (merge_sort_Permutation created_le _)). reflexivity.
Qed.

(** C25: [GET /sessions/{id}/messages] is answered by chat.py's
    handler, which does not check the bounds sessions.py declares: for a
    [limit] outside [1..200] (and not negative) sessions.py's handler
    would answer 422, while the served one returns the session's first
    [limit] messages. *)
Theorem messages_route_unbounded sid limit st s :
  chat_sessions st !! sid = Some s -> (0 <= limit)%Z -> ~ (1 <= limit <= 200)%Z ->
  get_session_messages sid limit st = (Exc (HTTPException 422), st) /\
  route_get_messages sid limit st =
    (Ret (JObj [("session_id", JStr sid);
               ("messages", JArr (map message_response
                                    (take (Z.to_nat limit) (merge_sort created_le (session_rows sid st)))));
               ("count", JNum (Z.of_nat (min (Z.to_nat limit) (length (session_rows sid st)))))]), st).
Proof.
  intros E H0 Hb. split.
  - unfold get_session_messages, query_bounds. rewrite se_bind_run.
    by destruct (Z.leb_spec 1 limit), (Z.leb_spec limit 200); try lia.
  - unfold route_get_messages. apply http_errors_ret.
    rewrite se_bind_run, (found_run _ _ _ E). simpl. rewrite se_bind_run, db_get_session_messages_run by done.
    simpl. rewrite length_take, (Permutation_length (merge_sort_Permutation created_le _)). reflexivity.
Qed.

(** C24: without tools, a chat request sends the model only the
    new message: every request it makes has the single user turn
    [req_message] as its [messages], whatever history the session has. *)
Theorem simple_chat_sends_only_message {Srv} (post : dict -> SE Srv json) client now req st log srv
    r st' log' srv' :
  req_tools req = [] ->
  chat (logged post) client now req (st, (log, srv)) = (r, (st', (log', srv'))) ->
  exists bodies, log' = (log ++ bodies)%list /\
    Forall (fun b => dict_get "messages" b = Some (user_turn (JStr (req_message req)))) bodies.
Proof.
  intros Ht H.
  assert (K : keeps (on_second (appends_only (fun b => dict_get "messages" b =
                                                       Some (user_turn (JStr (req_message req))))))
                (chat (logged post) client now req)).
  { unfold chat, chat_reply. rewrite Ht. keeps_tac idtac. }
  exact (K _ _ _ H).
Qed.

(** ** Witnesses *)

Definition demo_reply : json :=
  JObj [("content", JArr [JObj [("type", JStr "text"); ("text", JStr "Your application is under review.")]])].
Definition demo_request : chat_request := mkChatRequest "Where is my loan?" chat_sid None [].
Definition demo_now : string := "2026-11-09 08:00 UTC".

(** [POST /chat] on the demo session, the model answering once. *)
Definition chat_run : outcome json * (chat_db * (list dict * list (outcome json))) :=
  chat (logged scripted) (Ret demo_client) demo_now demo_request (chat_demo, ([], [Ret demo_reply])).

Example chat_run_contents :
  map msg_content (chat_messages chat_run.2.1) =
    ["hello"; "Where is my loan?"; "Your application is under review."] /\
  length chat_run.2.2.1 = 1.
Proof. vm_compute. auto. Qed.

Lemma chat_run_eq :
  chat (logged scripted) (Ret demo_client) demo_now demo_request (chat_demo, ([], [Ret demo_reply])) =
    (chat_run.1, (chat_run.2.1, (chat_run.2.2.1, chat_run.2.2.2))).
Proof. vm_compute. reflexivity. Qed.

Lemma chat_saves_exchange_witness : chat_sessions chat_run.2.1 = chat_sessions chat_demo.
Proof. exact (proj1 (chat_saves_exchange _ _ _ _ _ _ _ _ _ chat_run_eq)). Defined.

Lemma simple_chat_sends_only_message_witness :
  Forall (fun b => dict_get "messages" b = Some (user_turn (JStr "Where is my loan?"))) chat_run.2.2.1.
Proof.
  destruct (simple_chat_sends_only_message _ _ _ demo_request _ _ _ _ _ _ _ eq_refl chat_run_eq) as (bodies & E & F).
  rewrite E. exact F.
Defined.

(** A session of 51 messages: the demo one and 50 more. *)
Fixpoint more_messages (n : nat) (st : chat_db) : chat_db :=
  match n with 0 => st | S n' => more_messages n' (db_save_message chat_sid "user" "more" st).2 end.
Definition long_chat : chat_db := more_messages 50 chat_demo.
Definition long_history : list chat_message := take 50 (chat_messages long_chat).
Definition newest : chat_message := List.last (chat_messages long_chat) (mkMessage "" "" "" "" 0).

Lemma chat_history_oldest_witness :
  Forall (fun h => msg_created_at h <= msg_created_at newest) long_history.
Proof.
  refine (proj2 (proj2 (chat_history_oldest chat_sid long_chat chat_demo_session long_history long_chat _))
            newest _ _).
  - vm_compute. reflexivity.
  - apply (bool_decide_unpack _). vm_compute. reflexivity.
  - apply (bool_decide_unpack _). vm_compute. reflexivity.
Defined.

Lemma messages_route_unbounded_witness :
  get_session_messages chat_sid 500 chat_demo = (Exc (HTTPException 422), chat_demo) /\
  route_get_messages chat_sid 500 chat_demo =
    (Ret (JObj [("session_id", JStr chat_sid);
               ("messages", JArr (map message_response
                                    (take 500 (merge_sort created_le (session_rows chat_sid chat_demo)))));
               ("count", JNum (Z.of_nat (min 500 (length (session_rows chat_sid chat_demo)))))]), chat_demo).
Proof. apply (messages_route_unbounded chat_sid 500 chat_demo chat_demo_session); [vm_compute; reflexivity | lia | lia]. Defined.

End Chat.
