(* ===== verification/Streaming.v ===== *)
(** * The streaming endpoint ([src/routers/stream.py]) and [stream_message]

    [POST /stream] checks the session and loads its history
    ([stream_chat], lines 177-228, the same reads as [Chat.chat_prepare]),
    then returns a generator that the client consumes to its end
    ([generate_stream], lines 44-174).  The generator builds the system
    prompt, opens the model's event stream ([stream_message], client.py
    lines 219-282), turns each parsed chunk into server-sent events, saves
    the exchange and ends with a [complete] event; any exception ends it
    with an [error] event instead.

    The events are kept as a trace in the state, beside the database and
    the model's server, so that the events yielded before an exception
    survive it as they do on the wire.  An event is its name and its JSON
    payload; [format_event] is the text the generator yields.  The
    libraries the code only calls are the section's parameters:
    [json.loads] ([None]: [JSONDecodeError]), [json.dumps], and the
    exception's [str(e)] and [type(e).__name__]. *)

From S2P Require Import Prelude Json Store Client SystemPrompt Titles Sessions Chat.

Open Scope string_scope.

Module Streaming.

Import Client SystemPrompt Titles Sessions Chat.

(** [stream_message]'s request body (client.py lines 238-263). *)
Definition stream_body (c : claude_client) (message system tools : json) (kwargs : dict) : dict :=
  let params := merge_kwargs (base_params c ++ [("stream", JBool true)])%list kwargs in
  let body := [("model", get_or "model" JNull params); ("max_tokens", get_or "max_tokens" JNull params);
               ("messages", JArr [JObj [("role", JStr "user"); ("content", message)]]);
               ("stream", JBool true)] in
  let body := if truthy system then dict_set "system" system body else body in
  let body := if truthy tools then dict_set "tools" tools body else body in
  match dict_get "temperature" params with Some v => dict_set "temperature" v body | None => body end.

Definition sse_event : Type := string * json.

(** The chunk types passed through as events of the same name. *)
Definition PASSTHROUGH : list string :=
  ["message_start"; "content_block_start"; "content_block_stop"; "message_delta"; "message_stop"].

Definition NO_TEXT_SAVED : string := "(no text response)".

Definition is_terminal (e : sse_event) : bool := String.eqb e.1 "complete" || String.eqb e.1 "error".

Section streaming.
Context {Srv : Type}.
(** The POST with [raise_for_status], and the lines of its response. *)
Context (stream_post : dict -> SE Srv (list string)).
Context (json_loads : string -> option json) (json_dumps : json -> string).
Context (exn_text exn_type_name : exn -> string).

(** [f"event: {name}\ndata: {json.dumps(payload)}\n\n"] *)
Definition format_event (e : sse_event) : string :=
  "event: " +:+ e.1 +:+ NL +:+ "data: " +:+ json_dumps e.2 +:+ NL +:+ NL.

(** [stream_message(message, system, tools)]: the [data:] payloads up to
    [[DONE]]. *)
Definition stream_message (c : claude_client) (message system tools : json) : SE Srv (list string) :=
  lines ← stream_post (stream_body c message system tools []);
  mret (sse_data lines).

Definition St : Type := chat_db * (Srv * list sse_event).

Definition on_model {A} (m : SE Srv A) : SE St A :=
  on_srv (fun '(s, evs) => let '(r, s') := m s in (r, (s', evs))).

(** [yield] *)
Definition emit (e : sse_event) : SE St unit :=
  se_modify (fun '(d, (s, evs)) => (d, (s, (evs ++ [e])%list))).

(** Lines 131-136: the [tool_use] blocks of a chunk's content. *)
Fixpoint tool_use_blocks (blocks : list json) (tool_calls : list json) : SE St (list json) :=
  match blocks with
  | [] => mret tool_calls
  | block :: rest =>
      ty ← se_lift (get_out block "type" JNull);
      if is_str "tool_use" ty then
        emit ("tool_use", block) ;; tool_use_blocks rest (tool_calls ++ [block])%list
      else tool_use_blocks rest tool_calls
  end.

(** Lines 100-128: the event a chunk is passed on as, and the reply's
    text so far. *)
Definition chunk_event (chunk : json) (full_response : string) : SE St string :=
  event_type ← se_lift (get_out chunk "type" JNull);
  if is_str "content_block_delta" event_type then
    delta ← se_lift (get_out chunk "delta" (JObj []));
    dty ← se_lift (get_out delta "type" JNull);
    if is_str "text_delta" dty then
      text ← se_lift (get_out delta "text" (JStr ""));
      match text with
      | JStr t => emit ("token", JObj [("text", JStr t)]) ;; mret (full_response +:+ t)
      | _ => se_raise TypeError
      end
    else mret full_response
  else
    match event_type with
    | JStr n => (if existsb (String.eqb n) PASSTHROUGH then emit (n, chunk) else mret tt) ;; mret full_response
    | _ => mret full_response
    end.

(** Lines 130-136 *)
Definition chunk_tool_uses (chunk : json) (tool_calls : list json) : SE St (list json) :=
  content ← se_lift (get_out chunk "content" (JArr []));
  match content with JArr blocks => tool_use_blocks blocks tool_calls | _ => mret tool_calls end.

(** Lines 95-140: one chunk; [acc] is [(full_response, tool_calls)]; a
    chunk that does not parse is skipped. *)
Definition handle_chunk (chunk_data : string) (acc : string * list json) : SE St (string * list json) :=
  match json_loads chunk_data with
  | None => mret acc
  | Some chunk =>
      full_response ← chunk_event chunk acc.1;
      tool_calls ← chunk_tool_uses chunk acc.2;
      mret (full_response, tool_calls)
  end.

(** Line 90: [async for chunk_data in ...]. *)
Fixpoint handle_chunks (chunks : list string) (acc : string * list json) : SE St (string * list json) :=
  match chunks with
  | [] => mret acc
  | c :: cs => acc' ← handle_chunk c acc; handle_chunks cs acc'
  end.

(** Lines 61-157: the body of the [try], up to the saves. *)
Definition stream_work (client : outcome claude_client) (now : string) (request : chat_request)
    (session : chat_session) (history : list chat_message) : SE St json :=
  system_prompt ← se_lift (build_system_prompt (session_workflow_mode session) (application_context session)
                             [] (map JObj (req_tools request)) JNull now);
  claude ← se_lift client;
  let context := conversation_context (map (fun m => (msg_role m, msg_content m)) history)
                 +:+ NL +:+ NL +:+ "USER: " +:+ req_message request in
  chunks ← on_model (stream_message claude (JStr context) (JStr system_prompt) (JArr (map JObj (req_tools request))));
  '(full_response, tool_calls) ← handle_chunks chunks ("", []);
  user_message_id ← on_db (db_save_message (req_session_id request) "user" (req_message request));
  assistant_message_id ← on_db (db_save_message (req_session_id request) "assistant"
                                  (if String.eqb full_response "" then NO_TEXT_SAVED else full_response));
  mret (JObj [("user_message_id", JStr user_message_id); ("assistant_message_id", JStr assistant_message_id);
              ("tool_calls", JNum (Z.of_nat (length tool_calls))); ("complete", JBool true)]).

(** [generate_stream] (lines 44-174) *)
Definition generate_stream (client : outcome claude_client) (now : string) (request : chat_request)
    (session : chat_session) (history : list chat_message) : SE St unit :=
  se_catch (completion ← stream_work client now request session history; emit ("complete", completion))
           (fun e => emit ("error", JObj [("error", JStr (exn_text e)); ("type", JStr (exn_type_name e))])).

(** [POST /stream] as the client sees it: the endpoint (lines 177-228,
    with the request model's 422 for an empty message), then the whole
    generator. *)
Definition stream_request (client : outcome claude_client) (now : string) (request : chat_request) : SE St unit :=
  if String.eqb (req_message request) "" then se_raise (HTTPException 422) else
  '(session, history) ← on_db (http_errors (chat_prepare (req_session_id request)));
  generate_stream client now request session history.

End streaming.

(** ** The trace *)

(** The text the client has been shown: the [token] events' texts. *)
Definition token_of (e : sse_event) : string :=
  if String.eqb e.1 "token" then match obj_get "text" e.2 with Some (JStr t) => t | _ => "" end else "".

Definition token_text (evs : list sse_event) : string := fold_right (fun e acc => token_of e +:+ acc) "" evs.

Lemma token_text_app xs ys : token_text (xs ++ ys) = token_text xs +:+ token_text ys.
Proof.
  induction xs as [|x xs IH]; [done|].
  change (token_of x +:+ token_text (xs ++ ys) = (token_of x +:+ token_text xs) +:+ token_text ys).
  by rewrite IH, string_append_assoc.
Qed.

(** Events appended, none of them terminal. *)
Definition ext_nonterminal {Srv} : relation (@St Srv) :=
  fun p p' => exists xs, p'.2.2 = (p.2.2 ++ xs)%list /\ Forall (fun e => is_terminal e = false) xs.

#[export] Instance ext_nonterminal_preorder {Srv} : PreOrder (@ext_nonterminal Srv).
Proof.
  split.
  - intros [d [s evs]]. exists []. by rewrite app_nil_r.
  - intros [d1 [s1 e1]] [d2 [s2 e2]] [d3 [s3 e3]] (x1 & E1 & H1) (x2 & E2 & H2). simpl in *. subst.
    exists (x1 ++ x2)%list. rewrite app_assoc. split; [done|]. by apply Forall_app.
Qed.

Lemma emit_nonterminal {Srv} (e : sse_event) : is_terminal e = false -> keeps (@ext_nonterminal Srv) (emit e).
Proof. intros He [d [s evs]] r st' [= <- <-]. exists [e]. split; [done|]. by constructor. Qed.

Lemma passthrough_names n :
  existsb (String.eqb n) PASSTHROUGH = true -> is_terminal (n, JNull) = false /\ String.eqb n "token" = false.
Proof.
  intros H. apply existsb_exists in H as [m [Hm Heq]]. apply String.eqb_eq in Heq. subst m.
  unfold PASSTHROUGH in Hm. simpl in Hm. by repeat destruct Hm as [<-|Hm].
Qed.

Lemma passthrough_nonterminal n (c : json) : existsb (String.eqb n) PASSTHROUGH = true -> is_terminal (n, c) = false.
Proof. intros H. exact (proj1 (passthrough_names n H)). Qed.

Lemma on_model_keeps {Srv A} (R : relation (@St Srv)) `{!PreOrder R} (m : SE Srv A) :
  (forall d s s' evs, R (d, (s, evs)) (d, (s', evs))) -> keeps R (on_model m).
Proof. intros HR [d [s evs]] r [d' [s' evs']]. unfold on_model, on_srv. destruct (m s). by intros [= _ <- <- <-]. Qed.

Lemma on_db_ext {Srv A} (m : SE chat_db A) : keeps (@ext_nonterminal Srv) (on_db m).
Proof. intros [d [s evs]] r [d' [s' evs']]. unfold on_db. destruct (m d). intros [= _ _ <- <-]. exists []. by rewrite app_nil_r. Qed.

#[export] Hint Resolve emit_nonterminal : keeps.
#[export] Hint Extern 1 (is_terminal _ = false) =>
  first [ reflexivity | apply passthrough_nonterminal; assumption ] : keeps.

Lemma tool_use_blocks_ext {Srv} bs tc : keeps (@ext_nonterminal Srv) (tool_use_blocks bs tc).
Proof.
  revert tc. induction bs as [|b bs IH]; intros tc; simpl; keeps_tac idtac; apply IH.
Qed.

#[export] Hint Resolve on_db_ext tool_use_blocks_ext : keeps.

Lemma handle_chunks_ext {Srv} (json_loads : string -> option json) cs acc :
  keeps (@ext_nonterminal Srv) (handle_chunks json_loads cs acc).
Proof.
  revert acc. induction cs as [|c cs IH]; intros acc; simpl; [apply keeps_ret; exact _|].
  apply keeps_bind; [..|intros ?; apply IH]; [exact _|]. unfold handle_chunk. keeps_tac idtac.
Qed.

Lemma on_model_ext {Srv A} (m : SE Srv A) : keeps (@ext_nonterminal Srv) (on_model m).
Proof. apply on_model_keeps; [exact _|]. intros d s s' evs. exists []. by rewrite app_nil_r. Qed.

#[export] Hint Resolve on_model_ext handle_chunks_ext : keeps.

Lemma stream_work_ext {Srv} (stream_post : dict -> SE Srv (list string)) json_loads client now req session history :
  keeps ext_nonterminal (stream_work stream_post json_loads client now req session history).
Proof. unfold stream_work. keeps_tac idtac. Qed.

(** ** Theorems *)

(** C12: the stream generator never raises, and what it yields
    ends with exactly one terminal event: [complete] when the work
    succeeded, [error] otherwise, after events none of which is
    terminal. *)
Theorem generate_stream_terminal {Srv} (stream_post : dict -> SE Srv (list string)) json_loads
    exn_text exn_type_name client now req session history d s evs r d' s' evs' :
  generate_stream stream_post json_loads exn_text exn_type_name client now req session history (d, (s, evs)) =
    (r, (d', (s', evs'))) ->
  r = Ret tt /\
  exists xs t, evs' = (evs ++ xs ++ [t])%list /\ Forall (fun e => is_terminal e = false) xs /\
    is_terminal t = true /\
    (t.1 = "complete" <-> exists c st1,
       stream_work stream_post json_loads client now req session history (d, (s, evs)) = (Ret c, st1)).
Proof.
  unfold generate_stream, se_catch. rewrite se_bind_run.
  destruct (stream_work stream_post json_loads client now req session history (d, (s, evs)))
    as [[c|e] [d1 [s1 evs1]]] eqn:W;
    destruct (stream_work_ext stream_post json_loads client now req session history _ _ _ W) as (xs & Exs & Hxs);
    simpl in Exs; subst evs1; unfold emit, se_modify; intros H; inversion H; subst; clear H;
    (split; [done|]); eexists xs, _; rewrite <- app_assoc; (split; [done|]); split_and!; try done;
    split; eauto; [discriminate | intros (c' & st1 & W'); congruence].
Qed.

(** Events appended that show no text, the database unchanged. *)
Definition no_text {Srv} : relation (@St Srv) :=
  fun p p' => p'.1 = p.1 /\ exists xs, p'.2.2 = (p.2.2 ++ xs)%list /\ token_text xs = "".

#[export] Instance no_text_preorder {Srv} : PreOrder (@no_text Srv).
Proof.
  split.
  - intros [d [s evs]]. split; [done|]. exists []. by rewrite app_nil_r.
  - intros [d1 [s1 e1]] [d2 [s2 e2]] [d3 [s3 e3]] [D1 (x1 & E1 & H1)] [D2 (x2 & E2 & H2)]. simpl in *. subst.
    split; [done|]. exists (x1 ++ x2)%list. rewrite app_assoc, token_text_app, H1, H2. by split.
Qed.

Lemma emit_no_text {Srv} (e : sse_event) : token_of e = "" -> keeps (@no_text Srv) (emit e).
Proof. intros He [d [s evs]] r st' [= <- <-]. split; [done|]. exists [e]. simpl. by rewrite He. Qed.

#[export] Hint Resolve emit_no_text : keeps.
#[export] Hint Extern 1 (token_of _ = "") => reflexivity : keeps.

Lemma tool_use_blocks_no_text {Srv} bs tc : keeps (@no_text Srv) (tool_use_blocks bs tc).
Proof. revert tc. induction bs as [|b bs IH]; intros tc; simpl; keeps_tac idtac; apply IH. Qed.

#[export] Hint Resolve tool_use_blocks_no_text : keeps.

Lemma chunk_tool_uses_no_text {Srv} chunk tc : keeps (@no_text Srv) (chunk_tool_uses chunk tc).
Proof. unfold chunk_tool_uses. keeps_tac idtac. Qed.

(** The reply's text grows by the texts of the token events emitted. *)
Lemma chunk_event_text {Srv} chunk full (st : @St Srv) full' st' :
  chunk_event chunk full st = (Ret full', st') ->
  st'.1 = st.1 /\ exists xs, st'.2.2 = (st.2.2 ++ xs)%list /\ full' = full +:+ token_text xs.
Proof.
  destruct st as [d [s evs]]. unfold chunk_event, emit, se_lift. se_unfold.
  repeat (case_match; simplify_eq/=); intros Hr; simplify_eq/=; (split; [done|]).
  all: first
    [ exists []; unfold token_text; simpl; rewrite app_nil_r, string_append_empty_r; by split
    | eexists [_]; split; [reflexivity|]; unfold token_text, token_of; simpl;
      by rewrite !string_append_empty_r
    | match goal with
      | Hp : _ = true, He : get_out _ "type" _ = Ret (JStr ?n) |- _ =>
          assert (Hn : n <> "token") by (intros ->; vm_compute in Hp; discriminate Hp);
          eexists [_]; split; [reflexivity|]; unfold token_text, token_of; simpl;
          by rewrite (proj2 (String.eqb_neq _ _) Hn), !string_append_empty_r
      end ].
Qed.

Lemma handle_chunk_text {Srv} json_loads c acc (st : @St Srv) acc' st' :
  handle_chunk json_loads c acc st = (Ret acc', st') ->
  st'.1 = st.1 /\ exists xs, st'.2.2 = (st.2.2 ++ xs)%list /\ acc'.1 = acc.1 +:+ token_text xs.
Proof.
  unfold handle_chunk. destruct (json_loads c) as [chunk|].
  2:{ se_unfold. intros [= <- <-]. split; [done|]. exists []. by rewrite app_nil_r, string_append_empty_r. }
  rewrite se_bind_run. destruct (chunk_event chunk acc.1 st) as [[full|e] st1] eqn:E1; [|discriminate].
  destruct (chunk_event_text _ _ _ _ _ E1) as [D1 (x1 & X1 & F1)].
  rewrite se_bind_run. destruct (chunk_tool_uses chunk acc.2 st1) as [[tc|e] st2] eqn:E2; [|discriminate].
  destruct (chunk_tool_uses_no_text chunk acc.2 st1 _ st2 E2) as [D2 (x2 & X2 & T2)].
  se_unfold. intros [= <- <-]. split; [congruence|]. exists (x1 ++ x2)%list.
  rewrite X2, X1, app_assoc, token_text_app, T2, string_append_empty_r. by split.
Qed.

Lemma handle_chunks_text {Srv} json_loads cs acc (st : @St Srv) acc' st' :
  handle_chunks json_loads cs acc st = (Ret acc', st') ->
  st'.1 = st.1 /\ exists xs, st'.2.2 = (st.2.2 ++ xs)%list /\ acc'.1 = acc.1 +:+ token_text xs.
Proof.
  revert acc st. induction cs as [|c cs IH]; intros acc st; simpl.
  - se_unfold. intros [= <- <-]. split; [done|]. exists []. by rewrite app_nil_r, string_append_empty_r.
  - rewrite se_bind_run. destruct (handle_chunk json_loads c acc st) as [[a1|e] st1] eqn:E1; [|discriminate].
    destruct (handle_chunk_text _ _ _ _ _ _ E1) as [D1 (x1 & X1 & F1)].
    intros H. destruct (IH _ _ H) as [D2 (x2 & X2 & F2)]. split; [congruence|]. exists (x1 ++ x2)%list.
    rewrite X2, X1, app_assoc, token_text_app, F2, F1, string_append_assoc. by split.
Qed.

Lemma se_lift_bind {S A B} (o : outcome A) (k : A -> SE S B) st :
  (se_lift o ≫= k) st = match o with Ret a => k a st | Exc e => (Exc e, st) end.
Proof. by destruct o. Qed.

Lemma db_save_message_found sid role content st x :
  chat_sessions st !! sid = Some x ->
  db_save_message sid role content st =
    (Ret (fresh_message_id st),
     mkChatDb (chat_sessions st)
       (chat_messages st ++ [mkMessage (fresh_message_id st) sid role content (chat_clock st)])%list
       (S (chat_clock st))).
Proof. intros E. unfold db_save_message. se_unfold. simpl. by rewrite E. Qed.

Lemma db_save_message_missing sid role content st :
  chat_sessions st !! sid = None -> db_save_message sid role content st = (Exc PostgresError, st).
Proof. intros E. unfold db_save_message. se_unfold. simpl. by rewrite E. Qed.

(** What the stream stores as the reply: the text shown, or a
    placeholder when there was none. *)
Definition saved_text (xs : list sse_event) : string :=
  if String.eqb (token_text xs) "" then NO_TEXT_SAVED else token_text xs.

Lemma stream_work_saves {Srv} (stream_post : dict -> SE Srv (list string)) json_loads client now req session
    history d s evs c d' s' evs' :
  stream_work stream_post json_loads client now req session history (d, (s, evs)) = (Ret c, (d', (s', evs'))) ->
  chat_sessions d' = chat_sessions d /\
  exists xs uid aid, evs' = (evs ++ xs)%list /\
    chat_messages d' =
      (chat_messages d ++ [mkMessage uid (req_session_id req) "user" (req_message req) (chat_clock d);
                           mkMessage aid (req_session_id req) "assistant" (saved_text xs) (S (chat_clock d))])%list.
Proof.
  unfold stream_work. rewrite !se_lift_bind.
  destruct (build_system_prompt _ _ _ _ _ _) as [prompt|e]; [|discriminate].
  rewrite se_lift_bind. destruct client as [claude|e]; [|discriminate].
  rewrite se_bind_run. unfold on_model, on_srv.
  destruct (stream_message stream_post claude _ _ _ s) as [[chunks|e] s1]; [|discriminate].
  rewrite se_bind_run. destruct (handle_chunks json_loads chunks ("", []) (d, (s1, evs))) as [[[full tc]|e] [d2 [s2 e2]]] eqn:H;
    [|discriminate].
  destruct (handle_chunks_text _ _ _ _ _ _ H) as [D2 (xs & X2 & F2)]. simpl in D2, X2, F2. subst d2 e2 full.
  cbn beta iota. rewrite se_bind_run. unfold on_db.
  destruct (chat_sessions d !! req_session_id req) as [x|] eqn:E;
    [|by rewrite db_save_message_missing].
  rewrite (db_save_message_found _ _ _ _ _ E), se_bind_run.
  rewrite (db_save_message_found _ _ _ _ x) by exact E. se_unfold. intros [= _ <- _ <-].
  split; [done|]. exists xs. do 2 eexists. split; [done|]. simpl. rewrite <- app_assoc. unfold saved_text. reflexivity.
Qed.

(** C13: a stream either ends with an [error] event, or ends with
    [complete] after the database received the user's message and then,
    as the reply, exactly the text the stream's [token] events showed (the
    placeholder when they showed none); no session changes then. *)
Theorem stream_saves_shown_text {Srv} (stream_post : dict -> SE Srv (list string)) json_loads
    exn_text exn_type_name client now req session history d s evs r d' s' evs' :
  generate_stream stream_post json_loads exn_text exn_type_name client now req session history (d, (s, evs)) =
    (r, (d', (s', evs'))) ->
  (exists xs x, evs' = (evs ++ xs ++ [("error", x)])%list) \/
  exists xs c uid aid,
    evs' = (evs ++ xs ++ [("complete", c)])%list /\ chat_sessions d' = chat_sessions d /\
    chat_messages d' =
      (chat_messages d ++ [mkMessage uid (req_session_id req) "user" (req_message req) (chat_clock d);
                           mkMessage aid (req_session_id req) "assistant" (saved_text xs) (S (chat_clock d))])%list.
Proof.
  unfold generate_stream, se_catch. rewrite se_bind_run.
  destruct (stream_work stream_post json_loads client now req session history (d, (s, evs)))
    as [[c|e] [d1 [s1 evs1]]] eqn:W; unfold emit, se_modify; intros H; inversion H; subst; clear H.
  - destruct (stream_work_saves _ _ _ _ _ _ _ _ _ _ _ _ _ _ W) as [Ds (xs & uid & aid & -> & Dm)].
    right. exists xs, c, uid, aid. by rewrite <- app_assoc.
  - destruct (stream_work_ext stream_post json_loads client now req session history _ _ _ W) as (xs & Exs & _).
    simpl in Exs. subst. left. exists xs. eexists. by rewrite <- app_assoc.
Qed.

(** ** Referential integrity across the whole service *)

Lemma emit_first {Srv} (R : relation chat_db) `{!PreOrder R} e : keeps (@on_first (Srv * list sse_event) R) (emit e).
Proof. intros [d [s evs]] r st' [= <- <-]. unfold on_first. simpl. reflexivity. Qed.

Lemma on_model_first {Srv A} (R : relation chat_db) `{!PreOrder R} (m : SE Srv A) :
  keeps (@on_first (Srv * list sse_event) R) (on_model m).
Proof. apply on_model_keeps; [exact _|]. intros. unfold on_first. simpl. reflexivity. Qed.

#[export] Hint Resolve emit_first on_model_first : keeps.

Lemma tool_use_blocks_first {Srv} (R : relation chat_db) `{!PreOrder R} bs tc :
  keeps (@on_first (Srv * list sse_event) R) (tool_use_blocks bs tc).
Proof. revert tc. induction bs as [|b bs IH]; intros tc; simpl; keeps_tac idtac; apply IH. Qed.

#[export] Hint Resolve tool_use_blocks_first : keeps.

Lemma handle_chunks_first {Srv} (R : relation chat_db) `{!PreOrder R} json_loads cs acc :
  keeps (@on_first (Srv * list sse_event) R) (handle_chunks json_loads cs acc).
Proof.
  revert acc. induction cs as [|c cs IH]; intros acc; simpl; [apply keeps_ret; exact _|].
  apply keeps_bind; [..|intros ?; apply IH]; [exact _|].
  unfold handle_chunk, chunk_event, chunk_tool_uses. keeps_tac idtac.
Qed.

#[export] Hint Resolve handle_chunks_first : keeps.

Lemma stream_request_refint {Srv} (stream_post : dict -> SE Srv (list string)) json_loads exn_text exn_type_name
    client now req :
  keeps (on_first keeps_refint) (stream_request stream_post json_loads exn_text exn_type_name client now req).
Proof. unfold stream_request, generate_stream, stream_work. keeps_tac idtac. Qed.

(** One request to the service's chat tables: an endpoint of sessions.py
    or a [DatabaseClient] write ([Sessions.chat_step]), [POST /chat], the
    messages route as served, or [POST /stream] consumed to its end. *)
Inductive service_step : chat_db -> chat_db -> Prop :=
| ss_sessions st st' : chat_step st st' -> service_step st st'
| ss_chat {Srv} (post : dict -> SE Srv json) client now req st srv r st' srv' :
    chat post client now req (st, srv) = (r, (st', srv')) -> service_step st st'
| ss_messages sid limit st r st' : route_get_messages sid limit st = (r, st') -> service_step st st'
| ss_stream {Srv} (stream_post : dict -> SE Srv (list string)) json_loads exn_text exn_type_name client now req
    st srv evs r st' srv' evs' :
    stream_request stream_post json_loads exn_text exn_type_name client now req (st, (srv, evs)) =
      (r, (st', (srv', evs'))) -> service_step st st'.

Lemma service_step_refint st st' : service_step st st' -> refint st -> refint st'.
Proof.
  destruct 1 as [st st' Hs|Srv post client now req st srv r st' srv' H|sid limit st r st' H
                |Srv sp jl et en client now req st srv evs r st' srv' evs' H].
  - by apply chat_step_refint.
  - exact (chat_refint post client now req _ _ _ H).
  - exact (route_get_messages_refint sid limit _ _ _ H).
  - exact (stream_request_refint sp jl et en client now req _ _ _ H).
Qed.

(** in every state the service reaches from an empty
    database, through any sequence of requests to the chat, stream and
    sessions endpoints and of message writes, every message belongs to an
    existing session. *)
Theorem service_refint st : rtc service_step empty_chat_db st -> refint st.
Proof.
  intros H. cut (refint empty_chat_db); [|constructor].
  induction H as [|x y z Hxy _ IH]; [done|]. intros Hx. by apply IH, (service_step_refint x y).
Qed.

(** ** Witnesses *)

Definition demo_lines : list string :=
  ["data: 1"; ""; "data: 2"; ": ping"; "data: 3"; "data: 4"; "data: 5"; "data: [DONE]"; "data: 6"].

(** [json.loads] on the demo payloads. *)
Definition demo_loads (data : string) : option json :=
  if String.eqb data "1" then Some (JObj [("type", JStr "message_start")])
  else if String.eqb data "2" then
    Some (JObj [("type", JStr "content_block_delta");
                ("delta", JObj [("type", JStr "text_delta"); ("text", JStr "Your loan ")])])
  else if String.eqb data "3" then
    Some (JObj [("type", JStr "content_block_delta");
                ("delta", JObj [("type", JStr "text_delta"); ("text", JStr "is approved.")])])
  else if String.eqb data "4" then
    Some (JObj [("type", JStr "ping"); ("content", JArr [JObj [("type", JStr "tool_use"); ("name", JStr "query_application")]])])
  else if String.eqb data "5" then Some (JObj [("type", JStr "message_stop")])
  else None.

Definition demo_stream_post : dict -> SE unit (list string) := fun _ s => (Ret demo_lines, s).
Definition demo_dumps (_ : json) : string := "{}".
Definition demo_text (_ : exn) : string := "failed".
Definition demo_type (_ : exn) : string := "Exception".

Definition gen_run : outcome unit * St :=
  generate_stream demo_stream_post demo_loads demo_text demo_type (Ret demo_client) demo_now demo_request
    chat_demo_session (chat_messages chat_demo) (chat_demo, (tt, [])).

Lemma gen_run_eq :
  generate_stream demo_stream_post demo_loads demo_text demo_type (Ret demo_client) demo_now demo_request
    chat_demo_session (chat_messages chat_demo) (chat_demo, (tt, [])) =
    (gen_run.1, (gen_run.2.1, (gen_run.2.2.1, gen_run.2.2.2))).
Proof. vm_compute. reflexivity. Qed.

(** The events of the demo stream, and the messages it stored. *)
Example gen_run_contents :
  map fst gen_run.2.2.2 = ["message_start"; "token"; "token"; "tool_use"; "message_stop"; "complete"] /\
  map msg_content (chat_messages gen_run.2.1) = ["hello"; "Where is my loan?"; "Your loan is approved."].
Proof. vm_compute. auto. Qed.

Lemma generate_stream_terminal_witness : gen_run.1 = Ret tt.
Proof. exact (proj1 (generate_stream_terminal _ _ _ _ _ _ _ _ _ _ _ _ _ _ _ _ gen_run_eq)). Defined.

Lemma stream_saves_shown_text_witness :
  (exists xs x, gen_run.2.2.2 = ([] ++ xs ++ [("error", x)])%list) \/
  exists xs c uid aid,
    gen_run.2.2.2 = ([] ++ xs ++ [("complete", c)])%list /\ chat_sessions gen_run.2.1 = chat_sessions chat_demo /\
    chat_messages gen_run.2.1 =
      (chat_messages chat_demo ++ [mkMessage uid chat_sid "user" "Where is my loan?" (chat_clock chat_demo);
                                  mkMessage aid chat_sid "assistant" (saved_text xs) (S (chat_clock chat_demo))])%list.
Proof. exact (stream_saves_shown_text _ _ _ _ _ _ _ _ _ _ _ _ _ _ _ _ gen_run_eq). Defined.

Lemma service_refint_witness : refint gen_run.2.1.
Proof.
  apply service_refint.
  eapply rtc_l; [apply ss_sessions, (cs_create "farmer-1" DEFAULT_TITLE None None _ chat_run1.1);
                 apply surjective_pairing|].
  eapply rtc_l; [apply ss_sessions, (cs_save chat_sid "user" "hello" _ chat_run2.1); apply surjective_pairing|].
  eapply rtc_l; [|apply rtc_refl].
  apply (ss_stream demo_stream_post demo_loads demo_text demo_type (Ret demo_client) demo_now demo_request
           _ tt [] gen_run.1 _ gen_run.2.2.1 gen_run.2.2.2).
  vm_compute. reflexivity.
Defined.

End Streaming.
