(* ===== verification/Memory.v ===== *)
(** * The semantic memory client ([src/memory/mem0_client.py])

    The module is a stub of a mem0/pgvector client: its constructor reads
    and checks the configuration (the OpenAI key, and the pgvector port
    through Python's [int]), its methods return fixed dictionaries, and a
    module-level singleton [get_client] keeps one client, replaced when a
    different user asks for one.  Python's [int] on a string is [ShowArtifact.parse_py_int];
    [str(uuid.uuid4())] in [add] is the argument [uuid4]; the two floats of
    the module are rationals.

    [get_client_user] shows which client a caller gets: its own when it
    names a user, otherwise whichever client the last naming caller left,
    with that other user's [user_id]. *)

From S2P Require Import Prelude Json Client ShowArtifact.
From Stdlib Require QArith.

Module Memory.
Import Client ShowArtifact.

(** ** Constants (lines 20-23) *)

Definition EMBEDDING_MODEL : string := "text-embedding-3-small".
Definition EMBEDDING_DIMENSIONS : Z := 1536.
Definition SIMILARITY_THRESHOLD : QArith_base.Q := QArith_base.Qmake 7 10.

(** ** [Mem0Client] *)

Record Mem0Client := mkMem0Client {
  user_id : string;
  similarity_threshold : QArith_base.Q;
  supabase_url : option string;
  supabase_key : option string;
  openai_api_key : string;
  db_config : dict;
  embedding_config : dict
}.

Section client.
Context (env : string -> option string).

(** [__init__] (lines 37-82): the key check comes before the port is
    parsed; either failure is a [ValueError]. *)
Definition Mem0Client_init (user_id supabase_url supabase_key openai_api_key : option string)
    (similarity_threshold : QArith_base.Q) : outcome Mem0Client :=
  let openai := py_or openai_api_key (env "OPENAI_API_KEY") in
  if negb (truthy_opt openai) then Exc ValueError else
  match parse_py_int (getenv_or env "PGVECTOR_PORT" "5433") with
  | None => Exc ValueError
  | Some port =>
      Ret (mkMem0Client (default "default" (py_or user_id (Some "default"))) similarity_threshold
             (py_or supabase_url (env "SUPABASE_URL")) (py_or supabase_key (env "SUPABASE_KEY"))
             (default "" openai)
             [("host", JStr (getenv_or env "PGVECTOR_HOST" "host.docker.internal"));
              ("port", JNum port);
              ("user", JStr (getenv_or env "PGVECTOR_USER" "postgres"));
              ("password", JStr (getenv_or env "PGVECTOR_PASSWORD" "postgres"));
              ("database", JStr (getenv_or env "PGVECTOR_DATABASE" "postgres"))]
             [("model", JStr EMBEDDING_MODEL); ("dimensions", JNum EMBEDDING_DIMENSIONS)])
  end.

End client.

(** *** The stub methods (lines 84-228) *)

(** [add] (lines 84-111) *)
Definition add (uuid4 : string) (self : Mem0Client) (content : string) (metadata : option dict) : dict :=
  [("id", JStr uuid4); ("status", JStr "stub");
   ("message", JStr "Memory API stub - requires Python 3.9+ with mem0ai for full implementation")].

(** A search result: the one float field, [score], is a rational. *)
Record memory_hit := mkHit {
  hit_id : string; hit_memory : string; hit_score : QArith_base.Q; hit_metadata : dict; hit_message : string
}.

(** [search] (lines 113-145) *)
Definition search (self : Mem0Client) (query : string) (limit : Z) (filters : option dict) : list memory_hit :=
  [mkHit "stub_mem_1" "Example memory (stub)" (QArith_base.Qmake 85 100) []
         "Stub implementation - requires Python 3.9+ with mem0ai"].

(** [get_all] (lines 147-160) *)
Definition get_all (self : Mem0Client) (limit : Z) : list dict := [].

(** [update] (lines 162-181) *)
Definition update (self : Mem0Client) (memory_id content : string) : dict :=
  [("id", JStr memory_id); ("status", JStr "stub"); ("message", JStr "Update stub - requires Python 3.9+ with mem0ai")].

(** [delete] (lines 183-200) *)
Definition delete (self : Mem0Client) (memory_id : string) : dict :=
  [("id", JStr memory_id); ("status", JStr "deleted"); ("message", JStr "Delete stub - requires Python 3.9+ with mem0ai")].

(** [delete_all] (lines 202-213) *)
Definition delete_all (self : Mem0Client) : dict :=
  [("status", JStr "deleted"); ("count", JNum 0); ("message", JStr "Delete all stub - requires Python 3.9+ with mem0ai")].

(** [get_history] (lines 215-228) *)
Definition get_history (self : Mem0Client) (memory_id : string) : list dict := [].

(** ** The module-level singleton (lines 231-254) *)

Section singleton.
Context (env : string -> option string).

(** [get_client] (lines 235-248): a new client when there is none or a
    user is named that differs from the cached client's; the global is
    assigned only once the constructor has returned. *)
Definition assign_client (user_id' : option string) : SE (option Mem0Client) Mem0Client :=
  c ← se_lift (Mem0Client_init env user_id' None None None SIMILARITY_THRESHOLD);
  se_put (Some c);; mret c.

Definition get_client (user_id' : option string) : SE (option Mem0Client) Mem0Client :=
  g ← se_get;
  match g with
  | Some c =>
      if truthy_opt user_id' && negb (String.eqb (user_id c) (default "" user_id')) then assign_client user_id'
      else mret c
  | None => assign_client user_id'
  end.

(** [reset_client] (lines 251-254) *)
Definition reset_client : SE (option Mem0Client) unit := se_put None.

End singleton.

(** ** Lemmas *)

(** A port [int] rejects makes the constructor raise, whatever its
    arguments. *)
Lemma Mem0Client_init_bad_port env u su sk k t :
  parse_py_int (getenv_or env "PGVECTOR_PORT" "5433") = None -> Mem0Client_init env u su sk k t = Exc ValueError.
Proof. intros Hp. unfold Mem0Client_init. rewrite Hp. by case_match. Qed.

Lemma Mem0Client_init_user env u su sk k t c :
  u <> "" -> Mem0Client_init env (Some u) su sk k t = Ret c -> user_id c = u.
Proof.
  intros Hu. apply String.eqb_neq in Hu. unfold Mem0Client_init.
  repeat case_match; intros; simplify_eq/=. by rewrite Hu.
Qed.

Lemma assign_client_user env u g c g' :
  u <> "" -> assign_client env (Some u) g = (Ret c, g') -> user_id c = u /\ g' = Some c.
Proof.
  intros Hu. unfold assign_client, se_lift. se_unfold; simpl.
  destruct (Mem0Client_init _ _ _ _ _ _) as [c'|] eqn:E; [|done]. intros [= <- <-].
  split; [exact (Mem0Client_init_user _ _ _ _ _ _ _ Hu E)|done].
Qed.

(** ** Theorems *)

(** C18: a caller that names a user gets a client of that user, which
    becomes the global; a later caller that names no user (or an empty
    one) gets that same client, with the other user's [user_id]. *)
Theorem get_client_user env u g c g' :
  u <> "" -> get_client env (Some u) g = (Ret c, g') ->
  user_id c = u /\ g' = Some c /\ get_client env None g' = (Ret c, g') /\ get_client env (Some "") g' = (Ret c, g').
Proof.
  intros Hu H. cut (user_id c = u /\ g' = Some c); [intros [? ->]; by split_and!|].
  revert H. unfold get_client. rewrite se_bind_run. simpl. destruct g as [c0|]; [|by apply assign_client_user].
  apply String.eqb_neq in Hu as Hu'. rewrite Hu'. simpl.
  destruct (String.eqb_spec (user_id c0) u) as [Hc|_]; simpl.
  - intros [= <- <-]. by split.
  - by apply assign_client_user.
Qed.

Definition demo_env (k : string) : option string :=
  if String.eqb k "OPENAI_API_KEY" then Some "sk-demo" else None.

Lemma get_client_user_witness :
  exists c, get_client demo_env (Some "alice") None = (Ret c, Some c) /\ user_id c = "alice" /\
            get_client demo_env None (Some c) = (Ret c, Some c).
Proof.
  destruct (get_client demo_env (Some "alice") None) as [[c|e] g'] eqn:E; [|discriminate].
  destruct (get_client_user demo_env "alice" None c g' ltac:(discriminate) E) as (Hu & -> & H1 & _).
  exists c. split_and!; [reflexivity|exact Hu|exact H1].
Defined.

End Memory.
