(* ===== verification/Health.v ===== *)
(** * Health probes ([src/routers/health.py])

    The four checks read the environment ([os.getenv], the function
    [env]) and, for the database, the outcome of connecting and counting
    the bot tables ([db_probe]: the [COUNT] or the exception
    [connect] or [fetchval] raised) and of closing the pool
    ([db_close]).  Each check returns a status dictionary; [health_check]
    combines them, [readiness_check] needs the two critical ones to be
    [ok].  The memory check constructs [Mem0Client()], modelled in
    [Memory] with the constructor's two [ValueError]s (no OpenAI key, a
    port [int] rejects).  [str(e)] of an exception is the parameter
    [exn_text]. *)

From S2P Require Import Prelude Json Client ShowArtifact Memory.

Open Scope string_scope.

Module Health.

Import Client ShowArtifact Memory.

Section health.
Context (env : string -> option string).
Context (exn_text : exn -> string).


(** [check_anthropic_api] (lines 26-72) *)
Definition check_anthropic_api : json :=
  match env "ANTHROPIC_API_KEY" with
  | Some key =>
      if String.eqb key "" then
        JObj [("status", JStr "error"); ("configured", JBool false); ("message", JStr "ANTHROPIC_API_KEY not set")]
      else if negb (String.prefix "sk-ant-" key) then
        JObj [("status", JStr "warning"); ("configured", JBool true);
              ("message", JStr "API key format unexpected (should start with 'sk-ant-')")]
      else
        match new_client (JStr key) (env "ANTHROPIC_API_KEY") (JStr DEFAULT_MODEL) DEFAULT_MAX_TOKENS
                DEFAULT_TEMPERATURE with
        | Ret c => JObj [("status", JStr "ok"); ("configured", JBool true); ("model", client_model c);
                         ("message", JStr "Anthropic API configured")]
        | Exc e => JObj [("status", JStr "error"); ("configured", JBool true);
                         ("message", JStr ("Client initialization failed: " +:+ exn_text e))]
        end
  | None =>
      JObj [("status", JStr "error"); ("configured", JBool false); ("message", JStr "ANTHROPIC_API_KEY not set")]
  end.

(** [check_database] (lines 75-135): [db_probe] is what [connect] and the
    [COUNT] query give, [db_close] what the [finally]'s [close] does;
    an exception of either is the outer [except]. *)
Definition check_database (db_probe : outcome Z) (db_close : outcome unit) : json :=
  if negb (env_set env "DATABASE_URL") then
    JObj [("status", JStr "error"); ("configured", JBool false); ("message", JStr "DATABASE_URL not set")]
  else
    let failed e := JObj [("status", JStr "error"); ("configured", JBool (env_set env "DATABASE_URL"));
                          ("connected", JBool false);
                          ("message", JStr ("Database connection failed: " +:+ exn_text e))] in
    match db_probe, db_close with
    | _, Exc e => failed e
    | Exc e, Ret _ => failed e
    | Ret n, Ret _ =>
        if Z.eqb n 0 then
          JObj [("status", JStr "warning"); ("configured", JBool true); ("connected", JBool true);
                ("message", JStr "Database connected but bot tables not found (migrations may not be run)")]
        else
          JObj [("status", JStr "ok"); ("configured", JBool true); ("connected", JBool true);
                ("message", JStr "Database connected and tables verified")]
    end.


(** [check_memory] (lines 138-198) *)
Definition check_memory : json :=
  let missing_vars := List.filter (fun v => negb (env_set env v)) ["OPENAI_API_KEY"; "SUPABASE_URL"; "SUPABASE_KEY"] in
  match missing_vars with
  | _ :: _ =>
      JObj [("status", JStr "error"); ("configured", JBool false);
            ("message", JStr ("Missing environment variables: " +:+ String.concat ", " missing_vars))]
  | [] =>
      match Mem0Client_init env None None None None SIMILARITY_THRESHOLD with
      | Ret mem0_client =>
          let cfg k := default JNull (obj_get k (JObj (embedding_config mem0_client))) in
          JObj [("status", JStr "ok"); ("configured", JBool true); ("embedding_model", cfg "model");
                ("embedding_dimensions", cfg "dimensions");
                ("pgvector_host", JStr (getenv_or env "PGVECTOR_HOST" "host.docker.internal"));
                ("pgvector_port", JStr (getenv_or env "PGVECTOR_PORT" "5433"));
                ("message", JStr "Memory system configured (stub implementation - requires Python 3.9+ for full functionality)")]
      | Exc e =>
          JObj [("status", JStr "error"); ("configured", JBool true);
                ("message", JStr ("Mem0 client initialization failed: " +:+ exn_text e))]
      end
  end.

Definition required_vars : list string :=
  ["ANTHROPIC_API_KEY"; "DATABASE_URL"; "OPENAI_API_KEY"; "SUPABASE_URL"; "SUPABASE_KEY"].
Definition optional_vars : list string := ["AI_SERVICE_PORT"; "CORS_ORIGINS"; "PGVECTOR_HOST"; "PGVECTOR_PORT"].

(** [check_environment] (lines 201-249) *)
Definition check_environment : json :=
  let configured := map (fun v => (v, JBool (env_set env v))) (required_vars ++ optional_vars) in
  let missing := List.filter (fun v => negb (env_set env v)) required_vars in
  match missing with
  | _ :: _ =>
      JObj [("status", JStr "error"); ("configured", JObj configured); ("missing", JArr (map JStr missing));
            ("message", JStr ("Missing required environment variables: " +:+ String.concat ", " missing))]
  | [] => JObj [("status", JStr "ok"); ("configured", JObj configured);
                ("message", JStr "All required environment variables set")]
  end.

(** [safe_result] (lines 276-283) on what [asyncio.gather] returned. *)
Definition safe_result (check_result : outcome json) (name : string) : json :=
  match check_result with
  | Exc e => JObj [("status", JStr "error"); ("configured", JBool false);
                   ("message", JStr (name +:+ " health check threw exception: " +:+ exn_text e))]
  | Ret r => r
  end.

Definition status_of (r : json) : json := default JNull (obj_get "status" r).

(** [health_check] (lines 252-325): the HTTP status and the overall
    status; the timestamp is not modelled. *)
Definition health_check (db_probe : outcome Z) (db_close : outcome unit) : Z * json :=
  let anthropic_status := safe_result (Ret check_anthropic_api) "Anthropic" in
  let db_status := safe_result (Ret (check_database db_probe db_close)) "Database" in
  let memory_status := safe_result (Ret check_memory) "Memory" in
  let env_status := safe_result (Ret check_environment) "Environment" in
  let all_statuses := map status_of [anthropic_status; db_status; memory_status; env_status] in
  let '(overall, http) :=
    if existsb (is_str "error") all_statuses then ("error", 503%Z)
    else if existsb (is_str "warning") all_statuses then ("warning", 200%Z)
    else ("healthy", 200%Z) in
  (http, JObj [("status", JStr overall); ("service", JStr "ai-service"); ("version", JStr "0.1.0");
               ("checks", JObj [("anthropic", anthropic_status); ("database", db_status);
                                ("memory", memory_status); ("environment", env_status)])]).

(** [readiness_check] (lines 328-365) *)
Definition is_ok (r : outcome json) : bool :=
  match r with Exc _ => false | Ret j => is_str "ok" (status_of j) end.

Definition readiness_check (db_probe : outcome Z) (db_close : outcome unit) : Z :=
  if is_ok (Ret check_anthropic_api) && is_ok (Ret (check_database db_probe db_close)) then 200%Z else 503%Z.

End health.

(** [liveness_check] (lines 368-383) *)
Definition liveness_check : Z * json :=
  (200%Z, JObj [("status", JStr "alive"); ("service", JStr "ai-service")]).

(** ** Theorems *)

Section health_props.
Context (env : string -> option string) (exn_text : exn -> string).

(** The four checks, in the order [health_check] lists them. *)
Definition checks (db_probe : outcome Z) (db_close : outcome unit) : list json :=
  [check_anthropic_api env exn_text; check_database env exn_text db_probe db_close; check_memory env exn_text;
   check_environment env].

Definition valid_status (j : json) : Prop := j = JStr "ok" \/ j = JStr "warning" \/ j = JStr "error".

Lemma checks_valid p c : Forall (fun chk => valid_status (status_of chk)) (checks p c).
Proof.
  rewrite Forall_forall. intros chk Hin%list_elem_of_In. unfold checks in Hin. simpl in Hin.
  unfold valid_status. repeat destruct Hin as [<-|Hin]; try contradiction;
    unfold check_anthropic_api, check_database, check_memory, check_environment; repeat case_match; vm_compute;
    first [left; reflexivity | right; left; reflexivity | right; right; reflexivity].
Qed.

Lemma is_str_eq s j : is_str s j = true <-> j = JStr s.
Proof.
  split; [|intros ->; apply String.eqb_refl].
  destruct j; simpl; try discriminate. by intros ->%String.eqb_eq.
Qed.

Lemma existsb_status s l : existsb (is_str s) (map status_of l) = true <-> exists chk, chk ∈ l /\ status_of chk = JStr s.
Proof.
  rewrite existsb_exists. split.
  - intros (j & (chk & <- & Hin)%in_map_iff & Hj%is_str_eq). exists chk. by rewrite list_elem_of_In.
  - intros (chk & Hin & Hs). exists (status_of chk). split; [apply in_map; by apply list_elem_of_In|].
    by apply is_str_eq.
Qed.

Lemma health_503_of_error p c :
  (exists chk, chk ∈ checks p c /\ status_of chk = JStr "error") -> (health_check env exn_text p c).1 = 503%Z.
Proof.
  intros He%existsb_status. unfold health_check. simpl safe_result. fold (checks p c). by rewrite He.
Qed.

Lemma filter_unset_nil (vars : list string) :
  Forall (fun v => env_set env v = true) vars -> List.filter (fun v => negb (env_set env v)) vars = [].
Proof. induction 1 as [|v vs Hv _ IH]; simpl; [done|]. by rewrite Hv. Qed.

(** C26: [/api/health] answers 503 exactly when some check
    reports [error], and reports [healthy] exactly when every check
    reports [ok]. *)
Theorem health_check_overall p c :
  ((health_check env exn_text p c).1 = 503%Z <-> exists chk, chk ∈ checks p c /\ status_of chk = JStr "error") /\
  (obj_get "status" (health_check env exn_text p c).2 = Some (JStr "healthy") <->
     Forall (fun chk => status_of chk = JStr "ok") (checks p c)).
Proof.
  pose proof (checks_valid p c) as Hv. unfold health_check. simpl safe_result.
  rewrite <- !existsb_status. fold (checks p c).
  destruct (existsb (is_str "error") (map status_of (checks p c))) eqn:He;
    [split; [done|]; split; [discriminate|]|].
  - intros Hok. apply existsb_status in He as (chk & Hin & Hs). rewrite Forall_forall in Hok.
    by rewrite (Hok chk Hin) in Hs.
  - destruct (existsb (is_str "warning") (map status_of (checks p c))) eqn:Hw; simpl.
    + split; [split; discriminate|]. split; [discriminate|]. intros Hok.
      apply existsb_status in Hw as (chk & Hin & Hs). rewrite Forall_forall in Hok.
      by rewrite (Hok chk Hin) in Hs.
    + split; [split; discriminate|]. split; [intros _|done].
      rewrite Forall_forall in Hv |- *. intros chk Hin.
      destruct (Hv chk Hin) as [Hs|[Hs|Hs]]; [done| |].
      * assert (existsb (is_str "warning") (map status_of (checks p c)) = true) by (apply existsb_status; eauto).
        congruence.
      * assert (existsb (is_str "error") (map status_of (checks p c)) = true) by (apply existsb_status; eauto).
        congruence.
Qed.

(** C27: with every required variable set, a [PGVECTOR_PORT] that
    Python's [int] rejects makes the memory check fail and [/api/health]
    answer 503, although the environment check, which lists
    [PGVECTOR_PORT] as optional, reports [ok]. *)
Theorem health_bad_port p c :
  Forall (fun v => env_set env v = true) required_vars ->
  parse_py_int (getenv_or env "PGVECTOR_PORT" "5433") = None ->
  status_of (check_environment env) = JStr "ok" /\ status_of (check_memory env exn_text) = JStr "error" /\
  (health_check env exn_text p c).1 = 503%Z.
Proof.
  intros Hreq Hport.
  assert (Hmem : Forall (fun v => env_set env v = true) ["OPENAI_API_KEY"; "SUPABASE_URL"; "SUPABASE_KEY"]).
  { unfold required_vars in Hreq. repeat (apply Forall_cons in Hreq as [? Hreq]). by repeat constructor. }
  assert (Hm : status_of (check_memory env exn_text) = JStr "error").
  { unfold check_memory. by rewrite (filter_unset_nil _ Hmem), Mem0Client_init_bad_port. }
  split_and!; [unfold check_environment; by rewrite (filter_unset_nil _ Hreq) | done |].
  apply health_503_of_error. exists (check_memory env exn_text). split; [|done].
  unfold checks. by apply list_elem_of_In; simpl; auto.
Qed.

(** [/api/health/ready] answers 200 exactly when both critical checks
    report [ok]: a [warning] of either is not ready. *)
Lemma readiness_ok_iff p c :
  readiness_check env exn_text p c = 200%Z <->
  status_of (check_anthropic_api env exn_text) = JStr "ok" /\
  status_of (check_database env exn_text p c) = JStr "ok".
Proof.
  unfold readiness_check, is_ok. rewrite <- !is_str_eq.
  destruct (is_str "ok" (status_of (check_anthropic_api env exn_text))),
           (is_str "ok" (status_of (check_database env exn_text p c))); simpl; intuition congruence.
Qed.

End health_props.

(** ** Witnesses *)

Definition demo_env (key port : string) (var : string) : option string :=
  if String.eqb var "ANTHROPIC_API_KEY" then Some key
  else if String.eqb var "PGVECTOR_PORT" then Some port
  else if existsb (String.eqb var) required_vars then Some "set" else None.

Definition demo_text (_ : exn) : string := "error".

Lemma health_bad_port_witness :
  status_of (check_environment (demo_env "sk-ant-demo" "54 33")) = JStr "ok" /\
  status_of (check_memory (demo_env "sk-ant-demo" "54 33") demo_text) = JStr "error" /\
  (health_check (demo_env "sk-ant-demo" "54 33") demo_text (Ret 3%Z) (Ret tt)).1 = 503%Z.
Proof. apply health_bad_port; vm_compute; [repeat constructor | reflexivity]. Defined.

(** A key without the [sk-ant-] prefix leaves the service healthy enough
    for [/api/health] (a warning, 200) but never ready (503); a port
    with underscores is a valid Python integer. *)
Example health_vs_readiness :
  (health_check (demo_env "test-key" "5_433") demo_text (Ret 3%Z) (Ret tt)).1 = 200%Z /\
  obj_get "status" (health_check (demo_env "test-key" "5_433") demo_text (Ret 3%Z) (Ret tt)).2 = Some (JStr "warning") /\
  readiness_check (demo_env "test-key" "5_433") demo_text (Ret 3%Z) (Ret tt) = 503%Z.
Proof. vm_compute. auto. Qed.

End Health.
