(* ===== verification/Main.v ===== *)
(** * The application entry point

    [main.py]: the CORS origin list read from [CORS_ORIGINS] when the module
    is imported (line 29), the root and configuration endpoints (lines
    46-69), and the route table the application ends up with: the order in
    which [include_router] adds the routers (lines 40-43) and the routes
    each router declares with its decorators.  A request is dispatched the
    way Starlette's router does it: the first route whose path template and
    method both match handles it; a path some route matches with another
    method is a 405, any other path a 404.

    [messages_route_shadowed] shows that the route
    [GET /api/agfin-ai-bot/sessions/{session_id}/messages] of sessions.py
    can never be reached: chat.py declares the same path first. *)
From S2P Require Import Prelude Json Health.

Module Main.
Import Health.

(** ** Python's [str.split(sep)] with a one-character separator *)

(** Empty pieces are kept, and [""] splits into [[""]]. *)
Fixpoint py_split_sep (sep : Ascii.ascii) (s : string) : list string :=
  match s with
  | EmptyString => [""]
  | String c s' =>
      let rest := py_split_sep sep s' in
      if Ascii.eqb c sep then "" :: rest
      else match rest with r :: rs => String c r :: rs | [] => [String c ""] end
  end.

Definition comma : Ascii.ascii := Ascii.ascii_of_nat 44.
Definition slash : Ascii.ascii := Ascii.ascii_of_nat 47.

(** ** Configuration (lines 27-37) *)

Section config.
Context (env : string -> option string).

(** [ALLOWED_ORIGINS] (line 29) *)
Definition ALLOWED_ORIGINS : list string :=
  py_split_sep comma (getenv_or env "CORS_ORIGINS" "http://localhost:5173,http://localhost:3000").

(** [GET /api/config] (lines 62-69) *)
Definition get_config : json :=
  JObj [("anthropic_configured", JBool (env_set env "ANTHROPIC_API_KEY"));
        ("openai_configured", JBool (env_set env "OPENAI_API_KEY"));
        ("cors_origins", JArr (map JStr ALLOWED_ORIGINS))].

End config.

(** [GET /] (lines 46-59) *)
Definition root : json :=
  JObj [("service", JStr "AgFinOps AI Service"); ("version", JStr "0.1.0"); ("status", JStr "running");
        ("endpoints", JObj [("docs", JStr "/docs"); ("health", JStr "/api/health");
                            ("health_ready", JStr "/api/health/ready");
                            ("health_live", JStr "/api/health/live")])].

(** ** The route table *)

Record route := mkRoute { route_method : string; route_path : string; route_name : string }.

(** A router's routes under its [prefix]. *)
Definition under (prefix : string) (rs : list route) : list route :=
  map (fun r => mkRoute (route_method r) (prefix +:+ route_path r) (route_name r)) rs.

(** health.py: [APIRouter(prefix="/api")] and its three decorators. *)
Definition health_routes : list route :=
  under "/api" [mkRoute "GET" "/health" "health.health_check";
                mkRoute "GET" "/health/ready" "health.readiness_check";
                mkRoute "GET" "/health/live" "health.liveness_check"].

(** chat.py (lines 23-26, 77, 232) *)
Definition chat_routes : list route :=
  under "/api/agfin-ai-bot" [mkRoute "POST" "/chat" "chat.chat";
                             mkRoute "GET" "/sessions/{session_id}/messages" "chat.get_session_messages"].

(** stream.py (lines 26-29, 177) *)
Definition stream_routes : list route :=
  under "/api/agfin-ai-bot" [mkRoute "POST" "/stream" "stream.stream_chat"].

(** sessions.py (lines 23-26, 83-452) *)
Definition sessions_routes : list route :=
  under "/api/agfin-ai-bot"
    [mkRoute "GET" "/sessions" "sessions.list_sessions";
     mkRoute "POST" "/sessions" "sessions.create_session";
     mkRoute "GET" "/sessions/{session_id}" "sessions.get_session";
     mkRoute "GET" "/sessions/{session_id}/messages" "sessions.get_session_messages";
     mkRoute "PATCH" "/sessions/{session_id}" "sessions.update_session";
     mkRoute "POST" "/sessions/{session_id}/generate-title" "sessions.generate_and_apply_title";
     mkRoute "DELETE" "/sessions/{session_id}" "sessions.delete_session"].

(** [FastAPI(...)] (lines 19-25) adds the OpenAPI and documentation pages
    first; then [include_router] appends the routers in the order of lines
    40-43, and the two [@app.get] routes come last. *)
Definition app_routes : list route :=
  [mkRoute "GET" "/openapi.json" "openapi"; mkRoute "GET" "/docs" "swagger_ui_html";
   mkRoute "GET" "/docs/oauth2-redirect" "swagger_ui_redirect"; mkRoute "GET" "/redoc" "redoc_html"] ++
  health_routes ++ chat_routes ++ stream_routes ++ sessions_routes ++
  [mkRoute "GET" "/" "root"; mkRoute "GET" "/api/config" "get_config"].

(** ** Dispatch *)

(** A template segment [{name}] matches any non-empty segment (the
    default [str] convertor, [[^/]+]); any other segment only itself. *)
Definition is_param (t : string) : bool :=
  String.prefix "{" t.

Definition seg_match (t p : string) : bool :=
  if is_param t then negb (String.eqb p "") else String.eqb t p.

Fixpoint segs_match (ts ps : list string) : bool :=
  match ts, ps with
  | [], [] => true
  | t :: ts', p :: ps' => seg_match t p && segs_match ts' ps'
  | _, _ => false
  end.

Definition path_match (r : route) (path : string) : bool :=
  segs_match (py_split_sep slash (route_path r)) (py_split_sep slash path).

Inductive dispatch_result := Handler (name : string) | MethodNotAllowed | NotFound.

#[export] Instance dispatch_result_eq_dec : EqDecision dispatch_result.
Proof. solve_decision. Defined.

Definition dispatch (rs : list route) (method path : string) : dispatch_result :=
  match find (fun r => path_match r path && String.eqb (route_method r) method) rs with
  | Some r => Handler (route_name r)
  | None => if existsb (fun r => path_match r path) rs then MethodNotAllowed else NotFound
  end.

#[export] Instance route_eq_dec : EqDecision route.
Proof. solve_decision. Defined.

(** The handler chat.py declares for the messages path. *)
Definition chat_messages_route : route :=
  mkRoute "GET" "/api/agfin-ai-bot/sessions/{session_id}/messages" "chat.get_session_messages".

(** ** Lemmas *)

Lemma py_split_sep_nonempty sep s : py_split_sep sep s <> [].
Proof. destruct s as [|c s]; simpl; [done|]. destruct (Ascii.eqb c sep); [done|]. by case_match. Qed.

Lemma concat_cons_string sep c r rs :
  String.concat sep (String c r :: rs) = String c (String.concat sep (r :: rs)).
Proof. destruct rs; [done|]. apply string_append_cons. Qed.

Lemma py_split_sep_join sep s : String.concat (String sep EmptyString) (py_split_sep sep s) = s.
Proof.
  induction s as [|c s IH]; [done|]. simpl.
  destruct (Ascii.eqb_spec c sep) as [->|_].
  - destruct (py_split_sep sep s) eqn:E; [by apply py_split_sep_nonempty in E|]. rewrite <- IH. reflexivity.
  - destruct (py_split_sep sep s) as [|r rs] eqn:E; [by apply py_split_sep_nonempty in E|]. by rewrite concat_cons_string, IH.
Qed.

Lemma py_split_sep_pieces sep s :
  Forall (fun piece => forall n, String.get n piece <> Some sep) (py_split_sep sep s).
Proof.
  induction s as [|c s IH]; simpl; [by repeat constructor; intros []|].
  destruct (Ascii.eqb_spec c sep) as [_|Hc]; [constructor; [by intros []|done]|].
  destruct (py_split_sep sep s) as [|r rs]; [by repeat constructor; intros [|[]]; simpl; congruence|].
  apply Forall_cons in IH as [Hr Hrs]. constructor; [|done].
  intros [|n]; simpl; [congruence|apply Hr].
Qed.

(** The first hit of [find] lies at or before an element the test accepts. *)
Lemma find_app_cons_first {A} (f : A -> bool) l1 x l y :
  f x = true -> find f (l1 ++ x :: l)%list = Some y -> y ∈ (l1 ++ [x])%list.
Proof.
  intros Hx. induction l1 as [|z l1 IH]; simpl.
  - rewrite Hx. intros [= <-]. by left.
  - destruct (f z); [intros [= <-]; by left|]. intros H. right. by apply IH.
Qed.

Lemma path_match_path r r' path : route_path r = route_path r' -> path_match r path = path_match r' path.
Proof. unfold path_match. by intros ->. Qed.

(** Every route named like sessions.py's messages handler has chat.py's
    method and path, and none up to chat.py's route has that name. *)
Lemma sessions_messages_same_route r :
  r ∈ app_routes -> route_name r = "sessions.get_session_messages" ->
  route_method r = route_method chat_messages_route /\ route_path r = route_path chat_messages_route.
Proof.
  assert (H : forallb (fun r => negb (String.eqb (route_name r) "sessions.get_session_messages") ||
                          (String.eqb (route_method r) "GET" &&
                           String.eqb (route_path r) (route_path chat_messages_route))) app_routes = true)
    by reflexivity.
  rewrite forallb_forall in H. intros Hin Hn. apply list_elem_of_In, H in Hin.
  rewrite Hn in Hin. simpl in Hin. apply andb_prop in Hin as [Hm Hp].
  by apply String.eqb_eq in Hm, Hp.
Qed.

Lemma chat_messages_first r :
  r ∈ (take 8 app_routes ++ [chat_messages_route])%list -> route_name r <> "sessions.get_session_messages".
Proof.
  assert (H : forallb (fun r => negb (String.eqb (route_name r) "sessions.get_session_messages"))
                (take 8 app_routes ++ [chat_messages_route])%list = true) by reflexivity.
  rewrite forallb_forall in H. intros Hin Hn. apply list_elem_of_In, H in Hin.
  by rewrite Hn in Hin.
Qed.

(** ** Theorems *)

(** the CORS origins are [CORS_ORIGINS] cut at its commas, nothing
    else: joined with commas they give the variable back, and no origin
    contains a comma, so spaces around the commas stay in the origins. *)
Theorem allowed_origins_split env :
  String.concat "," (ALLOWED_ORIGINS env) = getenv_or env "CORS_ORIGINS" "http://localhost:5173,http://localhost:3000" /\
  Forall (fun origin => forall n, String.get n origin <> Some comma) (ALLOWED_ORIGINS env).
Proof. split; [apply py_split_sep_join | apply py_split_sep_pieces]. Qed.

(** C17: no request is ever dispatched to sessions.py's
    [get_session_messages]: chat.py's route for the same method and path
    template is included first and takes every request that route would. *)
Theorem messages_route_shadowed method path :
  dispatch app_routes method path <> Handler "sessions.get_session_messages".
Proof.
  unfold dispatch. destruct (find _ app_routes) as [r|] eqn:E; [|by case_match].
  intros [= Hn]. destruct (find_some _ _ E) as [Hin%list_elem_of_In Hf].
  destruct (sessions_messages_same_route r Hin Hn) as [Hm Hp].
  rewrite <- (take_drop_middle app_routes 8 chat_messages_route) in E by reflexivity.
  apply find_app_cons_first in E; [by apply chat_messages_first in E|].
  by rewrite <- (path_match_path r), <- Hm.
Qed.

(** ** Examples *)

Definition demo_env (k : string) : option string :=
  if String.eqb k "CORS_ORIGINS" then Some "https://app.agfin.example, https://admin.agfin.example" else None.

Example spaced_origin :
  ALLOWED_ORIGINS demo_env = ["https://app.agfin.example"; " https://admin.agfin.example"] /\
  ALLOWED_ORIGINS (fun _ => None) = ["http://localhost:5173"; "http://localhost:3000"].
Proof. split; reflexivity. Qed.

Example dispatch_cases :
  dispatch app_routes "GET" "/api/agfin-ai-bot/sessions/s1/messages" = Handler "chat.get_session_messages" /\
  dispatch app_routes "GET" "/api/agfin-ai-bot/sessions/s1" = Handler "sessions.get_session" /\
  dispatch app_routes "PUT" "/api/agfin-ai-bot/sessions/s1" = MethodNotAllowed /\
  dispatch app_routes "GET" "/api/agfin-ai-bot/sessions//messages" = NotFound.
Proof. repeat split; vm_compute; reflexivity. Qed.

End Main.
